(** * P9221 wireless charger driver: a model of [p9221_charger.c]

    The driver functions are embedded as programs of a small state-and-trace
    monad: the state is the part of [struct p9221_charger_data] the functions
    touch, the trace is the list of calls made to the collaborators of the
    driver (register transport, chip operations, votables, GPIO lines, work
    queues, the kernel log).  What a collaborator answers is an argument of
    the model, so every theorem holds for every behaviour of the hardware. *)

From Stdlib Require Import ZArith List Bool Lia String Ascii.
From Stdlib Require Import DecimalString.
From Stdlib Require Strings.Byte.
Import ListNotations.
Local Open Scope string_scope.
Local Open Scope list_scope.
Local Open Scope Z_scope.

(** ** Machine integers *)

Definition u8 (z : Z) : Z := z mod 2 ^ 8.
Definition u16 (z : Z) : Z := z mod 2 ^ 16.
Definition u32 (z : Z) : Z := z mod 2 ^ 32.

(** Conversion to [int] (two's complement, the kernel builds with wrapping
    signed arithmetic). *)
Definition s32 (z : Z) : Z := (z + 2 ^ 31) mod 2 ^ 32 - 2 ^ 31.

(** C truth value of an [int]. *)
Definition nonzero (z : Z) : bool := negb (z =? 0).

(** Integer division as C has it: undefined for a zero divisor. *)
Definition c_div (a b : Z) : option Z :=
  if b =? 0 then None else Some (Z.quot a b).

(** Errno values of the kernel. *)
Definition EIO : Z := 5.
Definition EAGAIN : Z := 11.
Definition ENODEV : Z := 19.
Definition EINVAL : Z := 22.
Definition ETIMEDOUT : Z := 110.

(** ** Constants of [p9221_charger.c] *)

Definition P9221R5_OVER_CHECK_NUM : nat := 3.

Definition OVC_LIMIT : Z := 1.
Definition OVC_THRESHOLD : Z := 1400000.
Definition OVC_BACKOFF_LIMIT : Z := 900000.
Definition OVC_BACKOFF_AMOUNT : Z := 100000.

Definition WLC_ALIGNMENT_MAX : Z := 100.
Definition WLC_MFG_GOOGLE : Z := 0x72.
Definition WLC_CURRENT_FILTER_LENGTH : Z := 10.
Definition WLC_ALIGN_DEFAULT_SCALAR : Z := 4.
Definition WLC_ALIGN_IRQ_THRESHOLD : Z := 10.
Definition WLC_ALIGN_DEFAULT_HYSTERESIS : Z := 5000.

Definition RTX_BEN_DISABLED : Z := 0.
Definition RTX_BEN_ON : Z := 1.
Definition RTX_BEN_ENABLED : Z := 2.

Inductive wlc_align_codes :=
| WLC_ALIGN_CHECKING
| WLC_ALIGN_MOVE
| WLC_ALIGN_CENTERED
| WLC_ALIGN_ERROR.

Definition align_status_str (a : wlc_align_codes) : string :=
  match a with
  | WLC_ALIGN_CHECKING => "..."
  | WLC_ALIGN_MOVE => "M2C"
  | WLC_ALIGN_CENTERED => "OK"
  | WLC_ALIGN_ERROR => "-1"
  end.

(** ** Constants of [p9221_charger.h]

    The header is not part of the sources at hand.  The bit masks, reason
    codes and unit macros the driver takes from it are parameters of the
    model; registers, commands, voters and work items, of which only the
    identity matters, are enumerations below. *)

Class p9221_charger_h := {
  P9221R5_STAT_OVV : Z;
  P9221R5_STAT_OVT : Z;
  P9221R5_STAT_OVC : Z;
  P9221R5_STAT_UV : Z;
  P9221R5_STAT_LIMIT_MASK : Z;
  P9221R5_STAT_CC_MASK : Z;
  P9221R5_STAT_VOUTCHANGED : Z;
  P9221R5_STAT_MODECHANGED : Z;
  P9221_STAT_VRECT : Z;
  P9221_STAT_VOUT : Z;
  P9382_STAT_RTX_MASK : Z;
  P9221_EOP_OVER_TEMP : Z;
  P9221_EOP_OVER_VOLT : Z;
  P9221_EOP_OVER_CURRENT : Z;
  P9221R5_NUM_FOD : Z;
  P9382A_CHIP_ID : Z;
  P9412_SYS_OP_MODE_WPC_EXTD : Z;
  P9412_SYS_OP_MODE_PROPRIETARY : Z;
  P9221_EPP_THRESHOLD_UV : Z;
  P9221_WC_DC_RESET_VOUTCHANGED : Z;
  P9221_WC_DC_RESET_MODECHANGED : Z;
  P9382A_RTX_ICL_MAX_MA : Z;
  P9221_MA_TO_UA : Z -> Z;
  P9221_KHZ_TO_HZ : Z -> Z;
  P9221_MV_TO_UV : Z -> Z;
  P9221_ALIGN_DELAY_MS : Z;
  P9221_DCIN_TIMEOUT_MS : Z;
  P9221_NOTIFIER_DELAY_MS : Z;
  P9221_CHECK_NP_DELAY_MS : Z;
  P9221_DCIN_PON_DELAY_MS : Z;
  TXID_SEND_DELAY_MS : Z;
  P9221R5_STAT_CCDATARCVD : Z;
  P9221R5_STAT_CCSENDBUSY : Z;
  P9221R5_STAT_PPRCVD : Z;
  P9221R5_STAT_CCRESET : Z;
  P9382_STAT_TXCONFLICT : Z;
  P9382_STAT_RXCONNECTED : Z;
  P9382_STAT_CSP : Z;
  ACCESSORY_TYPE_MASK : Z;
  ACCESSORY_TYPE_PHONE : Z;
  P9412_SYS_OP_MODE_WPC_BASIC : Z;
  P9221_DC_ICL_BPP_UA : Z;
  P9221_DC_ICL_EPP_UA : Z;
  P9382A_DC_ICL_EPP_1000 : Z;
  P9221_NEG_POWER_10W : Z;
  P9382A_NEG_POWER_10W : Z;
  P9382A_NEG_POWER_11W : Z;
  P9221_PTMC_EPP_TX_1912 : Z;
  P9221R5_ILIM_MAX_UA : Z;
  P9221_UA_TO_MA : Z -> Z;
  CONFIG_DC_RESET : bool                (* the build option *)
}.

Inductive reg :=
| P9221_STATUS_REG
| P9221_INT_REG
| P9221_INT_ENABLE_REG
| P9221R5_INT_CLEAR_REG
| P9221R5_EPT_REG
| P9221R5_FOD_REG
| P9221_CUSTOMER_ID_REG
| P9221R5_EPP_Q_FACTOR_REG
| P9221R5_EPP_CUR_NEGOTIATED_POWER_REG
| P9382A_CHARGE_STAT_REG.

Inductive com :=
| P9221_COM_CLEAR_INT_MASK
| P9221R5_COM_SENDEPT.

Inductive votable :=
| DC_ICL
| TX_ICL
| DISABLE_DCIN_EN.

Inductive voter :=
| P9221_WLC_VOTER
| P9221_OCP_VOTER
| DCIN_AICL_VOTER
| THERMAL_DAEMON_VOTER.

Inductive work :=
| uevent_work
| align_work
| dcin_work
| dcin_pon_work
| notifier_work
| tx_work
| txid_work
| icl_ramp_work.

Inductive timer :=
| vrect_timer
| align_timer.

Inductive rtx_err_t :=
| RTX_NO_ERROR
| RTX_TX_CONFLICT
| RTX_OVER_TEMP.

Inductive align_mfg_chk_state :=
| ALIGN_MFG_FAILED
| ALIGN_MFG_CHECKING
| ALIGN_MFG_PASSED.

(** ** Calls to the collaborators *)

Inductive level := KERN_ERR | KERN_WARNING | KERN_INFO | LOGBUFFER | LOGBUFFER_RTX.

(** An argument of a log line. *)
Inductive arg :=
| AInt (z : Z)
| AStr (s : string)
| AHex (bs : list Z)
| AReg (r : reg).

(** One call, with what was passed and what came back. *)
Inductive event :=
| EvRegWrite8 (r : reg) (val : Z) (ret : Z)
| EvRegWrite16 (r : reg) (val : Z) (ret : Z)
| EvRegWriteN (r : reg) (data : list Byte.byte) (ret : Z)
| EvRegRead8 (r : reg) (ret : Z) (val : Z)
| EvRegRead16 (r : reg) (ret : Z) (val : Z)
| EvRegReadN (r : reg) (n : Z) (ret : Z) (data : list Byte.byte)
| EvSetCmd (c : com) (ret : Z)
| EvGetIout (ret : Z) (ma : Z)
| EvGetOpFreq (ret : Z) (khz : Z)
| EvGetVout (ret : Z) (mv : Z)
| EvGetVrect (ret : Z) (mv : Z)
| EvGetSysMode (ret : Z) (mode : Z)
| EvGetTxMfgCode (ret : Z) (mfg : Z)
| EvTxModeEn (en : bool) (ret : Z)
| EvSetTxIlim (ua : Z) (ret : Z)
| EvRenegotiatePwr (ret : Z)
| EvFindVotable (v : votable) (found : bool)
| EvVote (v : votable) (present : bool) (who : voter) (enabled : bool) (val : Z) (ret : Z)
| EvGetEffectiveResult (v : votable) (res : Z)
| EvGpioSet (gpio : Z) (val : bool)
| EvMsleep (ms : Z)
| EvScheduleWork (w : work)
| EvScheduleDelayedWork (w : work) (ms : Z)
| EvScheduleDelayedWorkQueued (w : work) (ms : Z) (queued : bool)
| EvCancelDelayedWork (w : work)
| EvCancelDelayedWorkSync (w : work)
| EvDelTimer (t : timer)
| EvPowerSupplyChanged
| EvPmStayAwake
| EvPmRelax
| EvSetRxIlim (ma : Z) (ret : Z)
| EvSetVoutMax (mv : Z) (ret : Z)
| EvGetVoutMax (ret : Z) (mv : Z)
| EvGetCcRecvSize (ret : Z) (len : Z)
| EvGetDataBuf (len : Z) (ret : Z) (data : list Byte.byte)
| EvGetClientVote (v : votable) (who : voter) (res : Z)
| EvPsyGetPresent (ret : Z) (intval : Z)
| EvPsyGetDcReset (ret : Z) (intval : Z)
| EvPsySetDcReset (intval : Z) (ret : Z)
| EvPsyGetByName (found : bool)
| EvModDelayedWork (w : work) (ms : Z)
| EvAlarmTryToCancel (ret : Z)
| EvAlarmStartRelative (ms : Z)
| EvSysfsNotify (attr : string)
| EvReadUninit (var : string)
| EvLog (l : level) (fmt : string) (args : list arg).

Definition trace := list event.

(** ** Device state *)

Set Primitive Projections.

(** [struct p9221_charger_platform_data]: what the device tree configures. *)
Record p9221_charger_platform_data := {
  fod : list Byte.byte;
  fod_epp : list Byte.byte;
  fod_num : Z;
  fod_epp_num : Z;
  q_value : Z;
  epp_rp_value : Z;
  needs_dcin_reset : Z;
  nb_alignment_freq : Z;
  alignment_freq : option (list Z);     (* [None] is the NULL pointer *)
  alignment_scalar : Z;
  alignment_hysteresis : Z;
  ben_gpio : Z;
  switch_gpio : Z;
  boost_gpio : Z;
  icl_ramp_delay_ms : Z
}.

(** [struct p9221_charger_data], the fields the modelled functions use.
    A pointer to a votable or to a power supply is modelled by whether it
    is non-NULL. *)
Record p9221_charger_data := {
  pdata : p9221_charger_platform_data;
  chip_id : Z;
  log : bool;
  resume_complete : bool;
  dc_psy : bool;
  dc_icl_votable : bool;
  tx_icl_votable : bool;
  disable_dcin_en_votable : bool;
  online : bool;
  enabled : bool;
  ben_state : Z;
  rtx_err : rtx_err_t;
  rtx_csp : Z;
  check_det : bool;
  check_dc : bool;
  check_np : bool;
  force_bpp : bool;
  fake_force_epp : Z;
  mfg : Z;
  is_mfg_google : bool;
  chg_on_rtx : bool;
  dc_icl_bpp : Z;
  dc_icl_epp : Z;
  dc_icl_epp_neg : Z;
  icl_ramp : bool;
  icl_ramp_ua : Z;
  tx_busy : bool;
  tx_done : bool;
  rx_done : bool;
  rx_len : Z;
  rx_buf : list Byte.byte;
  pp_buf : list Byte.byte;
  pp_buf_valid : bool;
  last_capacity : Z;
  cust_id : Z;
  align : wlc_align_codes;
  align_count : Z;
  alignment : Z;
  alignment_last : Z;
  alignment_capable : align_mfg_chk_state;
  current_filtered : Z;
  current_sample_cnt : Z;
  mfg_check_count : Z
}.

(** Field updates, written [charger->field = v] in the source. *)

Definition set_dc_psy v (c : p9221_charger_data) : p9221_charger_data :=
  {| pdata := pdata c; chip_id := chip_id c; log := log c;
     resume_complete := resume_complete c; dc_psy := v;
     dc_icl_votable := dc_icl_votable c; tx_icl_votable := tx_icl_votable c;
     disable_dcin_en_votable := disable_dcin_en_votable c;
     online := online c; enabled := enabled c; ben_state := ben_state c;
     rtx_err := rtx_err c; rtx_csp := rtx_csp c; check_det := check_det c;
     check_dc := check_dc c; check_np := check_np c;
     force_bpp := force_bpp c; fake_force_epp := fake_force_epp c;
     mfg := mfg c; is_mfg_google := is_mfg_google c;
     chg_on_rtx := chg_on_rtx c; dc_icl_bpp := dc_icl_bpp c;
     dc_icl_epp := dc_icl_epp c; dc_icl_epp_neg := dc_icl_epp_neg c;
     icl_ramp := icl_ramp c; icl_ramp_ua := icl_ramp_ua c;
     tx_busy := tx_busy c; tx_done := tx_done c; rx_done := rx_done c;
     rx_len := rx_len c; rx_buf := rx_buf c; pp_buf := pp_buf c;
     pp_buf_valid := pp_buf_valid c; last_capacity := last_capacity c;
     cust_id := cust_id c; align := align c; align_count := align_count c;
     alignment := alignment c; alignment_last := alignment_last c;
     alignment_capable := alignment_capable c;
     current_filtered := current_filtered c;
     current_sample_cnt := current_sample_cnt c;
     mfg_check_count := mfg_check_count c |}.

Definition set_dc_icl_votable v (c : p9221_charger_data) : p9221_charger_data :=
  {| pdata := pdata c; chip_id := chip_id c; log := log c;
     resume_complete := resume_complete c; dc_psy := dc_psy c;
     dc_icl_votable := v; tx_icl_votable := tx_icl_votable c;
     disable_dcin_en_votable := disable_dcin_en_votable c;
     online := online c; enabled := enabled c; ben_state := ben_state c;
     rtx_err := rtx_err c; rtx_csp := rtx_csp c; check_det := check_det c;
     check_dc := check_dc c; check_np := check_np c;
     force_bpp := force_bpp c; fake_force_epp := fake_force_epp c;
     mfg := mfg c; is_mfg_google := is_mfg_google c;
     chg_on_rtx := chg_on_rtx c; dc_icl_bpp := dc_icl_bpp c;
     dc_icl_epp := dc_icl_epp c; dc_icl_epp_neg := dc_icl_epp_neg c;
     icl_ramp := icl_ramp c; icl_ramp_ua := icl_ramp_ua c;
     tx_busy := tx_busy c; tx_done := tx_done c; rx_done := rx_done c;
     rx_len := rx_len c; rx_buf := rx_buf c; pp_buf := pp_buf c;
     pp_buf_valid := pp_buf_valid c; last_capacity := last_capacity c;
     cust_id := cust_id c; align := align c; align_count := align_count c;
     alignment := alignment c; alignment_last := alignment_last c;
     alignment_capable := alignment_capable c;
     current_filtered := current_filtered c;
     current_sample_cnt := current_sample_cnt c;
     mfg_check_count := mfg_check_count c |}.

Definition set_disable_dcin_en_votable v (c : p9221_charger_data) : p9221_charger_data :=
  {| pdata := pdata c; chip_id := chip_id c; log := log c;
     resume_complete := resume_complete c; dc_psy := dc_psy c;
     dc_icl_votable := dc_icl_votable c; tx_icl_votable := tx_icl_votable c;
     disable_dcin_en_votable := v; online := online c; enabled := enabled c;
     ben_state := ben_state c; rtx_err := rtx_err c; rtx_csp := rtx_csp c;
     check_det := check_det c; check_dc := check_dc c;
     check_np := check_np c; force_bpp := force_bpp c;
     fake_force_epp := fake_force_epp c; mfg := mfg c;
     is_mfg_google := is_mfg_google c; chg_on_rtx := chg_on_rtx c;
     dc_icl_bpp := dc_icl_bpp c; dc_icl_epp := dc_icl_epp c;
     dc_icl_epp_neg := dc_icl_epp_neg c; icl_ramp := icl_ramp c;
     icl_ramp_ua := icl_ramp_ua c; tx_busy := tx_busy c;
     tx_done := tx_done c; rx_done := rx_done c; rx_len := rx_len c;
     rx_buf := rx_buf c; pp_buf := pp_buf c; pp_buf_valid := pp_buf_valid c;
     last_capacity := last_capacity c; cust_id := cust_id c;
     align := align c; align_count := align_count c;
     alignment := alignment c; alignment_last := alignment_last c;
     alignment_capable := alignment_capable c;
     current_filtered := current_filtered c;
     current_sample_cnt := current_sample_cnt c;
     mfg_check_count := mfg_check_count c |}.

Definition set_online v (c : p9221_charger_data) : p9221_charger_data :=
  {| pdata := pdata c; chip_id := chip_id c; log := log c;
     resume_complete := resume_complete c; dc_psy := dc_psy c;
     dc_icl_votable := dc_icl_votable c; tx_icl_votable := tx_icl_votable c;
     disable_dcin_en_votable := disable_dcin_en_votable c; online := v;
     enabled := enabled c; ben_state := ben_state c; rtx_err := rtx_err c;
     rtx_csp := rtx_csp c; check_det := check_det c; check_dc := check_dc c;
     check_np := check_np c; force_bpp := force_bpp c;
     fake_force_epp := fake_force_epp c; mfg := mfg c;
     is_mfg_google := is_mfg_google c; chg_on_rtx := chg_on_rtx c;
     dc_icl_bpp := dc_icl_bpp c; dc_icl_epp := dc_icl_epp c;
     dc_icl_epp_neg := dc_icl_epp_neg c; icl_ramp := icl_ramp c;
     icl_ramp_ua := icl_ramp_ua c; tx_busy := tx_busy c;
     tx_done := tx_done c; rx_done := rx_done c; rx_len := rx_len c;
     rx_buf := rx_buf c; pp_buf := pp_buf c; pp_buf_valid := pp_buf_valid c;
     last_capacity := last_capacity c; cust_id := cust_id c;
     align := align c; align_count := align_count c;
     alignment := alignment c; alignment_last := alignment_last c;
     alignment_capable := alignment_capable c;
     current_filtered := current_filtered c;
     current_sample_cnt := current_sample_cnt c;
     mfg_check_count := mfg_check_count c |}.

Definition set_ben_state v (c : p9221_charger_data) : p9221_charger_data :=
  {| pdata := pdata c; chip_id := chip_id c; log := log c;
     resume_complete := resume_complete c; dc_psy := dc_psy c;
     dc_icl_votable := dc_icl_votable c; tx_icl_votable := tx_icl_votable c;
     disable_dcin_en_votable := disable_dcin_en_votable c;
     online := online c; enabled := enabled c; ben_state := v;
     rtx_err := rtx_err c; rtx_csp := rtx_csp c; check_det := check_det c;
     check_dc := check_dc c; check_np := check_np c;
     force_bpp := force_bpp c; fake_force_epp := fake_force_epp c;
     mfg := mfg c; is_mfg_google := is_mfg_google c;
     chg_on_rtx := chg_on_rtx c; dc_icl_bpp := dc_icl_bpp c;
     dc_icl_epp := dc_icl_epp c; dc_icl_epp_neg := dc_icl_epp_neg c;
     icl_ramp := icl_ramp c; icl_ramp_ua := icl_ramp_ua c;
     tx_busy := tx_busy c; tx_done := tx_done c; rx_done := rx_done c;
     rx_len := rx_len c; rx_buf := rx_buf c; pp_buf := pp_buf c;
     pp_buf_valid := pp_buf_valid c; last_capacity := last_capacity c;
     cust_id := cust_id c; align := align c; align_count := align_count c;
     alignment := alignment c; alignment_last := alignment_last c;
     alignment_capable := alignment_capable c;
     current_filtered := current_filtered c;
     current_sample_cnt := current_sample_cnt c;
     mfg_check_count := mfg_check_count c |}.

Definition set_rtx_err v (c : p9221_charger_data) : p9221_charger_data :=
  {| pdata := pdata c; chip_id := chip_id c; log := log c;
     resume_complete := resume_complete c; dc_psy := dc_psy c;
     dc_icl_votable := dc_icl_votable c; tx_icl_votable := tx_icl_votable c;
     disable_dcin_en_votable := disable_dcin_en_votable c;
     online := online c; enabled := enabled c; ben_state := ben_state c;
     rtx_err := v; rtx_csp := rtx_csp c; check_det := check_det c;
     check_dc := check_dc c; check_np := check_np c;
     force_bpp := force_bpp c; fake_force_epp := fake_force_epp c;
     mfg := mfg c; is_mfg_google := is_mfg_google c;
     chg_on_rtx := chg_on_rtx c; dc_icl_bpp := dc_icl_bpp c;
     dc_icl_epp := dc_icl_epp c; dc_icl_epp_neg := dc_icl_epp_neg c;
     icl_ramp := icl_ramp c; icl_ramp_ua := icl_ramp_ua c;
     tx_busy := tx_busy c; tx_done := tx_done c; rx_done := rx_done c;
     rx_len := rx_len c; rx_buf := rx_buf c; pp_buf := pp_buf c;
     pp_buf_valid := pp_buf_valid c; last_capacity := last_capacity c;
     cust_id := cust_id c; align := align c; align_count := align_count c;
     alignment := alignment c; alignment_last := alignment_last c;
     alignment_capable := alignment_capable c;
     current_filtered := current_filtered c;
     current_sample_cnt := current_sample_cnt c;
     mfg_check_count := mfg_check_count c |}.

Definition set_rtx_csp v (c : p9221_charger_data) : p9221_charger_data :=
  {| pdata := pdata c; chip_id := chip_id c; log := log c;
     resume_complete := resume_complete c; dc_psy := dc_psy c;
     dc_icl_votable := dc_icl_votable c; tx_icl_votable := tx_icl_votable c;
     disable_dcin_en_votable := disable_dcin_en_votable c;
     online := online c; enabled := enabled c; ben_state := ben_state c;
     rtx_err := rtx_err c; rtx_csp := v; check_det := check_det c;
     check_dc := check_dc c; check_np := check_np c;
     force_bpp := force_bpp c; fake_force_epp := fake_force_epp c;
     mfg := mfg c; is_mfg_google := is_mfg_google c;
     chg_on_rtx := chg_on_rtx c; dc_icl_bpp := dc_icl_bpp c;
     dc_icl_epp := dc_icl_epp c; dc_icl_epp_neg := dc_icl_epp_neg c;
     icl_ramp := icl_ramp c; icl_ramp_ua := icl_ramp_ua c;
     tx_busy := tx_busy c; tx_done := tx_done c; rx_done := rx_done c;
     rx_len := rx_len c; rx_buf := rx_buf c; pp_buf := pp_buf c;
     pp_buf_valid := pp_buf_valid c; last_capacity := last_capacity c;
     cust_id := cust_id c; align := align c; align_count := align_count c;
     alignment := alignment c; alignment_last := alignment_last c;
     alignment_capable := alignment_capable c;
     current_filtered := current_filtered c;
     current_sample_cnt := current_sample_cnt c;
     mfg_check_count := mfg_check_count c |}.

Definition set_check_det v (c : p9221_charger_data) : p9221_charger_data :=
  {| pdata := pdata c; chip_id := chip_id c; log := log c;
     resume_complete := resume_complete c; dc_psy := dc_psy c;
     dc_icl_votable := dc_icl_votable c; tx_icl_votable := tx_icl_votable c;
     disable_dcin_en_votable := disable_dcin_en_votable c;
     online := online c; enabled := enabled c; ben_state := ben_state c;
     rtx_err := rtx_err c; rtx_csp := rtx_csp c; check_det := v;
     check_dc := check_dc c; check_np := check_np c;
     force_bpp := force_bpp c; fake_force_epp := fake_force_epp c;
     mfg := mfg c; is_mfg_google := is_mfg_google c;
     chg_on_rtx := chg_on_rtx c; dc_icl_bpp := dc_icl_bpp c;
     dc_icl_epp := dc_icl_epp c; dc_icl_epp_neg := dc_icl_epp_neg c;
     icl_ramp := icl_ramp c; icl_ramp_ua := icl_ramp_ua c;
     tx_busy := tx_busy c; tx_done := tx_done c; rx_done := rx_done c;
     rx_len := rx_len c; rx_buf := rx_buf c; pp_buf := pp_buf c;
     pp_buf_valid := pp_buf_valid c; last_capacity := last_capacity c;
     cust_id := cust_id c; align := align c; align_count := align_count c;
     alignment := alignment c; alignment_last := alignment_last c;
     alignment_capable := alignment_capable c;
     current_filtered := current_filtered c;
     current_sample_cnt := current_sample_cnt c;
     mfg_check_count := mfg_check_count c |}.

Definition set_check_dc v (c : p9221_charger_data) : p9221_charger_data :=
  {| pdata := pdata c; chip_id := chip_id c; log := log c;
     resume_complete := resume_complete c; dc_psy := dc_psy c;
     dc_icl_votable := dc_icl_votable c; tx_icl_votable := tx_icl_votable c;
     disable_dcin_en_votable := disable_dcin_en_votable c;
     online := online c; enabled := enabled c; ben_state := ben_state c;
     rtx_err := rtx_err c; rtx_csp := rtx_csp c; check_det := check_det c;
     check_dc := v; check_np := check_np c; force_bpp := force_bpp c;
     fake_force_epp := fake_force_epp c; mfg := mfg c;
     is_mfg_google := is_mfg_google c; chg_on_rtx := chg_on_rtx c;
     dc_icl_bpp := dc_icl_bpp c; dc_icl_epp := dc_icl_epp c;
     dc_icl_epp_neg := dc_icl_epp_neg c; icl_ramp := icl_ramp c;
     icl_ramp_ua := icl_ramp_ua c; tx_busy := tx_busy c;
     tx_done := tx_done c; rx_done := rx_done c; rx_len := rx_len c;
     rx_buf := rx_buf c; pp_buf := pp_buf c; pp_buf_valid := pp_buf_valid c;
     last_capacity := last_capacity c; cust_id := cust_id c;
     align := align c; align_count := align_count c;
     alignment := alignment c; alignment_last := alignment_last c;
     alignment_capable := alignment_capable c;
     current_filtered := current_filtered c;
     current_sample_cnt := current_sample_cnt c;
     mfg_check_count := mfg_check_count c |}.

Definition set_check_np v (c : p9221_charger_data) : p9221_charger_data :=
  {| pdata := pdata c; chip_id := chip_id c; log := log c;
     resume_complete := resume_complete c; dc_psy := dc_psy c;
     dc_icl_votable := dc_icl_votable c; tx_icl_votable := tx_icl_votable c;
     disable_dcin_en_votable := disable_dcin_en_votable c;
     online := online c; enabled := enabled c; ben_state := ben_state c;
     rtx_err := rtx_err c; rtx_csp := rtx_csp c; check_det := check_det c;
     check_dc := check_dc c; check_np := v; force_bpp := force_bpp c;
     fake_force_epp := fake_force_epp c; mfg := mfg c;
     is_mfg_google := is_mfg_google c; chg_on_rtx := chg_on_rtx c;
     dc_icl_bpp := dc_icl_bpp c; dc_icl_epp := dc_icl_epp c;
     dc_icl_epp_neg := dc_icl_epp_neg c; icl_ramp := icl_ramp c;
     icl_ramp_ua := icl_ramp_ua c; tx_busy := tx_busy c;
     tx_done := tx_done c; rx_done := rx_done c; rx_len := rx_len c;
     rx_buf := rx_buf c; pp_buf := pp_buf c; pp_buf_valid := pp_buf_valid c;
     last_capacity := last_capacity c; cust_id := cust_id c;
     align := align c; align_count := align_count c;
     alignment := alignment c; alignment_last := alignment_last c;
     alignment_capable := alignment_capable c;
     current_filtered := current_filtered c;
     current_sample_cnt := current_sample_cnt c;
     mfg_check_count := mfg_check_count c |}.

Definition set_force_bpp v (c : p9221_charger_data) : p9221_charger_data :=
  {| pdata := pdata c; chip_id := chip_id c; log := log c;
     resume_complete := resume_complete c; dc_psy := dc_psy c;
     dc_icl_votable := dc_icl_votable c; tx_icl_votable := tx_icl_votable c;
     disable_dcin_en_votable := disable_dcin_en_votable c;
     online := online c; enabled := enabled c; ben_state := ben_state c;
     rtx_err := rtx_err c; rtx_csp := rtx_csp c; check_det := check_det c;
     check_dc := check_dc c; check_np := check_np c; force_bpp := v;
     fake_force_epp := fake_force_epp c; mfg := mfg c;
     is_mfg_google := is_mfg_google c; chg_on_rtx := chg_on_rtx c;
     dc_icl_bpp := dc_icl_bpp c; dc_icl_epp := dc_icl_epp c;
     dc_icl_epp_neg := dc_icl_epp_neg c; icl_ramp := icl_ramp c;
     icl_ramp_ua := icl_ramp_ua c; tx_busy := tx_busy c;
     tx_done := tx_done c; rx_done := rx_done c; rx_len := rx_len c;
     rx_buf := rx_buf c; pp_buf := pp_buf c; pp_buf_valid := pp_buf_valid c;
     last_capacity := last_capacity c; cust_id := cust_id c;
     align := align c; align_count := align_count c;
     alignment := alignment c; alignment_last := alignment_last c;
     alignment_capable := alignment_capable c;
     current_filtered := current_filtered c;
     current_sample_cnt := current_sample_cnt c;
     mfg_check_count := mfg_check_count c |}.

Definition set_mfg v (c : p9221_charger_data) : p9221_charger_data :=
  {| pdata := pdata c; chip_id := chip_id c; log := log c;
     resume_complete := resume_complete c; dc_psy := dc_psy c;
     dc_icl_votable := dc_icl_votable c; tx_icl_votable := tx_icl_votable c;
     disable_dcin_en_votable := disable_dcin_en_votable c;
     online := online c; enabled := enabled c; ben_state := ben_state c;
     rtx_err := rtx_err c; rtx_csp := rtx_csp c; check_det := check_det c;
     check_dc := check_dc c; check_np := check_np c;
     force_bpp := force_bpp c; fake_force_epp := fake_force_epp c; mfg := v;
     is_mfg_google := is_mfg_google c; chg_on_rtx := chg_on_rtx c;
     dc_icl_bpp := dc_icl_bpp c; dc_icl_epp := dc_icl_epp c;
     dc_icl_epp_neg := dc_icl_epp_neg c; icl_ramp := icl_ramp c;
     icl_ramp_ua := icl_ramp_ua c; tx_busy := tx_busy c;
     tx_done := tx_done c; rx_done := rx_done c; rx_len := rx_len c;
     rx_buf := rx_buf c; pp_buf := pp_buf c; pp_buf_valid := pp_buf_valid c;
     last_capacity := last_capacity c; cust_id := cust_id c;
     align := align c; align_count := align_count c;
     alignment := alignment c; alignment_last := alignment_last c;
     alignment_capable := alignment_capable c;
     current_filtered := current_filtered c;
     current_sample_cnt := current_sample_cnt c;
     mfg_check_count := mfg_check_count c |}.

Definition set_is_mfg_google v (c : p9221_charger_data) : p9221_charger_data :=
  {| pdata := pdata c; chip_id := chip_id c; log := log c;
     resume_complete := resume_complete c; dc_psy := dc_psy c;
     dc_icl_votable := dc_icl_votable c; tx_icl_votable := tx_icl_votable c;
     disable_dcin_en_votable := disable_dcin_en_votable c;
     online := online c; enabled := enabled c; ben_state := ben_state c;
     rtx_err := rtx_err c; rtx_csp := rtx_csp c; check_det := check_det c;
     check_dc := check_dc c; check_np := check_np c;
     force_bpp := force_bpp c; fake_force_epp := fake_force_epp c;
     mfg := mfg c; is_mfg_google := v; chg_on_rtx := chg_on_rtx c;
     dc_icl_bpp := dc_icl_bpp c; dc_icl_epp := dc_icl_epp c;
     dc_icl_epp_neg := dc_icl_epp_neg c; icl_ramp := icl_ramp c;
     icl_ramp_ua := icl_ramp_ua c; tx_busy := tx_busy c;
     tx_done := tx_done c; rx_done := rx_done c; rx_len := rx_len c;
     rx_buf := rx_buf c; pp_buf := pp_buf c; pp_buf_valid := pp_buf_valid c;
     last_capacity := last_capacity c; cust_id := cust_id c;
     align := align c; align_count := align_count c;
     alignment := alignment c; alignment_last := alignment_last c;
     alignment_capable := alignment_capable c;
     current_filtered := current_filtered c;
     current_sample_cnt := current_sample_cnt c;
     mfg_check_count := mfg_check_count c |}.

Definition set_chg_on_rtx v (c : p9221_charger_data) : p9221_charger_data :=
  {| pdata := pdata c; chip_id := chip_id c; log := log c;
     resume_complete := resume_complete c; dc_psy := dc_psy c;
     dc_icl_votable := dc_icl_votable c; tx_icl_votable := tx_icl_votable c;
     disable_dcin_en_votable := disable_dcin_en_votable c;
     online := online c; enabled := enabled c; ben_state := ben_state c;
     rtx_err := rtx_err c; rtx_csp := rtx_csp c; check_det := check_det c;
     check_dc := check_dc c; check_np := check_np c;
     force_bpp := force_bpp c; fake_force_epp := fake_force_epp c;
     mfg := mfg c; is_mfg_google := is_mfg_google c; chg_on_rtx := v;
     dc_icl_bpp := dc_icl_bpp c; dc_icl_epp := dc_icl_epp c;
     dc_icl_epp_neg := dc_icl_epp_neg c; icl_ramp := icl_ramp c;
     icl_ramp_ua := icl_ramp_ua c; tx_busy := tx_busy c;
     tx_done := tx_done c; rx_done := rx_done c; rx_len := rx_len c;
     rx_buf := rx_buf c; pp_buf := pp_buf c; pp_buf_valid := pp_buf_valid c;
     last_capacity := last_capacity c; cust_id := cust_id c;
     align := align c; align_count := align_count c;
     alignment := alignment c; alignment_last := alignment_last c;
     alignment_capable := alignment_capable c;
     current_filtered := current_filtered c;
     current_sample_cnt := current_sample_cnt c;
     mfg_check_count := mfg_check_count c |}.

Definition set_dc_icl_epp_neg v (c : p9221_charger_data) : p9221_charger_data :=
  {| pdata := pdata c; chip_id := chip_id c; log := log c;
     resume_complete := resume_complete c; dc_psy := dc_psy c;
     dc_icl_votable := dc_icl_votable c; tx_icl_votable := tx_icl_votable c;
     disable_dcin_en_votable := disable_dcin_en_votable c;
     online := online c; enabled := enabled c; ben_state := ben_state c;
     rtx_err := rtx_err c; rtx_csp := rtx_csp c; check_det := check_det c;
     check_dc := check_dc c; check_np := check_np c;
     force_bpp := force_bpp c; fake_force_epp := fake_force_epp c;
     mfg := mfg c; is_mfg_google := is_mfg_google c;
     chg_on_rtx := chg_on_rtx c; dc_icl_bpp := dc_icl_bpp c;
     dc_icl_epp := dc_icl_epp c; dc_icl_epp_neg := v; icl_ramp := icl_ramp c;
     icl_ramp_ua := icl_ramp_ua c; tx_busy := tx_busy c;
     tx_done := tx_done c; rx_done := rx_done c; rx_len := rx_len c;
     rx_buf := rx_buf c; pp_buf := pp_buf c; pp_buf_valid := pp_buf_valid c;
     last_capacity := last_capacity c; cust_id := cust_id c;
     align := align c; align_count := align_count c;
     alignment := alignment c; alignment_last := alignment_last c;
     alignment_capable := alignment_capable c;
     current_filtered := current_filtered c;
     current_sample_cnt := current_sample_cnt c;
     mfg_check_count := mfg_check_count c |}.

Definition set_icl_ramp v (c : p9221_charger_data) : p9221_charger_data :=
  {| pdata := pdata c; chip_id := chip_id c; log := log c;
     resume_complete := resume_complete c; dc_psy := dc_psy c;
     dc_icl_votable := dc_icl_votable c; tx_icl_votable := tx_icl_votable c;
     disable_dcin_en_votable := disable_dcin_en_votable c;
     online := online c; enabled := enabled c; ben_state := ben_state c;
     rtx_err := rtx_err c; rtx_csp := rtx_csp c; check_det := check_det c;
     check_dc := check_dc c; check_np := check_np c;
     force_bpp := force_bpp c; fake_force_epp := fake_force_epp c;
     mfg := mfg c; is_mfg_google := is_mfg_google c;
     chg_on_rtx := chg_on_rtx c; dc_icl_bpp := dc_icl_bpp c;
     dc_icl_epp := dc_icl_epp c; dc_icl_epp_neg := dc_icl_epp_neg c;
     icl_ramp := v; icl_ramp_ua := icl_ramp_ua c; tx_busy := tx_busy c;
     tx_done := tx_done c; rx_done := rx_done c; rx_len := rx_len c;
     rx_buf := rx_buf c; pp_buf := pp_buf c; pp_buf_valid := pp_buf_valid c;
     last_capacity := last_capacity c; cust_id := cust_id c;
     align := align c; align_count := align_count c;
     alignment := alignment c; alignment_last := alignment_last c;
     alignment_capable := alignment_capable c;
     current_filtered := current_filtered c;
     current_sample_cnt := current_sample_cnt c;
     mfg_check_count := mfg_check_count c |}.

Definition set_tx_busy v (c : p9221_charger_data) : p9221_charger_data :=
  {| pdata := pdata c; chip_id := chip_id c; log := log c;
     resume_complete := resume_complete c; dc_psy := dc_psy c;
     dc_icl_votable := dc_icl_votable c; tx_icl_votable := tx_icl_votable c;
     disable_dcin_en_votable := disable_dcin_en_votable c;
     online := online c; enabled := enabled c; ben_state := ben_state c;
     rtx_err := rtx_err c; rtx_csp := rtx_csp c; check_det := check_det c;
     check_dc := check_dc c; check_np := check_np c;
     force_bpp := force_bpp c; fake_force_epp := fake_force_epp c;
     mfg := mfg c; is_mfg_google := is_mfg_google c;
     chg_on_rtx := chg_on_rtx c; dc_icl_bpp := dc_icl_bpp c;
     dc_icl_epp := dc_icl_epp c; dc_icl_epp_neg := dc_icl_epp_neg c;
     icl_ramp := icl_ramp c; icl_ramp_ua := icl_ramp_ua c; tx_busy := v;
     tx_done := tx_done c; rx_done := rx_done c; rx_len := rx_len c;
     rx_buf := rx_buf c; pp_buf := pp_buf c; pp_buf_valid := pp_buf_valid c;
     last_capacity := last_capacity c; cust_id := cust_id c;
     align := align c; align_count := align_count c;
     alignment := alignment c; alignment_last := alignment_last c;
     alignment_capable := alignment_capable c;
     current_filtered := current_filtered c;
     current_sample_cnt := current_sample_cnt c;
     mfg_check_count := mfg_check_count c |}.

Definition set_tx_done v (c : p9221_charger_data) : p9221_charger_data :=
  {| pdata := pdata c; chip_id := chip_id c; log := log c;
     resume_complete := resume_complete c; dc_psy := dc_psy c;
     dc_icl_votable := dc_icl_votable c; tx_icl_votable := tx_icl_votable c;
     disable_dcin_en_votable := disable_dcin_en_votable c;
     online := online c; enabled := enabled c; ben_state := ben_state c;
     rtx_err := rtx_err c; rtx_csp := rtx_csp c; check_det := check_det c;
     check_dc := check_dc c; check_np := check_np c;
     force_bpp := force_bpp c; fake_force_epp := fake_force_epp c;
     mfg := mfg c; is_mfg_google := is_mfg_google c;
     chg_on_rtx := chg_on_rtx c; dc_icl_bpp := dc_icl_bpp c;
     dc_icl_epp := dc_icl_epp c; dc_icl_epp_neg := dc_icl_epp_neg c;
     icl_ramp := icl_ramp c; icl_ramp_ua := icl_ramp_ua c;
     tx_busy := tx_busy c; tx_done := v; rx_done := rx_done c;
     rx_len := rx_len c; rx_buf := rx_buf c; pp_buf := pp_buf c;
     pp_buf_valid := pp_buf_valid c; last_capacity := last_capacity c;
     cust_id := cust_id c; align := align c; align_count := align_count c;
     alignment := alignment c; alignment_last := alignment_last c;
     alignment_capable := alignment_capable c;
     current_filtered := current_filtered c;
     current_sample_cnt := current_sample_cnt c;
     mfg_check_count := mfg_check_count c |}.

Definition set_rx_done v (c : p9221_charger_data) : p9221_charger_data :=
  {| pdata := pdata c; chip_id := chip_id c; log := log c;
     resume_complete := resume_complete c; dc_psy := dc_psy c;
     dc_icl_votable := dc_icl_votable c; tx_icl_votable := tx_icl_votable c;
     disable_dcin_en_votable := disable_dcin_en_votable c;
     online := online c; enabled := enabled c; ben_state := ben_state c;
     rtx_err := rtx_err c; rtx_csp := rtx_csp c; check_det := check_det c;
     check_dc := check_dc c; check_np := check_np c;
     force_bpp := force_bpp c; fake_force_epp := fake_force_epp c;
     mfg := mfg c; is_mfg_google := is_mfg_google c;
     chg_on_rtx := chg_on_rtx c; dc_icl_bpp := dc_icl_bpp c;
     dc_icl_epp := dc_icl_epp c; dc_icl_epp_neg := dc_icl_epp_neg c;
     icl_ramp := icl_ramp c; icl_ramp_ua := icl_ramp_ua c;
     tx_busy := tx_busy c; tx_done := tx_done c; rx_done := v;
     rx_len := rx_len c; rx_buf := rx_buf c; pp_buf := pp_buf c;
     pp_buf_valid := pp_buf_valid c; last_capacity := last_capacity c;
     cust_id := cust_id c; align := align c; align_count := align_count c;
     alignment := alignment c; alignment_last := alignment_last c;
     alignment_capable := alignment_capable c;
     current_filtered := current_filtered c;
     current_sample_cnt := current_sample_cnt c;
     mfg_check_count := mfg_check_count c |}.

Definition set_rx_len v (c : p9221_charger_data) : p9221_charger_data :=
  {| pdata := pdata c; chip_id := chip_id c; log := log c;
     resume_complete := resume_complete c; dc_psy := dc_psy c;
     dc_icl_votable := dc_icl_votable c; tx_icl_votable := tx_icl_votable c;
     disable_dcin_en_votable := disable_dcin_en_votable c;
     online := online c; enabled := enabled c; ben_state := ben_state c;
     rtx_err := rtx_err c; rtx_csp := rtx_csp c; check_det := check_det c;
     check_dc := check_dc c; check_np := check_np c;
     force_bpp := force_bpp c; fake_force_epp := fake_force_epp c;
     mfg := mfg c; is_mfg_google := is_mfg_google c;
     chg_on_rtx := chg_on_rtx c; dc_icl_bpp := dc_icl_bpp c;
     dc_icl_epp := dc_icl_epp c; dc_icl_epp_neg := dc_icl_epp_neg c;
     icl_ramp := icl_ramp c; icl_ramp_ua := icl_ramp_ua c;
     tx_busy := tx_busy c; tx_done := tx_done c; rx_done := rx_done c;
     rx_len := v; rx_buf := rx_buf c; pp_buf := pp_buf c;
     pp_buf_valid := pp_buf_valid c; last_capacity := last_capacity c;
     cust_id := cust_id c; align := align c; align_count := align_count c;
     alignment := alignment c; alignment_last := alignment_last c;
     alignment_capable := alignment_capable c;
     current_filtered := current_filtered c;
     current_sample_cnt := current_sample_cnt c;
     mfg_check_count := mfg_check_count c |}.

Definition set_rx_buf v (c : p9221_charger_data) : p9221_charger_data :=
  {| pdata := pdata c; chip_id := chip_id c; log := log c;
     resume_complete := resume_complete c; dc_psy := dc_psy c;
     dc_icl_votable := dc_icl_votable c; tx_icl_votable := tx_icl_votable c;
     disable_dcin_en_votable := disable_dcin_en_votable c;
     online := online c; enabled := enabled c; ben_state := ben_state c;
     rtx_err := rtx_err c; rtx_csp := rtx_csp c; check_det := check_det c;
     check_dc := check_dc c; check_np := check_np c;
     force_bpp := force_bpp c; fake_force_epp := fake_force_epp c;
     mfg := mfg c; is_mfg_google := is_mfg_google c;
     chg_on_rtx := chg_on_rtx c; dc_icl_bpp := dc_icl_bpp c;
     dc_icl_epp := dc_icl_epp c; dc_icl_epp_neg := dc_icl_epp_neg c;
     icl_ramp := icl_ramp c; icl_ramp_ua := icl_ramp_ua c;
     tx_busy := tx_busy c; tx_done := tx_done c; rx_done := rx_done c;
     rx_len := rx_len c; rx_buf := v; pp_buf := pp_buf c;
     pp_buf_valid := pp_buf_valid c; last_capacity := last_capacity c;
     cust_id := cust_id c; align := align c; align_count := align_count c;
     alignment := alignment c; alignment_last := alignment_last c;
     alignment_capable := alignment_capable c;
     current_filtered := current_filtered c;
     current_sample_cnt := current_sample_cnt c;
     mfg_check_count := mfg_check_count c |}.

Definition set_pp_buf v (c : p9221_charger_data) : p9221_charger_data :=
  {| pdata := pdata c; chip_id := chip_id c; log := log c;
     resume_complete := resume_complete c; dc_psy := dc_psy c;
     dc_icl_votable := dc_icl_votable c; tx_icl_votable := tx_icl_votable c;
     disable_dcin_en_votable := disable_dcin_en_votable c;
     online := online c; enabled := enabled c; ben_state := ben_state c;
     rtx_err := rtx_err c; rtx_csp := rtx_csp c; check_det := check_det c;
     check_dc := check_dc c; check_np := check_np c;
     force_bpp := force_bpp c; fake_force_epp := fake_force_epp c;
     mfg := mfg c; is_mfg_google := is_mfg_google c;
     chg_on_rtx := chg_on_rtx c; dc_icl_bpp := dc_icl_bpp c;
     dc_icl_epp := dc_icl_epp c; dc_icl_epp_neg := dc_icl_epp_neg c;
     icl_ramp := icl_ramp c; icl_ramp_ua := icl_ramp_ua c;
     tx_busy := tx_busy c; tx_done := tx_done c; rx_done := rx_done c;
     rx_len := rx_len c; rx_buf := rx_buf c; pp_buf := v;
     pp_buf_valid := pp_buf_valid c; last_capacity := last_capacity c;
     cust_id := cust_id c; align := align c; align_count := align_count c;
     alignment := alignment c; alignment_last := alignment_last c;
     alignment_capable := alignment_capable c;
     current_filtered := current_filtered c;
     current_sample_cnt := current_sample_cnt c;
     mfg_check_count := mfg_check_count c |}.

Definition set_pp_buf_valid v (c : p9221_charger_data) : p9221_charger_data :=
  {| pdata := pdata c; chip_id := chip_id c; log := log c;
     resume_complete := resume_complete c; dc_psy := dc_psy c;
     dc_icl_votable := dc_icl_votable c; tx_icl_votable := tx_icl_votable c;
     disable_dcin_en_votable := disable_dcin_en_votable c;
     online := online c; enabled := enabled c; ben_state := ben_state c;
     rtx_err := rtx_err c; rtx_csp := rtx_csp c; check_det := check_det c;
     check_dc := check_dc c; check_np := check_np c;
     force_bpp := force_bpp c; fake_force_epp := fake_force_epp c;
     mfg := mfg c; is_mfg_google := is_mfg_google c;
     chg_on_rtx := chg_on_rtx c; dc_icl_bpp := dc_icl_bpp c;
     dc_icl_epp := dc_icl_epp c; dc_icl_epp_neg := dc_icl_epp_neg c;
     icl_ramp := icl_ramp c; icl_ramp_ua := icl_ramp_ua c;
     tx_busy := tx_busy c; tx_done := tx_done c; rx_done := rx_done c;
     rx_len := rx_len c; rx_buf := rx_buf c; pp_buf := pp_buf c;
     pp_buf_valid := v; last_capacity := last_capacity c;
     cust_id := cust_id c; align := align c; align_count := align_count c;
     alignment := alignment c; alignment_last := alignment_last c;
     alignment_capable := alignment_capable c;
     current_filtered := current_filtered c;
     current_sample_cnt := current_sample_cnt c;
     mfg_check_count := mfg_check_count c |}.

Definition set_last_capacity v (c : p9221_charger_data) : p9221_charger_data :=
  {| pdata := pdata c; chip_id := chip_id c; log := log c;
     resume_complete := resume_complete c; dc_psy := dc_psy c;
     dc_icl_votable := dc_icl_votable c; tx_icl_votable := tx_icl_votable c;
     disable_dcin_en_votable := disable_dcin_en_votable c;
     online := online c; enabled := enabled c; ben_state := ben_state c;
     rtx_err := rtx_err c; rtx_csp := rtx_csp c; check_det := check_det c;
     check_dc := check_dc c; check_np := check_np c;
     force_bpp := force_bpp c; fake_force_epp := fake_force_epp c;
     mfg := mfg c; is_mfg_google := is_mfg_google c;
     chg_on_rtx := chg_on_rtx c; dc_icl_bpp := dc_icl_bpp c;
     dc_icl_epp := dc_icl_epp c; dc_icl_epp_neg := dc_icl_epp_neg c;
     icl_ramp := icl_ramp c; icl_ramp_ua := icl_ramp_ua c;
     tx_busy := tx_busy c; tx_done := tx_done c; rx_done := rx_done c;
     rx_len := rx_len c; rx_buf := rx_buf c; pp_buf := pp_buf c;
     pp_buf_valid := pp_buf_valid c; last_capacity := v;
     cust_id := cust_id c; align := align c; align_count := align_count c;
     alignment := alignment c; alignment_last := alignment_last c;
     alignment_capable := alignment_capable c;
     current_filtered := current_filtered c;
     current_sample_cnt := current_sample_cnt c;
     mfg_check_count := mfg_check_count c |}.

Definition set_cust_id v (c : p9221_charger_data) : p9221_charger_data :=
  {| pdata := pdata c; chip_id := chip_id c; log := log c;
     resume_complete := resume_complete c; dc_psy := dc_psy c;
     dc_icl_votable := dc_icl_votable c; tx_icl_votable := tx_icl_votable c;
     disable_dcin_en_votable := disable_dcin_en_votable c;
     online := online c; enabled := enabled c; ben_state := ben_state c;
     rtx_err := rtx_err c; rtx_csp := rtx_csp c; check_det := check_det c;
     check_dc := check_dc c; check_np := check_np c;
     force_bpp := force_bpp c; fake_force_epp := fake_force_epp c;
     mfg := mfg c; is_mfg_google := is_mfg_google c;
     chg_on_rtx := chg_on_rtx c; dc_icl_bpp := dc_icl_bpp c;
     dc_icl_epp := dc_icl_epp c; dc_icl_epp_neg := dc_icl_epp_neg c;
     icl_ramp := icl_ramp c; icl_ramp_ua := icl_ramp_ua c;
     tx_busy := tx_busy c; tx_done := tx_done c; rx_done := rx_done c;
     rx_len := rx_len c; rx_buf := rx_buf c; pp_buf := pp_buf c;
     pp_buf_valid := pp_buf_valid c; last_capacity := last_capacity c;
     cust_id := v; align := align c; align_count := align_count c;
     alignment := alignment c; alignment_last := alignment_last c;
     alignment_capable := alignment_capable c;
     current_filtered := current_filtered c;
     current_sample_cnt := current_sample_cnt c;
     mfg_check_count := mfg_check_count c |}.

Definition set_align v (c : p9221_charger_data) : p9221_charger_data :=
  {| pdata := pdata c; chip_id := chip_id c; log := log c;
     resume_complete := resume_complete c; dc_psy := dc_psy c;
     dc_icl_votable := dc_icl_votable c; tx_icl_votable := tx_icl_votable c;
     disable_dcin_en_votable := disable_dcin_en_votable c;
     online := online c; enabled := enabled c; ben_state := ben_state c;
     rtx_err := rtx_err c; rtx_csp := rtx_csp c; check_det := check_det c;
     check_dc := check_dc c; check_np := check_np c;
     force_bpp := force_bpp c; fake_force_epp := fake_force_epp c;
     mfg := mfg c; is_mfg_google := is_mfg_google c;
     chg_on_rtx := chg_on_rtx c; dc_icl_bpp := dc_icl_bpp c;
     dc_icl_epp := dc_icl_epp c; dc_icl_epp_neg := dc_icl_epp_neg c;
     icl_ramp := icl_ramp c; icl_ramp_ua := icl_ramp_ua c;
     tx_busy := tx_busy c; tx_done := tx_done c; rx_done := rx_done c;
     rx_len := rx_len c; rx_buf := rx_buf c; pp_buf := pp_buf c;
     pp_buf_valid := pp_buf_valid c; last_capacity := last_capacity c;
     cust_id := cust_id c; align := v; align_count := align_count c;
     alignment := alignment c; alignment_last := alignment_last c;
     alignment_capable := alignment_capable c;
     current_filtered := current_filtered c;
     current_sample_cnt := current_sample_cnt c;
     mfg_check_count := mfg_check_count c |}.

Definition set_align_count v (c : p9221_charger_data) : p9221_charger_data :=
  {| pdata := pdata c; chip_id := chip_id c; log := log c;
     resume_complete := resume_complete c; dc_psy := dc_psy c;
     dc_icl_votable := dc_icl_votable c; tx_icl_votable := tx_icl_votable c;
     disable_dcin_en_votable := disable_dcin_en_votable c;
     online := online c; enabled := enabled c; ben_state := ben_state c;
     rtx_err := rtx_err c; rtx_csp := rtx_csp c; check_det := check_det c;
     check_dc := check_dc c; check_np := check_np c;
     force_bpp := force_bpp c; fake_force_epp := fake_force_epp c;
     mfg := mfg c; is_mfg_google := is_mfg_google c;
     chg_on_rtx := chg_on_rtx c; dc_icl_bpp := dc_icl_bpp c;
     dc_icl_epp := dc_icl_epp c; dc_icl_epp_neg := dc_icl_epp_neg c;
     icl_ramp := icl_ramp c; icl_ramp_ua := icl_ramp_ua c;
     tx_busy := tx_busy c; tx_done := tx_done c; rx_done := rx_done c;
     rx_len := rx_len c; rx_buf := rx_buf c; pp_buf := pp_buf c;
     pp_buf_valid := pp_buf_valid c; last_capacity := last_capacity c;
     cust_id := cust_id c; align := align c; align_count := v;
     alignment := alignment c; alignment_last := alignment_last c;
     alignment_capable := alignment_capable c;
     current_filtered := current_filtered c;
     current_sample_cnt := current_sample_cnt c;
     mfg_check_count := mfg_check_count c |}.

Definition set_alignment v (c : p9221_charger_data) : p9221_charger_data :=
  {| pdata := pdata c; chip_id := chip_id c; log := log c;
     resume_complete := resume_complete c; dc_psy := dc_psy c;
     dc_icl_votable := dc_icl_votable c; tx_icl_votable := tx_icl_votable c;
     disable_dcin_en_votable := disable_dcin_en_votable c;
     online := online c; enabled := enabled c; ben_state := ben_state c;
     rtx_err := rtx_err c; rtx_csp := rtx_csp c; check_det := check_det c;
     check_dc := check_dc c; check_np := check_np c;
     force_bpp := force_bpp c; fake_force_epp := fake_force_epp c;
     mfg := mfg c; is_mfg_google := is_mfg_google c;
     chg_on_rtx := chg_on_rtx c; dc_icl_bpp := dc_icl_bpp c;
     dc_icl_epp := dc_icl_epp c; dc_icl_epp_neg := dc_icl_epp_neg c;
     icl_ramp := icl_ramp c; icl_ramp_ua := icl_ramp_ua c;
     tx_busy := tx_busy c; tx_done := tx_done c; rx_done := rx_done c;
     rx_len := rx_len c; rx_buf := rx_buf c; pp_buf := pp_buf c;
     pp_buf_valid := pp_buf_valid c; last_capacity := last_capacity c;
     cust_id := cust_id c; align := align c; align_count := align_count c;
     alignment := v; alignment_last := alignment_last c;
     alignment_capable := alignment_capable c;
     current_filtered := current_filtered c;
     current_sample_cnt := current_sample_cnt c;
     mfg_check_count := mfg_check_count c |}.

Definition set_alignment_last v (c : p9221_charger_data) : p9221_charger_data :=
  {| pdata := pdata c; chip_id := chip_id c; log := log c;
     resume_complete := resume_complete c; dc_psy := dc_psy c;
     dc_icl_votable := dc_icl_votable c; tx_icl_votable := tx_icl_votable c;
     disable_dcin_en_votable := disable_dcin_en_votable c;
     online := online c; enabled := enabled c; ben_state := ben_state c;
     rtx_err := rtx_err c; rtx_csp := rtx_csp c; check_det := check_det c;
     check_dc := check_dc c; check_np := check_np c;
     force_bpp := force_bpp c; fake_force_epp := fake_force_epp c;
     mfg := mfg c; is_mfg_google := is_mfg_google c;
     chg_on_rtx := chg_on_rtx c; dc_icl_bpp := dc_icl_bpp c;
     dc_icl_epp := dc_icl_epp c; dc_icl_epp_neg := dc_icl_epp_neg c;
     icl_ramp := icl_ramp c; icl_ramp_ua := icl_ramp_ua c;
     tx_busy := tx_busy c; tx_done := tx_done c; rx_done := rx_done c;
     rx_len := rx_len c; rx_buf := rx_buf c; pp_buf := pp_buf c;
     pp_buf_valid := pp_buf_valid c; last_capacity := last_capacity c;
     cust_id := cust_id c; align := align c; align_count := align_count c;
     alignment := alignment c; alignment_last := v;
     alignment_capable := alignment_capable c;
     current_filtered := current_filtered c;
     current_sample_cnt := current_sample_cnt c;
     mfg_check_count := mfg_check_count c |}.

Definition set_alignment_capable v (c : p9221_charger_data) : p9221_charger_data :=
  {| pdata := pdata c; chip_id := chip_id c; log := log c;
     resume_complete := resume_complete c; dc_psy := dc_psy c;
     dc_icl_votable := dc_icl_votable c; tx_icl_votable := tx_icl_votable c;
     disable_dcin_en_votable := disable_dcin_en_votable c;
     online := online c; enabled := enabled c; ben_state := ben_state c;
     rtx_err := rtx_err c; rtx_csp := rtx_csp c; check_det := check_det c;
     check_dc := check_dc c; check_np := check_np c;
     force_bpp := force_bpp c; fake_force_epp := fake_force_epp c;
     mfg := mfg c; is_mfg_google := is_mfg_google c;
     chg_on_rtx := chg_on_rtx c; dc_icl_bpp := dc_icl_bpp c;
     dc_icl_epp := dc_icl_epp c; dc_icl_epp_neg := dc_icl_epp_neg c;
     icl_ramp := icl_ramp c; icl_ramp_ua := icl_ramp_ua c;
     tx_busy := tx_busy c; tx_done := tx_done c; rx_done := rx_done c;
     rx_len := rx_len c; rx_buf := rx_buf c; pp_buf := pp_buf c;
     pp_buf_valid := pp_buf_valid c; last_capacity := last_capacity c;
     cust_id := cust_id c; align := align c; align_count := align_count c;
     alignment := alignment c; alignment_last := alignment_last c;
     alignment_capable := v; current_filtered := current_filtered c;
     current_sample_cnt := current_sample_cnt c;
     mfg_check_count := mfg_check_count c |}.

Definition set_current_filtered v (c : p9221_charger_data) : p9221_charger_data :=
  {| pdata := pdata c; chip_id := chip_id c; log := log c;
     resume_complete := resume_complete c; dc_psy := dc_psy c;
     dc_icl_votable := dc_icl_votable c; tx_icl_votable := tx_icl_votable c;
     disable_dcin_en_votable := disable_dcin_en_votable c;
     online := online c; enabled := enabled c; ben_state := ben_state c;
     rtx_err := rtx_err c; rtx_csp := rtx_csp c; check_det := check_det c;
     check_dc := check_dc c; check_np := check_np c;
     force_bpp := force_bpp c; fake_force_epp := fake_force_epp c;
     mfg := mfg c; is_mfg_google := is_mfg_google c;
     chg_on_rtx := chg_on_rtx c; dc_icl_bpp := dc_icl_bpp c;
     dc_icl_epp := dc_icl_epp c; dc_icl_epp_neg := dc_icl_epp_neg c;
     icl_ramp := icl_ramp c; icl_ramp_ua := icl_ramp_ua c;
     tx_busy := tx_busy c; tx_done := tx_done c; rx_done := rx_done c;
     rx_len := rx_len c; rx_buf := rx_buf c; pp_buf := pp_buf c;
     pp_buf_valid := pp_buf_valid c; last_capacity := last_capacity c;
     cust_id := cust_id c; align := align c; align_count := align_count c;
     alignment := alignment c; alignment_last := alignment_last c;
     alignment_capable := alignment_capable c; current_filtered := v;
     current_sample_cnt := current_sample_cnt c;
     mfg_check_count := mfg_check_count c |}.

Definition set_current_sample_cnt v (c : p9221_charger_data) : p9221_charger_data :=
  {| pdata := pdata c; chip_id := chip_id c; log := log c;
     resume_complete := resume_complete c; dc_psy := dc_psy c;
     dc_icl_votable := dc_icl_votable c; tx_icl_votable := tx_icl_votable c;
     disable_dcin_en_votable := disable_dcin_en_votable c;
     online := online c; enabled := enabled c; ben_state := ben_state c;
     rtx_err := rtx_err c; rtx_csp := rtx_csp c; check_det := check_det c;
     check_dc := check_dc c; check_np := check_np c;
     force_bpp := force_bpp c; fake_force_epp := fake_force_epp c;
     mfg := mfg c; is_mfg_google := is_mfg_google c;
     chg_on_rtx := chg_on_rtx c; dc_icl_bpp := dc_icl_bpp c;
     dc_icl_epp := dc_icl_epp c; dc_icl_epp_neg := dc_icl_epp_neg c;
     icl_ramp := icl_ramp c; icl_ramp_ua := icl_ramp_ua c;
     tx_busy := tx_busy c; tx_done := tx_done c; rx_done := rx_done c;
     rx_len := rx_len c; rx_buf := rx_buf c; pp_buf := pp_buf c;
     pp_buf_valid := pp_buf_valid c; last_capacity := last_capacity c;
     cust_id := cust_id c; align := align c; align_count := align_count c;
     alignment := alignment c; alignment_last := alignment_last c;
     alignment_capable := alignment_capable c;
     current_filtered := current_filtered c; current_sample_cnt := v;
     mfg_check_count := mfg_check_count c |}.

Definition set_mfg_check_count v (c : p9221_charger_data) : p9221_charger_data :=
  {| pdata := pdata c; chip_id := chip_id c; log := log c;
     resume_complete := resume_complete c; dc_psy := dc_psy c;
     dc_icl_votable := dc_icl_votable c; tx_icl_votable := tx_icl_votable c;
     disable_dcin_en_votable := disable_dcin_en_votable c;
     online := online c; enabled := enabled c; ben_state := ben_state c;
     rtx_err := rtx_err c; rtx_csp := rtx_csp c; check_det := check_det c;
     check_dc := check_dc c; check_np := check_np c;
     force_bpp := force_bpp c; fake_force_epp := fake_force_epp c;
     mfg := mfg c; is_mfg_google := is_mfg_google c;
     chg_on_rtx := chg_on_rtx c; dc_icl_bpp := dc_icl_bpp c;
     dc_icl_epp := dc_icl_epp c; dc_icl_epp_neg := dc_icl_epp_neg c;
     icl_ramp := icl_ramp c; icl_ramp_ua := icl_ramp_ua c;
     tx_busy := tx_busy c; tx_done := tx_done c; rx_done := rx_done c;
     rx_len := rx_len c; rx_buf := rx_buf c; pp_buf := pp_buf c;
     pp_buf_valid := pp_buf_valid c; last_capacity := last_capacity c;
     cust_id := cust_id c; align := align c; align_count := align_count c;
     alignment := alignment c; alignment_last := alignment_last c;
     alignment_capable := alignment_capable c;
     current_filtered := current_filtered c;
     current_sample_cnt := current_sample_cnt c; mfg_check_count := v |}.

(** ** The monad of driver code *)

Record result (A : Type) := Result {
  val : A;                       (* what the function returns *)
  st : p9221_charger_data;       (* the device state it leaves *)
  out : trace                    (* the calls it made, oldest first *)
}.
Arguments Result {A} _ _ _.
Arguments val {A} _.
Arguments st {A} _.
Arguments out {A} _.

Unset Primitive Projections.

Definition M (A : Type) : Type := p9221_charger_data -> result A.

Definition Ret {A : Type} (a : A) : M A := fun c => Result a c [].

Definition bind {A B : Type} (m : M A) (k : A -> M B) : M B :=
  fun c =>
    let r1 := m c in
    let r2 := k (val r1) (st r1) in
    Result (val r2) (st r2) (out r1 ++ out r2).

Notation "x <- m ;; k" := (bind m (fun x => k))
  (at level 61, m at next level, right associativity).
Notation "m ;; k" := (bind m (fun _ => k))
  (at level 61, right associativity).

Definition get : M p9221_charger_data := fun c => Result c c [].
Definition modify (f : p9221_charger_data -> p9221_charger_data) : M unit :=
  fun c => Result tt (f c) [].
Definition emit (e : event) : M unit := fun c => Result tt c [e].

Definition when (b : bool) (m : M unit) : M unit := if b then m else Ret tt.

Definition dev_err (fmt : string) (args : list arg) : M unit :=
  emit (EvLog KERN_ERR fmt args).
Definition dev_warn (fmt : string) (args : list arg) : M unit :=
  emit (EvLog KERN_WARNING fmt args).
Definition dev_info (fmt : string) (args : list arg) : M unit :=
  emit (EvLog KERN_INFO fmt args).
Definition logbuffer_log (fmt : string) (args : list arg) : M unit :=
  emit (EvLog LOGBUFFER fmt args).
Definition logbuffer_log_rtx (fmt : string) (args : list arg) : M unit :=
  emit (EvLog LOGBUFFER_RTX fmt args).

Definition msleep (ms : Z) : M unit := emit (EvMsleep ms).
Definition schedule_work (w : work) : M unit := emit (EvScheduleWork w).
Definition schedule_delayed_work (w : work) (ms : Z) : M unit :=
  emit (EvScheduleDelayedWork w ms).
Definition cancel_delayed_work (w : work) : M unit := emit (EvCancelDelayedWork w).
Definition gpio_set_value (gpio : Z) (value : bool) : M unit :=
  emit (EvGpioSet gpio value).

(** *** Register transport

    [p9221_reg_read_n] and [p9221_reg_write_n] and their 8 and 16 bit
    wrappers are the boundary of the model.  An answer is the value the call
    returns (0, or a negative errno) and, for a read, the data. *)

Record reply := Reply { r_ret : Z; r_val : Z }.

Definition p9221_reg_write_8 (r : reg) (v : Z) (ans : Z) : M Z :=
  emit (EvRegWrite8 r (u8 v) ans) ;; Ret ans.

Definition p9221_reg_write_16 (r : reg) (v : Z) (ans : Z) : M Z :=
  emit (EvRegWrite16 r (u16 v) ans) ;; Ret ans.

(** [p9221_reg_read_16] stores to [*val] only when the transfer succeeded;
    [old] is what the variable held. *)
Definition p9221_reg_read_16 (r : reg) (old : Z) (ans : reply) : M (Z * Z) :=
  emit (EvRegRead16 r (r_ret ans) (u16 (r_val ans))) ;;
  Ret (r_ret ans, if r_ret ans =? 0 then u16 (r_val ans) else old).

Definition p9221_reg_read_8 (r : reg) (old : Z) (ans : reply) : M (Z * Z) :=
  emit (EvRegRead8 r (r_ret ans) (u8 (r_val ans))) ;;
  Ret (r_ret ans, if r_ret ans =? 0 then u8 (r_val ans) else old).

(** *** Chip operations ([charger->chip_...] function pointers) *)

Definition chip_set_cmd (c : com) (ans : Z) : M Z :=
  emit (EvSetCmd c ans) ;; Ret ans.

Definition chip_get_iout (old : Z) (ans : reply) : M (Z * Z) :=
  emit (EvGetIout (r_ret ans) (u32 (r_val ans))) ;;
  Ret (r_ret ans, if r_ret ans =? 0 then u32 (r_val ans) else old).

(** *** Votables *)

Definition get_effective_result (v : votable) (ans : Z) : M Z :=
  emit (EvGetEffectiveResult v ans) ;; Ret ans.

Definition vote (v : votable) (present : bool) (who : voter) (en : bool)
    (value : Z) (ans : Z) : M Z :=
  emit (EvVote v present who en value ans) ;; Ret ans.


Definition cancel_delayed_work_sync (w : work) : M unit :=
  emit (EvCancelDelayedWorkSync w).
Definition del_timer (t : timer) : M unit := emit (EvDelTimer t).
Definition power_supply_changed : M unit := emit EvPowerSupplyChanged.
Definition pm_stay_awake : M unit := emit EvPmStayAwake.
Definition pm_relax : M unit := emit EvPmRelax.

Definition p9221_reg_write_n (r : reg) (buf : list Byte.byte) (n : Z) (ans : Z)
  : M Z :=
  emit (EvRegWriteN r (firstn (Z.to_nat n) buf) ans) ;; Ret ans.

(** Returns the value of the call and the [n] bytes read. *)
Definition p9221_reg_read_n (r : reg) (n : Z) (ans : Z * list Byte.byte)
  : M (Z * list Byte.byte) :=
  emit (EvRegReadN r n (fst ans) (firstn (Z.to_nat n) (snd ans))) ;;
  Ret (fst ans, firstn (Z.to_nat n) (snd ans)).

(** A chip getter stores through its pointer when it succeeds; [old] is what
    the destination held. *)
Definition chip_get_tx_mfg_code (old : Z) (ans : reply) : M (Z * Z) :=
  emit (EvGetTxMfgCode (r_ret ans) (u16 (r_val ans))) ;;
  Ret (r_ret ans, if r_ret ans =? 0 then u16 (r_val ans) else old).

Definition chip_get_sys_mode (old : Z) (ans : reply) : M (Z * Z) :=
  emit (EvGetSysMode (r_ret ans) (u8 (r_val ans))) ;;
  Ret (r_ret ans, if r_ret ans =? 0 then u8 (r_val ans) else old).

Definition chip_get_vout (old : Z) (ans : reply) : M (Z * Z) :=
  emit (EvGetVout (r_ret ans) (u32 (r_val ans))) ;;
  Ret (r_ret ans, if r_ret ans =? 0 then u32 (r_val ans) else old).

Definition chip_get_vrect (old : Z) (ans : reply) : M (Z * Z) :=
  emit (EvGetVrect (r_ret ans) (u32 (r_val ans))) ;;
  Ret (r_ret ans, if r_ret ans =? 0 then u32 (r_val ans) else old).

Definition chip_get_op_freq (old : Z) (ans : reply) : M (Z * Z) :=
  emit (EvGetOpFreq (r_ret ans) (u32 (r_val ans))) ;;
  Ret (r_ret ans, if r_ret ans =? 0 then u32 (r_val ans) else old).

Definition chip_tx_mode_en (en : bool) (ans : Z) : M Z :=
  emit (EvTxModeEn en ans) ;; Ret ans.

Definition chip_set_tx_ilim (ua : Z) (ans : Z) : M Z :=
  emit (EvSetTxIlim ua ans) ;; Ret ans.

Definition chip_renegotiate_pwr (ans : Z) : M Z :=
  emit (EvRenegotiatePwr ans) ;; Ret ans.

Definition find_votable (v : votable) (ans : bool) : M bool :=
  emit (EvFindVotable v ans) ;; Ret ans.

(** [schedule_delayed_work] where the caller looks at the result: whether
    the work was queued (it is not when it was pending already). *)
Definition schedule_delayed_work_queued (w : work) (ms : Z) (ans : bool)
  : M bool :=
  emit (EvScheduleDelayedWorkQueued w ms ans) ;; Ret ans.

Definition mod_delayed_work (w : work) (ms : Z) : M unit :=
  emit (EvModDelayedWork w ms).
Definition sysfs_notify (attr : string) : M unit := emit (EvSysfsNotify attr).
Definition alarm_try_to_cancel (ans : Z) : M Z :=
  emit (EvAlarmTryToCancel ans) ;; Ret ans.
Definition alarm_start_relative (ms : Z) : M unit :=
  emit (EvAlarmStartRelative ms).

Definition chip_set_rx_ilim (ma : Z) (ans : Z) : M Z :=
  emit (EvSetRxIlim ma ans) ;; Ret ans.
Definition chip_set_vout_max (mv : Z) (ans : Z) : M Z :=
  emit (EvSetVoutMax mv ans) ;; Ret ans.
Definition chip_get_vout_max (old : Z) (ans : reply) : M (Z * Z) :=
  emit (EvGetVoutMax (r_ret ans) (u32 (r_val ans))) ;;
  Ret (r_ret ans, if r_ret ans =? 0 then u32 (r_val ans) else old).
Definition chip_get_cc_recv_size (old : Z) (ans : reply) : M (Z * Z) :=
  emit (EvGetCcRecvSize (r_ret ans) (r_val ans)) ;;
  Ret (r_ret ans, if r_ret ans =? 0 then r_val ans else old).

(** [chip_get_data_buf(charger, buf, len)]: the value of the call and the
    content of [buf] afterwards. *)
Definition chip_get_data_buf (old : list Byte.byte) (len : Z)
    (ans : Z * list Byte.byte) : M (Z * list Byte.byte) :=
  emit (EvGetDataBuf len (fst ans) (firstn (Z.to_nat len) (snd ans))) ;;
  Ret (fst ans,
       if fst ans =? 0
       then firstn (Z.to_nat len) (snd ans) ++ skipn (Z.to_nat len) old
       else old).

Definition get_client_vote (v : votable) (who : voter) (ans : Z) : M Z :=
  emit (EvGetClientVote v who ans) ;; Ret ans.

(** [power_supply_get_property(dc_psy, POWER_SUPPLY_PROP_PRESENT, &prop)] *)
Definition power_supply_get_present (ans : reply) : M (Z * Z) :=
  emit (EvPsyGetPresent (r_ret ans) (r_val ans)) ;;
  Ret (r_ret ans, r_val ans).
Definition power_supply_get_dc_reset (ans : reply) : M (Z * Z) :=
  emit (EvPsyGetDcReset (r_ret ans) (r_val ans)) ;;
  Ret (r_ret ans, r_val ans).
Definition power_supply_set_dc_reset (intval : Z) (ans : Z) : M Z :=
  emit (EvPsySetDcReset intval ans) ;; Ret ans.
Definition power_supply_get_by_name_dc (ans : bool) : M bool :=
  emit (EvPsyGetByName ans) ;; Ret ans.

Definition byte_val (b : Byte.byte) : Z := Z.of_N (Byte.to_N b).

(** [memcmp(a, b, n) == 0] *)
Definition memcmp_eq (a b : list Byte.byte) (n : Z) : bool :=
  if list_eq_dec Byte.byte_eq_dec
       (firstn (Z.to_nat n) a) (firstn (Z.to_nat n) b)
  then true else false.

(** Array store [a[i] = v]. *)
Fixpoint upd {A : Type} (i : nat) (v : A) (a : list A) : list A :=
  match a, i with
  | [], _ => []
  | _ :: t, O => v :: t
  | h :: t, S i' => h :: upd i' v t
  end.

Section Driver.

Context {hdr : p9221_charger_h}.

(** ** Interrupt clearing and end of power transfer *)

(** [io] answers the register write and the command, in this order. *)
Definition p9221_clear_interrupts (io : Z * Z) (mask : Z) : M Z :=
  ret <- p9221_reg_write_16 P9221R5_INT_CLEAR_REG mask (fst io) ;;
  if nonzero ret then
    dev_err "Failed to clear INT reg: %d\n" [AInt ret] ;;
    Ret ret
  else
    ret <- chip_set_cmd P9221_COM_CLEAR_INT_MASK (snd io) ;;
    when (nonzero ret) (dev_err "Failed to reset INT: %d\n" [AInt ret]) ;;
    Ret ret.

Definition p9221_send_eop (io : Z * Z) (reason : Z) : M Z :=
  dev_info "Send EOP reason=%d\n" [AInt reason] ;;
  ret <- p9221_reg_write_8 P9221R5_EPT_REG reason (fst io) ;;
  if ret =? 0 then chip_set_cmd P9221R5_COM_SENDEPT (snd io) else Ret ret.

(** ** Protection handler: [p9221_over_handle] *)

(** What the chip answers in one round of the polling loop. *)
Record over_poll := {
  op_clear : Z * Z;      (* p9221_clear_interrupts *)
  op_iout : reply;       (* chip_get_iout, in mA *)
  op_status : reply      (* p9221_reg_read_16(P9221_STATUS_REG) *)
}.

Record over_env := {
  oe_icl : Z;                  (* get_effective_result_locked(dc_icl_votable) *)
  oe_vote : Z;                 (* vote(dc_icl_votable, P9221_OCP_VOTER, ...) *)
  oe_poll : nat -> over_poll;  (* round i of the loop *)
  oe_eop : Z * Z               (* p9221_send_eop *)
}.

Definition print_current_samples (iout_val : list Z) (count : nat) : M unit :=
  dev_info "OVER IOUT_SAMPLES: %s\n" [AHex (firstn count iout_val)].

(** The tail of the handler after [send_eop:]. *)
Definition over_send_eop (e : over_env) (irq_src reason : Z) : M unit :=
  dev_err "OVER is %04x, sending EOP %d\n" [AInt irq_src; AInt reason] ;;
  ret <- p9221_send_eop (oe_eop e) reason ;;
  when (nonzero ret)
    (dev_err "Failed to send EOP %d: %d\n" [AInt reason; AInt ret]).

(** The loop [for (i = 0; i < P9221R5_OVER_CHECK_NUM; i++)], with [n] rounds
    left.  [None]: the handler returned from inside the loop (condition
    cleared).  [Some]: the loop ran out, with the final [irq_src],
    [ovc_count] and [iout_val]. *)
Fixpoint over_check_loop (e : over_env) (n i : nat) (irq_src ovc_count : Z)
    (iout_val : list Z) : M (option (Z * Z * list Z)) :=
  match n with
  | O => Ret (Some (irq_src, ovc_count, iout_val))
  | S n' =>
      let p := oe_poll e i in
      ret <- p9221_clear_interrupts (op_clear p)
               (Z.land irq_src P9221R5_STAT_LIMIT_MASK) ;;
      msleep 50 ;;
      if nonzero ret then
        over_check_loop e n' (S i) irq_src ovc_count iout_val
      else
        r <- chip_get_iout (nth i iout_val 0) (op_iout p) ;;
        let iout_val := upd i (snd r) iout_val in
        if nonzero (fst r) then
          dev_err "Failed to read iout[%d]: %d\n"
                  [AInt (Z.of_nat i); AInt (fst r)] ;;
          over_check_loop e n' (S i) irq_src ovc_count iout_val
        else
          let ua := u32 (P9221_MA_TO_UA (snd r)) in
          let iout_val := upd i ua iout_val in
          let ovc_count := if ua >? OVC_THRESHOLD then ovc_count + 1
                           else ovc_count in
          r <- p9221_reg_read_16 P9221_STATUS_REG irq_src (op_status p) ;;
          let irq_src := snd r in
          if nonzero (fst r) then
            dev_err "Failed to read status: %d\n" [AInt (fst r)] ;;
            over_check_loop e n' (S i) irq_src ovc_count iout_val
          else if Z.land irq_src P9221R5_STAT_OVC =? 0 then
            print_current_samples iout_val (i + 1) ;;
            dev_info "OVER condition %04x cleared after %d tries\n"
                     [AInt irq_src; AInt (Z.of_nat i)] ;;
            Ret None
          else
            dev_err "OVER status is still %04x, retry\n" [AInt irq_src] ;;
            over_check_loop e n' (S i) irq_src ovc_count iout_val
  end.

Definition p9221_over_handle (e : over_env) (irq_src : Z) : M unit :=
  dev_err "Received OVER INT: %02x\n" [AInt irq_src] ;;
  if nonzero (Z.land irq_src P9221R5_STAT_OVV) then
    over_send_eop e irq_src (u8 P9221_EOP_OVER_VOLT)
  else if nonzero (Z.land irq_src P9221R5_STAT_OVT) then
    over_send_eop e irq_src (u8 P9221_EOP_OVER_TEMP)
  else if nonzero (Z.land irq_src P9221R5_STAT_UV)
          && negb (nonzero (Z.land irq_src P9221R5_STAT_OVC)) then
    Ret tt
  else
    (* Overcurrent, reduce ICL and poll to absorb any transients *)
    c <- get ;;
    (if dc_icl_votable c then
       icl <- get_effective_result DC_ICL (oe_icl e) ;;
       if icl <? 0 then
         dev_err "Failed to read ICL (%d)\n" [AInt icl]
       else if icl >? OVC_BACKOFF_LIMIT then
         let icl := icl - OVC_BACKOFF_AMOUNT in
         ret <- vote DC_ICL true P9221_OCP_VOTER true icl (oe_vote e) ;;
         dev_err "Reduced ICL to %d (%d)\n" [AInt icl; AInt ret]
       else Ret tt
     else Ret tt) ;;
    let reason := u8 P9221_EOP_OVER_CURRENT in
    r <- over_check_loop e P9221R5_OVER_CHECK_NUM 0 irq_src 0 [0; 0; 0] ;;
    match r with
    | None => Ret tt
    | Some (irq_src, ovc_count, iout_val) =>
        if ovc_count <? OVC_LIMIT then
          print_current_samples iout_val P9221R5_OVER_CHECK_NUM ;;
          dev_info "ovc_threshold=%d, ovc_count=%d, ovc_limit=%d\n"
                   [AInt OVC_THRESHOLD; AInt ovc_count; AInt OVC_LIMIT]
        else
          over_send_eop e irq_src reason
    end.

(** ** Power profile: [p9221_is_epp] *)

Record epp_env := {
  ee_mfg : reply;        (* chip_get_tx_mfg_code *)
  ee_sys_mode : reply;   (* chip_get_sys_mode *)
  ee_vout : reply        (* chip_get_vout *)
}.

Definition p9221_is_epp (e : epp_env) : M bool :=
  c <- get ;;
  if fake_force_epp c >? 0 then Ret true
  else if force_bpp c then Ret false
  else
    (* mfg may be zero due to race condition during bringup *)
    (if mfg c =? 0 then
       r <- chip_get_tx_mfg_code (mfg c) (ee_mfg e) ;;
       modify (set_mfg (snd r)) ;;
       when (fst r <? 0)
         (dev_err "cannot read MFG_CODE (%d)\n" [AInt (fst r)])
     else Ret tt) ;;
    c <- get ;;
    modify (set_is_mfg_google (mfg c =? WLC_MFG_GOOGLE)) ;;
    r <- chip_get_sys_mode 0 (ee_sys_mode e) ;;
    if fst r =? 0 then
      Ret ((snd r =? P9412_SYS_OP_MODE_WPC_EXTD)
           || (snd r =? P9412_SYS_OP_MODE_PROPRIETARY))
    else
      dev_err "Could not read mode: %d\n" [AInt (fst r)] ;;
      (* Check based on power supply voltage *)
      r <- chip_get_vout 0 (ee_vout e) ;;
      if nonzero (fst r) then
        dev_err "Could read VOUT_ADC, %d\n" [AInt (fst r)] ;;
        Ret false
      else
        let vout_uv := u32 (P9221_MA_TO_UA (snd r)) in
        dev_info "Voltage is %duV\n" [AInt vout_uv] ;;
        Ret (vout_uv >? P9221_EPP_THRESHOLD_UV).

(** ** Foreign object detection table: [p9221_write_fod] *)

Record fod_env := {
  fe_epp : epp_env;
  fe_write : nat -> Z;                      (* attempt i: p9221_reg_write_n *)
  fe_read : nat -> Z * list Byte.byte       (* attempt i: p9221_reg_read_n *)
}.

(** The label [no_fod:]. *)
Definition fod_not_set (retries : Z) : M unit :=
  c <- get ;;
  dev_warn "FOD not set! bpp:%d epp:%d r:%d\n"
    [AInt (fod_num (pdata c)); AInt (fod_epp_num (pdata c)); AInt retries].

(** The loop [while (retries)], with [retries] attempts left; [i] counts the
    attempts made.  [true]: the function returned from inside the loop.
    [false]: the loop ran out and control falls to [no_fod:]. *)
Fixpoint write_fod_loop (e : fod_env) (retries i : nat) (epp : bool)
    (fod : list Byte.byte) (fod_count : Z) : M bool :=
  match retries with
  | O => Ret false
  | S retries' =>
      dev_info "Writing %s FOD (n=%d reg=%02x try=%d)\n"
        [AStr (if epp then "EPP" else "BPP"); AInt fod_count;
         AReg P9221R5_FOD_REG; AInt (Z.of_nat retries)] ;;
      ret <- p9221_reg_write_n P9221R5_FOD_REG fod fod_count (fe_write e i) ;;
      if nonzero ret then
        dev_err "Could not write FOD: %d\n" [AInt ret] ;;
        Ret true
      else
        (* Verify the FOD has been written properly *)
        r <- p9221_reg_read_n P9221R5_FOD_REG fod_count (fe_read e i) ;;
        let fod_read := snd r in
        if nonzero (fst r) then
          dev_err "Could not read back FOD: %d\n" [AInt (fst r)] ;;
          Ret true
        else if memcmp_eq fod fod_read fod_count then
          Ret true
        else
          dev_err "FOD verify error, read: %s\n"
            [AHex (map byte_val fod_read)] ;;
          msleep 100 ;;
          write_fod_loop e retries' (S i) epp fod fod_count
  end.

(** The function returns [void]. *)
Definition p9221_write_fod (e : fod_env) : M unit :=
  c <- get ;;
  let pd := pdata c in
  let retries := 3%nat in
  if (fod_num pd =? 0) && (fod_epp_num pd =? 0) then
    fod_not_set (Z.of_nat retries)
  else
    (* Default to BPP FOD *)
    let fod_bpp := if nonzero (fod_num pd) then Some (fod pd) else None in
    is_epp <- p9221_is_epp (fe_epp e) ;;
    let epp := is_epp && nonzero (fod_epp_num pd) in
    let fod_sel := if epp then Some (fod_epp pd) else fod_bpp in
    let fod_count := if epp then fod_epp_num pd else fod_num pd in
    match fod_sel with
    | None => fod_not_set (Z.of_nat retries)
    | Some fod =>
        returned <- write_fod_loop e retries 0 epp fod fod_count ;;
        if returned then Ret tt else fod_not_set 0
    end.

(** ** Going online *)

Definition p9221_enable_interrupts (io : (Z * Z) * Z) : M Z :=
  c <- get ;;
  let mask :=
    if nonzero (ben_state c) then
      (* enable necessary INT for RTx mode *)
      u16 P9382_STAT_RTX_MASK
    else
      let mask := Z.lor (Z.lor P9221R5_STAT_LIMIT_MASK P9221R5_STAT_CC_MASK)
                        P9221_STAT_VRECT in
      let mask :=
        if needs_dcin_reset (pdata c) =? P9221_WC_DC_RESET_VOUTCHANGED
        then Z.lor mask P9221R5_STAT_VOUTCHANGED else mask in
      let mask :=
        if needs_dcin_reset (pdata c) =? P9221_WC_DC_RESET_MODECHANGED
        then Z.lor mask P9221R5_STAT_MODECHANGED else mask in
      u16 mask in
  ret <- p9221_clear_interrupts (fst io) mask ;;
  when (nonzero ret)
    (dev_err "Could not clear interrupts: %d\n" [AInt ret]) ;;
  ret <- p9221_reg_write_8 P9221_INT_ENABLE_REG mask (snd io) ;;
  when (nonzero ret)
    (dev_err "Could not enable interrupts: %d\n" [AInt ret]) ;;
  Ret ret.

Record online_env := {
  so_cid : reply;            (* p9221_reg_read_8(P9221_CUSTOMER_ID_REG) *)
  so_irq : (Z * Z) * Z;      (* p9221_enable_interrupts *)
  so_fod : fod_env           (* p9221_write_fod *)
}.

Definition p9221_set_online (e : online_env) : M unit :=
  dev_info "Set online\n" [] ;;
  modify (set_online true) ;;
  modify (set_tx_busy false) ;;
  modify (set_tx_done true) ;;
  modify (set_rx_done false) ;;
  modify (set_last_capacity (-1)) ;;
  r <- p9221_reg_read_8 P9221_CUSTOMER_ID_REG 5 (so_cid e) ;;
  (if nonzero (fst r) then dev_err "Could not get ID: %d\n" [AInt (fst r)]
   else modify (set_cust_id (snd r))) ;;
  c <- get ;;
  dev_info "P9221 cid: %02x\n" [AInt (cust_id c)] ;;
  ret <- p9221_enable_interrupts (so_irq e) ;;
  when (nonzero ret)
    (dev_err "Could not enable interrupts: %d\n" [AInt ret]) ;;
  (* NOTE: depends on _is_epp() which is not valid until DC_IN *)
  p9221_write_fod (so_fod e) ;;
  cancel_delayed_work dcin_pon_work ;;
  modify (set_alignment_capable ALIGN_MFG_CHECKING) ;;
  modify (set_align WLC_ALIGN_CENTERED) ;;
  modify (set_alignment (-1)) ;;
  logbuffer_log "align: state: %s"
    [AStr (align_status_str WLC_ALIGN_CENTERED)] ;;
  schedule_work uevent_work.

(** ** Reverse power (RTX) *)

(** assume that we have 2 GPIO to turn on the boost *)
Definition p9382_rtx_enable (enable : bool) : M Z :=
  c <- get ;;
  let pd := pdata c in
  when (ben_gpio pd >=? 0) (gpio_set_value (ben_gpio pd) enable) ;;
  when (switch_gpio pd >=? 0) (gpio_set_value (switch_gpio pd) enable) ;;
  (* some systems provide additional boost_gpio for charging level *)
  when (boost_gpio pd >=? 0) (gpio_set_value (boost_gpio pd) enable) ;;
  Ret (if (ben_gpio pd <? 0) && (switch_gpio pd <? 0) then - ENODEV else 0).

Definition p9382_ben_cfg (cfg : Z) : M Z :=
  c <- get ;;
  let ben_gpio := ben_gpio (pdata c) in
  let switch_gpio := switch_gpio (pdata c) in
  dev_info "ben_cfg: %d->%d (ben=%d, switch=%d)"
    [AInt (ben_state c); AInt cfg; AInt ben_gpio; AInt switch_gpio] ;;
  if cfg =? RTX_BEN_DISABLED then
    (if ben_state c =? RTX_BEN_ON then
       _ <- p9382_rtx_enable false ;; Ret tt
     else if ben_gpio =? RTX_BEN_ENABLED then
       gpio_set_value ben_gpio false
     else Ret tt) ;;
    modify (set_ben_state cfg) ;;
    Ret 0
  else if cfg =? RTX_BEN_ENABLED then
    modify (set_ben_state cfg) ;;
    when (ben_gpio >=? 0) (gpio_set_value ben_gpio true) ;;
    Ret 0
  else if cfg =? RTX_BEN_ON then
    modify (set_ben_state cfg) ;;
    _ <- p9382_rtx_enable true ;;
    Ret 0
  else
    Ret (- EINVAL).

(** The [rtx_boost] attribute; [buf0] is the first character written. *)
Definition p9382_set_rtx_boost (buf0 : Z) (count : Z) : M Z :=
  c <- get ;;
  let state := buf0 - 48 in
  (* always ok to disable *)
  if nonzero state && online c && negb (nonzero (ben_state c)) then
    dev_err "invalid rX state" [] ;;
    Ret (- ENODEV)
  else
    (* 0 -> BEN_DISABLED, 1 -> BEN_ON *)
    ret <- p9382_ben_cfg state ;;
    Ret (if ret <? 0 then ret else count).

Record rtx_env := {
  re_tx_mode_en : Z;          (* chip_tx_mode_en *)
  re_tx_icl : Z;              (* get_effective_result(tx_icl_votable) *)
  re_find_votable : bool;     (* find_votable("DISABLE_DCIN_EN") != NULL *)
  re_vote : Z;                (* vote(disable_dcin_en_votable, ...) *)
  re_unvote : Z;              (* the vote withdrawn after a failed enable *)
  re_irq : (Z * Z) * Z;       (* p9221_enable_interrupts *)
  re_tx_icl_cfg : Z;          (* get_effective_result, configuring TX_ICL *)
  re_set_tx_ilim : Z          (* chip_set_tx_ilim *)
}.

(** [enable == 0] *)
Definition p9382_set_rtx_disable (e : rtx_env) : M Z :=
  logbuffer_log_rtx "disable rtx\n" [] ;;
  c <- get ;;
  (match rtx_err c with
   | RTX_TX_CONFLICT => Ret tt
   | _ => _ <- chip_tx_mode_en false (re_tx_mode_en e) ;; Ret tt
   end) ;;
  ret <- p9382_ben_cfg RTX_BEN_DISABLED ;;
  if ret <? 0 then Ret ret
  else
    c <- get ;;
    ret <- vote DISABLE_DCIN_EN (disable_dcin_en_votable c)
             P9221_WLC_VOTER false 0 (re_vote e) ;;
    when (nonzero ret)
      (dev_err "fail to enable dcin, ret=%d\n" [AInt ret]) ;;
    Ret ret.

(** The end of the enable branch, once the chip is in transmit mode:
    interrupts and the transmit current limit. *)
Definition set_rtx_configure (e : rtx_env) (tx_icl : Z) : M Z :=
  ret <- p9221_enable_interrupts (re_irq e) ;;
  when (nonzero ret)
    (dev_err "Could not enable interrupts: %d\n" [AInt ret]) ;;
  (* configure TX_ICL *)
  c <- get ;;
  tx_icl <- (if tx_icl_votable c
             then get_effective_result TX_ICL (re_tx_icl_cfg e)
             else Ret tx_icl) ;;
  if (tx_icl >? 0)
     && negb (tx_icl =? P9221_MA_TO_UA P9382A_RTX_ICL_MAX_MA) then
    ret <- chip_set_tx_ilim tx_icl (re_set_tx_ilim e) ;;
    (if ret =? 0 then
       logbuffer_log_rtx "set Tx current limit: %dmA" [AInt tx_icl]
     else
       dev_err "Could not set Tx current limit: %d\n" [AInt ret]) ;;
    Ret ret
  else Ret ret.

(** [enable != 0]; [ret] starts as 0 and [tx_icl] as -1. *)
Definition p9382_set_rtx_enable (e : rtx_env) : M Z :=
  logbuffer_log_rtx "enable rtx" [] ;;
  c <- get ;;
  (* Check if there is any one vote disabled *)
  tx_icl <- (if tx_icl_votable c
             then get_effective_result TX_ICL (re_tx_icl e) else Ret (-1)) ;;
  if tx_icl =? 0 then
    dev_err "rtx be disabled\n" [] ;;
    logbuffer_log_rtx "rtx be disabled\n" [] ;;
    Ret 0
  else if online c then
    (* Check if WLC online *)
    dev_err "rTX is not allowed during WLC\n" [] ;;
    logbuffer_log_rtx "rTX is not allowed during WLC\n" [] ;;
    Ret 0
  else
    (* DCIN_EN votable will not be available on all systems.
       if it is there, it is needed. *)
    (if negb (disable_dcin_en_votable c) then
       found <- find_votable DISABLE_DCIN_EN (re_find_votable e) ;;
       modify (set_disable_dcin_en_votable found)
     else Ret tt) ;;
    c <- get ;;
    ret <- (if disable_dcin_en_votable c then
              vote DISABLE_DCIN_EN true P9221_WLC_VOTER true 0 (re_vote e)
            else Ret 0) ;;
    if nonzero ret then
      dev_err "Could not vote DISABLE_DCIN_EN, skip enable rTX mode %d\n"
        [AInt ret] ;;
      Ret ret
    else
      modify (set_rtx_csp 0) ;;
      modify (set_rtx_err RTX_NO_ERROR) ;;
      ret <- p9382_ben_cfg RTX_BEN_ON ;;
      if ret <? 0 then Ret ret
      else
        msleep 10 ;;
        ret <- chip_tx_mode_en true (re_tx_mode_en e) ;;
        if ret <? 0 then
          dev_err "cannot enter rTX mode (%d)\n" [AInt ret] ;;
          logbuffer_log_rtx "cannot enter rTX mode (%d)\n" [AInt ret] ;;
          _ <- p9382_ben_cfg RTX_BEN_DISABLED ;;
          c <- get ;;
          _ <- vote DISABLE_DCIN_EN (disable_dcin_en_votable c)
                 P9221_WLC_VOTER false 0 (re_unvote e) ;;
          Ret ret
        else
          set_rtx_configure e tx_icl.

Definition p9382_set_rtx (e : rtx_env) (enable : bool) : M Z :=
  ret <- (if enable then p9382_set_rtx_enable e
          else p9382_set_rtx_disable e) ;;
  (* exit: *)
  schedule_work uevent_work ;;
  Ret ret.

(** The [rtx] attribute: write 1 to enable, 0 to disable. *)
Definition rtx_store (e : rtx_env) (buf0 : Z) (count : Z) : M Z :=
  if buf0 =? 48 then
    ret <- p9382_set_rtx e false ;;
    Ret (if ret =? 0 then count else ret)
  else if buf0 =? 49 then
    ret <- p9382_set_rtx e true ;;
    Ret (if ret =? 0 then count else ret)
  else Ret (- EINVAL).

(** ** Alignment engine *)

Definition p9221_init_align : M unit :=
  (* Reset values used for alignment *)
  modify (set_alignment_last (-1)) ;;
  modify (set_current_filtered 0) ;;
  modify (set_current_sample_cnt 0) ;;
  modify (set_mfg_check_count 0) ;;
  schedule_delayed_work align_work P9221_ALIGN_DELAY_MS.

Definition newline : string := String (ascii_of_nat 10) EmptyString.

Definition decimal (z : Z) : string := NilZero.string_of_int (Z.to_int z).

(** The [alignment] attribute; the value is the text put in the buffer. *)
Definition p9221_show_alignment : M string :=
  c <- get ;;
  when (alignment c =? -1) p9221_init_align ;;
  c <- get ;;
  if negb (match align c with WLC_ALIGN_CENTERED => true | _ => false end)
     || (alignment c =? -1)
  then Ret (align_status_str (align c) ++ newline)%string
  else Ret (decimal (alignment c) ++ newline)%string.

(** How a work item ends: it returns, or the kernel faults. *)
Inductive outcome :=
| Done
| DivideByZero.

Record align_env := {
  ae_mfg : reply;        (* chip_get_tx_mfg_code *)
  ae_epp : epp_env;      (* p9221_is_epp *)
  ae_iout : reply;       (* chip_get_iout *)
  ae_op_freq : reply     (* chip_get_op_freq *)
}.

(** The manufacturer gate of [p9221_align_work]; [false]: the work
    returns. *)
Definition align_mfg_check (e : align_env) : M bool :=
  c <- get ;;
  modify (set_mfg_check_count (s32 (mfg_check_count c + 1))) ;;
  r <- chip_get_tx_mfg_code (mfg c) (ae_mfg e) ;;
  modify (set_mfg (snd r)) ;;
  if fst r <? 0 then
    dev_err "cannot read MFG_CODE (%d)\n" [AInt (fst r)] ;;
    Ret false
  else if snd r =? 0 then
    (* No mfg update. Will check again on next schedule *)
    Ret false
  else
    capable <- (if negb (snd r =? WLC_MFG_GOOGLE) then Ret false
                else p9221_is_epp (ae_epp e)) ;;
    if negb capable then
      logbuffer_log "align: not align capable mfg: 0x%x" [AInt (snd r)] ;;
      cancel_delayed_work align_work ;;
      modify (set_alignment_capable ALIGN_MFG_FAILED) ;;
      Ret false
    else
      modify (set_alignment_capable ALIGN_MFG_PASSED) ;;
      Ret true.

(** The moving average of the output current; the value is
    [current_scaling]. *)
Definition align_current_scaling (e : align_env) : M Z :=
  c <- get ;;
  r <- chip_get_iout 0 (ae_iout e) ;;
  current_now <-
    (if nonzero (fst r) then
       logbuffer_log "align: failed to read IOUT" [] ;; Ret 0
     else Ret (snd r)) ;;
  let current_filter_sample :=
    current_filtered c / WLC_CURRENT_FILTER_LENGTH in
  (if current_sample_cnt c <? WLC_CURRENT_FILTER_LENGTH then
     modify (set_current_sample_cnt (current_sample_cnt c + 1))
   else
     modify (set_current_filtered
               (u32 (current_filtered c - current_filter_sample)))) ;;
  c <- get ;;
  modify (set_current_filtered
            (u32 (current_filtered c
                  + current_now / WLC_CURRENT_FILTER_LENGTH))) ;;
  c <- get ;;
  Ret (u32 (alignment_scalar (pdata c) * current_filtered c)).

(** The loop [for (i = 0; i < align_buckets; i += 1)] with [n] rounds left:
    the first bucket [i] with [freq[i] < wlc_adj_freq <= freq[i + 1]]. *)
Fixpoint align_find_bucket (freq : list Z) (wlc_adj_freq : Z) (n i : nat)
  : option nat :=
  match n with
  | O => None
  | S n' =>
      if (wlc_adj_freq >? nth i freq 0)
         && (wlc_adj_freq <=? nth (S i) freq 0)
      then Some i
      else align_find_bucket freq wlc_adj_freq n' (S i)
  end.

(** The configured breakpoints are ascending. *)
Fixpoint ascendingb (freq : list Z) : bool :=
  match freq with
  | a :: ((b :: _) as rest) => (a <=? b) && ascendingb rest
  | _ => true
  end.

(** [p9221_align_work] from the computation of [align_buckets] on: the
    score of the adjusted frequency and its publication. *)
Definition align_evaluate (freq : list Z) (wlc_freq current_scaling : Z)
  : M outcome :=
  c <- get ;;
  let align_buckets := s32 (nb_alignment_freq (pdata c) - 1) in
  modify (set_alignment (-1)) ;;
  let wlc_adj_freq := s32 (u32 (wlc_freq + current_scaling)) in
  if wlc_adj_freq <? nth 0 freq 0 then
    logbuffer_log "align: freq below range" [] ;;
    Ret Done
  else
    match align_find_bucket freq wlc_adj_freq (Z.to_nat align_buckets) 0 with
    | None =>
        logbuffer_log "align: freq above range" [] ;;
        Ret Done
    | Some i =>
        match c_div (s32 (WLC_ALIGNMENT_MAX * Z.of_nat i))
                    (s32 (align_buckets - 1)) with
        | None => Ret DivideByZero
        | Some score =>
            modify (set_alignment score) ;;
            c <- get ;;
            if alignment c =? alignment_last c then Ret Done
            else
              (* Frequency needs to be higher than frequency + hysteresis
                 before increasing alignment score. *)
              let wlc_freq_threshold :=
                s32 (u32 (nth i freq 0 + alignment_hysteresis (pdata c))) in
              if (alignment c <? alignment_last c)
                 || (wlc_adj_freq >=? wlc_freq_threshold) then
                schedule_work uevent_work ;;
                logbuffer_log
                  "align: alignment=%i. op_freq=%u. current_avg=%u"
                  [AInt (alignment c); AInt wlc_freq;
                   AInt (current_filtered c)] ;;
                modify (set_alignment_last (alignment c)) ;;
                Ret Done
              else Ret Done
        end
    end.

(** [p9221_align_work] up to the read of the operating frequency: the
    breakpoints, [wlc_freq] and [current_scaling], or [None] when the work
    returns before it evaluates a score. *)
Definition align_measure (e : align_env) : M (option (list Z * Z * Z)) :=
  c <- get ;;
  match alignment_freq (pdata c) with
  | None => Ret None
  | Some freq =>
      modify (set_alignment (-1)) ;;
      if negb (online c) then Ret None
      else
        (* Always reschedule if alignment_capable is 1.
           Check 10 times if alignment_capble is still 0. *)
        when ((mfg_check_count c <? 10)
              || match alignment_capable c with
                 | ALIGN_MFG_PASSED => true | _ => false end)
          (schedule_delayed_work align_work P9221_ALIGN_DELAY_MS) ;;
        go <- (match alignment_capable c with
               | ALIGN_MFG_CHECKING => align_mfg_check e
               | _ => Ret true
               end) ;;
        if negb go then Ret None
        else
          current_scaling <-
            (if alignment_scalar (pdata c) =? 0 then Ret 0
             else align_current_scaling e) ;;
          r <- chip_get_op_freq 0 (ae_op_freq e) ;;
          if nonzero (fst r) then
            logbuffer_log "align: failed to read op_freq" [] ;;
            Ret None
          else
            Ret (Some (freq, u32 (P9221_KHZ_TO_HZ (snd r)), current_scaling))
  end.

Definition p9221_align_work (e : align_env) : M outcome :=
  m <- align_measure e ;;
  match m with
  | None => Ret Done
  | Some (freq, wlc_freq, current_scaling) =>
      align_evaluate freq wlc_freq current_scaling
  end.

(** ** Going offline *)

Definition p9221_abort_transfers : M unit :=
  (* Abort all transfers *)
  cancel_delayed_work tx_work ;;
  modify (set_tx_busy false) ;;
  modify (set_tx_done true) ;;
  modify (set_rx_done true) ;;
  modify (set_rx_len 0) ;;
  sysfs_notify "txbusy" ;;
  sysfs_notify "txdone" ;;
  sysfs_notify "rxdone".

(** Put the default ICL back to BPP, reset OCP voter.  [io] answers the two
    votes. *)
Definition p9221_vote_defaults (io : Z * Z) : M unit :=
  c <- get ;;
  if negb (dc_icl_votable c) then
    dev_err "Could not vote DC_ICL - no votable\n" []
  else
    ret <- vote DC_ICL true P9221_WLC_VOTER true P9221_DC_ICL_BPP_UA
             (fst io) ;;
    when (nonzero ret) (dev_err "Could not vote DC_ICL %d\n" [AInt ret]) ;;
    let ocp_icl := if dc_icl_epp c >? 0 then dc_icl_epp c
                   else P9221_DC_ICL_EPP_UA in
    ret <- vote DC_ICL true P9221_OCP_VOTER true ocp_icl (snd io) ;;
    when (nonzero ret)
      (dev_err "Could not reset OCP DC_ICL voter %d\n" [AInt ret]).

(** [ans] answers [alarm_try_to_cancel]. *)
Definition p9221_icl_ramp_reset (ans : Z) : M unit :=
  c <- get ;;
  dev_info "ICL ramp reset, ramp=%d\n" [AInt (Z.b2z (icl_ramp c))] ;;
  modify (set_icl_ramp false) ;;
  ret <- alarm_try_to_cancel ans ;;
  when (ret <? 0) (dev_warn "Couldn't cancel icl_ramp_alarm\n" []) ;;
  cancel_delayed_work icl_ramp_work.

Record offline_env := {
  of_cancel : Z;          (* p9221_icl_ramp_reset *)
  of_votes : Z * Z        (* p9221_vote_defaults *)
}.

Definition p9221_set_offline (e : offline_env) : M unit :=
  dev_info "Set offline\n" [] ;;
  logbuffer_log "offline\n" [] ;;
  modify (set_online false) ;;
  modify (set_force_bpp false) ;;
  modify (set_chg_on_rtx false) ;;
  (* Reset PP buf so we can get a new serial number next time around *)
  modify (set_pp_buf_valid false) ;;
  c <- get ;;
  modify (set_pp_buf (repeat Byte.x00 (List.length (pp_buf c)))) ;;
  p9221_abort_transfers ;;
  cancel_delayed_work dcin_work ;;
  (* Reset alignment value when charger goes offline *)
  cancel_delayed_work align_work ;;
  modify (set_align WLC_ALIGN_ERROR) ;;
  modify (set_align_count 0) ;;
  modify (set_alignment (-1)) ;;
  modify (set_alignment_capable ALIGN_MFG_FAILED) ;;
  modify (set_mfg 0) ;;
  schedule_work uevent_work ;;
  p9221_icl_ramp_reset (of_cancel e) ;;
  del_timer vrect_timer ;;
  p9221_vote_defaults (of_votes e) ;;
  c <- get ;;
  when (enabled c) (mod_delayed_work dcin_pon_work P9221_DCIN_PON_DELAY_MS).

(** ** The notifier work *)

Record ramp_env := {
  rs_epp : epp_env;       (* p9221_is_epp *)
  rs_cancel : Z           (* p9221_icl_ramp_reset *)
}.

Definition p9221_icl_ramp_start (e : ramp_env) : M unit :=
  c <- get ;;
  let no_ramp := (icl_ramp_delay_ms (pdata c) =? -1)
                 || (icl_ramp_ua c =? 0) in
  (* Only ramp on BPP at this time *)
  is_epp <- p9221_is_epp (rs_epp e) ;;
  if is_epp || no_ramp then Ret tt
  else
    p9221_icl_ramp_reset (rs_cancel e) ;;
    c <- get ;;
    dev_info "ICL ramp set alarm %dms, %dua, ramp=%d\n"
      [AInt (icl_ramp_delay_ms (pdata c)); AInt (icl_ramp_ua c);
       AInt (Z.b2z (icl_ramp c))] ;;
    alarm_start_relative (icl_ramp_delay_ms (pdata c)).

(** [ans] answers [power_supply_get_property]. *)
Definition p9221_has_dc_in (ans : reply) : M Z :=
  c <- get ;;
  if negb (dc_psy c) then Ret (- EINVAL)
  else
    r <- power_supply_get_present ans ;;
    if fst r <? 0 then
      dev_err "Error getting charging status: %d\n" [AInt (fst r)] ;;
      Ret (- EINVAL)
    else Ret (Z.b2z (nonzero (snd r))).

(** The loop of [p9221_set_bpp_vout] with [n] rounds left; [io i] answers
    [chip_set_vout_max] and [chip_get_vout_max] in round [i]. *)
Fixpoint set_bpp_vout_loop (io : nat -> Z * reply) (n i : nat) : M Z :=
  match n with
  | O => Ret (- ETIMEDOUT)
  | S n' =>
      let vout_5000mv := 5000 in
      ret <- chip_set_vout_max vout_5000mv (fst (io i)) ;;
      if ret <? 0 then
        dev_err "cannot set VOUT (%d)\n" [AInt ret] ;;
        Ret ret
      else
        r <- chip_get_vout_max 0 (snd (io i)) ;;
        if fst r <? 0 then
          dev_err "cannot read VOUT (%d)\n" [AInt (fst r)] ;;
          Ret (fst r)
        else if snd r =? vout_5000mv then Ret 0
        else
          msleep 10 ;;
          set_bpp_vout_loop io n' (S i)
  end.

Definition p9221_set_bpp_vout (io : nat -> Z * reply) : M Z :=
  set_bpp_vout_loop io 10 0.

Record neg_power_env := {
  np_power : reply;               (* P9221R5_EPP_CUR_NEGOTIATED_POWER_REG *)
  np_mfg : reply;                 (* chip_get_tx_mfg_code *)
  np_status : reply;              (* P9221_STATUS_REG *)
  np_vout : nat -> Z * reply      (* p9221_set_bpp_vout *)
}.

(** return <0 on error, 0 on done, 1 on keep trying *)
Definition p9221_notifier_check_neg_power (e : neg_power_env) : M Z :=
  r <- p9221_reg_read_8 P9221R5_EPP_CUR_NEGOTIATED_POWER_REG 0 (np_power e) ;;
  let np8 := snd r in
  if fst r <? 0 then
    dev_err "cannot read EPP_NEG_POWER (%d)\n" [AInt (fst r)] ;;
    Ret (- EIO)
  else
    (* the code up to the label [done:]; [None]: go on to [done:] *)
    early <-
      (if np8 >=? P9221_NEG_POWER_10W then
         r <- chip_get_tx_mfg_code 0 (np_mfg e) ;;
         let mfg := snd r in
         if fst r <? 0 then
           dev_err "cannot read MFG_CODE (%d)\n" [AInt (fst r)] ;;
           Ret (Some (- EIO))
         else
           (* EPP unless dealing with P9221_PTMC_EPP_TX_1912 *)
           modify (set_force_bpp (mfg =? P9221_PTMC_EPP_TX_1912)) ;;
           c <- get ;;
           dev_info "np=%x mfg=%x fb=%d\n"
             [AInt np8; AInt mfg; AInt (Z.b2z (force_bpp c))] ;;
           Ret None
       else
         r <- p9221_reg_read_16 P9221_STATUS_REG 0 (np_status e) ;;
         let status_reg := snd r in
         if nonzero (fst r) then
           dev_err "failed to read P9221_STATUS_REG reg: %d\n"
             [AInt (fst r)] ;;
           Ret (Some (fst r))
         else if Z.land status_reg P9221_STAT_VOUT =? 0 then
           (* VOUT for standard BPP comes much earlier that VOUT for EPP *)
           Ret (Some 1)
         else
           (* normal BPP TX or EPP at less than 10W *)
           modify (set_force_bpp true) ;;
           dev_info "np=%x normal BPP or EPP less than 10W (%d)\n"
             [AInt np8; AInt (fst r)] ;;
           Ret None) ;;
    match early with
    | Some ret => Ret ret
    | None =>
        c <- get ;;
        (if force_bpp c then
           ret <- p9221_set_bpp_vout (np_vout e) ;;
           when (nonzero ret) (dev_err "cannot change VOUT (%d)\n" [AInt ret])
         else Ret tt) ;;
        Ret 0
    end.

Record neg9382_env := {
  n9_epp : epp_env;       (* p9221_is_epp *)
  n9_power : reply        (* P9221R5_EPP_CUR_NEGOTIATED_POWER_REG *)
}.

Definition p9382_check_neg_power (e : neg9382_env) : M unit :=
  modify (set_dc_icl_epp_neg P9221_DC_ICL_EPP_UA) ;;
  c <- get ;;
  stop <- (if chip_id c <? P9382A_CHIP_ID then Ret true
           else is_epp <- p9221_is_epp (n9_epp e) ;; Ret (negb is_epp)) ;;
  if stop then Ret tt
  else
    c <- get ;;
    if is_mfg_google c then
      modify (set_dc_icl_epp_neg P9382A_DC_ICL_EPP_1000) ;;
      dev_info "mfg code=%02x, use dc_icl=%dmA\n"
        [AInt WLC_MFG_GOOGLE; AInt P9382A_DC_ICL_EPP_1000]
    else
      r <- p9221_reg_read_8 P9221R5_EPP_CUR_NEGOTIATED_POWER_REG 0
             (n9_power e) ;;
      let np8 := snd r in
      if nonzero (fst r) then
        dev_err "Could not read Tx neg power: %d\n" [AInt (fst r)]
      else if np8 <? P9382A_NEG_POWER_10W then
        (* base on firmware 17: Vout is 5V when Tx<10W, use BPP ICL *)
        modify (set_dc_icl_epp_neg P9221_DC_ICL_BPP_UA) ;;
        dev_info "EPP less than 10W,use dc_icl=%dmA,np=%02x\n"
          [AInt (Z.quot P9221_DC_ICL_BPP_UA 1000); AInt np8]
      else if np8 <? P9382A_NEG_POWER_11W then
        modify (set_dc_icl_epp_neg P9382A_DC_ICL_EPP_1000) ;;
        dev_info "Use dc_icl=%dmA,np=%02x\n"
          [AInt (Z.quot P9382A_DC_ICL_EPP_1000 1000); AInt np8]
      else Ret tt.

Record dc_icl_env := {
  di_find : bool;         (* find_votable("DC_ICL") != NULL *)
  di_epp : epp_env;       (* p9221_is_epp, first call *)
  di_epp_again : epp_env; (* p9221_is_epp, second call *)
  di_vote_aicl : Z;       (* vote(..., DCIN_AICL_VOTER, ...) *)
  di_vote : Z;            (* vote(..., P9221_WLC_VOTER, ...) *)
  di_rx_ilim : Z          (* chip_set_rx_ilim *)
}.

Definition p9221_set_dc_icl (e : dc_icl_env) : M Z :=
  c <- get ;;
  have <- (if negb (dc_icl_votable c) then
             found <- find_votable DC_ICL (di_find e) ;;
             modify (set_dc_icl_votable found) ;;
             Ret found
           else Ret true) ;;
  if negb have then
    dev_err "Could not get votable: DC_ICL\n" [] ;;
    Ret (- ENODEV)
  else
    c <- get ;;
    (* Default to BPP ICL *)
    let icl := P9221_DC_ICL_BPP_UA in
    let icl := if icl_ramp c then icl_ramp_ua c else icl in
    let icl := if nonzero (dc_icl_bpp c) then dc_icl_bpp c else icl in
    is_epp <- p9221_is_epp (di_epp e) ;;
    c <- get ;;
    let icl := if is_epp then dc_icl_epp_neg c else icl in
    is_epp <- p9221_is_epp (di_epp_again e) ;;
    c <- get ;;
    let icl := if is_epp && nonzero (dc_icl_epp c) then dc_icl_epp c
               else icl in
    dev_info "Setting ICL %duA ramp=%d\n"
      [AInt icl; AInt (Z.b2z (icl_ramp c))] ;;
    (if icl_ramp c then
       _ <- vote DC_ICL true DCIN_AICL_VOTER true icl (di_vote_aicl e) ;;
       Ret tt
     else Ret tt) ;;
    ret <- vote DC_ICL true P9221_WLC_VOTER true icl (di_vote e) ;;
    when (nonzero ret) (dev_err "Could not vote DC_ICL %d\n" [AInt ret]) ;;
    (* Increase the IOUT limit; what the call returns is dropped *)
    _ <- chip_set_rx_ilim (P9221_UA_TO_MA P9221R5_ILIM_MAX_UA)
           (di_rx_ilim e) ;;
    when (nonzero ret)
      (dev_err "Could not set rx_iout limit reg: %d\n" [AInt ret]) ;;
    Ret ret.

Record check_dc_env := {
  cd_neg_power : neg_power_env;   (* p9221_notifier_check_neg_power *)
  cd_requeued : bool;             (* schedule_delayed_work(notifier_work) *)
  cd_dc_in : reply;               (* p9221_has_dc_in *)
  cd_vout : reply;                (* chip_get_vout *)
  cd_neg9382 : neg9382_env;       (* p9382_check_neg_power *)
  cd_dc_icl : dc_icl_env;         (* p9221_set_dc_icl *)
  cd_fod : fod_env;               (* p9221_write_fod *)
  cd_ramp : ramp_env;             (* p9221_icl_ramp_start *)
  cd_online : online_env;         (* p9221_set_online *)
  cd_offline : offline_env        (* p9221_set_offline *)
}.

(** 2 P9221_NOTIFIER_DELAY_MS from VRECTON *)
Definition p9221_notifier_check_dc (e : check_dc_env) : M unit :=
  modify (set_check_dc false) ;;
  c <- get ;;
  returned <-
    (if (chip_id c <? P9382A_CHIP_ID) && check_np c then
       ret <- p9221_notifier_check_neg_power (cd_neg_power e) ;;
       requeued <-
         (if ret >? 0 then
            queued <- schedule_delayed_work_queued notifier_work
                        P9221_CHECK_NP_DELAY_MS (cd_requeued e) ;;
            if queued then Ret true
            else
              dev_err "cannot reschedule check_np (%d)\n" [AInt 0] ;;
              Ret false
          else Ret false) ;;
       if requeued then Ret true
       else
         (* done *)
         modify (set_check_np false) ;;
         Ret false
     else Ret false) ;;
  if returned then Ret tt
  else
    dc_in <- p9221_has_dc_in (cd_dc_in e) ;;
    if dc_in <? 0 then Ret tt
    else
      dev_info "dc status is %d\n" [AInt dc_in] ;;
      (* We now have confirmation from DC_IN, kill the timer,
         charger->online will be set by this function. *)
      cancel_delayed_work dcin_work ;;
      del_timer vrect_timer ;;
      c <- get ;;
      (if log c then
         r <- chip_get_vout 0 (cd_vout e) ;;
         logbuffer_log "check_dc: online=%d present=%d VOUT=%uuV (%d)"
           [AInt (Z.b2z (online c)); AInt dc_in;
            AInt (if fst r =? 0 then u32 (P9221_MV_TO_UV (snd r)) else 0);
            AInt (fst r)]
       else Ret tt) ;;
      (* Always write FOD, check dc_icl, send CSP *)
      (if nonzero dc_in then
         p9382_check_neg_power (cd_neg9382 e) ;;
         _ <- p9221_set_dc_icl (cd_dc_icl e) ;;
         p9221_write_fod (cd_fod e) ;;
         c <- get ;;
         if negb (nonzero (dc_icl_bpp c))
         then p9221_icl_ramp_start (cd_ramp e) else Ret tt
       else Ret tt) ;;
      (* We may have already gone online during check_det *)
      c <- get ;;
      (if Z.b2z (online c) =? dc_in then Ret tt
       else if nonzero dc_in then p9221_set_online (cd_online e)
       else p9221_set_offline (cd_offline e)) ;;
      c <- get ;;
      dev_info "trigger wc changed on:%d in:%d\n"
        [AInt (Z.b2z (online c)); AInt dc_in] ;;
      power_supply_changed.

(** P9221_NOTIFIER_DELAY_MS from VRECTON; the value is [relax]. *)
Definition p9221_notifier_check_det (e : online_env) : M bool :=
  del_timer vrect_timer ;;
  c <- get ;;
  relax <-
    (if online c && negb (nonzero (ben_state c)) then Ret true
     else
       dev_info "detected wlc, trigger wc changed\n" [] ;;
       (* b/130637382 workaround for 2622,2225,2574,1912 *)
       modify (set_check_np true) ;;
       (* will send out a FOD but is_epp() is still invalid *)
       p9221_set_online e ;;
       power_supply_changed ;;
       (* Check dc-in every seconds as long as we are in field. *)
       dev_info "start dc-in timer\n" [] ;;
       cancel_delayed_work_sync dcin_work ;;
       schedule_delayed_work dcin_work P9221_DCIN_TIMEOUT_MS ;;
       Ret false) ;;
  (* done: *)
  modify (set_check_det false) ;;
  Ret relax.

Record notifier_env := {
  nw_stack : Z;             (* what the stack slot of [ret] happens to hold *)
  nw_q_factor : Z;          (* p9221_reg_write_8(P9221R5_EPP_Q_FACTOR_REG) *)
  nw_renegotiate : Z;       (* chip_renegotiate_pwr *)
  nw_vrect : reply;         (* chip_get_vrect *)
  nw_det : online_env;      (* p9221_notifier_check_det *)
  nw_dc : check_dc_env      (* p9221_notifier_check_dc *)
}.

(** A read of the local [int ret;], declared without initializer: [None]
    until something is stored, and then the read yields what the stack
    held. *)
Definition read_ret (ret : option Z) (stack : Z) : M Z :=
  match ret with
  | Some v => Ret v
  | None => emit (EvReadUninit "ret") ;; Ret stack
  end.

Definition p9221_notifier_work (e : notifier_env) : M unit :=
  c <- get ;;
  let relax := true in
  let ret : option Z := None in
  dev_info "Notifier work: on:%d ben:%d dc:%d np:%d det:%d\n"
    [AInt (Z.b2z (online c)); AInt (ben_state c); AInt (Z.b2z (check_dc c));
     AInt (Z.b2z (check_np c)); AInt (Z.b2z (check_det c))] ;;
  ret <- (if negb (q_value (pdata c) =? -1) then
            r <- p9221_reg_write_8 P9221R5_EPP_Q_FACTOR_REG
                   (q_value (pdata c)) (nw_q_factor e) ;;
            when (r <? 0)
              (dev_err "cannot write Q=%d (%d)\n"
                 [AInt (q_value (pdata c)); AInt r]) ;;
            Ret (Some r)
          else Ret ret) ;;
  (if negb (epp_rp_value (pdata c) =? -1) then
     _ <- chip_renegotiate_pwr (nw_renegotiate e) ;;
     v <- read_ret ret (nw_stack e) ;;
     when (v <? 0)
       (dev_err "cannot renegotiate power=%d (%d)\n"
          [AInt (epp_rp_value (pdata c)); AInt v])
   else Ret tt) ;;
  (if log c then
     r <- chip_get_vrect 0 (nw_vrect e) ;;
     c <- get ;;
     logbuffer_log "notifier: on:%d ben:%d dc:%d det:%d VRECT=%uuV (%d)"
       [AInt (Z.b2z (online c)); AInt (ben_state c);
        AInt (Z.b2z (check_dc c)); AInt (Z.b2z (check_det c));
        AInt (if fst r =? 0 then u32 (P9221_MV_TO_UV (snd r)) else 0);
        AInt (fst r)]
   else Ret tt) ;;
  c <- get ;;
  relax <- (if check_det c then p9221_notifier_check_det (nw_det e)
            else Ret relax) ;;
  c <- get ;;
  (if check_dc c then p9221_notifier_check_dc (nw_dc e) else Ret tt) ;;
  when relax pm_relax.

(** The power supply notifier: [prop_changed] is
    [event == PSY_EVENT_PROP_CHANGED], [is_dc] is whether the supply is the
    one named "dc", [queued] answers [schedule_delayed_work]. *)
Definition p9221_notifier_cb (prop_changed is_dc queued : bool) : M unit :=
  c <- get ;;
  if nonzero (ben_state c) then Ret tt
  else if negb prop_changed then Ret tt
  else
    (if is_dc then
       modify (set_dc_psy true) ;;
       modify (set_check_dc true)
     else Ret tt) ;;
    c <- get ;;
    if negb (check_dc c) then Ret tt
    else
      pm_stay_awake ;;
      q <- schedule_delayed_work_queued notifier_work
             P9221_NOTIFIER_DELAY_MS queued ;;
      when (negb q) pm_relax.

(** ** Interrupts *)

Record rtx_irq_env := {
  ri_sys_mode : reply;      (* chip_get_sys_mode *)
  ri_status : reply;        (* P9221_STATUS_REG *)
  ri_set_rtx : rtx_env;     (* p9382_set_rtx(charger, false) *)
  ri_csp : reply            (* P9382A_CHARGE_STAT_REG *)
}.

(** Handler for rtx mode *)
Definition rtx_irq_handler (e : rtx_irq_env) (irq_src : Z) : M unit :=
  go <- (if nonzero (Z.land irq_src P9221R5_STAT_MODECHANGED) then
           r <- chip_get_sys_mode 0 (ri_sys_mode e) ;;
           if nonzero (fst r) then
             dev_err "Failed to read P9221_SYSTEM_MODE_REG: %d\n"
               [AInt (fst r)] ;;
             Ret false
           else
             dev_info "P9221_SYSTEM_MODE_REG reg: %02x\n" [AInt (snd r)] ;;
             logbuffer_log_rtx "SYSTEM_MODE_REG=%02x" [AInt (snd r)] ;;
             Ret true
         else Ret true) ;;
  if negb go then Ret tt
  else
    r <- p9221_reg_read_16 P9221_STATUS_REG 0 (ri_status e) ;;
    let status_reg := snd r in
    if nonzero (fst r) then
      dev_err "failed to read P9221_STATUS_REG reg: %d\n" [AInt (fst r)]
    else
      (if nonzero (Z.land irq_src P9382_STAT_TXCONFLICT) then
         modify (set_rtx_err RTX_TX_CONFLICT) ;;
         dev_info "TX conflict, disable RTx. STATUS_REG=%04x"
           [AInt status_reg] ;;
         logbuffer_log_rtx "TX conflict, disable RTx. STATUS_REG=%04x"
           [AInt status_reg] ;;
         _ <- p9382_set_rtx (ri_set_rtx e) false ;;
         Ret tt
       else Ret tt) ;;
      (if nonzero (Z.land irq_src P9382_STAT_RXCONNECTED) then
         let attached := nonzero (Z.land status_reg P9382_STAT_RXCONNECTED) in
         logbuffer_log_rtx "Rx is %s. STATUS_REG=%04x"
           [AStr (if attached then "connected" else "disconnect");
            AInt status_reg] ;;
         schedule_work uevent_work ;;
         if attached then
           cancel_delayed_work_sync txid_work ;;
           schedule_delayed_work txid_work TXID_SEND_DELAY_MS
         else modify (set_rtx_csp 0)
       else Ret tt) ;;
      if nonzero (Z.land irq_src P9382_STAT_CSP)
         && nonzero (Z.land status_reg P9382_STAT_CSP) then
        r <- p9221_reg_read_8 P9382A_CHARGE_STAT_REG 0 (ri_csp e) ;;
        if nonzero (fst r) then
          logbuffer_log_rtx "failed to read CSP_REG reg: %d" [AInt (fst r)]
        else
          modify (set_rtx_csp (snd r)) ;;
          schedule_work uevent_work
      else Ret tt.

Record dc_reset_env := {
  dr_sys_mode : reply;      (* chip_get_sys_mode *)
  dr_status : reply;        (* P9221_STATUS_REG *)
  dr_by_name : bool;        (* power_supply_get_by_name("dc") != NULL *)
  dr_set : Z                (* power_supply_set_property(DC_RESET) *)
}.

(** Built with CONFIG_DC_RESET. *)
Definition p9221_dc_reset_needed (e : dc_reset_env) (irq_src : Z) : M bool :=
  c <- get ;;
  if (needs_dcin_reset (pdata c) =? P9221_WC_DC_RESET_MODECHANGED)
     && (nonzero (Z.land irq_src P9221R5_STAT_MODECHANGED)
         || negb (nonzero irq_src)) then
    r <- chip_get_sys_mode 0 (dr_sys_mode e) ;;
    let mode_reg := snd r in
    if fst r <? 0 then
      dev_err "Failed to read P9221_SYSTEM_MODE_REG: %d\n" [AInt (fst r)] ;;
      (* Signal dc_reset when register read fails with -ENODEV. *)
      Ret (fst r =? - ENODEV)
    else
      dev_info "P9221_SYSTEM_MODE_REG reg: %02x\n" [AInt mode_reg] ;;
      Ret (negb ((mode_reg =? P9412_SYS_OP_MODE_WPC_EXTD)
                 || (mode_reg =? P9412_SYS_OP_MODE_PROPRIETARY)
                 || (mode_reg =? P9412_SYS_OP_MODE_WPC_BASIC)))
  else if (needs_dcin_reset (pdata c) =? P9221_WC_DC_RESET_VOUTCHANGED)
          && nonzero (Z.land irq_src P9221R5_STAT_VOUTCHANGED) then
    r <- p9221_reg_read_16 P9221_STATUS_REG 0 (dr_status e) ;;
    let status_reg := snd r in
    if fst r <? 0 then
      dev_err "Failed to read P9221_STATUS_REG: %d\n" [AInt (fst r)] ;;
      Ret (fst r =? - ENODEV)
    else
      dev_info "P9221_STATUS_REG reg: %04x\n" [AInt status_reg] ;;
      Ret (Z.land status_reg P9221_STAT_VOUT =? 0)
  else Ret false.

Definition p9221_check_dc_reset (e : dc_reset_env) (irq_src : Z) : M unit :=
  if negb CONFIG_DC_RESET then Ret tt
  else
    needed <- p9221_dc_reset_needed e irq_src ;;
    if negb needed then Ret tt
    else
      c <- get ;;
      (if negb (dc_psy c) then
         found <- power_supply_get_by_name_dc (dr_by_name e) ;;
         modify (set_dc_psy found)
       else Ret tt) ;;
      c <- get ;;
      res <- (if dc_psy c then
                (* Signal DC_RESET when wireless removal is sensed. *)
                power_supply_set_dc_reset 1 (dr_set e)
              else Ret (- ENODEV)) ;;
      when (res <? 0) (dev_err "unable to set DC_RESET, ret=%d" [AInt res]).

Record irq_handler_env := {
  ih_dc_reset : dc_reset_env;          (* p9221_check_dc_reset *)
  ih_over : over_env;                  (* p9221_over_handle *)
  ih_recv_size : reply;                (* chip_get_cc_recv_size *)
  ih_rx_data : Z * list Byte.byte;     (* chip_get_data_buf(rx_buf) *)
  ih_pp_data : Z * list Byte.byte      (* chip_get_data_buf(pp_buf) *)
}.

(** Handler for R5 and R7 chips *)
Definition p9221_irq_handler (e : irq_handler_env) (irq_src : Z) : M unit :=
  p9221_check_dc_reset (ih_dc_reset e) irq_src ;;
  when (nonzero (Z.land irq_src P9221R5_STAT_LIMIT_MASK))
    (p9221_over_handle (ih_over e) irq_src) ;;
  (* Receive complete *)
  (if nonzero (Z.land irq_src P9221R5_STAT_CCDATARCVD) then
     r <- chip_get_cc_recv_size 0 (ih_recv_size e) ;;
     rxlen <- (if nonzero (fst r) then
                 dev_err "Failed to read len: %d\n" [AInt (fst r)] ;;
                 Ret 0
               else Ret (snd r)) ;;
     if nonzero rxlen then
       c <- get ;;
       r <- chip_get_data_buf (rx_buf c) rxlen (ih_rx_data e) ;;
       modify (set_rx_buf (snd r)) ;;
       when (nonzero (fst r))
         (dev_err "Failed to read len: %d\n" [AInt (fst r)]) ;;
       (* [rx_len] is 16 bits wide *)
       modify (set_rx_len (u16 rxlen)) ;;
       modify (set_rx_done true) ;;
       sysfs_notify "rxdone"
     else Ret tt
   else Ret tt) ;;
  (* Send complete *)
  (if nonzero (Z.land irq_src P9221R5_STAT_CCSENDBUSY) then
     modify (set_tx_busy false) ;;
     modify (set_tx_done true) ;;
     cancel_delayed_work tx_work ;;
     sysfs_notify "txbusy" ;;
     sysfs_notify "txdone"
   else Ret tt) ;;
  (* Proprietary packet *)
  (if nonzero (Z.land irq_src P9221R5_STAT_PPRCVD) then
     c <- get ;;
     r <- chip_get_data_buf (pp_buf c) (Z.of_nat (List.length (pp_buf c)))
            (ih_pp_data e) ;;
     modify (set_pp_buf (snd r)) ;;
     when (nonzero (fst r))
       (dev_err "Failed to read PP len: %d\n" [AInt (fst r)]) ;;
     (* We only care about PP which come with 0x4F header *)
     modify (set_pp_buf_valid (byte_val (nth 0 (snd r) Byte.x00) =? 0x4F)) ;;
     dev_info "Received PP: %s\n" [AHex (map byte_val (snd r))] ;;
     (* Check if charging on a Tx phone *)
     let tmp := Z.land (byte_val (nth 4 (snd r) Byte.x00))
                       ACCESSORY_TYPE_MASK in
     modify (set_chg_on_rtx (tmp =? ACCESSORY_TYPE_PHONE)) ;;
     dev_info "chg_on_rtx=%d\n" [AInt (Z.b2z (tmp =? ACCESSORY_TYPE_PHONE))]
   else Ret tt) ;;
  (* CC Reset complete *)
  when (nonzero (Z.land irq_src P9221R5_STAT_CCRESET)) p9221_abort_transfers.

Record irq_env := {
  it_int : reply;               (* P9221_INT_REG *)
  it_clear : Z * Z;             (* p9221_clear_interrupts *)
  it_rtx : rtx_irq_env;         (* rtx_irq_handler *)
  it_queued : bool;             (* schedule_delayed_work(notifier_work) *)
  it_handler : irq_handler_env  (* p9221_irq_handler *)
}.

(** The value is [IRQ_HANDLED] on every path but the first, which returns
    -EAGAIN; it is not modelled. *)
Definition p9221_irq_thread (e : irq_env) : M unit :=
  c <- get ;;
  if negb (resume_complete c) then Ret tt
  else
    r <- p9221_reg_read_16 P9221_INT_REG 0 (it_int e) ;;
    let irq_src := snd r in
    if nonzero (fst r) then
      dev_err "Failed to read INT reg: %d\n" [AInt (fst r)]
    else
      (* TODO: interrupt storm with irq_src = when in rTX mode *)
      (if negb (nonzero (ben_state c)) then
         dev_info "INT: %04x\n" [AInt irq_src] ;;
         logbuffer_log "INT=%04x on:%d"
           [AInt irq_src; AInt (Z.b2z (online c))]
       else Ret tt) ;;
      if negb (nonzero irq_src) then Ret tt
      else
        ret <- p9221_clear_interrupts (it_clear e) irq_src ;;
        if nonzero ret then
          dev_err "Failed to clear INT reg: %d\n" [AInt ret]
        else if nonzero (ben_state c) then
          (* todo interrupt handling for rx *)
          logbuffer_log_rtx "INT=%04x" [AInt irq_src] ;;
          rtx_irq_handler (it_rtx e) irq_src
        else
          (if nonzero (Z.land irq_src P9221_STAT_VRECT) then
             dev_info "Received VRECTON, online=%d\n"
               [AInt (Z.b2z (online c))] ;;
             if negb (online c) then
               modify (set_check_det true) ;;
               pm_stay_awake ;;
               q <- schedule_delayed_work_queued notifier_work
                      P9221_NOTIFIER_DELAY_MS (it_queued e) ;;
               when (negb q) pm_relax
             else Ret tt
           else Ret tt) ;;
          p9221_irq_handler (it_handler e) irq_src.

(** ** Timers and deferred work *)

Record dcin_env := {
  dw_status : reply;          (* P9221_STATUS_REG *)
  dw_offline : offline_env    (* p9221_set_offline *)
}.

Definition p9221_dcin_work (e : dcin_env) : M unit :=
  r <- p9221_reg_read_16 P9221_STATUS_REG 0 (dw_status e) ;;
  let status_reg := snd r in
  c <- get ;;
  if nonzero (fst r) then
    dev_info "timeout waiting for dc-in, online=%d\n"
      [AInt (Z.b2z (online c))] ;;
    logbuffer_log "dc_in: timeout online=%d" [AInt (Z.b2z (online c))] ;;
    when (online c) (p9221_set_offline (dw_offline e)) ;;
    power_supply_changed ;;
    pm_relax
  else
    schedule_delayed_work dcin_work P9221_DCIN_TIMEOUT_MS ;;
    logbuffer_log "dc_in: check online=%d status=%x"
      [AInt (Z.b2z (online c)); AInt status_reg].

Record rtx_disable_env := {
  rd_client_vote : Z;         (* get_client_vote(tx_icl_votable, ...) *)
  rd_set_rtx : rtx_env        (* p9382_set_rtx(charger, false) *)
}.

Definition p9382_rtx_disable_work (e : rtx_disable_env) : M unit :=
  (* Set error reason if THERMAL_DAEMON_VOTER want to disable rtx *)
  tx_icl <- get_client_vote TX_ICL THERMAL_DAEMON_VOTER (rd_client_vote e) ;;
  (if tx_icl =? 0 then
     modify (set_rtx_err RTX_OVER_TEMP) ;;
     logbuffer_log_rtx "tdv vote %d to tx_icl" [AInt tx_icl]
   else Ret tt) ;;
  (* Disable rtx mode *)
  ret <- p9382_set_rtx (rd_set_rtx e) false ;;
  when (nonzero ret) (dev_err "unable to disable rtx: %d\n" [AInt ret]).

(** ** The device as a state machine

    What drives the driver: interrupts, the power supply notifier, the
    deferred works and timers, and writes to the RTX attributes. *)
Inductive input :=
| IrqThread (e : irq_env)
| NotifierCb (prop_changed is_dc queued : bool)
| NotifierWork (e : notifier_env)
| DcinWork (e : dcin_env)
| AlignWork (e : align_env)
| ShowAlignment
| RtxStore (e : rtx_env) (buf0 count : Z)
| RtxBoostStore (buf0 count : Z)
| RtxDisableWork (e : rtx_disable_env).

Definition step (i : input) (c : p9221_charger_data) : p9221_charger_data :=
  match i with
  | IrqThread e => st (p9221_irq_thread e c)
  | NotifierCb prop_changed is_dc queued =>
      st (p9221_notifier_cb prop_changed is_dc queued c)
  | NotifierWork e => st (p9221_notifier_work e c)
  | DcinWork e => st (p9221_dcin_work e c)
  | AlignWork e => st (p9221_align_work e c)
  | ShowAlignment => st (p9221_show_alignment c)
  | RtxStore e buf0 count => st (rtx_store e buf0 count c)
  | RtxBoostStore buf0 count => st (p9382_set_rtx_boost buf0 count c)
  | RtxDisableWork e => st (p9382_rtx_disable_work e c)
  end.

(** The inputs are served one at a time, as the spec requires of the
    per-device execution context. *)
Fixpoint run_inputs (ins : list input) (c : p9221_charger_data)
  : p9221_charger_data :=
  match ins with
  | [] => c
  | i :: ins' => run_inputs ins' (step i c)
  end.

(** The state probe leaves: no RTX, nothing pending; the receive session
    is online when a transmitter was in the field already. *)
Definition probed (c : p9221_charger_data) : Prop :=
  ben_state c = RTX_BEN_DISABLED /\ check_det c = false /\ check_dc c = false.

(** The mutual exclusion of the receive session and RTX. *)
Definition exclusive (c : p9221_charger_data) : Prop :=
  ~ (online c = true /\ ben_state c <> RTX_BEN_DISABLED).

(** An input that asks for RTX: a write to the rtx attribute other than
    "0" ("1" enables, anything else is refused), or a write to rtx_boost
    other than "0". *)
Definition asks_rtx (i : input) : bool :=
  match i with
  | RtxStore _ buf0 _ => negb (buf0 =? 48)
  | RtxBoostStore buf0 _ => negb (buf0 =? 48)
  | _ => false
  end.

(** No detection is waiting for the notifier work. *)
Definition nothing_pending (c : p9221_charger_data) : bool :=
  negb (check_det c) && negb (check_dc c).

(** A run in which RTX is only asked for while no detection is pending. *)
Fixpoint rtx_asked_when_idle (ins : list input) (c : p9221_charger_data)
  : Prop :=
  match ins with
  | [] => True
  | i :: ins' =>
      (asks_rtx i = true -> nothing_pending c = true) /\
      rtx_asked_when_idle ins' (step i c)
  end.

End Driver.


(** ** Worked configuration

    Values for the header constants, used by the worked examples only. *)
Definition example_header : p9221_charger_h := {|
  P9221R5_STAT_OVV := 1;
  P9221R5_STAT_OVC := 2;
  P9221R5_STAT_OVT := 4;
  P9221R5_STAT_UV := 8;
  P9221R5_STAT_LIMIT_MASK := 15;
  P9221R5_STAT_CC_MASK := 0x1F00;
  P9221R5_STAT_VOUTCHANGED := 128;
  P9221R5_STAT_MODECHANGED := 32;
  P9221_STAT_VRECT := 64;
  P9221_STAT_VOUT := 128;
  P9382_STAT_RTX_MASK := 0x1F33;
  P9221_EOP_OVER_TEMP := 3;
  P9221_EOP_OVER_VOLT := 4;
  P9221_EOP_OVER_CURRENT := 5;
  P9221R5_NUM_FOD := 16;
  P9382A_CHIP_ID := 0x9381;
  P9412_SYS_OP_MODE_WPC_EXTD := 2;
  P9412_SYS_OP_MODE_PROPRIETARY := 3;
  P9221_EPP_THRESHOLD_UV := 7000000;
  P9221_WC_DC_RESET_VOUTCHANGED := 0;
  P9221_WC_DC_RESET_MODECHANGED := 1;
  P9382A_RTX_ICL_MAX_MA := 1350;
  P9221_MA_TO_UA := fun ma => ma * 1000;
  P9221_KHZ_TO_HZ := fun khz => khz * 1000;
  P9221_MV_TO_UV := fun mv => mv * 1000;
  P9221_ALIGN_DELAY_MS := 100;
  P9221_DCIN_TIMEOUT_MS := 1000;
  P9221_NOTIFIER_DELAY_MS := 100;
  P9221_CHECK_NP_DELAY_MS := 50;
  P9221_DCIN_PON_DELAY_MS := 250;
  TXID_SEND_DELAY_MS := 1000;
  P9221R5_STAT_CCDATARCVD := 0x200;
  P9221R5_STAT_CCSENDBUSY := 0x100;
  P9221R5_STAT_PPRCVD := 0x400;
  P9221R5_STAT_CCRESET := 0x1000;
  P9382_STAT_TXCONFLICT := 0x100;
  P9382_STAT_RXCONNECTED := 0x400;
  P9382_STAT_CSP := 0x10;
  ACCESSORY_TYPE_MASK := 0x7;
  ACCESSORY_TYPE_PHONE := 0x1;
  P9412_SYS_OP_MODE_WPC_BASIC := 1;
  P9221_DC_ICL_BPP_UA := 700000;
  P9221_DC_ICL_EPP_UA := 1100000;
  P9382A_DC_ICL_EPP_1000 := 1000000;
  P9221_NEG_POWER_10W := 20;
  P9382A_NEG_POWER_10W := 20;
  P9382A_NEG_POWER_11W := 22;
  P9221_PTMC_EPP_TX_1912 := 0x32;
  P9221R5_ILIM_MAX_UA := 1600000;
  P9221_UA_TO_MA := fun ua => ua / 1000;
  CONFIG_DC_RESET := false
|}.

Definition example_pdata : p9221_charger_platform_data := {|
  fod := []; fod_epp := []; fod_num := 0; fod_epp_num := 0;
  q_value := -1; epp_rp_value := -1; needs_dcin_reset := -1;
  nb_alignment_freq := 0; alignment_freq := None;
  alignment_scalar := WLC_ALIGN_DEFAULT_SCALAR;
  alignment_hysteresis := WLC_ALIGN_DEFAULT_HYSTERESIS;
  ben_gpio := 10; switch_gpio := 11; boost_gpio := -1;
  icl_ramp_delay_ms := -1
|}.

(** The device after probe with no transmitter in the field. *)
Definition example_charger : p9221_charger_data := {|
  pdata := example_pdata; chip_id := 0x9381; log := true;
  resume_complete := true; dc_psy := false;
  dc_icl_votable := true; tx_icl_votable := true;
  disable_dcin_en_votable := false;
  online := false; enabled := true; ben_state := RTX_BEN_DISABLED;
  rtx_err := RTX_NO_ERROR; rtx_csp := 0;
  check_det := false; check_dc := false; check_np := false;
  force_bpp := false; fake_force_epp := 0; mfg := 0; is_mfg_google := false;
  chg_on_rtx := false; dc_icl_bpp := 0; dc_icl_epp := 0;
  dc_icl_epp_neg := 0; icl_ramp := false; icl_ramp_ua := 0;
  tx_busy := false; tx_done := false; rx_done := false;
  rx_len := 0; rx_buf := []; pp_buf := []; pp_buf_valid := false;
  last_capacity := -1; cust_id := 0;
  align := WLC_ALIGN_ERROR; align_count := 0;
  alignment := -1; alignment_last := -1;
  alignment_capable := ALIGN_MFG_FAILED;
  current_filtered := 0; current_sample_cnt := 0; mfg_check_count := 0
|}.

(** An over-current interrupt that does not clear: every round reads the
    given current (in mA) and finds the over-current bit still set. *)
Definition persistent_ovc (ma : nat -> Z) : over_env := {|
  oe_icl := 1000000;
  oe_vote := 0;
  oe_poll := fun i => {| op_clear := (0, 0);
                         op_iout := Reply 0 (ma i);
                         op_status := Reply 0 2 |};
  oe_eop := (0, 0)
|}.

(** A receive session on a transmitter that passed the manufacturer gate,
    with the given alignment breakpoints. *)
Definition aligning_pdata (freq : list Z) : p9221_charger_platform_data := {|
  fod := []; fod_epp := []; fod_num := 0; fod_epp_num := 0;
  q_value := -1; epp_rp_value := -1; needs_dcin_reset := -1;
  nb_alignment_freq := Z.of_nat (List.length freq);
  alignment_freq := Some freq;
  alignment_scalar := WLC_ALIGN_DEFAULT_SCALAR;
  alignment_hysteresis := WLC_ALIGN_DEFAULT_HYSTERESIS;
  ben_gpio := 10; switch_gpio := 11; boost_gpio := -1;
  icl_ramp_delay_ms := -1
|}.

Definition aligning_charger (freq : list Z) (last : Z) : p9221_charger_data := {|
  pdata := aligning_pdata freq; chip_id := 0x9381; log := true;
  resume_complete := true; dc_psy := false;
  dc_icl_votable := true; tx_icl_votable := true;
  disable_dcin_en_votable := false;
  online := true; enabled := true; ben_state := RTX_BEN_DISABLED;
  rtx_err := RTX_NO_ERROR; rtx_csp := 0;
  check_det := false; check_dc := false; check_np := false;
  force_bpp := false; fake_force_epp := 0; mfg := WLC_MFG_GOOGLE;
  is_mfg_google := true;
  chg_on_rtx := false; dc_icl_bpp := 0; dc_icl_epp := 0;
  dc_icl_epp_neg := 0; icl_ramp := false; icl_ramp_ua := 0;
  tx_busy := false; tx_done := true; rx_done := false;
  rx_len := 0; rx_buf := []; pp_buf := []; pp_buf_valid := false;
  last_capacity := -1; cust_id := 0;
  align := WLC_ALIGN_CENTERED; align_count := 0;
  alignment := last; alignment_last := last;
  alignment_capable := ALIGN_MFG_PASSED;
  current_filtered := 0; current_sample_cnt := 0; mfg_check_count := 1
|}.

(** The chip reports no output current and the given operating frequency. *)
Definition op_freq_khz (khz : Z) : align_env := {|
  ae_mfg := Reply 0 WLC_MFG_GOOGLE;
  ae_epp := {| ee_mfg := Reply 0 WLC_MFG_GOOGLE;
               ee_sys_mode := Reply 0 2;
               ee_vout := Reply 0 9000 |};
  ae_iout := Reply 0 0;
  ae_op_freq := Reply 0 khz
|}.

(** A device with a four-byte BPP table, and a chip whose register reads
    back [readback] on every attempt. *)
Definition fod_table : list Byte.byte :=
  [Byte.x92; Byte.x20; Byte.x8e; Byte.x21].

Definition fod_pdata : p9221_charger_platform_data := {|
  fod := fod_table; fod_epp := []; fod_num := 4; fod_epp_num := 0;
  q_value := -1; epp_rp_value := -1; needs_dcin_reset := -1;
  nb_alignment_freq := 0; alignment_freq := None;
  alignment_scalar := WLC_ALIGN_DEFAULT_SCALAR;
  alignment_hysteresis := WLC_ALIGN_DEFAULT_HYSTERESIS;
  ben_gpio := 10; switch_gpio := 11; boost_gpio := -1;
  icl_ramp_delay_ms := -1
|}.

Definition fod_charger : p9221_charger_data := {|
  pdata := fod_pdata; chip_id := 0x9381; log := true;
  resume_complete := true; dc_psy := false;
  dc_icl_votable := true; tx_icl_votable := true;
  disable_dcin_en_votable := false;
  online := true; enabled := true; ben_state := RTX_BEN_DISABLED;
  rtx_err := RTX_NO_ERROR; rtx_csp := 0;
  check_det := false; check_dc := false; check_np := false;
  force_bpp := false; fake_force_epp := 0; mfg := 0; is_mfg_google := false;
  chg_on_rtx := false; dc_icl_bpp := 0; dc_icl_epp := 0;
  dc_icl_epp_neg := 0; icl_ramp := false; icl_ramp_ua := 0;
  tx_busy := false; tx_done := true; rx_done := false;
  rx_len := 0; rx_buf := []; pp_buf := []; pp_buf_valid := false;
  last_capacity := -1; cust_id := 0;
  align := WLC_ALIGN_ERROR; align_count := 0;
  alignment := -1; alignment_last := -1;
  alignment_capable := ALIGN_MFG_FAILED;
  current_filtered := 0; current_sample_cnt := 0; mfg_check_count := 0
|}.

Definition fod_reads_back (readback : list Byte.byte) : fod_env := {|
  fe_epp := {| ee_mfg := Reply 0 0x30;
               ee_sys_mode := Reply 0 1;
               ee_vout := Reply 0 5000 |};
  fe_write := fun _ => 0;
  fe_read := fun _ => (0, readback)
|}.

(** A chip whose register reads back zeros, and whose second write
    fails. *)
Definition fod_second_write_fails : fod_env := {|
  fe_epp := {| ee_mfg := Reply 0 0x30;
               ee_sys_mode := Reply 0 1;
               ee_vout := Reply 0 5000 |};
  fe_write := fun j => match j with 1%nat => - EIO | _ => 0 end;
  fe_read := fun _ => (0, [Byte.x00; Byte.x00; Byte.x00; Byte.x00])
|}.

(** A chip and votables that accept every request; the DISABLE_DCIN_EN
    votable is found or not as [found] says. *)
Definition rtx_accepts (found : bool) : rtx_env := {|
  re_tx_mode_en := 0;
  re_tx_icl := 1350000;
  re_find_votable := found;
  re_vote := 0;
  re_unvote := 0;
  re_irq := ((0, 0), 0);
  re_tx_icl_cfg := 1350000;
  re_set_tx_ilim := 0
|}.

(** A platform that asks for a renegotiated power and sets no Q factor. *)
Definition renegotiating_pdata : p9221_charger_platform_data := {|
  fod := []; fod_epp := []; fod_num := 0; fod_epp_num := 0;
  q_value := -1; epp_rp_value := 15; needs_dcin_reset := -1;
  nb_alignment_freq := 0; alignment_freq := None;
  alignment_scalar := WLC_ALIGN_DEFAULT_SCALAR;
  alignment_hysteresis := WLC_ALIGN_DEFAULT_HYSTERESIS;
  ben_gpio := 10; switch_gpio := 11; boost_gpio := -1;
  icl_ramp_delay_ms := -1
|}.

Definition renegotiating_charger : p9221_charger_data := {|
  pdata := renegotiating_pdata; chip_id := 0x9381; log := true;
  resume_complete := true; dc_psy := false;
  dc_icl_votable := true; tx_icl_votable := true;
  disable_dcin_en_votable := false;
  online := true; enabled := true; ben_state := RTX_BEN_DISABLED;
  rtx_err := RTX_NO_ERROR; rtx_csp := 0;
  check_det := false; check_dc := false; check_np := false;
  force_bpp := false; fake_force_epp := 0; mfg := 0; is_mfg_google := false;
  chg_on_rtx := false; dc_icl_bpp := 0; dc_icl_epp := 0;
  dc_icl_epp_neg := 0; icl_ramp := false; icl_ramp_ua := 0;
  tx_busy := false; tx_done := true; rx_done := false;
  rx_len := 0; rx_buf := []; pp_buf := []; pp_buf_valid := false;
  last_capacity := -1; cust_id := 0;
  align := WLC_ALIGN_CENTERED; align_count := 0;
  alignment := -1; alignment_last := -1;
  alignment_capable := ALIGN_MFG_CHECKING;
  current_filtered := 0; current_sample_cnt := 0; mfg_check_count := 0
|}.

(** Answers of a chip that is in the field and accepts everything. *)
Definition epp_answers : epp_env :=
  {| ee_mfg := Reply 0 0x30; ee_sys_mode := Reply 0 1;
     ee_vout := Reply 0 5000 |}.

Definition fod_answers : fod_env :=
  {| fe_epp := epp_answers; fe_write := fun _ => 0;
     fe_read := fun _ => (0, fod_table) |}.

Definition online_answers : online_env :=
  {| so_cid := Reply 0 0; so_irq := ((0, 0), 0); so_fod := fod_answers |}.

Definition offline_answers : offline_env :=
  {| of_cancel := 0; of_votes := (0, 0) |}.

Definition check_dc_answers : check_dc_env := {|
  cd_neg_power := {| np_power := Reply 0 0; np_mfg := Reply 0 0x30;
                     np_status := Reply 0 0;
                     np_vout := fun _ => (0, Reply 0 5000) |};
  cd_requeued := true;
  cd_dc_in := Reply 0 1;
  cd_vout := Reply 0 5000;
  cd_neg9382 := {| n9_epp := epp_answers; n9_power := Reply 0 0 |};
  cd_dc_icl := {| di_find := true; di_epp := epp_answers;
                  di_epp_again := epp_answers; di_vote_aicl := 0;
                  di_vote := 0; di_rx_ilim := 0 |};
  cd_fod := fod_answers;
  cd_ramp := {| rs_epp := epp_answers; rs_cancel := 0 |};
  cd_online := online_answers;
  cd_offline := offline_answers
|}.

(** The renegotiation fails with [reneg]; the stack slot of [ret] holds
    [stack]. *)
Definition notifier_answers (reneg stack : Z) : notifier_env := {|
  nw_stack := stack;
  nw_q_factor := 0;
  nw_renegotiate := reneg;
  nw_vrect := Reply 0 5000;
  nw_det := online_answers;
  nw_dc := check_dc_answers
|}.

(** A chip in the field that raises the interrupt sources [irq_src] and
    answers every request. *)
Definition dc_reset_answers : dc_reset_env :=
  {| dr_sys_mode := Reply 0 1; dr_status := Reply 0 128;
     dr_by_name := true; dr_set := 0 |}.

Definition irq_handler_answers : irq_handler_env := {|
  ih_dc_reset := dc_reset_answers;
  ih_over := persistent_ovc (fun _ => 1000);
  ih_recv_size := Reply 0 0;
  ih_rx_data := (0, []);
  ih_pp_data := (0, [])
|}.

Definition rtx_irq_answers : rtx_irq_env :=
  {| ri_sys_mode := Reply 0 1; ri_status := Reply 0 0;
     ri_set_rtx := rtx_accepts false; ri_csp := Reply 0 0 |}.

Definition irq_raises (irq_src : Z) : irq_env := {|
  it_int := Reply 0 irq_src;
  it_clear := (0, 0);
  it_rtx := rtx_irq_answers;
  it_queued := true;
  it_handler := irq_handler_answers
|}.

(** A transmitter is put on the pad (VRECTON), the notifier work finds it,
    and then a write of "1" to the rtx attribute is refused. *)
Definition placed_then_rtx : list input :=
  [IrqThread (irq_raises 64);
   NotifierWork (notifier_answers 0 0);
   RtxStore (rtx_accepts true) 49 1].

(** RTX is switched on, an interrupt arrives in RTX mode, the notifier
    fires, and RTX is switched off again. *)
Definition rtx_on_and_off : list input :=
  [RtxStore (rtx_accepts true) 49 1;
   IrqThread (irq_raises 0x400);
   NotifierCb true true true;
   RtxStore (rtx_accepts true) 48 1].

(** A transmitter is put on the pad, and "1" is written to the rtx
    attribute before the notifier work has run. *)
Definition rtx_while_detecting : list input :=
  [IrqThread (irq_raises 64);
   RtxStore (rtx_accepts true) 49 1;
   NotifierWork (notifier_answers 0 0)].

(** * The rest of the driver

    The functions around the ones above: the formatter of the status
    attributes, the transfer of proprietary packets, the detect interrupt
    and its timers, the properties of the power supply, and the attributes
    that read and write them. *)

Definition EBUSY : Z := 16.

(** ** Formatting: [p9221_hex_str] *)

Definition INT_MAX : Z := 2 ^ 31 - 1.

(** Conversion to [size_t], 64 bits wide. *)
Definition size_t (z : Z) : Z := z mod 2 ^ 64.

(** [scnprintf(buf, size, fmt, ...)] of the kernel library, where the
    formatted text is [s]: the characters it stores before the terminating
    NUL, none for a size of 0 and none for a size above INT_MAX, which
    [vsnprintf] refuses.  It returns how many they are. *)
Definition scnprintf (size : Z) (s : string) : string :=
  if (size =? 0) || (size >? INT_MAX) then ""
  else substring 0 (Nat.min (String.length s) (Z.to_nat (size - 1))) s.

Definition hex_digit (d : Z) : ascii :=
  nth (Z.to_nat d)
    ["0"; "1"; "2"; "3"; "4"; "5"; "6"; "7"; "8"; "9";
     "a"; "b"; "c"; "d"; "e"; "f"]%char "0"%char.

(** ["%02x "] of a [u8]. *)
Definition fmt_02x_sp (v : Z) : string :=
  String (hex_digit (v / 16)) (String (hex_digit (v mod 16)) " ").

(** The loop [for (i = 0; i < len; i++)] with [n] rounds left; the value is
    [blen] and the characters stored so far, in the order they were
    stored. *)
Fixpoint hex_str_loop (data : list Byte.byte) (len max_buf : Z)
    (msbfirst : bool) (n i : nat) (blen : Z) (text : string) : Z * string :=
  match n with
  | O => (blen, text)
  | S n' =>
      let val := if msbfirst
                 then nth (Z.to_nat (len - 1 - Z.of_nat i)) data Byte.x00
                 else nth i data Byte.x00 in
      let piece := scnprintf (size_t (max_buf - s32 (Z.of_nat i * 3)))
                     (fmt_02x_sp (byte_val val)) in
      hex_str_loop data len max_buf msbfirst n' (S i)
        (s32 (blen + Z.of_nat (String.length piece))) (text ++ piece)
  end.

(** The value is what the function returns and the characters it stored
    in [buf]. *)
Definition p9221_hex_str (data : list Byte.byte) (len max_buf : Z)
    (msbfirst : bool) : Z * string :=
  let r := hex_str_loop data len max_buf msbfirst (Z.to_nat len) 0 0 "" in
  (size_t (fst r), snd r).

(** ** Readiness *)

Definition p9221_is_online (c : p9221_charger_data) : bool :=
  online c || nonzero (ben_state c).

(** ** The wider driver

    The functions below use fields of [struct p9221_charger_data] and calls
    that the ones above do not; the state and the calls are extended for
    them, and a function of the first part is run on its share of the
    state by [lift].  As above, taking and releasing [cmd_lock] and the
    debug messages ([dev_dbg], [pr_debug]) are not part of the trace. *)

(** Constants of [p9221_charger.h] that only these functions use. *)
Class p9221_charger_h_more := {
  P9221_TX_TIMEOUT_MS : Z;
  P9221_VRECT_TIMEOUT_MS : Z;
  P9221_ALIGN_TIMEOUT_MS : Z;
  P9221_UV_TO_MV : Z -> Z
}.

Set Primitive Projections.

Record p9221_charger_full := {
  core : p9221_charger_data;
  tx_buf : list Byte.byte;
  tx_len : Z;
  qien_gpio : Z                         (* [pdata->qien_gpio] *)
}.

Unset Primitive Projections.

Definition set_core v (f : p9221_charger_full) : p9221_charger_full :=
  {| core := v; tx_buf := tx_buf f; tx_len := tx_len f;
     qien_gpio := qien_gpio f |}.
Definition set_tx_buf v (f : p9221_charger_full) : p9221_charger_full :=
  {| core := core f; tx_buf := v; tx_len := tx_len f;
     qien_gpio := qien_gpio f |}.
Definition set_tx_len v (f : p9221_charger_full) : p9221_charger_full :=
  {| core := core f; tx_buf := tx_buf f; tx_len := v;
     qien_gpio := qien_gpio f |}.

(** [charger->enabled = v] and [charger->resume_complete = v], which no
    function of the first part assigns. *)
Definition set_enabled v (c : p9221_charger_data) : p9221_charger_data :=
  {| pdata := pdata c; chip_id := chip_id c; log := log c;
     resume_complete := resume_complete c; dc_psy := dc_psy c;
     dc_icl_votable := dc_icl_votable c;
     tx_icl_votable := tx_icl_votable c;
     disable_dcin_en_votable := disable_dcin_en_votable c;
     online := online c; enabled := v; ben_state := ben_state c;
     rtx_err := rtx_err c; rtx_csp := rtx_csp c; check_det := check_det c;
     check_dc := check_dc c; check_np := check_np c;
     force_bpp := force_bpp c; fake_force_epp := fake_force_epp c;
     mfg := mfg c; is_mfg_google := is_mfg_google c;
     chg_on_rtx := chg_on_rtx c; dc_icl_bpp := dc_icl_bpp c;
     dc_icl_epp := dc_icl_epp c; dc_icl_epp_neg := dc_icl_epp_neg c;
     icl_ramp := icl_ramp c; icl_ramp_ua := icl_ramp_ua c;
     tx_busy := tx_busy c; tx_done := tx_done c; rx_done := rx_done c;
     rx_len := rx_len c; rx_buf := rx_buf c; pp_buf := pp_buf c;
     pp_buf_valid := pp_buf_valid c; last_capacity := last_capacity c;
     cust_id := cust_id c; align := align c; align_count := align_count c;
     alignment := alignment c; alignment_last := alignment_last c;
     alignment_capable := alignment_capable c;
     current_filtered := current_filtered c;
     current_sample_cnt := current_sample_cnt c;
     mfg_check_count := mfg_check_count c |}.

Definition set_resume_complete v (c : p9221_charger_data)
  : p9221_charger_data :=
  {| pdata := pdata c; chip_id := chip_id c; log := log c;
     resume_complete := v; dc_psy := dc_psy c;
     dc_icl_votable := dc_icl_votable c;
     tx_icl_votable := tx_icl_votable c;
     disable_dcin_en_votable := disable_dcin_en_votable c;
     online := online c; enabled := enabled c; ben_state := ben_state c;
     rtx_err := rtx_err c; rtx_csp := rtx_csp c; check_det := check_det c;
     check_dc := check_dc c; check_np := check_np c;
     force_bpp := force_bpp c; fake_force_epp := fake_force_epp c;
     mfg := mfg c; is_mfg_google := is_mfg_google c;
     chg_on_rtx := chg_on_rtx c; dc_icl_bpp := dc_icl_bpp c;
     dc_icl_epp := dc_icl_epp c; dc_icl_epp_neg := dc_icl_epp_neg c;
     icl_ramp := icl_ramp c; icl_ramp_ua := icl_ramp_ua c;
     tx_busy := tx_busy c; tx_done := tx_done c; rx_done := rx_done c;
     rx_len := rx_len c; rx_buf := rx_buf c; pp_buf := pp_buf c;
     pp_buf_valid := pp_buf_valid c; last_capacity := last_capacity c;
     cust_id := cust_id c; align := align c; align_count := align_count c;
     alignment := alignment c; alignment_last := alignment_last c;
     alignment_capable := alignment_capable c;
     current_filtered := current_filtered c;
     current_sample_cnt := current_sample_cnt c;
     mfg_check_count := mfg_check_count c |}.

(** One call: one of the first part, or one of those only the functions
    below make. *)
Inductive call :=
| Ev (e : event)
| EvPmRuntimeGetSync
| EvPmRuntimePutSync
| EvModTimer (t : timer) (ms : Z)
| EvSetDataBuf (data : list Byte.byte) (len : Z) (ret : Z)
| EvSetCcSendSize (len : Z) (ret : Z)
| EvSetCmdCcActivate (ret : Z)
| EvSetCmdSendCsp (ret : Z)
| EvRegWrite8ChargeStat (val : Z) (ret : Z)
| EvVoteUser (v : votable) (present : bool) (enabled : bool) (val : Z)
    (ret : Z).


Record outcome_of (A : Type) := Outcome {
  rval : A;                      (* what the function returns *)
  after : p9221_charger_full;    (* the device state it leaves *)
  calls : list call              (* the calls it made, oldest first *)
}.
Arguments Outcome {A} _ _ _.
Arguments rval {A} _.
Arguments after {A} _.
Arguments calls {A} _.

Definition MF (A : Type) : Type := p9221_charger_full -> outcome_of A.

Definition ret_ {A : Type} (a : A) : MF A := fun f => Outcome a f [].

Definition bind_ {A B : Type} (m : MF A) (k : A -> MF B) : MF B :=
  fun f =>
    let r1 := m f in
    let r2 := k (rval r1) (after r1) in
    Outcome (rval r2) (after r2) (calls r1 ++ calls r2).

Declare Scope full_scope.
Delimit Scope full_scope with full.
Notation "x <- m ;; k" := (bind_ m (fun x => k))
  (at level 61, m at next level, right associativity) : full_scope.
Notation "m ;; k" := (bind_ m (fun _ => k))
  (at level 61, right associativity) : full_scope.

Definition get_ : MF p9221_charger_full := fun f => Outcome f f [].
Definition modify_ (g : p9221_charger_full -> p9221_charger_full)
  : MF unit := fun f => Outcome tt (g f) [].
Definition call_ (e : call) : MF unit := fun f => Outcome tt f [e].

(** A function of the first part, run on [core]. *)
Definition lift {A : Type} (m : M A) : MF A :=
  fun f =>
    let r := m (core f) in
    Outcome (val r) (set_core (st r) f) (map Ev (out r)).

Definition pm_runtime_get_sync : MF unit := call_ EvPmRuntimeGetSync.
Definition pm_runtime_put_sync : MF unit := call_ EvPmRuntimePutSync.
Definition mod_timer (t : timer) (ms : Z) : MF unit := call_ (EvModTimer t ms).

Definition chip_set_data_buf (buf : list Byte.byte) (len : Z) (ans : Z)
  : MF Z :=
  (call_ (EvSetDataBuf (firstn (Z.to_nat len) buf) len ans) ;; ret_ ans)%full.
Definition chip_set_cc_send_size (len : Z) (ans : Z) : MF Z :=
  (call_ (EvSetCcSendSize len ans) ;; ret_ ans)%full.
Definition chip_set_cmd_ccactivate (ans : Z) : MF Z :=
  (call_ (EvSetCmdCcActivate ans) ;; ret_ ans)%full.
Definition chip_set_cmd_sendcsp (ans : Z) : MF Z :=
  (call_ (EvSetCmdSendCsp ans) ;; ret_ ans)%full.
Definition p9221_reg_write_8_charge_stat (v : Z) (ans : Z) : MF Z :=
  (call_ (EvRegWrite8ChargeStat (u8 v) ans) ;; ret_ ans)%full.
Definition vote_user (v : votable) (present : bool) (en : bool) (value : Z)
    (ans : Z) : MF Z :=
  (call_ (EvVoteUser v present en value ans) ;; ret_ ans)%full.

(** [enum power_supply_property], the members the driver names. *)
Inductive power_supply_property :=
| POWER_SUPPLY_PROP_PRESENT
| POWER_SUPPLY_PROP_ONLINE
| POWER_SUPPLY_PROP_SERIAL_NUMBER
| POWER_SUPPLY_PROP_CAPACITY
| POWER_SUPPLY_PROP_CURRENT_MAX
| POWER_SUPPLY_PROP_CURRENT_NOW
| POWER_SUPPLY_PROP_VOLTAGE_NOW
| POWER_SUPPLY_PROP_VOLTAGE_MAX
| POWER_SUPPLY_PROP_TEMP
| POWER_SUPPLY_PROP_OTHER.             (* any other member *)

Section Wider.

Context {hdr : p9221_charger_h} {more : p9221_charger_h_more}.

Local Open Scope full_scope.

(** ** Proprietary packets *)

(** [io] answers [chip_set_data_buf], [chip_set_cc_send_size] and the
    command, in this order. *)
Definition p9221_send_data (io : Z * Z * Z) : MF Z :=
  f <- get_ ;;
  if tx_busy (core f) then ret_ (- EBUSY)
  else
    lift (modify (set_tx_busy true)) ;;
    f <- get_ ;;
    ret <- chip_set_data_buf (tx_buf f) (tx_len f) (fst (fst io)) ;;
    if nonzero ret then
      lift (dev_err "Failed to load tx %d\n" [AInt ret]) ;;
      lift (modify (set_tx_busy false)) ;;
      ret_ ret
    else
      ret <- chip_set_cc_send_size (tx_len f) (snd (fst io)) ;;
      if nonzero ret then
        lift (dev_err "Failed to load txsz %d\n" [AInt ret]) ;;
        lift (modify (set_tx_busy false)) ;;
        ret_ ret
      else
        ret <- chip_set_cmd_ccactivate (snd io) ;;
        if nonzero ret then
          lift (modify (set_tx_busy false)) ;;
          ret_ ret
        else ret_ ret.

(** [io] answers the register write and the command, in this order. *)
Definition p9221_send_csp (io : Z * Z) (stat : Z) : MF Z :=
  let stat := u8 stat in
  lift (dev_info "Send CSP status=%d\n" [AInt stat]) ;;
  ret <- p9221_reg_write_8_charge_stat stat (fst io) ;;
  if ret =? 0 then chip_set_cmd_sendcsp (snd io) else ret_ ret.

Definition p9221_ready_to_read : MF Z :=
  pm_runtime_get_sync ;;
  f <- get_ ;;
  if negb (resume_complete (core f)) then
    pm_runtime_put_sync ;;
    ret_ (- EAGAIN)
  else
    pm_runtime_put_sync ;;
    if negb (p9221_is_online (core f)) then ret_ (- ENODEV)
    else ret_ 0.

Definition p9221_tx_work : MF unit :=
  lift (dev_info "timeout waiting for tx complete\n" []) ;;
  lift (modify (set_tx_busy false)) ;;
  lift (modify (set_tx_done true)) ;;
  lift (sysfs_notify "txbusy") ;;
  lift (sysfs_notify "txdone").

(** [kstrtou16(buf, 16, &len)] is answered by [parse]: what it returns and
    the number it stores. *)
Definition p9221_store_txlen (parse : reply) (io : Z * Z * Z) (count : Z)
  : MF Z :=
  let ret := r_ret parse in
  if ret <? 0 then ret_ ret
  else
    let len := u16 (r_val parse) in
    lift (cancel_delayed_work_sync tx_work) ;;
    modify_ (set_tx_len len) ;;
    lift (modify (set_tx_done false)) ;;
    ret <- p9221_send_data io ;;
    if nonzero ret then
      lift (modify (set_tx_done true)) ;;
      ret_ ret
    else
      lift (schedule_delayed_work tx_work P9221_TX_TIMEOUT_MS) ;;
      ret_ count.


Definition p9221_txdata_read (pos size : Z) : MF (Z * list Byte.byte) :=
  f <- get_ ;;
  let buf := firstn (Z.to_nat size) (skipn (Z.to_nat pos) (tx_buf f)) in
  ret_ (size, buf).

Definition p9221_txdata_write (buf : list Byte.byte) (pos size : Z) : MF Z :=
  f <- get_ ;;
  modify_ (set_tx_buf
             (firstn (Z.to_nat pos) (tx_buf f)
              ++ firstn (Z.to_nat size) buf
              ++ skipn (Z.to_nat (pos + size)) (tx_buf f))) ;;
  ret_ size.

(** ** The detect interrupt and its timers *)

Definition p9221_vrect_timer_handler : MF unit :=
  f <- get_ ;;
  (if match align (core f) with WLC_ALIGN_CHECKING => true | _ => false end
   then
     lift (schedule_work uevent_work) ;;
     lift (modify (set_align WLC_ALIGN_MOVE)) ;;
     f <- get_ ;;
     lift (logbuffer_log "align: state: %s"
             [AStr (align_status_str (align (core f)))])
   else ret_ tt) ;;
  f <- get_ ;;
  lift (dev_info "timeout waiting for VRECT, online=%d\n"
          [AInt (Z.b2z (online (core f)))]) ;;
  lift (logbuffer_log "vrect: timeout online=%d"
          [AInt (Z.b2z (online (core f)))]) ;;
  mod_timer align_timer P9221_ALIGN_TIMEOUT_MS ;;
  lift pm_relax.

Definition p9221_align_timer_handler : MF unit :=
  lift (schedule_work uevent_work) ;;
  lift (modify (set_align WLC_ALIGN_ERROR)) ;;
  lift (logbuffer_log "align: timeout no IRQ" []).

(** [align_count] is an [int]. *)
Definition p9221_irq_det_thread : MF unit :=
  f <- get_ ;;
  lift (logbuffer_log "irq_det: online=%d ben=%d"
          [AInt (Z.b2z (online (core f))); AInt (ben_state (core f))]) ;;
  (* If we are already online, just ignore the interrupt. *)
  if p9221_is_online (core f) then ret_ tt
  else
    (if match align (core f) with WLC_ALIGN_MOVE => false | _ => true end
     then
       (if match align (core f) with
           | WLC_ALIGN_CHECKING => false | _ => true end
        then lift (schedule_work uevent_work) else ret_ tt) ;;
       lift (modify (set_align WLC_ALIGN_CHECKING)) ;;
       lift (modify (set_align_count (s32 (align_count (core f) + 1)))) ;;
       f <- get_ ;;
       (if align_count (core f) >? WLC_ALIGN_IRQ_THRESHOLD then
          lift (schedule_work uevent_work) ;;
          lift (modify (set_align WLC_ALIGN_MOVE))
        else ret_ tt) ;;
       f <- get_ ;;
       lift (logbuffer_log "align: state: %s"
               [AStr (align_status_str (align (core f)))])
     else ret_ tt) ;;
    lift (del_timer align_timer) ;;
    mod_timer vrect_timer P9221_VRECT_TIMEOUT_MS ;;
    lift pm_stay_awake.

(** ** Power management *)

Definition p9221_pm_suspend : MF Z :=
  pm_runtime_get_sync ;;
  lift (modify (set_resume_complete false)) ;;
  pm_runtime_put_sync ;;
  ret_ 0.

Definition p9221_pm_resume : MF Z :=
  pm_runtime_get_sync ;;
  lift (modify (set_resume_complete true)) ;;
  pm_runtime_put_sync ;;
  ret_ 0.

(** ** The power supply *)

Definition p9221_prop_is_writeable (prop : power_supply_property) : Z :=
  match prop with
  | POWER_SUPPLY_PROP_CURRENT_MAX
  | POWER_SUPPLY_PROP_VOLTAGE_MAX
  | POWER_SUPPLY_PROP_CAPACITY
  | POWER_SUPPLY_PROP_ONLINE => 1
  | _ => 0
  end.

Record set_property_env := {
  sp_csp : Z * Z;         (* p9221_send_csp *)
  sp_vote : Z;            (* vote(..., P9221_USER_VOTER, ...) *)
  sp_vout_max : Z         (* chip_set_vout_max *)
}.

(** The end of [p9221_set_property], after the [switch]. *)
Definition set_property_out (ret : Z) (changed : bool) : MF Z :=
  (if changed then lift power_supply_changed else ret_ tt) ;;
  ret_ ret.

Definition p9221_set_property (e : set_property_env)
    (prop : power_supply_property) (intval : Z) : MF Z :=
  match prop with
  | POWER_SUPPLY_PROP_ONLINE =>
      if (intval <? 0) || (intval >? 1) then
        set_property_out (- EINVAL) false
      else
        f <- get_ ;;
        if Z.b2z (enabled (core f)) =? intval then set_property_out 0 false
        else
          (* Asserting the enable line will automatically take bring us
             online if we are in field. *)
          lift (modify (set_enabled (nonzero intval))) ;;
          f <- get_ ;;
          lift (dev_warn "Set enable %d\n"
                  [AInt (Z.b2z (enabled (core f)))]) ;;
          (if qien_gpio f >=? 0 then
             lift (gpio_set_value (qien_gpio f) (negb (enabled (core f))))
           else ret_ tt) ;;
          set_property_out 0 true
  | POWER_SUPPLY_PROP_CAPACITY =>
      f <- get_ ;;
      if last_capacity (core f) =? intval then set_property_out 0 false
      else
        lift (modify (set_last_capacity intval)) ;;
        f <- get_ ;;
        if negb (online (core f)) then set_property_out 0 false
        else
          ret <- p9221_send_csp (sp_csp e) (last_capacity (core f)) ;;
          (if nonzero ret then
             lift (dev_err "Could send csp: %d\n" [AInt ret])
           else ret_ tt) ;;
          set_property_out ret true
  | POWER_SUPPLY_PROP_CURRENT_MAX =>
      if intval <? 0 then set_property_out (- EINVAL) false
      else
        f <- get_ ;;
        if negb (dc_icl_votable (core f)) then
          set_property_out (- EAGAIN) false
        else
          ret <- vote_user DC_ICL (dc_icl_votable (core f)) true intval
                   (sp_vote e) ;;
          set_property_out ret true
  | POWER_SUPPLY_PROP_VOLTAGE_MAX =>
      (* the quotient, an [int], becomes the [u32] of the call *)
      ret <- lift (chip_set_vout_max (u32 (P9221_UV_TO_MV intval))
                     (sp_vout_max e)) ;;
      (* this is extra, please verify *)
      set_property_out ret (ret =? 0)
  | _ => ret_ (- EINVAL)
  end.

End Wider.

(** ** Worked configuration of the wider driver *)

Definition example_more : p9221_charger_h_more := {|
  P9221_TX_TIMEOUT_MS := 20000;
  P9221_VRECT_TIMEOUT_MS := 2000;
  P9221_ALIGN_TIMEOUT_MS := 2000;
  P9221_UV_TO_MV := fun uv => Z.quot uv 1000
|}.

(** The device after probe, with an eight-byte send buffer. *)
Definition example_full : p9221_charger_full := {|
  core := example_charger;
  tx_buf := repeat Byte.x00 8;
  tx_len := 0;
  qien_gpio := 12
|}.

(** The same with a packet in flight. *)
Definition sending_full : p9221_charger_full :=
  set_core (set_tx_busy true example_charger) example_full.

(** The device in RTX mode. *)
Definition rtx_charger : p9221_charger_data :=
  set_ben_state RTX_BEN_ON example_charger.

(** The device with the "dc" power supply at hand. *)
Definition dc_charger : p9221_charger_data :=
  set_dc_psy true example_charger.



Definition property_answers : set_property_env :=
  {| sp_csp := (0, 0); sp_vote := 0; sp_vout_max := 0 |}.

(* ================================================================== *)
(** * Properties *)

(** ** Reasoning about programs of the monad *)

Lemma out_bind {A B : Type} (m : M A) (k : A -> M B) c :
  out (bind m k c) = out (m c) ++ out (k (val (m c)) (st (m c))).
Proof. reflexivity. Qed.

Lemma val_bind {A B : Type} (m : M A) (k : A -> M B) c :
  val (bind m k c) = val (k (val (m c)) (st (m c))).
Proof. reflexivity. Qed.

Lemma st_bind {A B : Type} (m : M A) (k : A -> M B) c :
  st (bind m k c) = st (k (val (m c)) (st (m c))).
Proof. reflexivity. Qed.

Lemma u8_idem z : u8 (u8 z) = u8 z.
Proof. unfold u8. apply Z.mod_mod. lia. Qed.

Lemma nonzero_false z : nonzero z = false <-> z = 0.
Proof. unfold nonzero. rewrite negb_false_iff. apply Z.eqb_eq. Qed.

Lemma nonzero_true z : nonzero z = true <-> z <> 0.
Proof. unfold nonzero. rewrite negb_true_iff. apply Z.eqb_neq. Qed.

(** Arithmetic stays folded while programs are unfolded. *)
#[local] Arguments Z.mul : simpl never.
#[local] Arguments Z.add : simpl never.
#[local] Arguments Z.sub : simpl never.
#[local] Arguments Z.opp : simpl never.
#[local] Arguments Z.pow : simpl never.
#[local] Arguments Z.modulo : simpl never.
#[local] Arguments Z.div : simpl never.
#[local] Arguments Z.quot : simpl never.
#[local] Arguments Z.land : simpl never.
#[local] Arguments Z.lor : simpl never.
#[local] Arguments Z.of_nat : simpl never.
#[local] Arguments Z.to_nat : simpl never.

(** Unfold the monad under a case analysis. *)
Ltac run :=
  unfold when, dev_err, dev_warn, dev_info, logbuffer_log, logbuffer_log_rtx,
    msleep, schedule_work, schedule_delayed_work, cancel_delayed_work,
    gpio_set_value, p9221_reg_write_8, p9221_reg_write_16, p9221_reg_read_16,
    p9221_reg_read_8, chip_set_cmd, chip_get_iout, get_effective_result, vote
    in *;
  cbn in *.

(** The same, for the conclusion alone. *)
Ltac rung :=
  unfold when, dev_err, dev_warn, dev_info, logbuffer_log, logbuffer_log_rtx,
    msleep, schedule_work, schedule_delayed_work, cancel_delayed_work,
    gpio_set_value, p9221_reg_write_8, p9221_reg_write_16, p9221_reg_read_16,
    p9221_reg_read_8, chip_set_cmd, chip_get_iout, get_effective_result, vote;
  cbn.

Ltac branch :=
  match goal with
  | |- context [if ?b then _ else _] => destruct b eqn:?
  | |- context [match ?x with Some _ => _ | None => _ end] => destruct x eqn:?
  end.

Section ProtectionFacts.

Context {hdr : p9221_charger_h}.

(** ** Protection handler *)

Definition is_vote (e : event) : bool :=
  match e with EvVote _ _ _ _ _ _ => true | _ => false end.

(** The calls of a round of the polling loop. *)
Definition is_poll (e : event) : bool :=
  match e with
  | EvRegWrite16 P9221R5_INT_CLEAR_REG _ _ => true
  | EvSetCmd P9221_COM_CLEAR_INT_MASK _ => true
  | EvMsleep _ => true
  | EvGetIout _ _ => true
  | EvRegRead16 P9221_STATUS_REG _ _ => true
  | _ => false
  end.

Lemma clear_interrupts_no_vote io mask c :
  filter is_vote (out (p9221_clear_interrupts io mask c)) = [].
Proof.
  unfold p9221_clear_interrupts. run. repeat (branch; run); reflexivity.
Qed.

Lemma clear_interrupts_st io mask c :
  st (p9221_clear_interrupts io mask c) = c.
Proof.
  unfold p9221_clear_interrupts. run. repeat (branch; run); reflexivity.
Qed.

Lemma clear_interrupts_val io mask c :
  val (p9221_clear_interrupts io mask c) =
  if nonzero (fst io) then fst io else snd io.
Proof.
  unfold p9221_clear_interrupts. run. repeat (branch; run); reflexivity.
Qed.

Lemma over_check_loop_no_vote e n : forall i irq cnt vals c,
  filter is_vote (out (over_check_loop e n i irq cnt vals c)) = [].
Proof.
  induction n as [|n IH]; intros; [reflexivity|].
  cbn [over_check_loop]. rewrite out_bind, filter_app, clear_interrupts_no_vote.
  cbn [app]. rewrite out_bind, filter_app. run.
  branch; [apply IH|]. run.
  repeat (branch; run; rewrite ?IH; try reflexivity).
Qed.

Lemma over_send_eop_no_vote e irq reason c :
  filter is_vote (out (over_send_eop e irq reason c)) = [].
Proof.
  unfold over_send_eop, p9221_send_eop. run. repeat (branch; run); reflexivity.
Qed.

(** An event of a kind that the second half of a trace lacks sits in the
    first half. *)
Lemma split_in_first_half (p : event -> bool) (a b : trace) :
  filter p b = [] ->
  forall pre ev post, a ++ b = pre ++ ev :: post -> p ev = true ->
  exists rest, a = pre ++ ev :: rest.
Proof.
  intros Hb. induction a as [|x a IH]; intros pre ev post Heq Hev.
  - cbn in Heq. subst b. rewrite filter_app in Hb. cbn in Hb.
    rewrite Hev in Hb. destruct (filter p pre); discriminate.
  - destruct pre as [|y pre]; cbn in Heq; injection Heq as -> Heq.
    + exists a. reflexivity.
    + destruct (IH _ _ _ Heq Hev) as [rest ->]. exists rest. reflexivity.
Qed.

Lemma forallb_prefix (p : event -> bool) (pre rest : trace) :
  forallb p (pre ++ rest) = true -> forallb p pre = true.
Proof. rewrite forallb_app. intros H. apply andb_true_iff in H. tauto. Qed.

(** The handler's trace: what precedes the polling loop, then the rest. *)
Definition over_prologue (e : over_env) (irq_src : Z) (c : p9221_charger_data)
  : trace :=
  EvLog KERN_ERR "Received OVER INT: %02x\n" [AInt irq_src] ::
  (if dc_icl_votable c then
     EvGetEffectiveResult DC_ICL (oe_icl e) ::
     (if oe_icl e <? 0 then
        [EvLog KERN_ERR "Failed to read ICL (%d)\n" [AInt (oe_icl e)]]
      else if oe_icl e >? OVC_BACKOFF_LIMIT then
        [EvVote DC_ICL true P9221_OCP_VOTER true
                (oe_icl e - OVC_BACKOFF_AMOUNT) (oe_vote e);
         EvLog KERN_ERR "Reduced ICL to %d (%d)\n"
               [AInt (oe_icl e - OVC_BACKOFF_AMOUNT); AInt (oe_vote e)]]
      else [])
   else []).

Lemma over_handle_trace e irq c :
  exists pre rest,
    out (p9221_over_handle e irq c) = pre ++ rest /\
    filter is_vote rest = [] /\
    (pre = [EvLog KERN_ERR "Received OVER INT: %02x\n" [AInt irq]] \/
     pre = over_prologue e irq c).
Proof.
  unfold p9221_over_handle. rewrite out_bind.
  set (hd := out (dev_err _ _ c)).
  assert (Hhd : hd = [EvLog KERN_ERR "Received OVER INT: %02x\n" [AInt irq]])
    by reflexivity.
  cbn [dev_err emit val st].
  destruct (nonzero (Z.land irq P9221R5_STAT_OVV)).
  { exists hd, (out (over_send_eop e irq (u8 P9221_EOP_OVER_VOLT) c)).
    split; [reflexivity|]. split; [apply over_send_eop_no_vote|now left]. }
  destruct (nonzero (Z.land irq P9221R5_STAT_OVT)).
  { exists hd, (out (over_send_eop e irq (u8 P9221_EOP_OVER_TEMP) c)).
    split; [reflexivity|]. split; [apply over_send_eop_no_vote|now left]. }
  destruct (nonzero (Z.land irq P9221R5_STAT_UV)
            && negb (nonzero (Z.land irq P9221R5_STAT_OVC))).
  { exists hd, []. split; [reflexivity|]. split; [reflexivity|now left]. }
  rewrite out_bind. cbn [get out val st app]. rewrite out_bind.
  match goal with
  | |- context [out (?m c) ++ out ?k] =>
      set (vt := out (m c)); set (lp := out k)
  end.
  exists (hd ++ vt), lp. split; [now rewrite app_assoc|]. split.
  - subst lp. rewrite out_bind, filter_app, over_check_loop_no_vote. cbn [app].
    destruct (val (over_check_loop _ _ _ _ _ _ _)) as [[[q k] v]|];
      [|reflexivity].
    destruct (k <? OVC_LIMIT); [reflexivity|apply over_send_eop_no_vote].
  - right. subst hd vt. unfold over_prologue.
    destruct (dc_icl_votable c); run; repeat (branch; run); reflexivity.
Qed.

Lemma over_prologue_no_poll e irq c :
  forallb (fun x => negb (is_poll x)) (over_prologue e irq c) = true.
Proof.
  unfold over_prologue. cbn. repeat (branch; cbn); reflexivity.
Qed.

Lemma over_prologue_votes e irq c :
  (List.length (filter is_vote (over_prologue e irq c)) <= 1)%nat /\
  forall v present who en value ret,
    In (EvVote v present who en value ret) (over_prologue e irq c) ->
    v = DC_ICL /\ who = P9221_OCP_VOTER /\ en = true /\
    dc_icl_votable c = true /\ oe_icl e > OVC_BACKOFF_LIMIT /\
    value = oe_icl e - OVC_BACKOFF_AMOUNT.
Proof.
  unfold over_prologue.
  destruct (dc_icl_votable c) eqn:Hv; cbn;
    [destruct (oe_icl e <? 0) eqn:H0; cbn;
     [|destruct (oe_icl e >? OVC_BACKOFF_LIMIT) eqn:H1; cbn]|];
    (split; [lia|]); intros v present who en value ret Hin;
    repeat (destruct Hin as [Hin|Hin]; try discriminate Hin);
    try contradiction.
  injection Hin as <- <- <- <- <- <-. repeat split; try reflexivity.
  apply Z.gtb_lt in H1. lia.
Qed.

(** The votes of one run: at most one, the backoff vote, cast only when the
    effective limit exceeds OVC_BACKOFF_LIMIT, with no polling call before
    it. *)
Lemma over_handle_votes
    (e : over_env) (irq_src : Z) (c : p9221_charger_data) :
  let tr := out (p9221_over_handle e irq_src c) in
  (List.length (filter is_vote tr) <= 1)%nat /\
  (forall v present who en value ret,
      In (EvVote v present who en value ret) tr ->
      v = DC_ICL /\ who = P9221_OCP_VOTER /\ en = true /\
      dc_icl_votable c = true /\ oe_icl e > OVC_BACKOFF_LIMIT /\
      value = oe_icl e - OVC_BACKOFF_AMOUNT) /\
  (forall pre ev post,
      tr = pre ++ ev :: post -> is_vote ev = true ->
      forallb (fun x => negb (is_poll x)) pre = true).
Proof.
  intros tr. subst tr.
  destruct (over_handle_trace e irq_src c) as (pre & rest & -> & Hrest & Hpre).
  assert (Hin_rest : forall ev, In ev rest -> is_vote ev = false).
  { intros ev Hin. destruct (is_vote ev) eqn:Hev; [|reflexivity].
    assert (Hf : In ev (filter is_vote rest)) by (apply filter_In; auto).
    rewrite Hrest in Hf. destruct Hf. }
  split; [|split].
  - rewrite filter_app, Hrest, app_nil_r.
    destruct Hpre as [-> | ->]; [cbn; lia|apply over_prologue_votes].
  - intros v present who en value ret Hin. apply in_app_iff in Hin.
    destruct Hin as [Hin|Hin]; [|apply Hin_rest in Hin; discriminate].
    destruct Hpre as [-> | ->]; [|eapply over_prologue_votes; eauto].
    destruct Hin as [Hin|[]]; discriminate.
  - intros pre' ev post Heq Hev.
    destruct (split_in_first_half is_vote pre rest Hrest _ _ _ Heq Hev)
      as [tl ->].
    destruct Hpre as [Hpre | Hpre].
    + destruct pre' as [|x pre']; [reflexivity|].
      cbn in Hpre. injection Hpre as -> Hpre.
      destruct pre'; discriminate.
    + apply (forallb_prefix _ pre' (ev :: tl)). rewrite Hpre.
      apply over_prologue_no_poll.
Qed.

(** The run takes the over-current path: neither over-voltage nor
    over-temperature is reported, and under-voltage is not reported alone. *)
Definition over_current_path (irq_src : Z) : Prop :=
  nonzero (Z.land irq_src P9221R5_STAT_OVV) = false /\
  nonzero (Z.land irq_src P9221R5_STAT_OVT) = false /\
  nonzero (Z.land irq_src P9221R5_STAT_UV)
  && negb (nonzero (Z.land irq_src P9221R5_STAT_OVC)) = false.

(** On the over-current path the trace is the prologue, then the polling
    loop and what follows it; the loop polls at least once. *)
Lemma over_handle_overcurrent_trace e irq c :
  over_current_path irq ->
  exists rest,
    out (p9221_over_handle e irq c) = over_prologue e irq c ++ rest /\
    existsb is_poll rest = true.
Proof.
  intros (Hovv & Hovt & Huv).
  unfold p9221_over_handle. rewrite out_bind.
  cbn [dev_err emit val st out].
  rewrite Hovv, Hovt, Huv.
  rewrite out_bind. cbn [get out val st app]. rewrite out_bind.
  match goal with
  | |- context [out (?m c) ++ out ?k] =>
      set (vt := out (m c)); set (lp := out k)
  end.
  exists lp. split.
  - clearbody lp.
    change ((EvLog KERN_ERR "Received OVER INT: %02x\n" [AInt irq] :: vt)
            ++ lp = over_prologue e irq c ++ lp).
    f_equal. subst vt. unfold over_prologue.
    destruct (dc_icl_votable c); run; repeat (branch; run); reflexivity.
  - subst lp. rewrite out_bind, existsb_app.
    apply orb_true_iff. left.
    unfold P9221R5_OVER_CHECK_NUM. cbn [over_check_loop].
    rewrite out_bind, existsb_app. apply orb_true_iff. left.
    unfold p9221_clear_interrupts, p9221_reg_write_16.
    rewrite !out_bind. reflexivity.
Qed.

(** C4: in one run of the over-current handler the backoff vote on the
    receive current limit (the effective limit less OVC_BACKOFF_AMOUNT, cast
    for the OCP voter) is cast at most once, only when the effective limit
    exceeds OVC_BACKOFF_LIMIT, and before any call of the polling loop.
    And it is cast: on the over-current path, when the DC_ICL votable is
    there and the effective limit exceeds OVC_BACKOFF_LIMIT, the trace
    holds the vote, with no polling call before it and the polling loop
    after it. *)
Theorem over_handle_backoff_once_before_polling
    (e : over_env) (irq_src : Z) (c : p9221_charger_data) :
  let tr := out (p9221_over_handle e irq_src c) in
  (List.length (filter is_vote tr) <= 1)%nat /\
  (forall v present who en value ret,
      In (EvVote v present who en value ret) tr ->
      v = DC_ICL /\ who = P9221_OCP_VOTER /\ en = true /\
      dc_icl_votable c = true /\ oe_icl e > OVC_BACKOFF_LIMIT /\
      value = oe_icl e - OVC_BACKOFF_AMOUNT) /\
  (forall pre ev post,
      tr = pre ++ ev :: post -> is_vote ev = true ->
      forallb (fun x => negb (is_poll x)) pre = true) /\
  (over_current_path irq_src ->
   dc_icl_votable c = true -> oe_icl e > OVC_BACKOFF_LIMIT ->
   exists pre post,
     tr = pre ++ EvVote DC_ICL true P9221_OCP_VOTER true
                   (oe_icl e - OVC_BACKOFF_AMOUNT) (oe_vote e) :: post /\
     forallb (fun x => negb (is_poll x)) pre = true /\
     existsb is_poll post = true).
Proof.
  intros tr. subst tr.
  destruct (over_handle_votes e irq_src c) as (H1 & H2 & H3).
  split; [exact H1|]. split; [exact H2|]. split; [exact H3|].
  intros Hpath Hv Hicl.
  destruct (over_handle_overcurrent_trace e irq_src c Hpath)
    as (rest & -> & Hpoll).
  unfold over_prologue. rewrite Hv.
  replace (oe_icl e <? 0) with false
    by (symmetry; apply Z.ltb_ge; unfold OVC_BACKOFF_LIMIT in Hicl; lia).
  replace (oe_icl e >? OVC_BACKOFF_LIMIT) with true
    by (symmetry; rewrite Z.gtb_ltb; apply Z.ltb_lt; lia).
  exists [EvLog KERN_ERR "Received OVER INT: %02x\n" [AInt irq_src];
          EvGetEffectiveResult DC_ICL (oe_icl e)].
  eexists. split; [reflexivity|]. split; [reflexivity|].
  cbn [existsb is_poll orb app]. exact Hpoll.
Qed.

(** *** Escalation *)

(** Round [i] went through and still shows the over-current bit. *)
Definition poll_persists (e : over_env) (i : nat) : Prop :=
  op_clear (oe_poll e i) = (0, 0) /\
  r_ret (op_iout (oe_poll e i)) = 0 /\
  r_ret (op_status (oe_poll e i)) = 0 /\
  Z.land (u16 (r_val (op_status (oe_poll e i)))) P9221R5_STAT_OVC <> 0.

(** The output current sampled in round [i], in uA. *)
Definition sample_ua (e : over_env) (i : nat) : Z :=
  u32 (P9221_MA_TO_UA (u32 (r_val (op_iout (oe_poll e i))))).

(** How many of the rounds [i .. i+n-1] sampled more than OVC_THRESHOLD. *)
Definition samples_over (e : over_env) (i n : nat) : Z :=
  Z.of_nat (List.length
              (filter (fun j => sample_ua e j >? OVC_THRESHOLD) (seq i n))).

Lemma over_check_loop_persists e n : forall i irq cnt vals c,
  (forall j, (i <= j < i + n)%nat -> poll_persists e j) ->
  exists irq' vals',
    val (over_check_loop e n i irq cnt vals c) =
    Some (irq', cnt + samples_over e i n, vals').
Proof.
  induction n as [|n IH]; intros i irq cnt vals c Hp.
  - exists irq, vals. cbn. unfold samples_over. cbn. now rewrite Z.add_0_r.
  - destruct (Hp i ltac:(lia)) as (Hc & Hi & Hs & Hovc).
    cbn [over_check_loop]. rewrite val_bind, clear_interrupts_val, Hc. run.
    rewrite Hi. cbn. rewrite Hs. cbn.
    apply Z.eqb_neq in Hovc. rewrite Hovc.
    rewrite val_bind. cbn [val st emit].
    match goal with
    | |- context [over_check_loop e n (S i) ?q ?k ?v ?d] =>
        destruct (IH (S i) q k v d) as (irq' & vals' & ->)
    end.
    { intros j Hj. apply Hp. lia. }
    exists irq', vals'. do 2 f_equal. f_equal.
    unfold samples_over. cbn [seq filter]. fold (sample_ua e i).
    destruct (sample_ua e i >? OVC_THRESHOLD); cbn [List.length]; lia.
Qed.

(** C1: when the over-current handler runs its three polling rounds, each
    round finds the over-current status bit still set, and at least OVC_LIMIT
    of the sampled output currents exceed OVC_THRESHOLD, the handler sends
    end of power transfer with the over-current reason: it writes the reason
    to the EPT register and, the write accepted, issues the SENDEPT
    command. *)
Theorem over_handle_escalates_over_current
    (e : over_env) (irq_src : Z) (c : p9221_charger_data) :
  Z.land irq_src P9221R5_STAT_OVV = 0 ->
  Z.land irq_src P9221R5_STAT_OVT = 0 ->
  Z.land irq_src P9221R5_STAT_UV = 0 \/
    Z.land irq_src P9221R5_STAT_OVC <> 0 ->
  (forall i, (i < P9221R5_OVER_CHECK_NUM)%nat -> poll_persists e i) ->
  OVC_LIMIT <= samples_over e 0 P9221R5_OVER_CHECK_NUM ->
  let tr := out (p9221_over_handle e irq_src c) in
  In (EvRegWrite8 P9221R5_EPT_REG (u8 P9221_EOP_OVER_CURRENT) (fst (oe_eop e)))
     tr /\
  (fst (oe_eop e) = 0 ->
   In (EvSetCmd P9221R5_COM_SENDEPT (snd (oe_eop e))) tr).
Proof.
  intros Hovv Hovt Huv Hp Hcnt tr. subst tr.
  unfold p9221_over_handle. rewrite out_bind.
  apply nonzero_false in Hovv, Hovt. cbn [dev_err emit val st].
  rewrite Hovv, Hovt.
  assert (Hgo : nonzero (Z.land irq_src P9221R5_STAT_UV)
                && negb (nonzero (Z.land irq_src P9221R5_STAT_OVC)) = false).
  { apply andb_false_iff. destruct Huv as [H|H].
    - left. now apply nonzero_false.
    - right. apply negb_false_iff. now apply nonzero_true. }
  rewrite Hgo. rewrite out_bind. cbn [get val st]. rewrite out_bind.
  match goal with
  | |- context [out (bind (over_check_loop e ?n ?i ?q ?k0 ?v) ?k ?d)] =>
      rewrite (out_bind (over_check_loop e n i q k0 v) k d);
      destruct (over_check_loop_persists e n i q k0 v d)
        as (irq' & vals' & Hval)
  end.
  { intros j Hj. apply Hp. lia. }
  rewrite Hval, Z.add_0_l.
  assert (Hlim : (samples_over e 0 P9221R5_OVER_CHECK_NUM <? OVC_LIMIT)
                 = false) by (apply Z.ltb_ge; exact Hcnt).
  rewrite Hlim. clear Hval Hlim.
  split; [|intros Hw]; do 4 (apply in_or_app; right);
    unfold over_send_eop, p9221_send_eop; run.
  - rewrite u8_idem. right. right. left. reflexivity.
  - rewrite Hw. cbn. do 3 right. left. reflexivity.
Qed.

End ProtectionFacts.

(** A steady over-current with the limit at 1 A: the vote for 900 mA is
    cast, after the read of the limit and before the first poll. *)
Lemma over_handle_backoff_once_before_polling_witness :
  let tr := out (p9221_over_handle (hdr := example_header)
                   (persistent_ovc (fun _ => 1500)) 2 example_charger) in
  exists pre post,
    tr = pre ++ EvVote DC_ICL true P9221_OCP_VOTER true 900000 0 :: post /\
    forallb (fun x => negb (is_poll x)) pre = true /\
    existsb is_poll post = true.
Proof.
  apply (proj2 (proj2 (proj2
           (over_handle_backoff_once_before_polling (hdr := example_header)
              (persistent_ovc (fun _ => 1500)) 2 example_charger)))).
  - repeat split.
  - reflexivity.
  - reflexivity.
Defined.

(** Three readings of 1.5 A against the 1.4 A threshold: the retry budget
    runs out and end of power transfer (reason 5, over-current) is sent. *)
Lemma over_handle_escalates_over_current_witness :
  let e := persistent_ovc (fun _ => 1500) in
  let tr := out (p9221_over_handle (hdr := example_header) e 2 example_charger) in
  samples_over (hdr := example_header) e 0 3 = 3 /\
  In (EvRegWrite8 P9221R5_EPT_REG 5 0) tr /\
  In (EvSetCmd P9221R5_COM_SENDEPT 0) tr.
Proof.
  intros e tr. split; [reflexivity|].
  assert (Hp : forall i, (i < P9221R5_OVER_CHECK_NUM)%nat ->
                         poll_persists (hdr := example_header) e i).
  { intros i _. unfold poll_persists. cbn. repeat split; discriminate. }
  destruct (over_handle_escalates_over_current (hdr := example_header)
              e 2 example_charger) as [H1 H2].
  - reflexivity.
  - reflexivity.
  - right. discriminate.
  - exact Hp.
  - vm_compute. discriminate.
  - split; [exact H1|apply H2; reflexivity].
Defined.

(** One reading out of three above the threshold meets OVC_LIMIT = 1. *)
Example over_handle_one_sample_over :
  let e := persistent_ovc (fun i => if Nat.eqb i 1 then 1500 else 1000) in
  let tr := out (p9221_over_handle (hdr := example_header) e 2 example_charger) in
  samples_over (hdr := example_header) e 0 3 = 1 /\
  In (EvRegWrite8 P9221R5_EPT_REG 5 0) tr /\
  In (EvSetCmd P9221R5_COM_SENDEPT 0) tr.
Proof. vm_compute. intuition. Qed.

(** No reading above the threshold: the same interrupt is dropped. *)
Example over_handle_no_sample_over :
  let e := persistent_ovc (fun _ => 1000) in
  let tr := out (p9221_over_handle (hdr := example_header) e 2 example_charger) in
  ~ In (EvRegWrite8 P9221R5_EPT_REG 5 0) tr.
Proof.
  vm_compute. intros H.
  repeat (destruct H as [H|H]; [discriminate H|]). exact H.
Qed.

(** ** Alignment engine *)

Section AlignmentFacts.

Context {hdr : p9221_charger_h}.

(** *** Reading the attribute *)

(** C10: reading the alignment attribute while the score is unknown (-1)
    is not a pure query: it resets the last published score, the filtered
    current, the sample count and the manufacturer-check counter and
    schedules the alignment work; with a known score the device state is
    left as it is and nothing is scheduled. *)
Theorem show_alignment_resets_when_unknown (c : p9221_charger_data) :
  let r := p9221_show_alignment c in
  (alignment c = -1 ->
   st r = set_mfg_check_count 0
            (set_current_sample_cnt 0
               (set_current_filtered 0 (set_alignment_last (-1) c))) /\
   out r = [EvScheduleDelayedWork align_work P9221_ALIGN_DELAY_MS]) /\
  (alignment c <> -1 -> st r = c /\ out r = []).
Proof.
  intros r. subst r. unfold p9221_show_alignment, p9221_init_align.
  split; intros H.
  - run. rewrite H. cbn. repeat (branch; run); split; reflexivity.
  - apply Z.eqb_neq in H. run. rewrite H. cbn.
    repeat (branch; run); split; reflexivity.
Qed.

(** *** Buckets *)

Lemma align_find_bucket_some freq adj n : forall i k,
  align_find_bucket freq adj n i = Some k ->
  (i <= k < i + n)%nat /\ nth k freq 0 < adj <= nth (S k) freq 0.
Proof.
  induction n as [|n IH]; intros i k H; [discriminate|].
  cbn in H.
  destruct ((adj >? nth i freq 0) && (adj <=? nth (S i) freq 0)) eqn:Hb.
  - injection H as <-. apply andb_true_iff in Hb. destruct Hb as [H1 H2].
    apply Z.gtb_lt in H1. apply Z.leb_le in H2. lia.
  - apply IH in H. lia.
Qed.

Lemma align_find_bucket_none freq adj n : forall i,
  align_find_bucket freq adj n i = None ->
  forall k, (i <= k < i + n)%nat ->
  ~ (nth k freq 0 < adj <= nth (S k) freq 0).
Proof.
  induction n as [|n IH]; intros i H k Hk; [lia|].
  cbn in H.
  destruct ((adj >? nth i freq 0) && (adj <=? nth (S i) freq 0)) eqn:Hb;
    [discriminate|].
  destruct (Nat.eq_dec k i) as [->|Hne].
  - intros [H1 H2]. apply andb_false_iff in Hb. destruct Hb as [Hb|Hb].
    + rewrite Z.gtb_ltb in Hb. apply Z.ltb_ge in Hb. lia.
    + apply Z.leb_gt in Hb. lia.
  - apply (IH (S i) H). lia.
Qed.

(** A frequency between the first and the last breakpoint has a bucket,
    ascending array or not. *)
Lemma align_find_bucket_in_range freq adj n : forall i,
  nth i freq 0 < adj <= nth (i + n) freq 0 ->
  align_find_bucket freq adj n i <> None.
Proof.
  induction n as [|n IH]; intros i [H1 H2].
  - rewrite Nat.add_0_r in H2. lia.
  - cbn.
    destruct ((adj >? nth i freq 0) && (adj <=? nth (S i) freq 0)) eqn:Hb;
      [discriminate|].
    apply IH. replace (S i + n)%nat with (i + S n)%nat by lia.
    split; [|exact H2].
    apply andb_false_iff in Hb. destruct Hb as [Hb|Hb].
    + rewrite Z.gtb_ltb in Hb. apply Z.ltb_ge in Hb. lia.
    + apply Z.leb_gt in Hb. lia.
Qed.

Definition ascending (freq : list Z) : Prop :=
  forall i j, (i <= j < List.length freq)%nat -> nth i freq 0 <= nth j freq 0.

Lemma ascendingb_head a freq :
  ascendingb (a :: freq) = true ->
  forall j, (j < List.length freq)%nat -> a <= nth j freq 0.
Proof.
  revert a. induction freq as [|b t IH]; intros a H j Hj; [cbn in Hj; lia|].
  cbn [ascendingb] in H. apply andb_true_iff in H. destruct H as [Hab Ht].
  apply Z.leb_le in Hab. destruct j as [|j]; [exact Hab|].
  cbn [nth]. cbn in Hj. pose proof (IH b Ht j ltac:(lia)). lia.
Qed.

Lemma ascendingb_tail a freq :
  ascendingb (a :: freq) = true -> ascendingb freq = true.
Proof.
  destruct freq as [|b t]; [reflexivity|].
  cbn [ascendingb]. intros H. apply andb_true_iff in H. tauto.
Qed.

Lemma ascendingb_ascending freq : ascendingb freq = true -> ascending freq.
Proof.
  induction freq as [|a t IH]; intros H i j Hij; [cbn in Hij; lia|].
  destruct i as [|i], j as [|j]; cbn [nth]; cbn in Hij; try lia.
  - apply (ascendingb_head a t H). lia.
  - apply IH; [exact (ascendingb_tail a t H)|lia].
Qed.

Lemma s32_small z : - 2 ^ 31 <= z < 2 ^ 31 -> s32 z = z.
Proof. intros H. unfold s32. rewrite Z.mod_small; lia. Qed.

(** *** Score *)

(** C6, amended: for an ascending breakpoint array of at least three
    entries (two buckets; and few enough that 100 times the bucket index
    fits an int) an alignment evaluation ends without fault and either
    leaves the score at -1, which it does when the adjusted frequency is not
    above the first breakpoint or is above the last, or assigns
    (100 * bucket_index) / (bucket_count - 1) for the bucket that holds the
    frequency, a value between 0 and 100. *)
Theorem align_evaluate_score
    (freq : list Z) (wlc_freq current_scaling : Z) (c : p9221_charger_data) :
  (3 <= List.length freq)%nat ->
  nb_alignment_freq (pdata c) = Z.of_nat (List.length freq) ->
  WLC_ALIGNMENT_MAX * Z.of_nat (List.length freq) < 2 ^ 31 ->
  ascendingb freq = true ->
  let adj := s32 (u32 (wlc_freq + current_scaling)) in
  let buckets := Z.of_nat (List.length freq) - 1 in
  let last := nth (List.length freq - 1) freq 0 in
  let r := align_evaluate freq wlc_freq current_scaling c in
  val r = Done /\
  (adj <= nth 0 freq 0 \/ last < adj -> alignment (st r) = -1) /\
  (nth 0 freq 0 < adj <= last ->
   exists i,
     (i < List.length freq - 1)%nat /\
     nth i freq 0 < adj <= nth (S i) freq 0 /\
     alignment (st r) = (WLC_ALIGNMENT_MAX * Z.of_nat i) / (buckets - 1) /\
     0 <= alignment (st r) <= 100).
Proof.
  intros Hlen Hnb Hfit Hasc adj buckets last r.
  apply ascendingb_ascending in Hasc.
  subst r. unfold align_evaluate. run. fold adj. rewrite Hnb.
  unfold WLC_ALIGNMENT_MAX in *.
  rewrite (s32_small (_ - 1)) by lia.
  replace (Z.to_nat (Z.of_nat (List.length freq) - 1))
    with (List.length freq - 1)%nat by lia.
  fold buckets.
  destruct (adj <? nth 0 freq 0) eqn:Hlow.
  { apply Z.ltb_lt in Hlow. run. split; [reflexivity|].
    split; [reflexivity|]. intros [H _]. lia. }
  apply Z.ltb_ge in Hlow.
  destruct (align_find_bucket freq adj (List.length freq - 1) 0) as [i|] eqn:Hb.
  - apply align_find_bucket_some in Hb. destruct Hb as [Hi Hin].
    assert (Hq : c_div (s32 (100 * Z.of_nat i)) (s32 (buckets - 1)) =
                 Some (100 * Z.of_nat i / (buckets - 1))).
    { rewrite !s32_small by (subst buckets; lia).
      unfold c_div. replace (buckets - 1 =? 0) with false
        by (symmetry; apply Z.eqb_neq; subst buckets; lia).
      rewrite Z.quot_div_nonneg by (subst buckets; lia). reflexivity. }
    rewrite Hq.
    assert (Hrange : 0 <= 100 * Z.of_nat i / (buckets - 1) <= 100).
    { split.
      - apply Z.div_pos; subst buckets; lia.
      - apply Z.div_le_upper_bound; subst buckets; lia. }
    set (score := 100 * Z.of_nat i / (buckets - 1)) in *.
    assert (Hscore :
              Done = Done /\
              (adj <= nth 0 freq 0 \/ last < adj -> score = -1) /\
              (nth 0 freq 0 < adj <= last ->
               exists i0, (i0 < List.length freq - 1)%nat /\
                 nth i0 freq 0 < adj <= nth (S i0) freq 0 /\
                 score = 100 * Z.of_nat i0 / (buckets - 1) /\
                 0 <= score <= 100)).
    { split; [reflexivity|]. split.
      - intros [H|H].
        + pose proof (Hasc 0%nat i ltac:(lia)). lia.
        + pose proof (Hasc (S i) (List.length freq - 1)%nat ltac:(lia)).
          subst last. lia.
      - intros _. exists i. repeat split; try lia. }
    run. repeat (branch; run); exact Hscore.
  - run. split; [reflexivity|]. split; [reflexivity|].
    intros Hin. exfalso.
    apply (align_find_bucket_in_range freq adj (List.length freq - 1) 0);
      [|exact Hb].
    cbn [Nat.add]. subst last. lia.
Qed.

(** *** Publication *)

(** A run publishes a score when it schedules the uevent work. *)
Definition published {A : Type} (r : result A) : Prop :=
  In (EvScheduleWork uevent_work) (out r).

Lemma align_evaluate_publish freq wlc_freq current_scaling c :
  let adj := s32 (u32 (wlc_freq + current_scaling)) in
  let r := align_evaluate freq wlc_freq current_scaling c in
  (published r ->
   alignment (st r) <> alignment_last c /\
   alignment_last (st r) = alignment (st r) /\
   (alignment (st r) < alignment_last c \/
    exists i, nth i freq 0 < adj <= nth (S i) freq 0 /\
      adj >= s32 (u32 (nth i freq 0 + alignment_hysteresis (pdata c))))) /\
  (~ published r -> alignment_last (st r) = alignment_last c).
Proof.
  intros adj r. subst r. unfold published, align_evaluate. run. fold adj.
  destruct (adj <? nth 0 freq 0).
  { run. split; [intros [H|[]]; discriminate|reflexivity]. }
  destruct (align_find_bucket _ _ _ _) as [i|] eqn:Hb.
  2:{ run. split; [intros [H|[]]; discriminate|reflexivity]. }
  apply align_find_bucket_some in Hb. destruct Hb as [_ Hin].
  destruct (c_div _ _) as [score|].
  2:{ run. split; [intros []|reflexivity]. }
  run. destruct (score =? alignment_last c) eqn:Heq.
  { run. split; [intros []|reflexivity]. }
  apply Z.eqb_neq in Heq.
  destruct ((score <? alignment_last c) || _) eqn:Hpub; run.
  - split; [intros _|intros H; exfalso; apply H; now left].
    split; [exact Heq|]. split; [reflexivity|].
    apply orb_true_iff in Hpub. destruct Hpub as [H|H].
    + left. now apply Z.ltb_lt.
    + right. exists i. split; [exact Hin|]. apply Z.geb_le in H. lia.
  - split; [intros []|reflexivity].
Qed.

Lemma is_epp_keeps_last e c :
  alignment_last (st (p9221_is_epp e c)) = alignment_last c /\
  alignment (st (p9221_is_epp e c)) = alignment c /\
  ~ published (p9221_is_epp e c).
Proof.
  unfold published, p9221_is_epp. run.
  repeat (branch; run); repeat split; try reflexivity;
    intros H; repeat (destruct H as [H|H]; try discriminate H); exact H.
Qed.

Lemma align_mfg_check_keeps_last e c :
  alignment_last (st (align_mfg_check e c)) = alignment_last c /\
  ~ published (align_mfg_check e c).
Proof.
  unfold published, align_mfg_check, p9221_is_epp. run.
  repeat (branch; run); (split; [reflexivity|]); intros H;
    repeat (destruct H as [H|H]; try discriminate H); exact H.
Qed.

Lemma align_current_scaling_keeps_last e c :
  alignment_last (st (align_current_scaling e c)) = alignment_last c /\
  ~ published (align_current_scaling e c).
Proof.
  unfold published, align_current_scaling. run.
  repeat (branch; run); (split; [reflexivity|]); intros H;
    repeat (destruct H as [H|H]; try discriminate H); exact H.
Qed.

(** Programs that neither publish nor touch the last published score. *)
Definition quiet {A : Type} (m : M A) : Prop :=
  forall c, alignment_last (st (m c)) = alignment_last c /\ ~ published (m c).

Lemma quiet_ret {A : Type} (a : A) : quiet (Ret a).
Proof. intros c. split; [reflexivity|intros []]. Qed.

Lemma quiet_get : quiet get.
Proof. intros c. split; [reflexivity|intros []]. Qed.

Lemma quiet_bind {A B : Type} (m : M A) (k : A -> M B) :
  quiet m -> (forall a, quiet (k a)) -> quiet (bind m k).
Proof.
  intros Hm Hk c. destruct (Hm c) as [H1 H2].
  destruct (Hk (val (m c)) (st (m c))) as [H3 H4].
  split; [rewrite st_bind; congruence|].
  unfold published in *. rewrite out_bind, in_app_iff. tauto.
Qed.

Ltac quiet_leaf :=
  intros ?c; split; [reflexivity|];
  unfold published; cbn; intros H;
  repeat (destruct H as [H|H]; try discriminate H); exact H.

Lemma align_measure_quiet e : quiet (align_measure e).
Proof.
  unfold align_measure.
  apply quiet_bind; [apply quiet_get|intros c].
  destruct (alignment_freq (pdata c)) as [freq|]; [|apply quiet_ret].
  apply quiet_bind; [quiet_leaf|intros _].
  destruct (negb (online c)); [apply quiet_ret|].
  apply quiet_bind; [unfold when; branch; quiet_leaf|intros _].
  apply quiet_bind.
  { destruct (alignment_capable c); try apply quiet_ret.
    exact (align_mfg_check_keeps_last e). }
  intros go. destruct (negb go); [apply quiet_ret|].
  apply quiet_bind.
  { branch; [apply quiet_ret|exact (align_current_scaling_keeps_last e)]. }
  intros cs. apply quiet_bind; [quiet_leaf|intros r].
  branch; [|apply quiet_ret].
  apply quiet_bind; [quiet_leaf|intros _]. apply quiet_ret.
Qed.

Lemma align_work_publish e c :
  let r := p9221_align_work e c in
  (published r ->
   alignment (st r) <> alignment_last c /\
   alignment_last (st r) = alignment (st r)) /\
  (~ published r -> alignment_last (st r) = alignment_last c).
Proof.
  intros r. subst r. unfold p9221_align_work.
  destruct (align_measure_quiet e c) as [Hl Hq].
  unfold published in *. rewrite st_bind, out_bind.
  destruct (val (align_measure e c)) as [[[freq wf] cs]|].
  - destruct (align_evaluate_publish freq wf cs (st (align_measure e c)))
      as [H1 H2].
    unfold published in *. rewrite Hl in H1, H2. split.
    + intros H. apply in_app_iff in H. destruct H as [H|H]; [tauto|].
      destruct (H1 H) as (Ha & Hb & _). now split.
    + intros H. apply H2. intros H'. apply H. apply in_app_iff. now right.
  - run. rewrite app_nil_r. split; [tauto|intros _; exact Hl].
Qed.

(** C7: an alignment evaluation publishes its score (schedules the uevent
    and records the score as last published) only when the score differs
    from the last published one and either is lower or the adjusted
    frequency has reached the lower breakpoint of its bucket plus the
    hysteresis margin; hence two adjacent runs of the alignment work that
    both publish never publish the same score. *)
Theorem align_publish_hysteresis :
  (forall freq wlc_freq current_scaling c,
     let adj := s32 (u32 (wlc_freq + current_scaling)) in
     let r := align_evaluate freq wlc_freq current_scaling c in
     published r ->
     alignment (st r) <> alignment_last c /\
     alignment_last (st r) = alignment (st r) /\
     (alignment (st r) < alignment_last c \/
      exists i, nth i freq 0 < adj <= nth (S i) freq 0 /\
        adj >= s32 (u32 (nth i freq 0 + alignment_hysteresis (pdata c))))) /\
  (forall e1 e2 c,
     let r1 := p9221_align_work e1 c in
     let r2 := p9221_align_work e2 (st r1) in
     published r1 -> published r2 ->
     alignment_last (st r2) <> alignment_last (st r1)).
Proof.
  split.
  - intros freq wf cs c adj r.
    exact (proj1 (align_evaluate_publish freq wf cs c)).
  - intros e1 e2 c r1 r2 _ H2.
    destruct (align_work_publish e2 (st r1)) as [H _].
    destruct (H H2) as [Hne Heq]. fold r2 in Hne, Heq. congruence.
Qed.

End AlignmentFacts.

(** Four breakpoints, three buckets: 125 kHz lies within the range and is
    scored without fault. *)
Lemma align_evaluate_score_witness :
  let freq := [100000; 110000; 130000; 150000] in
  let r := align_evaluate freq 125000 0 (aligning_charger freq (-1)) in
  val r = Done /\
  exists i, (i < 3)%nat /\
    alignment (st r) = 100 * Z.of_nat i / 2 /\ 0 <= alignment (st r) <= 100.
Proof.
  intros freq r.
  destruct (align_evaluate_score freq 125000 0 (aligning_charger freq (-1)))
    as (Hv & _ & Hin).
  - cbn. lia.
  - reflexivity.
  - vm_compute. reflexivity.
  - reflexivity.
  - split; [exact Hv|].
    destruct Hin as (i & Hi & _ & Ha & Hr); [vm_compute; split; congruence|].
    exists i. repeat split; [exact Hi|exact Ha|apply Hr|apply Hr].
Defined.

Example align_evaluate_middle_bucket :
  let freq := [100000; 110000; 130000; 150000] in
  alignment (st (align_evaluate freq 125000 0 (aligning_charger freq (-1))))
  = 50.
Proof. reflexivity. Qed.

(** Two breakpoints make one bucket, and the score formula divides by
    [align_buckets - 1 = 0]: with 110 kHz between the two the work faults. *)
Lemma align_two_breakpoints_divide_by_zero :
  let freq := [100000; 120000] in
  (2 <= List.length freq)%nat /\
  ascendingb freq = true /\
  nb_alignment_freq (aligning_pdata freq) - 1 - 1 = 0 /\
  val (p9221_align_work (hdr := example_header) (op_freq_khz 110)
         (aligning_charger freq (-1))) = DivideByZero.
Proof. vm_compute. repeat split. lia. Qed.

(** The score rises from 0 to 50 only once the frequency is 5 kHz into the
    second bucket; the run after that computes 50 again and stays silent. *)
Lemma align_publish_hysteresis_witness :
  let freq := [100000; 110000; 130000; 150000] in
  let c := aligning_charger freq 0 in
  let r0 := p9221_align_work (hdr := example_header) (op_freq_khz 112) c in
  let r1 := p9221_align_work (hdr := example_header) (op_freq_khz 116) c in
  let r2 := p9221_align_work (hdr := example_header) (op_freq_khz 116) (st r1) in
  ~ published r0 /\ published r1 /\ alignment_last (st r1) = 50 /\
  ~ published r2.
Proof.
  intros freq c r0 r1 r2.
  assert (H1 : published r1) by (vm_compute; tauto).
  assert (H0 : ~ published r0).
  { vm_compute. intros H.
    repeat (destruct H as [H|H]; try discriminate H); exact H. }
  split; [exact H0|]. split; [exact H1|]. split; [reflexivity|].
  intros H2.
  exact (proj2 (align_publish_hysteresis (hdr := example_header))
           (op_freq_khz 116) (op_freq_khz 116) c H1 H2 eq_refl).
Defined.

(** Reading the attribute of an idle device arms the alignment work;
    reading a known score of 50 changes nothing. *)
Lemma show_alignment_resets_when_unknown_witness :
  out (p9221_show_alignment (hdr := example_header) example_charger)
    = [EvScheduleDelayedWork align_work 100] /\
  st (p9221_show_alignment (hdr := example_header)
        (aligning_charger [100000; 110000; 130000] 50))
    = aligning_charger [100000; 110000; 130000] 50.
Proof.
  split.
  - exact (proj2 (proj1 (show_alignment_resets_when_unknown
                           (hdr := example_header) example_charger)
                    eq_refl)).
  - apply (proj2 (show_alignment_resets_when_unknown
                    (hdr := example_header)
                    (aligning_charger [100000; 110000; 130000] 50))).
    discriminate.
Defined.

(** ** Foreign object detection table *)

Section FodFacts.

Context {hdr : p9221_charger_h}.

Definition is_fod_write (ev : event) : bool :=
  match ev with EvRegWriteN P9221R5_FOD_REG _ _ => true | _ => false end.

Definition is_fod_read (ev : event) : bool :=
  match ev with EvRegReadN P9221R5_FOD_REG _ _ _ => true | _ => false end.

(** The three ways the function says that the table is not in place. *)
Definition is_fod_complaint (ev : event) : bool :=
  match ev with
  | EvLog KERN_WARNING fmt _ =>
      String.eqb fmt "FOD not set! bpp:%d epp:%d r:%d\n"
  | EvLog KERN_ERR fmt _ =>
      String.eqb fmt "Could not write FOD: %d\n"
      || String.eqb fmt "Could not read back FOD: %d\n"
  | _ => false
  end.

(** Attempt [j] wrote [fod] and read it back, identical or not. *)
Definition attempt_clean (e : fod_env) (j : nat) : Prop :=
  fe_write e j = 0 /\ fst (fe_read e j) = 0.

Definition attempt_matches (e : fod_env) (fod : list Byte.byte) (n : Z)
    (j : nat) : Prop :=
  attempt_clean e j /\
  firstn (Z.to_nat n) fod = firstn (Z.to_nat n) (snd (fe_read e j)).

(** The table [p9221_write_fod] settles on, with its length. *)
Definition fod_select (is_epp : bool) (pd : p9221_charger_platform_data)
  : option (list Byte.byte * Z) :=
  if (fod_num pd =? 0) && (fod_epp_num pd =? 0) then None
  else if is_epp && nonzero (fod_epp_num pd)
       then Some (fod_epp pd, fod_epp_num pd)
  else if nonzero (fod_num pd) then Some (fod pd, fod_num pd)
  else None.

Lemma memcmp_eq_true a b n :
  memcmp_eq a b n = true <->
  firstn (Z.to_nat n) a = firstn (Z.to_nat n) b.
Proof.
  unfold memcmp_eq. destruct (list_eq_dec _ _ _); split; congruence.
Qed.

Lemma firstn_idem {A : Type} n (l : list A) :
  firstn n (firstn n l) = firstn n l.
Proof. rewrite firstn_firstn. now rewrite Nat.min_id. Qed.

Lemma write_fod_loop_facts e epp fod n : forall retries i c,
  let r := write_fod_loop e retries i epp fod n c in
  st r = c /\
  (List.length (filter is_fod_write (out r)) <= retries)%nat /\
  (List.length (filter is_fod_read (out r)) <= retries)%nat /\
  (val r = true ->
   existsb is_fod_complaint (out r) = false ->
   exists j, (i <= j < i + retries)%nat /\ attempt_matches e fod n j) /\
  (val r = false -> existsb is_fod_complaint (out r) = false) /\
  ((forall j, (i <= j < i + retries)%nat ->
      attempt_clean e j /\ ~ attempt_matches e fod n j) ->
   val r = false).
Proof.
  induction retries as [|retries IH]; intros i c r; subst r.
  - cbn. repeat split; try lia; try discriminate; reflexivity.
  - cbn [write_fod_loop]. run.
    destruct (nonzero (fe_write e i)) eqn:Hw; run.
    { repeat split; try lia; try discriminate.
      intros H. destruct (H i ltac:(lia)) as [[Hc _] _].
      apply nonzero_true in Hw. contradiction. }
    destruct (nonzero (fst (fe_read e i))) eqn:Hr; run.
    { repeat split; try lia; try discriminate.
      intros H. destruct (H i ltac:(lia)) as [[_ Hc] _].
      apply nonzero_true in Hr. contradiction. }
    apply nonzero_false in Hw, Hr.
    destruct (memcmp_eq fod _ n) eqn:Hm; run.
    { apply memcmp_eq_true in Hm. rewrite firstn_idem in Hm.
      repeat split; try lia; try discriminate.
      - intros _ _. exists i. split; [lia|]. now repeat split.
      - intros H. destruct (H i ltac:(lia)) as [_ Hn]. exfalso. apply Hn.
        now repeat split. }
    destruct (IH (S i) c) as (Hst & Hwr & Hrd & Hok & Hko & Hall).
    rewrite Hst. repeat split.
    + lia.
    + lia.
    + intros Hv Hq. destruct (Hok Hv Hq) as (j & Hj & Hmj).
      exists j. split; [lia|exact Hmj].
    + exact Hko.
    + intros H. apply Hall. intros j Hj. apply H. lia.
Qed.

Lemma is_epp_no_fod e c :
  filter is_fod_write (out (p9221_is_epp e c)) = [] /\
  filter is_fod_read (out (p9221_is_epp e c)) = [] /\
  existsb is_fod_complaint (out (p9221_is_epp e c)) = false /\
  pdata (st (p9221_is_epp e c)) = pdata c.
Proof.
  unfold p9221_is_epp. run. repeat (branch; run); repeat split.
Qed.

(** The budget, the silent ending and the ending after three clean
    attempts that do not match. *)
Lemma write_fod_budget
    (e : fod_env) (c : p9221_charger_data) :
  let r := p9221_write_fod e c in
  let sel := fod_select (val (p9221_is_epp (fe_epp e) c)) (pdata c) in
  (List.length (filter is_fod_write (out r)) <= 3)%nat /\
  (List.length (filter is_fod_read (out r)) <= 3)%nat /\
  (existsb is_fod_complaint (out r) = false ->
   exists fod n j,
     sel = Some (fod, n) /\ (j < 3)%nat /\ attempt_matches e fod n j) /\
  (forall fod n,
     sel = Some (fod, n) ->
     (forall j, (j < 3)%nat ->
        attempt_clean e j /\ ~ attempt_matches e fod n j) ->
     exists pre,
       out r = pre ++ [EvLog KERN_WARNING "FOD not set! bpp:%d epp:%d r:%d\n"
                         [AInt (fod_num (pdata c));
                          AInt (fod_epp_num (pdata c)); AInt 0]]) /\
  val r = tt.
Proof.
  intros r sel. subst r sel. unfold p9221_write_fod, fod_select.
  rewrite out_bind. cbn [get val st out app].
  destruct ((fod_num (pdata c) =? 0) && (fod_epp_num (pdata c) =? 0)) eqn:H0.
  { unfold fod_not_set. rung.
    repeat split; try lia; try discriminate.
    destruct (val _); reflexivity. }
  rewrite out_bind.
  destruct (is_epp_no_fod (fe_epp e) c) as (Hew & Her & Hec & Hpd).
  set (ie := p9221_is_epp (fe_epp e) c) in *. clearbody ie.
  rewrite !filter_app, Hew, Her. cbn [app].
  rewrite existsb_app, Hec. cbn [orb].
  assert (Hunit : forall u : unit, u = tt) by (intros []; reflexivity).
  destruct (val ie && nonzero (fod_epp_num (pdata c))) eqn:Hepp.
  - (* the EPP table *)
    rewrite out_bind.
    pose proof (write_fod_loop_facts e true (fod_epp (pdata c))
                  (fod_epp_num (pdata c)) 3 0 (st ie)) as Hlp.
    cbv zeta in Hlp.
    set (lp := write_fod_loop _ _ _ _ _ _ _) in *. clearbody lp.
    destruct Hlp as (Hst & Hwr & Hrd & Hok & Hko & Hall).
    rewrite !filter_app, existsb_app, !length_app.
    destruct (val lp) eqn:Hv; rung;
      rewrite ?app_nil_r, ?Nat.add_0_r, ?orb_false_r.
    + repeat split; try lia; try apply Hunit.
      * intros Hq. destruct (Hok eq_refl Hq) as (j & Hj & Hm).
        exists (fod_epp (pdata c)), (fod_epp_num (pdata c)), j.
        repeat split; try apply Hm; lia.
      * intros fod n Hsel Hmis. injection Hsel as <- <-.
        assert (Hf : true = false); [|discriminate Hf].
        apply Hall. intros j Hj. apply Hmis. lia.
    + rewrite Hst, Hpd. cbn. rewrite ?Nat.add_0_r.
      repeat split; try lia; try apply Hunit;
        try (rewrite ?orb_true_r; discriminate).
      intros fod n _ _. eexists. rewrite app_assoc. reflexivity.
  - destruct (nonzero (fod_num (pdata c))) eqn:Hbpp.
    + (* the BPP table *)
      rewrite out_bind.
      pose proof (write_fod_loop_facts e false (fod (pdata c))
                    (fod_num (pdata c)) 3 0 (st ie)) as Hlp.
      cbv zeta in Hlp.
      set (lp := write_fod_loop _ _ _ _ _ _ _) in *. clearbody lp.
      destruct Hlp as (Hst & Hwr & Hrd & Hok & Hko & Hall).
      rewrite !filter_app, existsb_app, !length_app.
      destruct (val lp) eqn:Hv; rung;
        rewrite ?app_nil_r, ?Nat.add_0_r, ?orb_false_r.
      * repeat split; try lia; try apply Hunit.
        -- intros Hq. destruct (Hok eq_refl Hq) as (j & Hj & Hm).
           exists (fod (pdata c)), (fod_num (pdata c)), j.
           repeat split; try apply Hm; lia.
        -- intros fod n Hsel Hmis. injection Hsel as <- <-.
           assert (Hf : true = false); [|discriminate Hf].
           apply Hall. intros j Hj. apply Hmis. lia.
      * rewrite Hst, Hpd. cbn. rewrite ?Nat.add_0_r.
        repeat split; try lia; try apply Hunit;
          try (rewrite ?orb_true_r; discriminate).
        intros fod n _ _. eexists. rewrite app_assoc. reflexivity.
    + (* no table for this profile *)
      unfold fod_not_set. rung.
      repeat split; try lia; try discriminate; apply Hunit.
Qed.

(** The warning of the label [no_fod:]. *)
Definition is_fod_not_set (ev : event) : bool :=
  match ev with
  | EvLog KERN_WARNING fmt _ =>
      String.eqb fmt "FOD not set! bpp:%d epp:%d r:%d\n"
  | _ => false
  end.

(** What the log ends with when attempt [j] fails to write or to read. *)
Definition fod_transfer_error (e : fod_env) (j : nat) : event :=
  if nonzero (fe_write e j)
  then EvLog KERN_ERR "Could not write FOD: %d\n" [AInt (fe_write e j)]
  else EvLog KERN_ERR "Could not read back FOD: %d\n"
         [AInt (fst (fe_read e j))].

Lemma is_epp_no_warning e c :
  existsb is_fod_not_set (out (p9221_is_epp e c)) = false.
Proof.
  unfold p9221_is_epp. run. repeat (branch; run); reflexivity.
Qed.

(** The loop never logs the warning; and when a transfer of attempt [j]
    fails after clean attempts that did not match, the loop returns from
    inside with the error of the transfer last in the log, after [j + 1]
    writes. *)
Lemma write_fod_loop_transfer_fails e epp fod n : forall retries i c,
  let r := write_fod_loop e retries i epp fod n c in
  existsb is_fod_not_set (out r) = false /\
  forall j, (i <= j < i + retries)%nat ->
    (forall k, (i <= k < j)%nat ->
       attempt_clean e k /\ ~ attempt_matches e fod n k) ->
    ~ attempt_clean e j ->
    val r = true /\
    (exists pre, out r = pre ++ [fod_transfer_error e j]) /\
    List.length (filter is_fod_write (out r)) = (j - i + 1)%nat.
Proof.
  induction retries as [|retries IH]; intros i c r; subst r.
  - split; [reflexivity|]. intros j Hj. lia.
  - cbn [write_fod_loop]. run.
    destruct (nonzero (fe_write e i)) eqn:Hw; run.
    { split; [reflexivity|]. intros j Hj Hbefore Hfail.
      destruct (Nat.eq_dec j i) as [->|Hne].
      - split; [reflexivity|]. unfold fod_transfer_error. rewrite Hw.
        split; [eexists [_; _]; reflexivity|].
        replace (i - i + 1)%nat with 1%nat by lia. reflexivity.
      - destruct (Hbefore i ltac:(lia)) as [[Hc _] _].
        apply nonzero_true in Hw. contradiction. }
    destruct (nonzero (fst (fe_read e i))) eqn:Hr; run.
    { split; [reflexivity|]. intros j Hj Hbefore Hfail.
      destruct (Nat.eq_dec j i) as [->|Hne].
      - split; [reflexivity|]. unfold fod_transfer_error. rewrite Hw.
        split; [eexists [_; _; _]; reflexivity|].
        replace (i - i + 1)%nat with 1%nat by lia. reflexivity.
      - destruct (Hbefore i ltac:(lia)) as [[_ Hc] _].
        apply nonzero_true in Hr. contradiction. }
    apply nonzero_false in Hw, Hr.
    destruct (memcmp_eq fod _ n) eqn:Hm; run.
    { split; [reflexivity|]. intros j Hj Hbefore Hfail.
      apply memcmp_eq_true in Hm. rewrite firstn_idem in Hm.
      destruct (Nat.eq_dec j i) as [->|Hne].
      - exfalso. apply Hfail. now split.
      - destruct (Hbefore i ltac:(lia)) as [_ Hn]. exfalso. apply Hn.
        now repeat split. }
    destruct (IH (S i) c) as (Hno & Hfails).
    split; [exact Hno|]. intros j Hj Hbefore Hfail.
    destruct (Nat.eq_dec j i) as [->|Hne].
    { exfalso. apply Hfail. now split. }
    destruct (Hfails j ltac:(lia)) as (Hv & (pre & Hpre) & Hlen).
    { intros k Hk. apply Hbefore. lia. }
    { exact Hfail. }
    split; [exact Hv|]. split.
    + rewrite Hpre. eexists (_ :: _ :: _ :: _ :: _ :: pre). reflexivity.
    + rewrite Hlen. lia.
Qed.

(** A failed transfer ends the run at once: the error of the transfer is
    the last line of the log, and the warning is not logged. *)
Lemma write_fod_transfer_fails (e : fod_env) (c : p9221_charger_data) :
  let r := p9221_write_fod e c in
  let sel := fod_select (val (p9221_is_epp (fe_epp e) c)) (pdata c) in
  forall fod n j,
    sel = Some (fod, n) -> (j < 3)%nat ->
    (forall k, (k < j)%nat ->
       attempt_clean e k /\ ~ attempt_matches e fod n k) ->
    ~ attempt_clean e j ->
    existsb is_fod_not_set (out r) = false /\
    (exists pre, out r = pre ++ [fod_transfer_error e j]) /\
    List.length (filter is_fod_write (out r)) = (j + 1)%nat.
Proof.
  intros r sel fod n j. subst r sel. unfold p9221_write_fod, fod_select.
  rewrite out_bind. cbn [get val st out app].
  destruct ((fod_num (pdata c) =? 0) && (fod_epp_num (pdata c) =? 0)) eqn:H0;
    [discriminate|].
  rewrite out_bind.
  pose proof (is_epp_no_warning (fe_epp e) c) as Hew.
  destruct (is_epp_no_fod (fe_epp e) c) as (Hewr & _ & _ & _).
  set (ie := p9221_is_epp (fe_epp e) c) in *. clearbody ie.
  assert (Hloop : forall epp,
    let lp := write_fod_loop e 3 0 epp fod n (st ie) in
    (forall k, (k < j)%nat ->
       attempt_clean e k /\ ~ attempt_matches e fod n k) ->
    ~ attempt_clean e j -> (j < 3)%nat ->
    existsb is_fod_not_set
      (out ie ++ out (bind (write_fod_loop e 3 0 epp fod n)
                        (fun returned =>
                           if returned then Ret tt else fod_not_set 0)
                        (st ie))) = false /\
    (exists pre,
       out ie ++ out (bind (write_fod_loop e 3 0 epp fod n)
                        (fun returned =>
                           if returned then Ret tt else fod_not_set 0)
                        (st ie)) = pre ++ [fod_transfer_error e j]) /\
    List.length (filter is_fod_write
      (out ie ++ out (bind (write_fod_loop e 3 0 epp fod n)
                        (fun returned =>
                           if returned then Ret tt else fod_not_set 0)
                        (st ie)))) = (j + 1)%nat).
  { intros epp lp Hbefore Hfail Hj. subst lp.
    destruct (write_fod_loop_transfer_fails e epp fod n 3 0 (st ie))
      as (Hno & Hfails).
    destruct (Hfails j ltac:(lia)) as (Hv & (pre & Hpre) & Hlen).
    { intros k Hk. apply Hbefore. lia. }
    { exact Hfail. }
    rewrite out_bind, Hv. cbn [Ret out]. rewrite app_nil_r.
    rewrite existsb_app, Hew, Hno. split; [reflexivity|]. split.
    - exists (out ie ++ pre). rewrite Hpre. now rewrite app_assoc.
    - rewrite filter_app, Hewr. cbn [app]. rewrite Hlen. lia. }
  destruct (val ie && nonzero (fod_epp_num (pdata c))) eqn:Hepp.
  - intros Hsel Hj Hbefore Hfail. injection Hsel as <- <-.
    apply Hloop; assumption.
  - destruct (nonzero (fod_num (pdata c))) eqn:Hbpp; [|discriminate].
    intros Hsel Hj Hbefore Hfail. injection Hsel as <- <-.
    apply Hloop; assumption.
Qed.

(** C8, amended: one run of the FOD write writes the table and reads it
    back at most three times; it ends without a complaint in the log only
    when a read-back matched the written table byte for byte; when the
    table is configured, every transfer succeeds and none of the three
    read-backs matches, it ends with the warning that the FOD is not set;
    and when a write or a read-back fails, after attempts that went
    through and did not match, it ends at once with the error of the
    transfer, without that warning.  The function returns void: what the
    caller gets back does not tell the endings apart. *)
Theorem write_fod_verifies_within_budget
    (e : fod_env) (c : p9221_charger_data) :
  let r := p9221_write_fod e c in
  let sel := fod_select (val (p9221_is_epp (fe_epp e) c)) (pdata c) in
  (List.length (filter is_fod_write (out r)) <= 3)%nat /\
  (List.length (filter is_fod_read (out r)) <= 3)%nat /\
  (existsb is_fod_complaint (out r) = false ->
   exists fod n j,
     sel = Some (fod, n) /\ (j < 3)%nat /\ attempt_matches e fod n j) /\
  (forall fod n,
     sel = Some (fod, n) ->
     (forall j, (j < 3)%nat ->
        attempt_clean e j /\ ~ attempt_matches e fod n j) ->
     exists pre,
       out r = pre ++ [EvLog KERN_WARNING "FOD not set! bpp:%d epp:%d r:%d\n"
                         [AInt (fod_num (pdata c));
                          AInt (fod_epp_num (pdata c)); AInt 0]]) /\
  (forall fod n j,
     sel = Some (fod, n) -> (j < 3)%nat ->
     (forall k, (k < j)%nat ->
        attempt_clean e k /\ ~ attempt_matches e fod n k) ->
     ~ attempt_clean e j ->
     existsb is_fod_not_set (out r) = false /\
     (exists pre, out r = pre ++ [fod_transfer_error e j]) /\
     List.length (filter is_fod_write (out r)) = (j + 1)%nat) /\
  val r = tt.
Proof.
  intros r sel. subst r sel.
  destruct (write_fod_budget e c) as (H1 & H2 & H3 & H4 & H5).
  split; [exact H1|]. split; [exact H2|]. split; [exact H3|].
  split; [exact H4|]. split; [|exact H5].
  exact (write_fod_transfer_fails e c).
Qed.

End FodFacts.

(** The register reads back zeros three times: the run ends with the
    warning, after three writes.  When the second write fails instead, the
    run ends there, with the error and without the warning. *)
Lemma write_fod_verifies_within_budget_witness :
  let e := fod_reads_back [Byte.x00; Byte.x00; Byte.x00; Byte.x00] in
  let r := p9221_write_fod (hdr := example_header) e fod_charger in
  let r' := p9221_write_fod (hdr := example_header) fod_second_write_fails
              fod_charger in
  ((List.length (filter is_fod_write (out r)) <= 3)%nat /\
   exists pre,
     out r = pre ++ [EvLog KERN_WARNING "FOD not set! bpp:%d epp:%d r:%d\n"
                       [AInt 4; AInt 0; AInt 0]]) /\
  (existsb is_fod_not_set (out r') = false /\
   (exists pre,
      out r' = pre ++ [EvLog KERN_ERR "Could not write FOD: %d\n"
                         [AInt (- EIO)]]) /\
   List.length (filter is_fod_write (out r')) = 2%nat).
Proof.
  intros e r r'. split.
  - destruct (write_fod_verifies_within_budget (hdr := example_header)
                e fod_charger) as (Hw & _ & _ & Hfail & _).
    split; [exact Hw|].
    apply (Hfail fod_table 4).
    + vm_compute. reflexivity.
    + intros j _. split; [split; reflexivity|].
      intros [_ Hm]. vm_compute in Hm. discriminate Hm.
  - destruct (write_fod_verifies_within_budget (hdr := example_header)
                fod_second_write_fails fod_charger)
      as (_ & _ & _ & _ & Herr & _).
    apply (Herr fod_table 4 1%nat).
    + vm_compute. reflexivity.
    + lia.
    + intros k Hk. assert (k = 0%nat) as -> by lia.
      split; [split; reflexivity|].
      intros [_ Hm]. vm_compute in Hm. discriminate Hm.
    + intros [Hw _]. vm_compute in Hw. discriminate Hw.
Defined.

(** A run that never verifies and a run that verifies at once hand the
    same thing back to the caller: no value, and the same device state. *)
Lemma write_fod_failure_not_reported :
  let bad := fod_reads_back [Byte.x00; Byte.x00; Byte.x00; Byte.x00] in
  let good := fod_reads_back fod_table in
  let r_bad := p9221_write_fod (hdr := example_header) bad fod_charger in
  let r_good := p9221_write_fod (hdr := example_header) good fod_charger in
  (forall j, ~ attempt_matches bad fod_table 4 j) /\
  attempt_matches good fod_table 4 0 /\
  List.length (filter is_fod_write (out r_bad)) = 3%nat /\
  existsb is_fod_complaint (out r_good) = false /\
  val r_bad = val r_good /\ st r_bad = st r_good.
Proof.
  cbv zeta. split; [|split; [|split; [|split; [|split]]]].
  - intros j [_ Hm]. vm_compute in Hm. discriminate Hm.
  - repeat split.
  - vm_compute. reflexivity.
  - vm_compute. reflexivity.
  - vm_compute. reflexivity.
  - vm_compute. reflexivity.
Qed.

(** ** Reverse power *)

Section RtxFacts.

Context {hdr : p9221_charger_h}.

Definition is_gpio (ev : event) : bool :=
  match ev with EvGpioSet _ _ => true | _ => false end.

(** An output driven high. *)
Definition is_assert (ev : event) : bool :=
  match ev with EvGpioSet _ true => true | _ => false end.

(** A vote of the driver on DISABLE_DCIN_EN: cast ([true]) or withdrawn. *)
Definition is_dcin_vote (en : bool) (ev : event) : bool :=
  match ev with
  | EvVote DISABLE_DCIN_EN _ P9221_WLC_VOTER en' _ _ => Bool.eqb en en'
  | _ => false
  end.

(** The exclusivity vote cast on an existing votable and accepted. *)
Definition is_dcin_committed (ev : event) : bool :=
  match ev with
  | EvVote DISABLE_DCIN_EN true P9221_WLC_VOTER true _ ret => ret =? 0
  | _ => false
  end.

(** The boost and switch lines the platform has. *)
Definition rtx_outputs (pd : p9221_charger_platform_data) : list Z :=
  filter (fun g => g >=? 0) [ben_gpio pd; switch_gpio pd; boost_gpio pd].

(** *** Orderings, as properties of a trace *)

(** Whenever an output is driven high the exclusivity vote has been
    committed before. *)
Definition outputs_follow_vote (tr : trace) : Prop :=
  forall pre ev post,
    tr = pre ++ ev :: post -> is_assert ev = true ->
    existsb is_dcin_committed pre = true.

(** Whenever the vote is withdrawn, the outputs [gs] have been driven low
    before and no output is touched afterwards. *)
Definition release_follows_outputs (gs : list Z) (tr : trace) : Prop :=
  forall pre ev post,
    tr = pre ++ ev :: post -> is_dcin_vote false ev = true ->
    existsb is_gpio post = false /\
    forall g, In g gs -> In (EvGpioSet g false) pre.

(** The same orderings as checks that run along the trace. *)
Fixpoint outputs_follow_voteb (committed : bool) (tr : trace) : bool :=
  match tr with
  | [] => true
  | ev :: tr' =>
      (if is_assert ev then committed else true)
      && outputs_follow_voteb (committed || is_dcin_committed ev) tr'
  end.

Definition is_deassert (g : Z) (ev : event) : bool :=
  match ev with EvGpioSet g' false => g =? g' | _ => false end.

Fixpoint release_follows_outputsb (gs : list Z) (seen tr : trace) : bool :=
  match tr with
  | [] => true
  | ev :: tr' =>
      (if is_dcin_vote false ev
       then negb (existsb is_gpio tr')
            && forallb (fun g => existsb (is_deassert g) seen) gs
       else true)
      && release_follows_outputsb gs (ev :: seen) tr'
  end.

Lemma outputs_follow_voteb_sound tr : forall committed,
  outputs_follow_voteb committed tr = true ->
  forall pre ev post,
    tr = pre ++ ev :: post -> is_assert ev = true ->
    committed || existsb is_dcin_committed pre = true.
Proof.
  induction tr as [|x tr IH]; intros b H pre ev post Heq Hev.
  - destruct pre; discriminate.
  - cbn in H. apply andb_true_iff in H. destruct H as [Hx Htl].
    destruct pre as [|y pre]; cbn in Heq; injection Heq as -> Heq.
    + rewrite Hev in Hx. rewrite Hx. reflexivity.
    + specialize (IH _ Htl _ _ _ Heq Hev). cbn [existsb].
      rewrite orb_assoc. exact IH.
Qed.

Lemma is_deassert_in g seen :
  existsb (is_deassert g) seen = true -> In (EvGpioSet g false) seen.
Proof.
  intros H. apply existsb_exists in H. destruct H as (ev & Hin & Hd).
  destruct ev; try discriminate. destruct val0; try discriminate.
  cbn in Hd. apply Z.eqb_eq in Hd. now subst.
Qed.

Lemma release_follows_outputsb_sound gs tr : forall seen,
  release_follows_outputsb gs seen tr = true ->
  forall pre ev post,
    tr = pre ++ ev :: post -> is_dcin_vote false ev = true ->
    existsb is_gpio post = false /\
    forall g, In g gs -> In (EvGpioSet g false) (rev pre ++ seen).
Proof.
  induction tr as [|x tr IH]; intros seen H pre ev post Heq Hev.
  - destruct pre; discriminate.
  - cbn [release_follows_outputsb] in H. apply andb_true_iff in H.
    destruct H as [Hx Htl].
    destruct pre as [|y pre]; cbn in Heq; injection Heq as -> Heq.
    + subst tr. rewrite Hev in Hx. apply andb_true_iff in Hx.
      destruct Hx as [Hq Hd]. split; [now apply negb_true_iff|].
      intros g Hg. cbn. rewrite forallb_forall in Hd.
      apply is_deassert_in. now apply Hd.
    + destruct (IH _ Htl _ _ _ Heq Hev) as [Hq Hd]. split; [exact Hq|].
      intros g Hg. specialize (Hd g Hg). cbn [rev].
      rewrite <- app_assoc. exact Hd.
Qed.

Lemma release_follows_outputsb_ok gs tr :
  release_follows_outputsb gs [] tr = true -> release_follows_outputs gs tr.
Proof.
  intros H pre ev post Heq Hev.
  destruct (release_follows_outputsb_sound gs tr [] H pre ev post Heq Hev)
    as [Hq Hd].
  split; [exact Hq|]. intros g Hg. specialize (Hd g Hg).
  rewrite app_nil_r in Hd. now apply in_rev.
Qed.

Lemma outputs_follow_voteb_ok tr :
  outputs_follow_voteb false tr = true -> outputs_follow_vote tr.
Proof.
  intros H pre ev post Heq Hev.
  exact (outputs_follow_voteb_sound tr false H pre ev post Heq Hev).
Qed.

(** Calls that touch neither an output nor the exclusivity vote. *)
Definition is_rtx_neutral (ev : event) : bool :=
  match ev with
  | EvGpioSet _ _ => false
  | EvVote DISABLE_DCIN_EN _ _ _ _ _ => false
  | _ => true
  end.

Lemma outputs_follow_voteb_neutral tr : forall committed,
  forallb is_rtx_neutral tr = true ->
  outputs_follow_voteb committed tr = true.
Proof.
  induction tr as [|x tr IH]; intros b H; [reflexivity|].
  cbn in H. apply andb_true_iff in H. destruct H as [Hx Htl].
  cbn. rewrite (IH _ Htl), andb_true_r.
  destruct x; try reflexivity; discriminate.
Qed.

Lemma release_follows_outputsb_neutral gs tr : forall seen,
  forallb is_rtx_neutral tr = true ->
  release_follows_outputsb gs seen tr = true.
Proof.
  induction tr as [|x tr IH]; intros seen H; [reflexivity|].
  cbn in H. apply andb_true_iff in H. destruct H as [Hx Htl].
  cbn [release_follows_outputsb]. rewrite (IH _ Htl), andb_true_r.
  destruct x; try reflexivity. destruct v; try reflexivity; discriminate.
Qed.

Lemma neutral_no_gpio tr :
  forallb is_rtx_neutral tr = true -> existsb is_gpio tr = false.
Proof.
  induction tr as [|x tr IH]; intros H; [reflexivity|].
  cbn in H. apply andb_true_iff in H. destruct H as [Hx Htl].
  cbn. rewrite (IH Htl), orb_false_r. destruct x; try reflexivity.
  discriminate.
Qed.

Lemma set_rtx_configure_neutral e tx_icl c :
  forallb is_rtx_neutral (out (set_rtx_configure e tx_icl c)) = true.
Proof.
  unfold set_rtx_configure, p9221_enable_interrupts, p9221_clear_interrupts.
  run. repeat (branch; run); reflexivity.
Qed.

Lemma set_rtx_configure_st e tx_icl c :
  st (set_rtx_configure e tx_icl c) = c.
Proof.
  unfold set_rtx_configure, p9221_enable_interrupts, p9221_clear_interrupts.
  run. repeat (branch; run); reflexivity.
Qed.

(** What follows a trace of neutral calls is checked as if they were not
    there. *)
Lemma outputs_follow_voteb_skip tr rest : forall committed,
  forallb is_rtx_neutral tr = true ->
  outputs_follow_voteb committed (tr ++ rest)
  = outputs_follow_voteb committed rest.
Proof.
  induction tr as [|x tr IH]; intros b H; [reflexivity|].
  cbn in H. apply andb_true_iff in H. destruct H as [Hx Htl].
  cbn. rewrite (IH _ Htl).
  destruct x; cbn in *; rewrite ?orb_false_r; try reflexivity;
    try discriminate.
  destruct v; cbn in *; rewrite ?orb_false_r; try reflexivity; discriminate.
Qed.

Lemma existsb_gpio_skip tr rest :
  forallb is_rtx_neutral tr = true ->
  existsb is_gpio (tr ++ rest) = existsb is_gpio rest.
Proof.
  intros H. now rewrite existsb_app, (neutral_no_gpio tr H).
Qed.

Lemma existsb_dcin_vote_skip en tr rest :
  forallb is_rtx_neutral tr = true ->
  existsb (is_dcin_vote en) (tr ++ rest) = existsb (is_dcin_vote en) rest.
Proof.
  intros H. rewrite existsb_app.
  replace (existsb (is_dcin_vote en) tr) with false; [reflexivity|].
  symmetry. induction tr as [|x tr IH]; [reflexivity|].
  cbn in H. apply andb_true_iff in H. destruct H as [Hx Htl].
  cbn. rewrite (IH Htl), orb_false_r.
  destruct x; try reflexivity. destruct v; try reflexivity; discriminate.
Qed.

Lemma release_follows_outputsb_skip gs tr rest : forall seen,
  forallb is_rtx_neutral tr = true ->
  forallb is_rtx_neutral rest = true ->
  release_follows_outputsb gs seen (tr ++ rest) = true.
Proof.
  intros seen H1 H2. apply release_follows_outputsb_neutral.
  rewrite forallb_app, H1, H2. reflexivity.
Qed.

Ltac rtx_tail :=
  rewrite ?outputs_follow_voteb_skip, ?existsb_gpio_skip,
    ?existsb_dcin_vote_skip, ?release_follows_outputsb_skip
    by (try (match goal with H : forall _ _, forallb _ _ = true |- _ =>
               apply H end); reflexivity).

Ltac rtx_branch :=
  match goal with
  | H : ?b = _ |- context [if ?b then _ else _] => rewrite H
  | H : ?b = _ |- context [if negb ?b then _ else _] => rewrite H; cbn [negb]
  | |- context [if negb ?b then _ else _] => destruct b eqn:?; cbn [negb]
  | |- context [if ?b then _ else _] => destruct b eqn:?
  | |- context [match ?x with RTX_NO_ERROR => _ | _ => _ end] => destruct x
  end.

(** Every path of [p9382_set_rtx], with the check [mon] left folded. *)
Ltac rtx_paths :=
  unfold p9382_set_rtx, p9382_set_rtx_enable, p9382_set_rtx_disable,
    p9382_ben_cfg, p9382_rtx_enable, chip_tx_mode_en, find_votable, nonzero,
    rtx_outputs;
  match goal with
  | |- context [set_rtx_configure ?e] =>
      pose proof (set_rtx_configure_neutral e) as Hneutral;
      set (configure := set_rtx_configure e) in *; clearbody configure
  | |- _ => idtac
  end;
  rung;
  repeat (rtx_branch; rung).

Ltac rtx_leaf :=
  cbn in *; rtx_tail; cbn;
  repeat match goal with
         | H : (?x =? ?y) = _ |- context [?x =? ?y] => rewrite H
         end;
  cbn; rewrite ?Z.eqb_refl, ?orb_true_r, ?andb_true_r;
  try reflexivity; try discriminate; try congruence.

Lemma set_rtx_enable_outputs_follow_vote e c :
  disable_dcin_en_votable c || re_find_votable e = true ->
  outputs_follow_voteb false (out (p9382_set_rtx e true c)) = true.
Proof.
  intros Hv. remember (outputs_follow_voteb false) as mon eqn:Hmon.
  revert Hv. rtx_paths; subst mon; intros Hv; rtx_leaf.
Qed.

Lemma set_rtx_enable_vote_refused e c :
  disable_dcin_en_votable c || re_find_votable e = true ->
  re_vote e <> 0 ->
  existsb is_gpio (out (p9382_set_rtx e true c)) = false.
Proof.
  intros Hv Hr. apply Z.eqb_neq in Hr.
  remember (existsb is_gpio) as mon eqn:Hmon.
  revert Hv. rtx_paths; subst mon; intros Hv; rtx_leaf.
Qed.

Lemma set_rtx_enable_no_votable e c :
  disable_dcin_en_votable c || re_find_votable e = false ->
  existsb (is_dcin_vote true) (out (p9382_set_rtx e true c)) = false.
Proof.
  intros Hv. remember (existsb (is_dcin_vote true)) as mon eqn:Hmon.
  revert Hv. rtx_paths; subst mon; intros Hv; rtx_leaf.
Qed.

Lemma set_rtx_enable_release e c :
  release_follows_outputsb (rtx_outputs (pdata c)) []
    (out (p9382_set_rtx e true c)) = true.
Proof.
  remember release_follows_outputsb as mon eqn:Hmon.
  rtx_paths; subst mon; rtx_leaf.
Qed.

Lemma set_rtx_disable_release e c :
  release_follows_outputsb
    (if ben_state c =? RTX_BEN_ON then rtx_outputs (pdata c) else []) []
    (out (p9382_set_rtx e false c)) = true.
Proof.
  remember release_follows_outputsb as mon eqn:Hmon.
  rtx_paths; subst mon; rtx_leaf.
Qed.

(** C5, amended: when the DISABLE_DCIN_EN votable exists (held already or
    found by name) an RTX enable casts the exclusivity vote, and has it
    accepted, before it drives any boost or switch output high, and a
    refused vote ends the operation with no output touched; when no such
    votable exists the outputs are driven without a vote.  On the revert path
    of an enable, and on a disable entered with boost on, the vote is
    withdrawn only after every output has been driven low, and no output is
    touched after the withdrawal. *)
Theorem set_rtx_vote_ordering (e : rtx_env) (c : p9221_charger_data) :
  let en := out (p9382_set_rtx e true c) in
  let dis := out (p9382_set_rtx e false c) in
  (disable_dcin_en_votable c || re_find_votable e = true ->
   outputs_follow_vote en /\
   (re_vote e <> 0 -> existsb is_gpio en = false)) /\
  (disable_dcin_en_votable c || re_find_votable e = false ->
   existsb (is_dcin_vote true) en = false) /\
  release_follows_outputs (rtx_outputs (pdata c)) en /\
  release_follows_outputs
    (if ben_state c =? RTX_BEN_ON then rtx_outputs (pdata c) else []) dis.
Proof.
  intros en dis. subst en dis.
  split; [|split; [|split]].
  - intros Hv. split.
    + apply outputs_follow_voteb_ok.
      now apply set_rtx_enable_outputs_follow_vote.
    + now apply set_rtx_enable_vote_refused.
  - apply set_rtx_enable_no_votable.
  - apply release_follows_outputsb_ok. apply set_rtx_enable_release.
  - apply release_follows_outputsb_ok. apply set_rtx_disable_release.
Qed.

(** *** Admission *)

Lemma set_rtx_enable_refused (e : rtx_env) (c : p9221_charger_data) :
  online c = true \/ (tx_icl_votable c = true /\ re_tx_icl e = 0) ->
  let r := p9382_set_rtx_enable e c in
  val r = 0 /\ st r = c /\ forallb is_rtx_neutral (out r) = true.
Proof.
  intros H r. subst r. unfold p9382_set_rtx_enable. rung.
  destruct H as [H|[H1 H2]].
  - rewrite H. destruct (tx_icl_votable c); rung;
      [destruct (re_tx_icl e =? 0)|]; rung; repeat split.
  - rewrite H1. rung. rewrite H2. rung. repeat split.
Qed.

(** An enable while a receive session is online, or while TX_ICL resolves
    to zero, changes nothing: no output, no vote, the state as it was.  The
    value returned is 0, which [rtx_store] hands on as a successful write. *)
Lemma set_rtx_refusal (e : rtx_env) (c : p9221_charger_data) :
  online c = true \/ (tx_icl_votable c = true /\ re_tx_icl e = 0) ->
  let r := p9382_set_rtx e true c in
  val r = 0 /\ st r = c /\
  forallb is_rtx_neutral (out r) = true /\
  forall count, val (rtx_store e 49 count c) = count.
Proof.
  intros H r. subst r.
  destruct (set_rtx_enable_refused e c H) as (Hv & Hs & Ho).
  assert (Hval : val (p9382_set_rtx e true c) = 0).
  { unfold p9382_set_rtx. rewrite val_bind. exact Hv. }
  split; [exact Hval|]. split; [|split].
  - unfold p9382_set_rtx. rewrite st_bind. exact Hs.
  - unfold p9382_set_rtx. rewrite out_bind, forallb_app, Ho. reflexivity.
  - intros count. unfold rtx_store.
    change (49 =? 48) with false. change (49 =? 49) with true.
    cbv iota. rewrite val_bind, Hval. reflexivity.
Qed.

Lemma not_outputs_follow_vote tr ev :
  In ev tr -> is_assert ev = true ->
  existsb is_dcin_committed tr = false ->
  ~ outputs_follow_vote tr.
Proof.
  intros Hin Hev Hno H. apply in_split in Hin.
  destruct Hin as (pre & post & ->).
  specialize (H pre ev post eq_refl Hev).
  rewrite existsb_app, H in Hno. discriminate.
Qed.

End RtxFacts.

(** With the votable in place, enabling on the idle device votes first. *)
Lemma set_rtx_vote_ordering_witness :
  let tr := out (p9382_set_rtx (hdr := example_header) (rtx_accepts true)
                   true example_charger) in
  outputs_follow_vote tr /\ In (EvGpioSet 10 true) tr.
Proof.
  intros tr. split.
  - apply (proj1 (set_rtx_vote_ordering (hdr := example_header)
                    (rtx_accepts true) example_charger)).
    reflexivity.
  - vm_compute. tauto.
Defined.

(** On a system without the DISABLE_DCIN_EN votable the enable succeeds
    and drives both outputs high, and no vote was cast. *)
Lemma set_rtx_outputs_without_vote :
  let r := p9382_set_rtx (hdr := example_header) (rtx_accepts false)
             true example_charger in
  val r = 0 /\ ben_state (st r) = RTX_BEN_ON /\
  In (EvGpioSet 10 true) (out r) /\ In (EvGpioSet 11 true) (out r) /\
  existsb (is_dcin_vote true) (out r) = false /\
  ~ outputs_follow_vote (out r).
Proof.
  cbv zeta. split; [vm_compute; reflexivity|].
  split; [vm_compute; reflexivity|].
  split; [vm_compute; tauto|]. split; [vm_compute; tauto|].
  split; [vm_compute; reflexivity|].
  apply (not_outputs_follow_vote _ (EvGpioSet 10 true)).
  - vm_compute. tauto.
  - reflexivity.
  - vm_compute. reflexivity.
Qed.

(** The enable is refused while the receive session is online, and the
    refusal comes back as success: [p9382_set_rtx] returns 0 and the write
    of "1" to the rtx attribute returns its byte count, where the same write
    to the rtx_boost attribute returns -ENODEV. *)
Lemma rtx_enable_refusal_returns_success :
  let c := fod_charger in
  let e := rtx_accepts true in
  online c = true /\
  val (p9382_set_rtx (hdr := example_header) e true c) = 0 /\
  st (p9382_set_rtx (hdr := example_header) e true c) = c /\
  val (rtx_store (hdr := example_header) e 49 2 c) = 2 /\
  val (p9382_set_rtx_boost 49 2 c) = - ENODEV.
Proof. vm_compute. repeat split. Qed.

(** ** The notifier work *)

Section NotifierFacts.

Context {hdr : p9221_charger_h}.

(** C9: with a renegotiated power configured (epp_rp_value != -1) and no
    Q factor (q_value == -1), the notifier work calls chip_renegotiate_pwr,
    drops what it returns, and tests [ret < 0] on a [ret] that nothing has
    been stored to in this invocation: the error is logged exactly when the
    stack slot happens to hold a negative value, whatever the call
    returned. *)
Theorem notifier_work_reads_ret_unassigned
    (e : notifier_env) (c : p9221_charger_data) :
  q_value (pdata c) = -1 ->
  epp_rp_value (pdata c) <> -1 ->
  exists rest,
    out (p9221_notifier_work e c) =
    [EvLog KERN_INFO "Notifier work: on:%d ben:%d dc:%d np:%d det:%d\n"
       [AInt (Z.b2z (online c)); AInt (ben_state c);
        AInt (Z.b2z (check_dc c)); AInt (Z.b2z (check_np c));
        AInt (Z.b2z (check_det c))];
     EvRenegotiatePwr (nw_renegotiate e);
     EvReadUninit "ret"]
    ++ (if nw_stack e <? 0
        then [EvLog KERN_ERR "cannot renegotiate power=%d (%d)\n"
                [AInt (epp_rp_value (pdata c)); AInt (nw_stack e)]]
        else [])
    ++ rest.
Proof.
  intros Hq Hrp. apply Z.eqb_neq in Hrp.
  unfold p9221_notifier_work.
  cbn -[p9221_notifier_check_det p9221_notifier_check_dc Z.eqb Z.ltb].
  rewrite Hq, Hrp. change (-1 =? -1) with true.
  cbn -[p9221_notifier_check_det p9221_notifier_check_dc Z.eqb Z.ltb].
  destruct (nw_stack e <? 0);
    cbn -[p9221_notifier_check_det p9221_notifier_check_dc Z.eqb Z.ltb];
    eexists; reflexivity.
Qed.

End NotifierFacts.

(** The renegotiation fails with -EIO and nothing is logged, the stack
    slot holding 0; it succeeds and an error is logged, the slot holding
    -1. *)
Lemma notifier_work_reads_ret_unassigned_witness :
  let failed := out (p9221_notifier_work (hdr := example_header)
                       (notifier_answers (-5) 0) renegotiating_charger) in
  let fine := out (p9221_notifier_work (hdr := example_header)
                     (notifier_answers 0 (-1)) renegotiating_charger) in
  (exists rest,
     failed = [EvLog KERN_INFO
                 "Notifier work: on:%d ben:%d dc:%d np:%d det:%d\n"
                 [AInt 1; AInt 0; AInt 0; AInt 0; AInt 0];
               EvRenegotiatePwr (-5); EvReadUninit "ret"] ++ rest) /\
  (exists rest,
     fine = [EvLog KERN_INFO
               "Notifier work: on:%d ben:%d dc:%d np:%d det:%d\n"
               [AInt 1; AInt 0; AInt 0; AInt 0; AInt 0];
             EvRenegotiatePwr 0; EvReadUninit "ret";
             EvLog KERN_ERR "cannot renegotiate power=%d (%d)\n"
               [AInt 15; AInt (-1)]] ++ rest).
Proof.
  split.
  - destruct (notifier_work_reads_ret_unassigned (hdr := example_header)
                (notifier_answers (-5) 0) renegotiating_charger)
      as [rest H]; [reflexivity|discriminate|].
    exists rest. exact H.
  - destruct (notifier_work_reads_ret_unassigned (hdr := example_header)
                (notifier_answers 0 (-1)) renegotiating_charger)
      as [rest H]; [reflexivity|discriminate|].
    exists rest. exact H.
Defined.

(** ** Frames: what a function leaves alone *)

Section Frame.

(** A relation between the state before and after, closed under doing
    nothing and under sequencing. *)
Variable R : p9221_charger_data -> p9221_charger_data -> Prop.
Hypothesis R_refl : forall c, R c c.
Hypothesis R_trans : forall a b c, R a b -> R b c -> R a c.

Definition keeps {A : Type} (m : M A) : Prop := forall c, R c (st (m c)).

Lemma keeps_ret {A : Type} (a : A) : keeps (Ret a).
Proof. intros c. apply R_refl. Qed.

Lemma keeps_get : keeps get.
Proof. intros c. apply R_refl. Qed.

Lemma keeps_emit ev : keeps (emit ev).
Proof. intros c. apply R_refl. Qed.

Lemma keeps_modify f : (forall c, R c (f c)) -> keeps (modify f).
Proof. intros H c. apply H. Qed.

Lemma keeps_bind {A B : Type} (m : M A) (k : A -> M B) :
  keeps m -> (forall a, keeps (k a)) -> keeps (bind m k).
Proof.
  intros Hm Hk c. rewrite st_bind. eapply R_trans; [apply Hm|apply Hk].
Qed.

End Frame.

Lemma keeps_weaken (R R' : p9221_charger_data -> p9221_charger_data -> Prop)
    {A : Type} (m : M A) :
  (forall a b, R a b -> R' a b) -> keeps R m -> keeps R' m.
Proof. intros H K c. apply H, K. Qed.

(** Unfolds the calls to the collaborators, which change no state. *)
Ltac unfold_calls :=
  unfold when, dev_err, dev_warn, dev_info, logbuffer_log, logbuffer_log_rtx,
    msleep, schedule_work, schedule_delayed_work, cancel_delayed_work,
    cancel_delayed_work_sync, del_timer, power_supply_changed, pm_stay_awake,
    pm_relax, gpio_set_value, mod_delayed_work, sysfs_notify,
    alarm_try_to_cancel, alarm_start_relative, schedule_delayed_work_queued,
    p9221_reg_write_8, p9221_reg_write_16, p9221_reg_read_16,
    p9221_reg_read_8, p9221_reg_write_n, p9221_reg_read_n, chip_set_cmd,
    chip_get_iout, chip_get_tx_mfg_code, chip_get_sys_mode, chip_get_vout,
    chip_get_vrect, chip_get_op_freq, chip_tx_mode_en, chip_set_tx_ilim,
    chip_renegotiate_pwr, chip_set_rx_ilim, chip_set_vout_max,
    chip_get_vout_max, chip_get_cc_recv_size, chip_get_data_buf,
    get_client_vote, power_supply_get_present, power_supply_get_dc_reset,
    power_supply_set_dc_reset, power_supply_get_by_name_dc, find_votable,
    get_effective_result, vote, read_ret;
  cbv zeta.

Ltac rel_refl :=
  intros ?; hnf;
  first [ left; reflexivity
        | repeat split;
          first [reflexivity | intros; first [assumption | discriminate]] ].
Ltac rel_trans :=
  let H1 := fresh in let H2 := fresh in
  intros ? ? ? H1 H2; hnf in H1, H2 |- *; intuition congruence.

(** Walks the structure of a program; [known] proves the frame of a call to
    a function that has a frame lemma. *)
Ltac keeps_with known :=
  unfold_calls;
  repeat first
    [ apply keeps_ret; rel_refl
    | apply keeps_get; rel_refl
    | apply keeps_emit; rel_refl
    | apply keeps_modify; solve [rel_refl]
    | solve [known]
    | apply keeps_bind; [rel_trans| |intros ?]
    | match goal with
      | |- keeps _ (if ?b then _ else _) => destruct b
      | |- keeps _ (match ?x with _ => _ end) => destruct x
      end ].

(** ** Mutual exclusion of the receive session and RTX *)

Section ExclusionFacts.

Context {hdr : p9221_charger_h}.

(** The receive path never touches [ben_state]. *)
Definition same_ben (c c' : p9221_charger_data) : Prop :=
  ben_state c' = ben_state c.

Create HintDb frame.

Lemma clear_interrupts_ben io mask :
  keeps same_ben (p9221_clear_interrupts io mask).
Proof. unfold p9221_clear_interrupts. keeps_with fail. Qed.
Hint Resolve clear_interrupts_ben : frame.

Ltac ben := keeps_with ltac:(auto with frame).

Lemma send_eop_ben io reason : keeps same_ben (p9221_send_eop io reason).
Proof. unfold p9221_send_eop. ben. Qed.
Hint Resolve send_eop_ben : frame.

Lemma over_check_loop_ben e n : forall i irq cnt vals,
  keeps same_ben (over_check_loop e n i irq cnt vals).
Proof.
  induction n as [|n IH]; intros; cbn [over_check_loop];
    unfold print_current_samples; keeps_with ltac:(auto with frame).
Qed.
Hint Resolve over_check_loop_ben : frame.

Lemma over_handle_ben e irq : keeps same_ben (p9221_over_handle e irq).
Proof.
  unfold p9221_over_handle, over_send_eop, print_current_samples. ben.
Qed.
Hint Resolve over_handle_ben : frame.

Lemma is_epp_ben e : keeps same_ben (p9221_is_epp e).
Proof. unfold p9221_is_epp. ben. Qed.
Hint Resolve is_epp_ben : frame.

Lemma write_fod_loop_ben e epp fod n retries : forall i,
  keeps same_ben (write_fod_loop e retries i epp fod n).
Proof.
  induction retries as [|retries IH]; intros; cbn [write_fod_loop]; ben.
Qed.
Hint Resolve write_fod_loop_ben : frame.

Lemma write_fod_ben e : keeps same_ben (p9221_write_fod e).
Proof. unfold p9221_write_fod, fod_not_set. ben. Qed.
Hint Resolve write_fod_ben : frame.

Lemma enable_interrupts_ben io : keeps same_ben (p9221_enable_interrupts io).
Proof. unfold p9221_enable_interrupts. ben. Qed.
Hint Resolve enable_interrupts_ben : frame.

Lemma set_online_ben e : keeps same_ben (p9221_set_online e).
Proof. unfold p9221_set_online. ben. Qed.
Hint Resolve set_online_ben : frame.

Lemma abort_transfers_ben : keeps same_ben p9221_abort_transfers.
Proof. unfold p9221_abort_transfers. ben. Qed.
Hint Resolve abort_transfers_ben : frame.

Lemma vote_defaults_ben io : keeps same_ben (p9221_vote_defaults io).
Proof. unfold p9221_vote_defaults. ben. Qed.
Hint Resolve vote_defaults_ben : frame.

Lemma icl_ramp_reset_ben ans : keeps same_ben (p9221_icl_ramp_reset ans).
Proof. unfold p9221_icl_ramp_reset. ben. Qed.
Hint Resolve icl_ramp_reset_ben : frame.

Lemma set_offline_ben e : keeps same_ben (p9221_set_offline e).
Proof. unfold p9221_set_offline. ben. Qed.
Hint Resolve set_offline_ben : frame.

Lemma icl_ramp_start_ben e : keeps same_ben (p9221_icl_ramp_start e).
Proof. unfold p9221_icl_ramp_start. ben. Qed.
Hint Resolve icl_ramp_start_ben : frame.

Lemma has_dc_in_ben ans : keeps same_ben (p9221_has_dc_in ans).
Proof. unfold p9221_has_dc_in. ben. Qed.
Hint Resolve has_dc_in_ben : frame.

Lemma set_bpp_vout_loop_ben io n : forall i,
  keeps same_ben (set_bpp_vout_loop io n i).
Proof.
  induction n as [|n IH]; intros; cbn [set_bpp_vout_loop]; ben.
Qed.
Hint Resolve set_bpp_vout_loop_ben : frame.

Lemma notifier_check_neg_power_ben e :
  keeps same_ben (p9221_notifier_check_neg_power e).
Proof.
  unfold p9221_notifier_check_neg_power, p9221_set_bpp_vout. ben.
Qed.
Hint Resolve notifier_check_neg_power_ben : frame.

Lemma check_neg_power_9382_ben e : keeps same_ben (p9382_check_neg_power e).
Proof. unfold p9382_check_neg_power. ben. Qed.
Hint Resolve check_neg_power_9382_ben : frame.

Lemma set_dc_icl_ben e : keeps same_ben (p9221_set_dc_icl e).
Proof. unfold p9221_set_dc_icl. ben. Qed.
Hint Resolve set_dc_icl_ben : frame.

Lemma notifier_check_dc_ben e : keeps same_ben (p9221_notifier_check_dc e).
Proof. unfold p9221_notifier_check_dc. ben. Qed.
Hint Resolve notifier_check_dc_ben : frame.

Lemma notifier_check_det_ben e : keeps same_ben (p9221_notifier_check_det e).
Proof. unfold p9221_notifier_check_det. ben. Qed.
Hint Resolve notifier_check_det_ben : frame.

Lemma notifier_work_ben e : keeps same_ben (p9221_notifier_work e).
Proof. unfold p9221_notifier_work. ben. Qed.

Lemma notifier_cb_ben a b q : keeps same_ben (p9221_notifier_cb a b q).
Proof. unfold p9221_notifier_cb. ben. Qed.

Lemma check_dc_reset_ben e irq : keeps same_ben (p9221_check_dc_reset e irq).
Proof. unfold p9221_check_dc_reset, p9221_dc_reset_needed. ben. Qed.
Hint Resolve check_dc_reset_ben : frame.

Lemma irq_handler_ben e irq : keeps same_ben (p9221_irq_handler e irq).
Proof. unfold p9221_irq_handler. ben. Qed.
Hint Resolve irq_handler_ben : frame.

Lemma dcin_work_ben e : keeps same_ben (p9221_dcin_work e).
Proof. unfold p9221_dcin_work. ben. Qed.

(** The RTX path and the alignment engine never touch the receive
    session. *)
Definition same_rx (c c' : p9221_charger_data) : Prop :=
  online c' = online c /\ check_det c' = check_det c
  /\ check_dc c' = check_dc c.

(** Going offline: the session may end, nothing is requested. *)
Definition calmer (c c' : p9221_charger_data) : Prop :=
  (online c' = true -> online c = true) /\ check_det c' = check_det c
  /\ check_dc c' = check_dc c.

(** RTX is left as it is, or switched off. *)
Definition ben_drop (c c' : p9221_charger_data) : Prop :=
  ben_state c' = ben_state c \/ ben_state c' = RTX_BEN_DISABLED.

Lemma clear_interrupts_rx io mask :
  keeps same_rx (p9221_clear_interrupts io mask).
Proof. unfold p9221_clear_interrupts. keeps_with fail. Qed.
Hint Resolve clear_interrupts_rx : frame.

Lemma enable_interrupts_rx io : keeps same_rx (p9221_enable_interrupts io).
Proof. unfold p9221_enable_interrupts. ben. Qed.
Hint Resolve enable_interrupts_rx : frame.

Lemma is_epp_rx e : keeps same_rx (p9221_is_epp e).
Proof. unfold p9221_is_epp. ben. Qed.
Hint Resolve is_epp_rx : frame.

Lemma rtx_enable_rx b : keeps same_rx (p9382_rtx_enable b).
Proof. unfold p9382_rtx_enable. ben. Qed.
Hint Resolve rtx_enable_rx : frame.

Lemma ben_cfg_rx cfg : keeps same_rx (p9382_ben_cfg cfg).
Proof. unfold p9382_ben_cfg. ben. Qed.
Hint Resolve ben_cfg_rx : frame.

Lemma set_rtx_disable_rx e : keeps same_rx (p9382_set_rtx_disable e).
Proof. unfold p9382_set_rtx_disable. ben. Qed.
Hint Resolve set_rtx_disable_rx : frame.

Lemma set_rtx_configure_rx e tx_icl :
  keeps same_rx (set_rtx_configure e tx_icl).
Proof. unfold set_rtx_configure. ben. Qed.
Hint Resolve set_rtx_configure_rx : frame.

Lemma set_rtx_enable_rx e : keeps same_rx (p9382_set_rtx_enable e).
Proof. unfold p9382_set_rtx_enable. ben. Qed.
Hint Resolve set_rtx_enable_rx : frame.

Lemma set_rtx_rx e enable : keeps same_rx (p9382_set_rtx e enable).
Proof. unfold p9382_set_rtx. ben. Qed.
Hint Resolve set_rtx_rx : frame.

Lemma rtx_store_rx e buf0 count : keeps same_rx (rtx_store e buf0 count).
Proof. unfold rtx_store. ben. Qed.

Lemma set_rtx_boost_rx buf0 count :
  keeps same_rx (p9382_set_rtx_boost buf0 count).
Proof. unfold p9382_set_rtx_boost. ben. Qed.

Lemma rtx_irq_handler_rx e irq : keeps same_rx (rtx_irq_handler e irq).
Proof. unfold rtx_irq_handler. ben. Qed.

Lemma rtx_disable_work_rx e : keeps same_rx (p9382_rtx_disable_work e).
Proof. unfold p9382_rtx_disable_work. ben. Qed.

Lemma init_align_rx : keeps same_rx p9221_init_align.
Proof. unfold p9221_init_align. ben. Qed.
Hint Resolve init_align_rx : frame.

Lemma init_align_ben : keeps same_ben p9221_init_align.
Proof. unfold p9221_init_align. ben. Qed.
Hint Resolve init_align_ben : frame.

Lemma show_alignment_rx : keeps same_rx p9221_show_alignment.
Proof. unfold p9221_show_alignment. ben. Qed.

Lemma show_alignment_ben : keeps same_ben p9221_show_alignment.
Proof. unfold p9221_show_alignment. ben. Qed.

Lemma align_work_rx e : keeps same_rx (p9221_align_work e).
Proof.
  unfold p9221_align_work, align_measure, align_evaluate, align_mfg_check,
    align_current_scaling. ben.
Qed.

Lemma align_work_ben e : keeps same_ben (p9221_align_work e).
Proof.
  unfold p9221_align_work, align_measure, align_evaluate, align_mfg_check,
    align_current_scaling. ben.
Qed.

Lemma abort_transfers_calmer : keeps calmer p9221_abort_transfers.
Proof. unfold p9221_abort_transfers. ben. Qed.
Hint Resolve abort_transfers_calmer : frame.

Lemma vote_defaults_calmer io : keeps calmer (p9221_vote_defaults io).
Proof. unfold p9221_vote_defaults. ben. Qed.
Hint Resolve vote_defaults_calmer : frame.

Lemma icl_ramp_reset_calmer ans : keeps calmer (p9221_icl_ramp_reset ans).
Proof. unfold p9221_icl_ramp_reset. ben. Qed.
Hint Resolve icl_ramp_reset_calmer : frame.

Lemma set_offline_calmer e : keeps calmer (p9221_set_offline e).
Proof. unfold p9221_set_offline. ben. Qed.
Hint Resolve set_offline_calmer : frame.

Lemma dcin_work_calmer e : keeps calmer (p9221_dcin_work e).
Proof. unfold p9221_dcin_work. ben. Qed.

Lemma rtx_enable_drop b : keeps ben_drop (p9382_rtx_enable b).
Proof. unfold p9382_rtx_enable. ben. Qed.
Hint Resolve rtx_enable_drop : frame.

Lemma ben_cfg_disabled_drop : keeps ben_drop (p9382_ben_cfg RTX_BEN_DISABLED).
Proof.
  unfold p9382_ben_cfg.
  change (RTX_BEN_DISABLED =? RTX_BEN_DISABLED) with true. cbv iota.
  keeps_with ltac:(first [ solve [auto with frame]
                         | apply keeps_modify; intros ?; right; reflexivity ]).
Qed.
Hint Resolve ben_cfg_disabled_drop : frame.

Lemma set_rtx_disable_drop e : keeps ben_drop (p9382_set_rtx_disable e).
Proof. unfold p9382_set_rtx_disable. ben. Qed.
Hint Resolve set_rtx_disable_drop : frame.

Lemma set_rtx_false_drop e : keeps ben_drop (p9382_set_rtx e false).
Proof. unfold p9382_set_rtx. ben. Qed.
Hint Resolve set_rtx_false_drop : frame.

Lemma rtx_irq_handler_drop e irq : keeps ben_drop (rtx_irq_handler e irq).
Proof. unfold rtx_irq_handler. ben. Qed.

Lemma rtx_disable_work_drop e : keeps ben_drop (p9382_rtx_disable_work e).
Proof. unfold p9382_rtx_disable_work. ben. Qed.

(** The enable path refuses while the receive session is online. *)
Lemma set_rtx_enable_online e c :
  online c = true ->
  ben_state (st (p9382_set_rtx e true c)) = ben_state c.
Proof.
  intros Hon. unfold p9382_set_rtx, p9382_set_rtx_enable.
  unfold logbuffer_log_rtx, dev_err, schedule_work, get_effective_result.
  cbn -[p9382_ben_cfg set_rtx_configure chip_tx_mode_en vote find_votable
        msleep].
  rewrite Hon.
  destruct (tx_icl_votable c);
    cbn -[p9382_ben_cfg set_rtx_configure chip_tx_mode_en vote find_votable
          msleep];
    [destruct (re_tx_icl e =? 0)|]; reflexivity.
Qed.

(** A write to the rtx attribute: "0" switches RTX off or leaves it, "1"
    is refused while online, anything else is refused outright. *)
Lemma rtx_store_ben e buf0 count c :
  ben_drop c (st (rtx_store e buf0 count c))
  \/ (buf0 =? 48) = false /\ online c = false.
Proof.
  unfold rtx_store. destruct (buf0 =? 48).
  - left. exact (set_rtx_false_drop e c).
  - destruct (buf0 =? 49).
    + destruct (online c) eqn:Hon; [left|now right].
      left. exact (set_rtx_enable_online e c Hon).
    + left. left. reflexivity.
Qed.

(** A write to rtx_boost: "0" switches RTX off, anything else is refused
    while online with RTX off. *)
Lemma set_rtx_boost_ben buf0 count c :
  ben_drop c (st (p9382_set_rtx_boost buf0 count c))
  \/ (buf0 =? 48) = false
     /\ (online c = false \/ ben_state c <> RTX_BEN_DISABLED).
Proof.
  unfold p9382_set_rtx_boost. rewrite st_bind. cbn [get val st].
  destruct (buf0 =? 48) eqn:E48.
  - left. apply Z.eqb_eq in E48. replace (buf0 - 48) with 0 by lia.
    exact (ben_cfg_disabled_drop c).
  - destruct (online c) eqn:Hon; [|now right; split; [|left]].
    destruct (nonzero (ben_state c)) eqn:Hben.
    { right. split; [reflexivity|]. right. now apply nonzero_true. }
    left. assert (Hst : nonzero (buf0 - 48) = true).
    { apply nonzero_true. apply Z.eqb_neq in E48. lia. }
    rewrite Hst. left. reflexivity.
Qed.

Lemma clear_interrupts_drop io mask :
  keeps ben_drop (p9221_clear_interrupts io mask).
Proof.
  apply keeps_weaken with (R := same_ben); [now left|auto with frame].
Qed.
Hint Resolve clear_interrupts_drop : frame.

(** While RTX is on, an interrupt goes to the RTX handler, which can only
    switch RTX off. *)
Lemma irq_thread_rtx e c :
  nonzero (ben_state c) = true ->
  same_rx c (st (p9221_irq_thread e c))
  /\ ben_drop c (st (p9221_irq_thread e c)).
Proof.
  intros Hben. unfold p9221_irq_thread.
  match goal with |- context [bind get ?k] => set (body := k) end.
  change (same_rx c (st (body c c)) /\ ben_drop c (st (body c c))).
  assert (Krx : keeps same_rx (body c)).
  { subst body. cbv beta. rewrite Hben. cbn [negb].
    keeps_with ltac:(auto using rtx_irq_handler_rx with frame). }
  assert (Kben : keeps ben_drop (body c)).
  { subst body. cbv beta. rewrite Hben. cbn [negb].
    keeps_with ltac:(auto using rtx_irq_handler_drop with frame). }
  split; [apply Krx|apply Kben].
Qed.

(** While RTX is off, an interrupt leaves it off. *)
Lemma irq_thread_rx e c :
  nonzero (ben_state c) = false ->
  same_ben c (st (p9221_irq_thread e c)).
Proof.
  intros Hben. unfold p9221_irq_thread.
  match goal with |- context [bind get ?k] => set (body := k) end.
  change (same_ben c (st (body c c))).
  assert (K : keeps same_ben (body c)).
  { subst body. cbv beta. rewrite Hben. cbn [negb]. ben. }
  apply K.
Qed.

(** While RTX is on, the power supply notifier asks for nothing. *)
Lemma notifier_cb_rtx a b q c :
  nonzero (ben_state c) = true -> st (p9221_notifier_cb a b q c) = c.
Proof.
  intros Hben. unfold p9221_notifier_cb. rewrite st_bind. cbn [get val st].
  rewrite Hben. reflexivity.
Qed.

(** A program that, run from [c], leaves [c] as it is. *)
Definition fixes {A : Type} (m : M A) (c : p9221_charger_data) : Prop :=
  st (m c) = c.

Lemma fixes_ret {A : Type} (a : A) c : fixes (Ret a) c.
Proof. reflexivity. Qed.

Lemma fixes_get c : fixes get c.
Proof. reflexivity. Qed.

Lemma fixes_emit ev c : fixes (emit ev) c.
Proof. reflexivity. Qed.

Lemma fixes_bind {A B : Type} (m : M A) (k : A -> M B) c :
  fixes m c -> fixes (k (val (m c))) c -> fixes (bind m k) c.
Proof. unfold fixes. intros Hm Hk. rewrite st_bind, Hm. exact Hk. Qed.

(** With no detection pending, the notifier work changes nothing. *)
Lemma notifier_work_idle e c :
  check_det c = false -> check_dc c = false ->
  st (p9221_notifier_work e c) = c.
Proof.
  intros Hd Hc. change (fixes (p9221_notifier_work e) c).
  unfold p9221_notifier_work. unfold_calls.
  repeat first
    [ apply fixes_ret | apply fixes_get | apply fixes_emit
    | apply fixes_bind; [|cbv beta; cbn [val get]; rewrite ?Hd, ?Hc]
    | match goal with
      | |- fixes (if ?b then _ else _) _ => destruct b
      | |- fixes (match ?x with _ => _ end) _ => destruct x
      end ].
Qed.

(** The invariant behind the exclusion: RTX and the receive session are
    not both on, and no detection is pending while RTX is on. *)
Definition rtx_excludes_rx (c : p9221_charger_data) : Prop :=
  exclusive c
  /\ (ben_state c <> RTX_BEN_DISABLED ->
      check_det c = false /\ check_dc c = false).

Lemma excludes_off c : ben_state c = RTX_BEN_DISABLED -> rtx_excludes_rx c.
Proof.
  intros H. split; [intros [_ Hb]|intros Hb]; now elim Hb.
Qed.

Lemma excludes_drop c c' :
  rtx_excludes_rx c -> same_rx c c' -> ben_drop c c' -> rtx_excludes_rx c'.
Proof.
  intros [Hex Hp] (Hon & Hd & Hc) [Hb|Hb]; [|now apply excludes_off].
  unfold rtx_excludes_rx, exclusive in *.
  rewrite Hon, Hd, Hc, Hb. now split.
Qed.

Lemma excludes_calmer c c' :
  rtx_excludes_rx c -> calmer c c' -> same_ben c c' -> rtx_excludes_rx c'.
Proof.
  intros [Hex Hp] (Hon & Hd & Hc) Hb.
  unfold rtx_excludes_rx, exclusive, same_ben in *.
  rewrite Hd, Hc, Hb. split; [|assumption].
  intros [H1 H2]. apply Hex. split; [now apply Hon|assumption].
Qed.

Lemma excludes_offline c c' :
  same_rx c c' -> online c = false -> nothing_pending c = true ->
  rtx_excludes_rx c'.
Proof.
  intros (Hon & Hd & Hc) Hoff Hidle.
  unfold nothing_pending in Hidle. apply andb_true_iff in Hidle.
  destruct Hidle as [H1 H2]. apply negb_true_iff in H1, H2.
  unfold rtx_excludes_rx, exclusive. rewrite Hon, Hd, Hc, Hoff.
  split; [intros [H _]; discriminate|now split].
Qed.

(** Every input keeps the invariant, as long as RTX is asked for only
    while nothing is pending. *)
Lemma step_excludes i c :
  rtx_excludes_rx c ->
  (asks_rtx i = true -> nothing_pending c = true) ->
  rtx_excludes_rx (step i c).
Proof.
  intros Hinv Hidle. destruct i as [e|a b q|e|e|e| |e buf0 count|buf0 count|e];
    cbn [step asks_rtx] in *.
  - destruct (nonzero (ben_state c)) eqn:Hben.
    + destruct (irq_thread_rtx e c Hben). now apply excludes_drop with c.
    + apply excludes_off. rewrite (irq_thread_rx e c Hben).
      now apply nonzero_false.
  - destruct (nonzero (ben_state c)) eqn:Hben.
    + now rewrite notifier_cb_rtx.
    + apply excludes_off. rewrite (notifier_cb_ben a b q c).
      now apply nonzero_false.
  - destruct (nonzero (ben_state c)) eqn:Hben.
    + apply nonzero_true in Hben. destruct Hinv as [Hex Hp].
      destruct (Hp Hben) as [Hd Hc].
      rewrite notifier_work_idle by assumption. now split.
    + apply excludes_off. rewrite (notifier_work_ben e c).
      now apply nonzero_false.
  - apply excludes_calmer with c;
      [assumption|apply dcin_work_calmer|apply dcin_work_ben].
  - apply excludes_drop with c;
      [assumption|apply align_work_rx|left; apply align_work_ben].
  - apply excludes_drop with c;
      [assumption|apply show_alignment_rx|left; apply show_alignment_ben].
  - destruct (rtx_store_ben e buf0 count c) as [Hb|[Hask Hoff]].
    + apply excludes_drop with c; [assumption|apply rtx_store_rx|assumption].
    + rewrite Hask in Hidle.
      apply excludes_offline with c; [apply rtx_store_rx|assumption|auto].
  - destruct (set_rtx_boost_ben buf0 count c) as [Hb|[Hask Hoff]].
    + apply excludes_drop with c;
        [assumption|apply set_rtx_boost_rx|assumption].
    + rewrite Hask in Hidle.
      apply excludes_offline with c; [apply set_rtx_boost_rx| |auto].
      destruct Hoff as [Hoff|Hben]; [assumption|].
      destruct Hinv as [Hex _]. destruct (online c) eqn:Hon; [|reflexivity].
      exfalso. apply Hex. now split.
  - apply excludes_drop with c;
      [assumption|apply rtx_disable_work_rx|apply rtx_disable_work_drop].
Qed.

(** C2, amended: in every state reached from the state probe leaves by
    interrupts, notifier calls, work and timer expiries, reads of the
    alignment and writes to the rtx and rtx_boost attributes, at most one of
    the receive session online and RTX enabled holds, provided RTX is asked
    for only while no detection is pending ([check_det] and [check_dc] both
    clear). *)
Theorem rx_and_rtx_exclusive ins : forall c,
  probed c -> rtx_asked_when_idle ins c -> exclusive (run_inputs ins c).
Proof.
  assert (H : forall c, rtx_excludes_rx c -> rtx_asked_when_idle ins c ->
                        rtx_excludes_rx (run_inputs ins c)).
  { induction ins as [|i ins IH]; intros c Hinv Hidle; [exact Hinv|].
    destruct Hidle as [Hi Hrest]. cbn [run_inputs].
    apply IH; [now apply step_excludes|assumption]. }
  intros c (Hb & _ & _) Hidle. apply H; [now apply excludes_off|assumption].
Qed.

End ExclusionFacts.

Lemma rx_and_rtx_exclusive_witness :
  (probed example_charger
   /\ rtx_asked_when_idle (hdr := example_header) placed_then_rtx
        example_charger
   /\ online (run_inputs (hdr := example_header) placed_then_rtx
                example_charger) = true)
  /\ exclusive (run_inputs (hdr := example_header) placed_then_rtx
                  example_charger)
  /\ ben_state (run_inputs (hdr := example_header) rtx_on_and_off
                  example_charger) = RTX_BEN_DISABLED
  /\ exclusive (run_inputs (hdr := example_header) rtx_on_and_off
                  example_charger).
Proof.
  assert (Hp : probed example_charger) by (repeat split; reflexivity).
  assert (H1 : rtx_asked_when_idle (hdr := example_header) placed_then_rtx
                 example_charger).
  { vm_compute. repeat split; intros; first [reflexivity|discriminate]. }
  assert (H2 : rtx_asked_when_idle (hdr := example_header) rtx_on_and_off
                 example_charger).
  { vm_compute. repeat split; intros; first [reflexivity|discriminate]. }
  split; [split; [exact Hp|split; [exact H1|vm_compute; reflexivity]]|].
  split; [exact (rx_and_rtx_exclusive placed_then_rtx example_charger Hp H1)|].
  split; [vm_compute; reflexivity|].
  exact (rx_and_rtx_exclusive rtx_on_and_off example_charger Hp H2).
Defined.

(** RTX asked for between VRECTON and the notifier work: the enable goes
    through, the session being offline still, and the detection then sets
    the session online without looking at [ben_state]. *)
Lemma detection_sets_online_during_rtx :
  let c := run_inputs (hdr := example_header) rtx_while_detecting
             example_charger in
  probed example_charger
  /\ online c = true /\ ben_state c = RTX_BEN_ON /\ ~ exclusive c.
Proof.
  cbv zeta. split; [repeat split; reflexivity|].
  assert (Hon : online (run_inputs (hdr := example_header)
                          rtx_while_detecting example_charger) = true)
    by (vm_compute; reflexivity).
  assert (Hben : ben_state (run_inputs (hdr := example_header)
                              rtx_while_detecting example_charger)
                 = RTX_BEN_ON)
    by (vm_compute; reflexivity).
  split; [exact Hon|]. split; [exact Hben|].
  intros Hex. apply Hex. split; [exact Hon|]. rewrite Hben. discriminate.
Qed.

(** * The driver as a whole

    Properties of the functions around the ones above: what each leaves
    alone, what it leaves behind, and how they follow one another. *)

(** ** Symbolic execution *)

(** [post m c Q]: run from [c], the program [m] returns a value and leaves
    a state that satisfy [Q]. *)
Definition post {A : Type} (m : M A) (c : p9221_charger_data)
    (Q : A -> p9221_charger_data -> Prop) : Prop :=
  Q (val (m c)) (st (m c)).

Lemma post_ret {A : Type} (a : A) c (Q : A -> p9221_charger_data -> Prop) :
  Q a c -> post (Ret a) c Q.
Proof. exact (fun H => H). Qed.

Lemma post_get c (Q : p9221_charger_data -> p9221_charger_data -> Prop) :
  Q c c -> post get c Q.
Proof. exact (fun H => H). Qed.

Lemma post_emit ev c (Q : unit -> p9221_charger_data -> Prop) :
  Q tt c -> post (emit ev) c Q.
Proof. exact (fun H => H). Qed.

Lemma post_modify f c (Q : unit -> p9221_charger_data -> Prop) :
  Q tt (f c) -> post (modify f) c Q.
Proof. exact (fun H => H). Qed.

Lemma post_bind {A B : Type} (m : M A) (k : A -> M B) c
    (Q : B -> p9221_charger_data -> Prop) :
  post m c (fun a c1 => post (k a) c1 Q) -> post (bind m k) c Q.
Proof. exact (fun H => H). Qed.

(** A call of which only a frame is known. *)
Lemma post_keeps {A : Type}
    (R : p9221_charger_data -> p9221_charger_data -> Prop)
    (m : M A) c (Q : A -> p9221_charger_data -> Prop) :
  keeps R m -> (forall a c1, R c c1 -> Q a c1) -> post m c Q.
Proof. intros K H. apply H, K. Qed.

(** A call that leaves the state as it is. *)
Lemma post_fixed {A : Type} (m : M A) c (Q : A -> p9221_charger_data -> Prop) :
  (forall c, st (m c) = c) -> (forall a, Q a c) -> post m c Q.
Proof. intros K H. unfold post. rewrite K. apply H. Qed.

(** A call after which the property holds wherever it is made from. *)
Lemma post_any {A : Type} (m : M A) c (Q : A -> p9221_charger_data -> Prop) :
  (forall a c1, Q a c1) -> post m c Q.
Proof. intros H. apply H. Qed.

(** Reads of a field after stores. *)
Ltac simpl_state :=
  cbn [pdata chip_id log resume_complete dc_psy dc_icl_votable
    tx_icl_votable disable_dcin_en_votable online enabled ben_state rtx_err
    rtx_csp check_det check_dc check_np force_bpp fake_force_epp mfg
    is_mfg_google chg_on_rtx dc_icl_bpp dc_icl_epp dc_icl_epp_neg icl_ramp
    icl_ramp_ua tx_busy tx_done rx_done rx_len rx_buf pp_buf pp_buf_valid
    last_capacity cust_id align align_count alignment alignment_last
    alignment_capable current_filtered current_sample_cnt mfg_check_count
    set_dc_psy set_dc_icl_votable set_disable_dcin_en_votable set_online
    set_ben_state set_rtx_err set_rtx_csp set_check_det set_check_dc
    set_check_np set_force_bpp set_mfg set_is_mfg_google set_chg_on_rtx
    set_dc_icl_epp_neg set_icl_ramp set_tx_busy set_tx_done set_rx_done
    set_rx_len set_rx_buf set_pp_buf set_pp_buf_valid set_last_capacity
    set_cust_id set_align set_align_count set_alignment set_alignment_last
    set_alignment_capable set_current_filtered set_current_sample_cnt
    set_mfg_check_count].
Ltac simpl_state_in H :=
  cbn [pdata chip_id log resume_complete dc_psy dc_icl_votable
    tx_icl_votable disable_dcin_en_votable online enabled ben_state rtx_err
    rtx_csp check_det check_dc check_np force_bpp fake_force_epp mfg
    is_mfg_google chg_on_rtx dc_icl_bpp dc_icl_epp dc_icl_epp_neg icl_ramp
    icl_ramp_ua tx_busy tx_done rx_done rx_len rx_buf pp_buf pp_buf_valid
    last_capacity cust_id align align_count alignment alignment_last
    alignment_capable current_filtered current_sample_cnt mfg_check_count
    set_dc_psy set_dc_icl_votable set_disable_dcin_en_votable set_online
    set_ben_state set_rtx_err set_rtx_csp set_check_det set_check_dc
    set_check_np set_force_bpp set_mfg set_is_mfg_google set_chg_on_rtx
    set_dc_icl_epp_neg set_icl_ramp set_tx_busy set_tx_done set_rx_done
    set_rx_len set_rx_buf set_pp_buf set_pp_buf_valid set_last_capacity
    set_cust_id set_align set_align_count set_alignment set_alignment_last
    set_alignment_capable set_current_filtered set_current_sample_cnt
    set_mfg_check_count] in H.

(** A case that contradicts an earlier one on the same condition. *)
Ltac absurd_case :=
  match goal with
  | H : true = false |- _ => discriminate H
  | H : false = true |- _ => discriminate H
  end.

(** One step of a sequence whose head is a primitive. *)
Ltac post_step :=
  match goal with
  | |- post (bind _ _) _ _ => apply post_bind
  | |- post (Ret _) _ _ => apply post_ret
  | |- post get _ _ => apply post_get
  | |- post (emit _) _ _ => apply post_emit
  | |- post (modify _) _ _ => apply post_modify
  end;
  cbv beta iota.

(** As far as the primitives go. *)
Ltac post_prims := repeat post_step.

Lemma post_conseq {A : Type} (m : M A) c
    (Q Q' : A -> p9221_charger_data -> Prop) :
  post m c Q -> (forall a c1, Q a c1 -> Q' a c1) -> post m c Q'.
Proof. intros H HQ. apply HQ, H. Qed.

(** A call with a known effect, and a call with a known frame. *)
Ltac post_call lemma :=
  match goal with
  | |- post (bind _ _) _ _ => apply post_bind
  | _ => idtac
  end;
  eapply post_conseq; [apply lemma|cbv beta; intros ? ?].


(** A conditional at the head. *)
Ltac post_case :=
  match goal with
  | |- post (bind (if ?b then _ else _) _) _ _ =>
      apply post_bind; destruct b eqn:?
  | |- post (if ?b then _ else _) _ _ => destruct b eqn:?
  | |- post (bind (match ?x with _ => _ end) _) _ _ =>
      apply post_bind; destruct x eqn:?
  | |- post (match ?x with _ => _ end) _ _ => destruct x eqn:?
  end;
  try absurd_case; cbv beta iota.

(** The same, for a condition that an hypothesis decides. *)
Ltac post_known :=
  match goal with
  | H : ?b = _ |- post (bind (if ?b then _ else _) _) _ _ => rewrite H
  | H : ?b = _ |- post (if ?b then _ else _) _ _ => rewrite H
  | H : ?b = _ |- post (bind (if negb ?b then _ else _) _) _ _ =>
      rewrite H; cbn [negb]
  | H : ?b = _ |- post (if negb ?b then _ else _) _ _ =>
      rewrite H; cbn [negb]
  end;
  cbv beta iota.

Ltac post_run := repeat first [post_step | post_case].

(** The same with the calls made: [traced m c Q]. *)
Definition traced {A : Type} (m : M A) (c : p9221_charger_data)
    (Q : A -> p9221_charger_data -> trace -> Prop) : Prop :=
  Q (val (m c)) (st (m c)) (out (m c)).

Lemma traced_ret {A : Type} (a : A) c
    (Q : A -> p9221_charger_data -> trace -> Prop) :
  Q a c [] -> traced (Ret a) c Q.
Proof. exact (fun H => H). Qed.

Lemma traced_get c
    (Q : p9221_charger_data -> p9221_charger_data -> trace -> Prop) :
  Q c c [] -> traced get c Q.
Proof. exact (fun H => H). Qed.

Lemma traced_emit ev c (Q : unit -> p9221_charger_data -> trace -> Prop) :
  Q tt c [ev] -> traced (emit ev) c Q.
Proof. exact (fun H => H). Qed.

Lemma traced_modify f c (Q : unit -> p9221_charger_data -> trace -> Prop) :
  Q tt (f c) [] -> traced (modify f) c Q.
Proof. exact (fun H => H). Qed.

Lemma traced_bind {A B : Type} (m : M A) (k : A -> M B) c
    (Q : B -> p9221_charger_data -> trace -> Prop) :
  traced m c
    (fun a c1 o1 => traced (k a) c1 (fun b c2 o2 => Q b c2 (o1 ++ o2))) ->
  traced (bind m k) c Q.
Proof. exact (fun H => H). Qed.

Ltac traced_step :=
  match goal with
  | |- traced (bind _ _) _ _ => apply traced_bind
  | |- traced (Ret _) _ _ => apply traced_ret
  | |- traced get _ _ => apply traced_get
  | |- traced (emit _) _ _ => apply traced_emit
  | |- traced (modify _) _ _ => apply traced_modify
  end;
  cbv beta iota.

Ltac traced_case :=
  match goal with
  | |- traced (bind (if ?b then _ else _) _) _ _ =>
      apply traced_bind; destruct b eqn:?
  | |- traced (if ?b then _ else _) _ _ => destruct b eqn:?
  | |- traced (bind (match ?x with _ => _ end) _) _ _ =>
      apply traced_bind; destruct x eqn:?
  | |- traced (match ?x with _ => _ end) _ _ => destruct x eqn:?
  end;
  try absurd_case; cbv beta iota.

(** The same, for a condition that an hypothesis decides. *)
Ltac traced_known :=
  match goal with
  | H : ?b = _ |- traced (bind (if ?b then _ else _) _) _ _ => rewrite H
  | H : ?b = _ |- traced (if ?b then _ else _) _ _ => rewrite H
  | H : ?b = _ |- traced (bind (if negb ?b then _ else _) _) _ _ =>
      rewrite H; cbn [negb]
  | H : ?b = _ |- traced (if negb ?b then _ else _) _ _ =>
      rewrite H; cbn [negb]
  end;
  cbv beta iota.

Lemma traced_conseq {A : Type} (m : M A) c
    (Q Q' : A -> p9221_charger_data -> trace -> Prop) :
  traced m c Q -> (forall a c1 o, Q a c1 o -> Q' a c1 o) -> traced m c Q'.
Proof. intros H HQ. apply HQ, H. Qed.

Ltac traced_prims := repeat traced_step.
Ltac traced_run := repeat first [traced_step | traced_case].

(** ** What no function of the driver changes *)

Lemma keeps_fixed (R : p9221_charger_data -> p9221_charger_data -> Prop)
    {A : Type} (m : M A) :
  (forall c, R c c) -> (forall c, st (m c) = c) -> keeps R m.
Proof. intros Hr Hm c. rewrite Hm. apply Hr. Qed.

Ltac fixes_walk :=
  unfold_calls;
  repeat first
    [ apply fixes_ret | apply fixes_get | apply fixes_emit
    | assumption
    | apply fixes_bind; [|cbv beta; cbn [val get]]
    | match goal with
      | |- fixes (if ?b then _ else _) _ => destruct b
      | |- fixes (match ?x with _ => _ end) _ => destruct x
      end ].

Section Loops.

Context {hdr : p9221_charger_h}.

Lemma over_check_loop_st e n : forall i irq cnt vals c,
  st (over_check_loop e n i irq cnt vals c) = c.
Proof.
  induction n as [|n IH]; intros; [reflexivity|].
  change (fixes (over_check_loop e (S n) i irq cnt vals) c).
  assert (IH' : forall i irq cnt vals,
             fixes (over_check_loop e n i irq cnt vals) c)
    by (intros; apply IH).
  cbn [over_check_loop]. unfold p9221_clear_interrupts, print_current_samples.
  fixes_walk; apply IH'.
Qed.

Lemma write_fod_loop_st e epp fod n retries : forall i c,
  st (write_fod_loop e retries i epp fod n c) = c.
Proof.
  induction retries as [|retries IH]; intros; [reflexivity|].
  change (fixes (write_fod_loop e (S retries) i epp fod n) c).
  assert (IH' : forall i, fixes (write_fod_loop e retries i epp fod n) c)
    by (intros; apply IH).
  cbn [write_fod_loop]. fixes_walk; apply IH'.
Qed.

Lemma set_bpp_vout_loop_st io n : forall i c,
  st (set_bpp_vout_loop io n i c) = c.
Proof.
  induction n as [|n IH]; intros; [reflexivity|].
  change (fixes (set_bpp_vout_loop io (S n) i) c).
  assert (IH' : forall i, fixes (set_bpp_vout_loop io n i) c)
    by (intros; apply IH).
  cbn [set_bpp_vout_loop]. fixes_walk; apply IH'.
Qed.

End Loops.

(** Every function of the model that is not a loop. *)
Ltac unfold_driver :=
  unfold p9221_irq_thread, p9221_irq_handler, p9221_check_dc_reset,
    p9221_dc_reset_needed, rtx_irq_handler, p9221_notifier_cb,
    p9221_notifier_work, p9221_notifier_check_det, p9221_notifier_check_dc,
    p9221_set_dc_icl, p9382_check_neg_power, p9221_notifier_check_neg_power,
    p9221_set_bpp_vout, p9221_has_dc_in, p9221_icl_ramp_start,
    p9221_dcin_work, p9382_rtx_disable_work,
    p9221_set_offline, p9221_icl_ramp_reset, p9221_vote_defaults,
    p9221_abort_transfers, p9221_align_work, align_measure, align_evaluate,
    align_current_scaling, align_mfg_check, p9221_show_alignment,
    p9221_init_align, rtx_store, p9382_set_rtx_boost, p9382_set_rtx,
    p9382_set_rtx_enable, set_rtx_configure, p9382_set_rtx_disable,
    p9382_ben_cfg, p9382_rtx_enable, p9221_set_online,
    p9221_enable_interrupts, p9221_write_fod, fod_not_set, p9221_is_epp,
    p9221_over_handle, over_send_eop, print_current_samples, p9221_send_eop,
    p9221_clear_interrupts.

(** The frame of a whole function, its callees unfolded down to the
    loops; [Hrefl] and [Htrans]: the relation is reflexive and
    transitive. *)
Ltac frame_walk Hrefl Htrans known :=
  repeat match goal with
    | |- keeps _ (Ret _) => apply keeps_ret; exact Hrefl
    | |- keeps _ get => apply keeps_get; exact Hrefl
    | |- keeps _ (emit _) => apply keeps_emit; exact Hrefl
    | |- keeps _ (modify _) => apply keeps_modify; solve [rel_refl]
    | |- keeps _ (bind _ _) => apply keeps_bind; [exact Htrans| |intros ?]
    | |- keeps _ (if ?b then _ else _) => destruct b
    | |- keeps _ (match ?x with _ => _ end) => destruct x
    | |- keeps _ (over_check_loop _ _ _ _ _ _) =>
        apply keeps_fixed; [exact Hrefl|intros; apply over_check_loop_st]
    | |- keeps _ (write_fod_loop _ _ _ _ _ _) =>
        apply keeps_fixed; [exact Hrefl|intros; apply write_fod_loop_st]
    | |- keeps _ (set_bpp_vout_loop _ _ _) =>
        apply keeps_fixed; [exact Hrefl|intros; apply set_bpp_vout_loop_st]
    | |- keeps _ _ => known
    end.

Ltac whole_frame Hrefl Htrans :=
  unfold_driver; unfold_calls; frame_walk Hrefl Htrans fail.

Section Settings.

Context {hdr : p9221_charger_h}.

(** What the device tree configured and what the user set: the platform
    data, the chip, the log, the enable line and the current limits and
    overrides of the attributes. *)
Definition same_settings (c c' : p9221_charger_data) : Prop :=
  pdata c' = pdata c /\ chip_id c' = chip_id c /\ log c' = log c
  /\ resume_complete c' = resume_complete c /\ enabled c' = enabled c
  /\ tx_icl_votable c' = tx_icl_votable c
  /\ fake_force_epp c' = fake_force_epp c
  /\ dc_icl_bpp c' = dc_icl_bpp c /\ dc_icl_epp c' = dc_icl_epp c
  /\ icl_ramp_ua c' = icl_ramp_ua c.

Lemma same_settings_refl c : same_settings c c.
Proof. repeat split. Qed.

Lemma same_settings_trans a b c :
  same_settings a b -> same_settings b c -> same_settings a c.
Proof. unfold same_settings. intuition congruence. Qed.

(** Nothing that drives the device changes its settings: not an interrupt,
    not the notifier, not a deferred work, not a read of the alignment, not
    a write to the RTX attributes. *)
Lemma step_settings (i : input) (c : p9221_charger_data) :
  same_settings c (step i c).
Proof.
  destruct i; cbn [step];
    match goal with |- same_settings c (st (?m c)) =>
      revert c; change (keeps same_settings m) end;
    whole_frame same_settings_refl same_settings_trans.
Qed.

(** A votable or a power supply the driver has found is kept. *)
Definition handles_kept (c c' : p9221_charger_data) : Prop :=
  (dc_psy c = true -> dc_psy c' = true)
  /\ (dc_icl_votable c = true -> dc_icl_votable c' = true)
  /\ (disable_dcin_en_votable c = true -> disable_dcin_en_votable c' = true).

Lemma handles_kept_refl c : handles_kept c c.
Proof. repeat split; trivial. Qed.

Lemma handles_kept_trans a b c :
  handles_kept a b -> handles_kept b c -> handles_kept a c.
Proof. unfold handles_kept. intuition. Qed.

Ltac handles_frame := whole_frame handles_kept_refl handles_kept_trans.

(** The functions that look a handle up store what they found only where
    there was none. *)
Lemma set_dc_icl_handles e : keeps handles_kept (p9221_set_dc_icl e).
Proof.
  intros c.
  change (post (p9221_set_dc_icl e) c (fun _ c' => handles_kept c c')).
  unfold p9221_set_dc_icl. unfold_calls. post_prims.
  destruct (dc_icl_votable c) eqn:Hv; cbn [negb]; post_prims.
  - apply (post_keeps handles_kept); [handles_frame|]. now intros.
  - post_case; [post_prims; repeat split; simpl_state; congruence|].
    apply (post_keeps handles_kept); [handles_frame|].
    intros _ c1 H. apply handles_kept_trans with (2 := H).
    repeat split; simpl_state; congruence.
Qed.

Lemma check_dc_reset_handles e irq :
  keeps handles_kept (p9221_check_dc_reset e irq).
Proof.
  intros c.
  change (post (p9221_check_dc_reset e irq) c
            (fun _ c' => handles_kept c c')).
  unfold p9221_check_dc_reset. post_case; [apply handles_kept_refl|].
  apply post_bind. apply (post_keeps handles_kept); [handles_frame|].
  cbv beta. intros needed c1 H1. post_case; [exact H1|]. post_prims.
  destruct (dc_psy c1) eqn:Hpsy; cbn [negb]; unfold_calls.
  - post_run; exact H1.
  - post_run; apply handles_kept_trans with (1 := H1);
      repeat split; simpl_state; congruence.
Qed.

Lemma set_rtx_enable_handles e : keeps handles_kept (p9382_set_rtx_enable e).
Proof.
  intros c.
  change (post (p9382_set_rtx_enable e) c (fun _ c' => handles_kept c c')).
  unfold p9382_set_rtx_enable. unfold_calls. post_prims.
  apply (post_keeps handles_kept); [handles_frame|].
  cbv beta. intros tx_icl c1 H1.
  post_case; [post_prims; exact H1|].
  post_case; [post_prims; exact H1|].
  assert (H2 : post
    (if negb (disable_dcin_en_votable c)
     then
       found <- (emit (EvFindVotable DISABLE_DCIN_EN (re_find_votable e)) ;;
                 Ret (re_find_votable e)) ;;
       modify (set_disable_dcin_en_votable found)
     else Ret tt) c1 (fun _ c2 => handles_kept c c2)).
  { destruct (disable_dcin_en_votable c) eqn:Hv; cbn [negb]; post_prims.
    - exact H1.
    - destruct H1 as (A1 & A2 & A3).
      repeat split; simpl_state; auto. congruence. }
  apply post_bind. eapply post_conseq; [exact H2|]. cbv beta.
  intros _ c2 K2.
  apply (post_keeps handles_kept); [handles_frame|].
  intros _ c3 K3. exact (handles_kept_trans _ _ _ K2 K3).
Qed.

Lemma notifier_cb_handles a b q :
  keeps handles_kept (p9221_notifier_cb a b q).
Proof.
  intros c.
  change (post (p9221_notifier_cb a b q) c (fun _ c' => handles_kept c c')).
  unfold p9221_notifier_cb. unfold_calls.
  post_run; repeat split; simpl_state; congruence.
Qed.

(** What the driver has found it keeps: no input makes it forget the "dc"
    power supply, the DC_ICL votable or the DISABLE_DCIN_EN votable. *)
Lemma step_handles (i : input) (c : p9221_charger_data) :
  handles_kept c (step i c).
Proof.
  destruct i; cbn [step];
    match goal with |- handles_kept c (st (?m c)) =>
      revert c; change (keeps handles_kept m) end;
    try apply notifier_cb_handles;
    unfold p9221_irq_thread, p9221_irq_handler, rtx_irq_handler,
      p9221_notifier_work, p9221_notifier_check_det,
      p9221_notifier_check_dc, p9382_check_neg_power,
      p9221_notifier_check_neg_power, p9221_set_bpp_vout, p9221_has_dc_in,
      p9221_icl_ramp_start, p9221_dcin_work, p9382_rtx_disable_work,
      p9221_set_offline, p9221_icl_ramp_reset, p9221_vote_defaults,
      p9221_abort_transfers, p9221_align_work, align_measure, align_evaluate,
      align_current_scaling, align_mfg_check, p9221_show_alignment,
      p9221_init_align, rtx_store, p9382_set_rtx_boost, p9382_set_rtx,
      p9382_set_rtx_disable, p9382_ben_cfg, p9382_rtx_enable,
      p9221_set_online, p9221_enable_interrupts, p9221_write_fod,
      fod_not_set, p9221_is_epp, p9221_over_handle, over_send_eop,
      print_current_samples, p9221_send_eop, p9221_clear_interrupts;
    unfold_calls;
    frame_walk handles_kept_refl handles_kept_trans
      ltac:(first [ apply set_dc_icl_handles | apply check_dc_reset_handles
                  | apply set_rtx_enable_handles ]).
Qed.

(** X1.  Nothing that drives the device changes its settings (the platform
    data, the chip, the enable line, the limits and overrides set through
    the attributes): not an interrupt, not the notifier, not a deferred
    work, not a read of the alignment, not a write to the RTX attributes.
    And what the driver has found it keeps: the "dc" power supply, the
    DC_ICL votable and the DISABLE_DCIN_EN votable, once there, are there
    after every input. *)
Theorem step_keeps_settings_and_handles (i : input)
    (c : p9221_charger_data) :
  same_settings c (step i c) /\ handles_kept c (step i c).
Proof. split; [apply step_settings|apply step_handles]. Qed.

End Settings.

(** ** Reverse power *)

Section RtxWhole.

Context {hdr : p9221_charger_h}.

(** X2.  RTX is switched on by a write to the rtx or rtx_boost attribute and by
    nothing else: every other input leaves [ben_state] as it is or sets it
    to disabled. *)
Theorem rtx_switched_on_only_by_request (i : input) (c : p9221_charger_data) :
  asks_rtx i = false ->
  ben_state (step i c) = ben_state c
  \/ ben_state (step i c) = RTX_BEN_DISABLED.
Proof.
  intros Hask.
  destruct i as [e|a b q|e|e|e| |e buf0 count|buf0 count|e];
    cbn [step asks_rtx] in *.
  - destruct (nonzero (ben_state c)) eqn:Hben.
    + apply (irq_thread_rtx e c Hben).
    + left. apply (irq_thread_rx e c Hben).
  - left. apply notifier_cb_ben.
  - left. apply notifier_work_ben.
  - left. apply dcin_work_ben.
  - left. apply align_work_ben.
  - left. apply show_alignment_ben.
  - destruct (rtx_store_ben e buf0 count c) as [H|[H _]]; [exact H|].
    rewrite H in Hask. discriminate.
  - destruct (set_rtx_boost_ben buf0 count c) as [H|[H _]]; [exact H|].
    rewrite H in Hask. discriminate.
  - apply rtx_disable_work_drop.
Qed.

(** What is common to every way of switching RTX off. *)
Lemma set_rtx_false_traced (e : rtx_env) (c : p9221_charger_data) :
  traced (p9382_set_rtx e false) c (fun v c' o =>
    ben_state c' = RTX_BEN_DISABLED
    /\ v = re_vote e
    /\ online c' = online c
    /\ rtx_err c' = rtx_err c
    /\ (In (EvTxModeEn false (re_tx_mode_en e)) o
        <-> rtx_err c <> RTX_TX_CONFLICT)
    /\ In (EvVote DISABLE_DCIN_EN (disable_dcin_en_votable c)
             P9221_WLC_VOTER false 0 (re_vote e)) o
    /\ last o EvPmRelax = EvScheduleWork uevent_work).
Proof.
  unfold p9382_set_rtx, p9382_set_rtx_disable, p9382_ben_cfg,
    p9382_rtx_enable. unfold_calls.
  change (RTX_BEN_DISABLED =? RTX_BEN_DISABLED) with true. cbv iota.
  traced_run; simpl_state; cbn [app In last];
    repeat split; try reflexivity; try discriminate; try tauto;
    try (intros _; discriminate); try (intros _; tauto);
    try (intros H; exfalso;
         repeat (destruct H as [H|H]; try discriminate H);
         first [exact H|congruence]).
Qed.

(** X3.  Switching RTX off cannot fail half way: whatever the chip and the
    votable answer, [ben_state] is disabled afterwards, the receive session
    and the recorded error are as they were, and what is returned is the
    answer to the release of the DISABLE_DCIN_EN vote.  The chip is told to
    leave transmit mode, unless a transmit conflict is what ended RTX. *)
Theorem rtx_disable_always_switches_off
    (e : rtx_env) (c : p9221_charger_data) :
  let r := p9382_set_rtx e false c in
  ben_state (st r) = RTX_BEN_DISABLED
  /\ val r = re_vote e
  /\ online (st r) = online c
  /\ rtx_err (st r) = rtx_err c
  /\ (In (EvTxModeEn false (re_tx_mode_en e)) (out r)
      <-> rtx_err c <> RTX_TX_CONFLICT)
  /\ In (EvVote DISABLE_DCIN_EN (disable_dcin_en_votable c) P9221_WLC_VOTER
           false 0 (re_vote e)) (out r)
  /\ last (out r) EvPmRelax = EvScheduleWork uevent_work.
Proof. exact (set_rtx_false_traced e c). Qed.

(** RTX, the error it ended with and the receive session. *)
Definition same_rtx (c c' : p9221_charger_data) : Prop :=
  ben_state c' = ben_state c /\ rtx_err c' = rtx_err c
  /\ online c' = online c.

Lemma same_rtx_refl c : same_rtx c c.
Proof. repeat split. Qed.

Lemma same_rtx_trans a b c : same_rtx a b -> same_rtx b c -> same_rtx a c.
Proof. unfold same_rtx. intuition congruence. Qed.

Lemma set_rtx_false_post (e : rtx_env) (c : p9221_charger_data) :
  post (p9382_set_rtx e false) c (fun _ c' =>
    ben_state c' = RTX_BEN_DISABLED /\ rtx_err c' = rtx_err c
    /\ online c' = online c).
Proof.
  destruct (set_rtx_false_traced e c) as (H1 & _ & H2 & H3 & _).
  now repeat split.
Qed.

(** X4.  A transmit conflict ends RTX: the error is recorded and [ben_state] is
    disabled, whatever else the interrupt reports and whatever the votable
    answers.  (The status register could be read, and so could the system
    mode if the mode changed.) *)
Theorem rtx_conflict_ends_rtx
    (e : rtx_irq_env) (irq_src : Z) (c : p9221_charger_data) :
  nonzero (Z.land irq_src P9221R5_STAT_MODECHANGED) = false
  \/ r_ret (ri_sys_mode e) = 0 ->
  r_ret (ri_status e) = 0 ->
  nonzero (Z.land irq_src P9382_STAT_TXCONFLICT) = true ->
  let c' := st (rtx_irq_handler e irq_src c) in
  ben_state c' = RTX_BEN_DISABLED
  /\ rtx_err c' = RTX_TX_CONFLICT
  /\ online c' = online c.
Proof.
  intros Hmode Hstatus Hconflict. cbv zeta.
  change (post (rtx_irq_handler e irq_src) c (fun _ c' =>
    ben_state c' = RTX_BEN_DISABLED /\ rtx_err c' = RTX_TX_CONFLICT
    /\ online c' = online c)).
  unfold rtx_irq_handler. unfold_calls.
  assert (Go : post
    (if nonzero (Z.land irq_src P9221R5_STAT_MODECHANGED)
     then
       r <- (emit (EvGetSysMode (r_ret (ri_sys_mode e))
                     (u8 (r_val (ri_sys_mode e)))) ;;
             Ret (r_ret (ri_sys_mode e),
                  if r_ret (ri_sys_mode e) =? 0
                  then u8 (r_val (ri_sys_mode e)) else 0)) ;;
       (if nonzero (fst r)
        then
          emit (EvLog KERN_ERR "Failed to read P9221_SYSTEM_MODE_REG: %d\n"
                  [AInt (fst r)]) ;;
          Ret false
        else
          emit (EvLog KERN_INFO "P9221_SYSTEM_MODE_REG reg: %02x\n"
                  [AInt (snd r)]) ;;
          emit (EvLog LOGBUFFER_RTX "SYSTEM_MODE_REG=%02x" [AInt (snd r)]) ;;
          Ret true)
     else Ret true) c (fun go c1 => go = true /\ c1 = c)).
  { destruct Hmode as [Hm|Hm].
    - rewrite Hm. now split.
    - post_case; [|now split]. post_prims. cbn [fst snd]. rewrite Hm.
      cbn [nonzero Z.eqb negb]. post_prims. now split. }
  apply post_bind. eapply post_conseq; [exact Go|]. cbv beta.
  intros go c1 [-> ->]. cbn [negb]. post_prims. cbn [fst snd].
  rewrite Hstatus, Hconflict. cbn [nonzero Z.eqb negb]. post_prims.
  post_call set_rtx_false_post. intros (H1 & H2 & H3).
  simpl_state_in H2. simpl_state_in H3. post_prims.
  apply (post_keeps same_rtx);
    [whole_frame same_rtx_refl same_rtx_trans|].
  intros _ c2 (K1 & K2 & K3). cbv beta.
  apply (post_keeps same_rtx);
    [whole_frame same_rtx_refl same_rtx_trans|].
  intros _ c3 (L1 & L2 & L3). repeat split; congruence.
Qed.

(** X5.  The work that thermal throttling queues: RTX is off when it returns,
    and over-temperature is recorded as the reason exactly when the thermal
    voter asks for no transmit current. *)
Theorem rtx_disable_work_records_over_temp
    (e : rtx_disable_env) (c : p9221_charger_data) :
  let c' := st (p9382_rtx_disable_work e c) in
  ben_state c' = RTX_BEN_DISABLED
  /\ rtx_err c' = (if rd_client_vote e =? 0 then RTX_OVER_TEMP
                   else rtx_err c)
  /\ online c' = online c.
Proof.
  cbv zeta.
  change (post (p9382_rtx_disable_work e) c (fun _ c' =>
    ben_state c' = RTX_BEN_DISABLED
    /\ rtx_err c' = (if rd_client_vote e =? 0 then RTX_OVER_TEMP
                     else rtx_err c)
    /\ online c' = online c)).
  unfold p9382_rtx_disable_work. unfold_calls. post_prims.
  destruct (rd_client_vote e =? 0); post_prims.
  all: post_call set_rtx_false_post; intros (H1 & H2 & H3).
  all: post_run; repeat split; assumption.
Qed.

End RtxWhole.

(** ** The receive session *)

Section RxWhole.

Context {hdr : p9221_charger_h}.

(** The session, the pending detections and RTX. *)
Definition same_session (c c' : p9221_charger_data) : Prop :=
  online c' = online c /\ check_det c' = check_det c
  /\ check_dc c' = check_dc c /\ ben_state c' = ben_state c.

Lemma same_session_refl c : same_session c c.
Proof. repeat split. Qed.

Lemma same_session_trans a b c :
  same_session a b -> same_session b c -> same_session a c.
Proof. unfold same_session. intuition congruence. Qed.

Ltac session_frame := whole_frame same_session_refl same_session_trans.

(** Going online sets [online] and touches neither the pending detections
    nor RTX. *)
Lemma set_online_session e c :
  post (p9221_set_online e) c
    (fun _ c' => online c' = true /\ check_det c' = check_det c
                 /\ check_dc c' = check_dc c /\ ben_state c' = ben_state c).
Proof.
  unfold p9221_set_online. unfold_calls. do 4 post_step.
  apply post_keeps with (R := same_session); [session_frame|].
  intros _ c1 (H1 & H2 & H3 & H4). rewrite H1, H2, H3, H4. now repeat split.
Qed.

Lemma set_offline_session e c :
  post (p9221_set_offline e) c
    (fun _ c' => online c' = false /\ check_det c' = check_det c
                 /\ check_dc c' = check_dc c /\ ben_state c' = ben_state c).
Proof.
  unfold p9221_set_offline. unfold_calls. do 6 post_step.
  apply post_keeps with (R := same_session); [session_frame|].
  intros _ c1 (H1 & H2 & H3 & H4). rewrite H1, H2, H3, H4. now repeat split.
Qed.

(** The detection sets the session online, whatever the state, and is no
    longer pending. *)
Lemma check_det_session e c :
  post (p9221_notifier_check_det e) c
    (fun _ c' => online c' = true /\ check_det c' = false
                 /\ check_dc c' = check_dc c /\ ben_state c' = ben_state c).
Proof.
  unfold p9221_notifier_check_det. unfold_calls. do 4 post_step.
  post_case.
  - apply andb_true_iff in Heqb. destruct Heqb as [Hon _].
    post_prims. simpl_state. now repeat split.
  - do 4 post_step. post_call set_online_session.
    intros (H1 & H2 & H3 & H4). post_prims. simpl_state.
    simpl_state_in H2. simpl_state_in H3. simpl_state_in H4.
    now repeat split.
Qed.

(** The pending detections and RTX. *)
Definition same_pending (c c' : p9221_charger_data) : Prop :=
  check_det c' = check_det c /\ check_dc c' = check_dc c
  /\ ben_state c' = ben_state c.

Lemma same_pending_refl c : same_pending c c.
Proof. repeat split. Qed.

Lemma same_pending_trans a b c :
  same_pending a b -> same_pending b c -> same_pending a c.
Proof. unfold same_pending. intuition congruence. Qed.

Lemma check_dc_pending e c :
  post (p9221_notifier_check_dc e) c
    (fun _ c' => check_dc c' = false /\ check_det c' = check_det c
                 /\ ben_state c' = ben_state c).
Proof.
  unfold p9221_notifier_check_dc. do 2 post_step.
  apply (post_keeps same_pending);
    [whole_frame same_pending_refl same_pending_trans|].
  intros _ c1 (H1 & H2 & H3). simpl_state_in H1. simpl_state_in H2.
  simpl_state_in H3. repeat split; congruence.
Qed.

Lemma notifier_work_post (e : notifier_env) (c : p9221_charger_data) :
  post (p9221_notifier_work e) c
    (fun _ c' => check_det c' = false /\ check_dc c' = false
                 /\ ben_state c' = ben_state c
                 /\ (check_det c = true -> check_dc c = false ->
                     online c' = true)).
Proof.
  unfold p9221_notifier_work, read_ret. unfold_calls.
  do 4 post_step.
  assert (Tail : forall relax0 c0, c0 = c ->
    post (c1 <- get ;;
          relax <- (if check_det c1
                    then p9221_notifier_check_det (nw_det e)
                    else Ret relax0) ;;
          c2 <- get ;;
          (if check_dc c2 then p9221_notifier_check_dc (nw_dc e)
           else Ret tt) ;;
          (if relax then emit EvPmRelax else Ret tt)) c0
      (fun _ c' => check_det c' = false /\ check_dc c' = false
                   /\ ben_state c' = ben_state c
                   /\ (check_det c = true -> check_dc c = false ->
                       online c' = true))).
  { intros relax0 c0 ->. do 2 post_step. apply post_bind.
    destruct (check_det c) eqn:Hdet.
    - post_call check_det_session. intros (H1 & H2 & H3 & H4).
      do 2 post_step. apply post_bind. destruct (check_dc c1) eqn:Hdc.
      + post_call check_dc_pending. intros (K1 & K2 & K3).
        post_run; repeat split; congruence.
      + post_run; repeat split; congruence.
    - post_step. do 2 post_step. apply post_bind.
      destruct (check_dc c) eqn:Hdc.
      + post_call check_dc_pending. intros (K1 & K2 & K3).
        post_run; repeat split; congruence.
      + post_run; repeat split; congruence. }
  repeat first
    [ match goal with
      | |- post (bind get (fun _ => bind (if _ then p9221_notifier_check_det _
                                          else _) _)) _ _ =>
          apply Tail; reflexivity
      end
    | post_step | post_case ].
Qed.

(** X6.  The notifier work serves what is pending: when it returns, no
    detection is pending any more, and RTX is as it was. *)
Theorem notifier_work_serves_pending
    (e : notifier_env) (c : p9221_charger_data) :
  let c' := st (p9221_notifier_work e c) in
  check_det c' = false /\ check_dc c' = false
  /\ ben_state c' = ben_state c.
Proof.
  destruct (notifier_work_post e c) as (H1 & H2 & H3 & _).
  now repeat split.
Qed.

(** X7.  From the pad to the session: a VRECTON interrupt taken while offline,
    with RTX off, asks for the detection and leaves the session offline;
    the notifier work that follows sets it online. *)
Theorem vrect_then_notifier_goes_online
    (ei : irq_env) (en : notifier_env) (c : p9221_charger_data) :
  resume_complete c = true ->
  ben_state c = RTX_BEN_DISABLED ->
  online c = false ->
  check_dc c = false ->
  r_ret (it_int ei) = 0 ->
  nonzero (Z.land (u16 (r_val (it_int ei))) P9221_STAT_VRECT) = true ->
  it_clear ei = (0, 0) ->
  let c1 := step (IrqThread ei) c in
  let c2 := step (NotifierWork en) c1 in
  (check_det c1 = true /\ online c1 = false)
  /\ (online c2 = true /\ check_det c2 = false /\ check_dc c2 = false).
Proof.
  intros Hres Hben Hoff Hdc Hret Hvrect Hclear. cbv zeta. cbn [step].
  assert (Hsrc : nonzero (u16 (r_val (it_int ei))) = true).
  { apply nonzero_true. intros E. rewrite E in Hvrect.
    rewrite Z.land_0_l in Hvrect. discriminate. }
  assert (H1 : post (p9221_irq_thread ei) c
                 (fun _ c1 => check_det c1 = true /\ online c1 = false
                              /\ check_dc c1 = false)).
  { unfold p9221_irq_thread, p9221_clear_interrupts. unfold_calls.
    post_prims. rewrite Hres. cbn [negb]. post_prims.
    cbn [fst snd]. rewrite Hret. cbn [nonzero Z.eqb negb]. post_prims.
    rewrite Hben. cbn [nonzero Z.eqb negb RTX_BEN_DISABLED].
    post_prims. rewrite Hsrc. cbn [negb]. post_prims.
    rewrite Hclear. cbn [fst snd nonzero Z.eqb negb]. post_prims.
    cbn [nonzero Z.eqb negb]. post_prims. cbn [nonzero Z.eqb negb].
    rewrite Hvrect, Hoff. cbn [negb]. post_prims.
    apply (post_keeps same_session);
      [whole_frame same_session_refl same_session_trans|].
    intros _ c1 (K1 & K2 & K3 & K4). cbv beta.
    apply (post_keeps same_session);
      [whole_frame same_session_refl same_session_trans|].
    intros _ c2 (L1 & L2 & L3 & L4).
    simpl_state_in K1. simpl_state_in K2. simpl_state_in K3.
    repeat split; congruence. }
  destruct H1 as (H1 & H2 & H3). split; [now split|].
  destruct (notifier_work_post en (st (p9221_irq_thread ei c)))
    as (K1 & K2 & _ & K4).
  split; [now apply K4|now split].
Qed.

(** X8.  When the presence of DC is read, the session follows it: online
    afterwards exactly when DC is present, whether the session was online
    before or not.  (No check of the negotiated power is due, and the "dc"
    supply is known and answers.) *)
Theorem check_dc_online_follows_dc
    (e : check_dc_env) (c : p9221_charger_data) :
  (chip_id c <? P9382A_CHIP_ID) && check_np c = false ->
  dc_psy c = true ->
  0 <= r_ret (cd_dc_in e) ->
  let c' := st (p9221_notifier_check_dc e c) in
  online c' = nonzero (r_val (cd_dc_in e))
  /\ check_dc c' = false /\ ben_state c' = ben_state c.
Proof.
  intros Hnp Hpsy Hret.
  change (post (p9221_notifier_check_dc e) c
            (fun _ c' => online c' = nonzero (r_val (cd_dc_in e))
                         /\ check_dc c' = false
                         /\ ben_state c' = ben_state c)).
  unfold p9221_notifier_check_dc, p9221_has_dc_in, power_supply_get_present.
  unfold_calls. post_prims. simpl_state. rewrite Hnp.
  post_prims. simpl_state. rewrite Hpsy. cbn [negb].
  post_prims. cbn [fst snd].
  replace (r_ret (cd_dc_in e) <? 0) with false
    by (symmetry; apply Z.ltb_ge; exact Hret).
  post_prims.
  replace (Z.b2z (nonzero (r_val (cd_dc_in e))) <? 0) with false
    by (destruct (nonzero (r_val (cd_dc_in e))); reflexivity).
  post_prims.
  apply (post_keeps same_session);
    [whole_frame same_session_refl same_session_trans|].
  intros _ c1 (H1 & H2 & H3 & H4).
  simpl_state_in H1. simpl_state_in H2. simpl_state_in H3.
  simpl_state_in H4. cbv beta.
  apply post_bind.
  apply (post_keeps same_session);
    [whole_frame same_session_refl same_session_trans|].
  intros _ c2 (K1 & K2 & K3 & K4). cbv beta.
  post_prims.
  destruct (nonzero (r_val (cd_dc_in e))) eqn:Hin; cbn [Z.b2z nonzero];
    destruct (online c2) eqn:Hon; cbn [Z.b2z Z.eqb Pos.eqb negb].
  - post_run. repeat split; congruence.
  - post_call set_online_session. intros (L1 & L2 & L3 & L4).
    post_run. repeat split; congruence.
  - post_call set_offline_session. intros (L1 & L2 & L3 & L4).
    post_run. repeat split; congruence.
  - post_run. repeat split; congruence.
Qed.

(** X9.  Going offline ends everything that belongs to the session: the
    transfers are aborted, the proprietary packet buffer is cleared, the
    alignment is reset, the current ramp is stopped, and the dc-in poll, the
    alignment work and the VRECT timer are cancelled, whatever the votable
    and the alarm answer.  RTX and the pending detections are not
    touched. *)
Theorem set_offline_ends_session
    (e : offline_env) (c : p9221_charger_data) :
  let r := p9221_set_offline e c in
  let c' := st r in
  (online c' = false /\ force_bpp c' = false /\ chg_on_rtx c' = false
   /\ icl_ramp c' = false /\ mfg c' = 0)
  /\ (tx_busy c' = false /\ tx_done c' = true /\ rx_done c' = true
      /\ rx_len c' = 0)
  /\ (pp_buf_valid c' = false
      /\ pp_buf c' = repeat Byte.x00 (List.length (pp_buf c)))
  /\ (align c' = WLC_ALIGN_ERROR /\ align_count c' = 0
      /\ alignment c' = -1 /\ alignment_capable c' = ALIGN_MFG_FAILED)
  /\ (ben_state c' = ben_state c /\ check_det c' = check_det c
      /\ check_dc c' = check_dc c)
  /\ (In (EvCancelDelayedWork dcin_work) (out r)
      /\ In (EvCancelDelayedWork align_work) (out r)
      /\ In (EvCancelDelayedWork tx_work) (out r)
      /\ In (EvCancelDelayedWork icl_ramp_work) (out r)
      /\ In (EvDelTimer vrect_timer) (out r)).
Proof.
  cbv zeta.
  change (traced (p9221_set_offline e) c (fun _ c' o =>
    (online c' = false /\ force_bpp c' = false /\ chg_on_rtx c' = false
     /\ icl_ramp c' = false /\ mfg c' = 0)
    /\ (tx_busy c' = false /\ tx_done c' = true /\ rx_done c' = true
        /\ rx_len c' = 0)
    /\ (pp_buf_valid c' = false
        /\ pp_buf c' = repeat Byte.x00 (List.length (pp_buf c)))
    /\ (align c' = WLC_ALIGN_ERROR /\ align_count c' = 0
        /\ alignment c' = -1 /\ alignment_capable c' = ALIGN_MFG_FAILED)
    /\ (ben_state c' = ben_state c /\ check_det c' = check_det c
        /\ check_dc c' = check_dc c)
    /\ (In (EvCancelDelayedWork dcin_work) o
        /\ In (EvCancelDelayedWork align_work) o
        /\ In (EvCancelDelayedWork tx_work) o
        /\ In (EvCancelDelayedWork icl_ramp_work) o
        /\ In (EvDelTimer vrect_timer) o))).
  unfold p9221_set_offline, p9221_abort_transfers, p9221_icl_ramp_reset,
    p9221_vote_defaults. unfold_calls.
  traced_run; simpl_state; cbn [app];
    (repeat split; try reflexivity; cbn [In]; tauto).
Qed.

(** Solves [In ev l -> False] for a list of calls none of which is
    [ev]. *)
Ltac not_in :=
  let H := fresh in
  cbn [In app]; intros H;
  repeat (destruct H as [H|H]; [discriminate H|]); exact H.

(** X10.  The dc-in poll: as long as the status register can be read the work
    changes nothing and queues itself again; when the read fails the
    session is taken offline, the supply change is reported, the wakeup
    source is released and the work is not queued again. *)
Theorem dcin_work_polls_until_read_fails
    (e : dcin_env) (c : p9221_charger_data) :
  let r := p9221_dcin_work e c in
  if r_ret (dw_status e) =? 0 then
    st r = c
    /\ In (EvScheduleDelayedWork dcin_work P9221_DCIN_TIMEOUT_MS) (out r)
  else
    online (st r) = false
    /\ (forall ms, ~ In (EvScheduleDelayedWork dcin_work ms) (out r))
    /\ In EvPowerSupplyChanged (out r)
    /\ last (out r) EvPmStayAwake = EvPmRelax.
Proof.
  cbv zeta.
  change (traced (p9221_dcin_work e) c (fun _ c' o =>
    if r_ret (dw_status e) =? 0 then
      c' = c
      /\ In (EvScheduleDelayedWork dcin_work P9221_DCIN_TIMEOUT_MS) o
    else
      online c' = false
      /\ (forall ms, ~ In (EvScheduleDelayedWork dcin_work ms) o)
      /\ In EvPowerSupplyChanged o
      /\ last o EvPmStayAwake = EvPmRelax)).
  unfold p9221_dcin_work, p9221_set_offline, p9221_abort_transfers,
    p9221_icl_ramp_reset, p9221_vote_defaults. unfold_calls.
  traced_prims. cbn [fst snd]. unfold nonzero at 1.
  destruct (r_ret (dw_status e) =? 0) eqn:Hret; cbn [negb].
  - traced_prims. cbn [app In]. split; [reflexivity|tauto].
  - traced_prims. traced_case.
    + traced_run; simpl_state;
        (split; [assumption || reflexivity|]);
        (split; [intros ms; not_in|]);
        (split; [cbn [In app]; tauto|reflexivity]).
    + traced_run; simpl_state;
        (split; [apply negb_true_iff; apply negb_true_iff;
                 first [assumption
                       | destruct (online c); [discriminate|reflexivity]]|]);
        (split; [intros ms; not_in|]);
        (split; [cbn [In app]; tauto|reflexivity]).
Qed.




(** X12.  While RTX is on, an interrupt is the RTX handler's: it asks for no
    detection and does not touch the receive session, and RTX stays as it
    is or is switched off. *)
Theorem irq_in_rtx_mode_leaves_session
    (e : irq_env) (c : p9221_charger_data) :
  ben_state c <> RTX_BEN_DISABLED ->
  let c' := st (p9221_irq_thread e c) in
  online c' = online c /\ check_det c' = check_det c
  /\ check_dc c' = check_dc c
  /\ (ben_state c' = ben_state c \/ ben_state c' = RTX_BEN_DISABLED).
Proof.
  intros Hben. apply nonzero_true in Hben.
  destruct (irq_thread_rtx e c Hben) as ((H1 & H2 & H3) & H4).
  now repeat split.
Qed.

End RxWhole.

(** ** Protection *)

Section ProtectionWhole.

Context {hdr : p9221_charger_h}.

(** The calls that end the power transfer. *)
Definition is_eop (e : event) : bool :=
  match e with
  | EvRegWrite8 P9221R5_EPT_REG _ _ => true
  | EvSetCmd P9221R5_COM_SENDEPT _ => true
  | _ => false
  end.

(** With no sample above the threshold the loop leaves [ovc_count] as it
    is, and it sends nothing. *)
Lemma over_check_loop_low e n : forall i irq cnt vals c,
  (forall j, (i <= j < i + n)%nat -> sample_ua e j <= OVC_THRESHOLD) ->
  traced (over_check_loop e n i irq cnt vals) c
    (fun r _ o =>
       (r = None \/ exists irq' vals', r = Some (irq', cnt, vals'))
       /\ existsb is_eop o = false).
Proof.
  induction n as [|n IH]; intros i irq cnt vals c Hlow.
  { split; [right; now exists irq, vals|reflexivity]. }
  assert (Hi : sample_ua e i <= OVC_THRESHOLD) by (apply Hlow; lia).
  assert (IH' : forall irq cnt vals c (Q : _ -> _ -> trace -> Prop),
    (forall r c1 o,
        (r = None \/ exists irq' vals', r = Some (irq', cnt, vals'))
        /\ existsb is_eop o = false -> Q r c1 o) ->
    traced (over_check_loop e n (S i) irq cnt vals) c Q).
  { intros irq0 cnt0 vals0 c0 Q HQ.
    eapply traced_conseq; [apply IH; intros j Hj; apply Hlow; lia|].
    exact HQ. }
  assert (Hgt : (sample_ua e i >? OVC_THRESHOLD) = false)
    by (rewrite Z.gtb_ltb; apply Z.ltb_ge; exact Hi).
  cbn [over_check_loop]. unfold p9221_clear_interrupts, print_current_samples.
  unfold_calls.
  repeat first
    [ match goal with
      | |- traced (over_check_loop _ _ _ _ _ _) _ _ => fail 2
      end
    | traced_step | traced_case ].
  all: cbn [fst snd] in *.
  all: repeat match goal with
              | H : nonzero _ = false |- _ =>
                  apply nonzero_false in H; try rewrite H
              end.
  all: cbn [Z.eqb]; fold (sample_ua e i); rewrite ?Hgt.
  all: try (apply IH'; intros r c1 o [H1 H2]; split; [exact H1|];
            rewrite ?existsb_app, H2; reflexivity).
  split; [now left|reflexivity].
Qed.

(** X13.  Over-current alone never ends the power transfer on the interrupt's
    word: when none of the three samples taken is above OVC_THRESHOLD, the
    handler returns without the end-of-power-transfer packet, whatever the
    status register reads and whether the condition clears or not. *)
Theorem over_current_below_threshold_sends_no_eop
    (e : over_env) (irq_src : Z) (c : p9221_charger_data) :
  Z.land irq_src P9221R5_STAT_OVV = 0 ->
  Z.land irq_src P9221R5_STAT_OVT = 0 ->
  (forall i, (i < P9221R5_OVER_CHECK_NUM)%nat ->
             sample_ua e i <= OVC_THRESHOLD) ->
  existsb is_eop (out (p9221_over_handle e irq_src c)) = false.
Proof.
  intros Hovv Hovt Hlow.
  apply nonzero_false in Hovv, Hovt.
  change (traced (p9221_over_handle e irq_src) c
            (fun _ _ o => existsb is_eop o = false)).
  unfold p9221_over_handle, print_current_samples. unfold_calls.
  traced_prims. rewrite Hovv, Hovt. cbv iota.
  traced_case; [traced_prims; reflexivity|].
  traced_prims.
  assert (Loop : forall (Q : _ -> _ -> trace -> Prop) c0,
    (forall r c1 o,
        (r = None \/ exists irq' vals', r = Some (irq', 0, vals'))
        /\ existsb is_eop o = false -> Q r c1 o) ->
    traced (over_check_loop e P9221R5_OVER_CHECK_NUM 0 irq_src 0 [0; 0; 0])
      c0 Q).
  { intros Q c0 HQ.
    eapply traced_conseq;
      [apply over_check_loop_low; intros j Hj; apply Hlow; lia|exact HQ]. }
  repeat first
    [ match goal with
      | |- traced (bind (over_check_loop _ _ _ _ _ _) _) _ _ =>
          apply traced_bind; apply Loop; cbv beta;
          intros r c1 o [[->|(irq' & vals' & ->)] Ho]
      end
    | traced_step | traced_case ].
  all: try (rewrite ?existsb_app, ?Ho; reflexivity).
  all: discriminate.
Qed.

(** X14.  Over-voltage and over-temperature end the power transfer at once,
    voltage first: the end-of-power-transfer packet is written with the
    reason, with no polling round and no vote on the current limit before
    it, and the state is left as it is. *)
Theorem over_voltage_or_temperature_ends_transfer_at_once
    (e : over_env) (irq_src : Z) (c : p9221_charger_data) :
  nonzero (Z.land irq_src P9221R5_STAT_OVV)
  || nonzero (Z.land irq_src P9221R5_STAT_OVT) = true ->
  let r := p9221_over_handle e irq_src c in
  let reason := if nonzero (Z.land irq_src P9221R5_STAT_OVV)
                then P9221_EOP_OVER_VOLT else P9221_EOP_OVER_TEMP in
  st r = c
  /\ filter is_poll (out r) = []
  /\ filter is_vote (out r) = []
  /\ In (EvRegWrite8 P9221R5_EPT_REG (u8 reason) (fst (oe_eop e))) (out r)
  /\ (In (EvSetCmd P9221R5_COM_SENDEPT (snd (oe_eop e))) (out r)
      <-> fst (oe_eop e) = 0).
Proof.
  intros Hsrc. cbv zeta.
  change (traced (p9221_over_handle e irq_src) c (fun _ c' o =>
    c' = c /\ filter is_poll o = [] /\ filter is_vote o = []
    /\ In (EvRegWrite8 P9221R5_EPT_REG
             (u8 (if nonzero (Z.land irq_src P9221R5_STAT_OVV)
                  then P9221_EOP_OVER_VOLT else P9221_EOP_OVER_TEMP))
             (fst (oe_eop e))) o
    /\ (In (EvSetCmd P9221R5_COM_SENDEPT (snd (oe_eop e))) o
        <-> fst (oe_eop e) = 0))).
  unfold p9221_over_handle, over_send_eop, p9221_send_eop. unfold_calls.
  traced_prims.
  destruct (nonzero (Z.land irq_src P9221R5_STAT_OVV)) eqn:Hovv;
    [|cbn [orb] in Hsrc; rewrite Hsrc]; cbv iota.
  all: traced_prims; rewrite u8_idem.
  all: destruct (fst (oe_eop e) =? 0) eqn:Hret;
    [apply Z.eqb_eq in Hret|apply Z.eqb_neq in Hret].
  all: traced_run; cbn [app filter is_poll is_vote In].
  all: repeat split; try reflexivity; try tauto; try (intros _; assumption).
  all: try (intros H; exfalso;
            repeat (destruct H as [H|H]; try discriminate H); exact H).
  all: try (intros H; contradiction).
Qed.

End ProtectionWhole.

(** * The rest of the driver: properties *)

Section Formatting.

(** The text of [len] bytes, each as two hexadecimal digits and a space. *)
Fixpoint hex_text (bs : list Byte.byte) : string :=
  match bs with
  | [] => ""
  | b :: t => fmt_02x_sp (byte_val b) ++ hex_text t
  end.

Lemma length_append (s t : string) :
  String.length (s ++ t) = (String.length s + String.length t)%nat.
Proof. induction s; cbn; auto. Qed.

Lemma append_assoc (s t u : string) :
  ((s ++ t) ++ u = s ++ t ++ u)%string.
Proof. induction s; cbn; congruence. Qed.

Lemma append_empty (s : string) : (s ++ "")%string = s.
Proof. induction s; cbn; congruence. Qed.

Lemma scnprintf_full (size v : Z) :
  4 <= size <= INT_MAX -> scnprintf size (fmt_02x_sp v) = fmt_02x_sp v.
Proof.
  intros H. unfold scnprintf.
  replace (size =? 0) with false by (symmetry; apply Z.eqb_neq; lia).
  replace (size >? INT_MAX) with false
    by (symmetry; rewrite Z.gtb_ltb; apply Z.ltb_ge; lia).
  cbn [orb].
  replace (Nat.min _ _) with 3%nat.
  - reflexivity.
  - cbn [fmt_02x_sp String.length]. lia.
Qed.

Lemma scnprintf_length (size v : Z) :
  0 <= size <= INT_MAX ->
  Z.of_nat (String.length (scnprintf size (fmt_02x_sp v)))
  = Z.max 0 (Z.min 3 (size - 1)).
Proof.
  intros H. unfold scnprintf.
  replace (size >? INT_MAX) with false
    by (symmetry; rewrite Z.gtb_ltb; apply Z.ltb_ge; lia).
  destruct (size =? 0) eqn:E; cbn [orb].
  - apply Z.eqb_eq in E. cbn. lia.
  - apply Z.eqb_neq in E.
    cbn [fmt_02x_sp String.length].
    destruct (Z.to_nat (size - 1)) as [|[|[|k]]] eqn:K; cbn; lia.
Qed.

Lemma scnprintf_refused (size : Z) (s : string) :
  INT_MAX < size -> scnprintf size s = "".
Proof.
  intros H. unfold scnprintf.
  replace (size >? INT_MAX) with true
    by (symmetry; rewrite Z.gtb_ltb; apply Z.ltb_lt; lia).
  now rewrite orb_true_r.
Qed.


(** The bytes in the order the function prints them. *)
Definition printed (data : list Byte.byte) (len : Z) (msbfirst : bool)
  : list Byte.byte :=
  let l := firstn (Z.to_nat len) data in
  if msbfirst then rev l else l.

Lemma printed_length (data : list Byte.byte) (len : Z) (msbfirst : bool) :
  (Z.to_nat len <= List.length data)%nat ->
  List.length (printed data len msbfirst) = Z.to_nat len.
Proof.
  intros H. unfold printed.
  destruct msbfirst; rewrite ?length_rev, length_firstn; lia.
Qed.

Lemma printed_nth (data : list Byte.byte) (len : Z) (msbfirst : bool)
    (i : nat) :
  0 <= len -> (Z.to_nat len <= List.length data)%nat ->
  (i < Z.to_nat len)%nat ->
  (if msbfirst
   then nth (Z.to_nat (len - 1 - Z.of_nat i)) data Byte.x00
   else nth i data Byte.x00)
  = nth i (printed data len msbfirst) Byte.x00.
Proof.
  intros Hl Hd Hi. unfold printed. destruct msbfirst.
  - rewrite rev_nth by (rewrite length_firstn; lia).
    rewrite length_firstn.
    replace (Nat.min (Z.to_nat len) (List.length data)) with (Z.to_nat len)
      by lia.
    replace (Z.to_nat (len - 1 - Z.of_nat i)) with (Z.to_nat len - S i)%nat
      by lia.
    rewrite nth_firstn.
    replace (_ <? _)%nat with true by (symmetry; apply Nat.ltb_lt; lia).
    reflexivity.
  - rewrite nth_firstn.
    replace (_ <? _)%nat with true by (symmetry; apply Nat.ltb_lt; lia).
    reflexivity.
Qed.

Lemma skipn_nth {A : Type} (l : list A) (i : nat) (d : A) :
  (i < List.length l)%nat -> skipn i l = nth i l d :: skipn (S i) l.
Proof.
  revert i. induction l as [|a l IH]; intros [|i] H; cbn in *;
    try lia; auto.
  apply IH. lia.
Qed.

Lemma hex_str_loop_fits (data : list Byte.byte) (len max_buf : Z)
    (msbfirst : bool) (n i : nat) (text : string) :
  0 <= len -> (Z.to_nat len <= List.length data)%nat ->
  3 * len < max_buf -> max_buf <= INT_MAX ->
  (i + n = Z.to_nat len)%nat ->
  hex_str_loop data len max_buf msbfirst n i (3 * Z.of_nat i) text
  = (3 * len,
     (text ++ hex_text (skipn i (printed data len msbfirst)))%string).
Proof.
  intros Hl Hd Hfit Hmax. revert i text.
  induction n as [|n IH]; intros i text Hn.
  - cbn [hex_str_loop].
    rewrite skipn_all2 by (rewrite printed_length; lia).
    cbn [hex_text]. rewrite append_empty. f_equal. lia.
  - cbn [hex_str_loop].
    unfold INT_MAX in *.
    rewrite printed_nth by lia.
    rewrite (s32_small (Z.of_nat i * 3)) by lia.
    unfold size_t. rewrite Z.mod_small by lia.
    rewrite scnprintf_full by (unfold INT_MAX; lia).
    cbn [fmt_02x_sp String.length].
    rewrite s32_small by lia.
    replace (3 * Z.of_nat i + Z.of_nat 3) with (3 * Z.of_nat (S i)) by lia.
    rewrite IH by lia.
    f_equal.
    rewrite (skipn_nth (printed data len msbfirst) i Byte.x00)
      by (rewrite printed_length; lia).
    cbn [hex_text]. now rewrite append_assoc.
Qed.

(** X15.  With room for every byte and the terminating NUL (three
    characters a byte, below INT_MAX), [p9221_hex_str] stores the [len]
    bytes as two lower-case hexadecimal digits and a space each, first byte
    first or, with [msbfirst], last byte first, and returns [3 * len]. *)
Theorem hex_str_prints_every_byte (data : list Byte.byte)
    (len max_buf : Z) (msbfirst : bool) :
  0 <= len -> len <= Z.of_nat (List.length data) ->
  3 * len < max_buf -> max_buf <= INT_MAX ->
  p9221_hex_str data len max_buf msbfirst
  = (3 * len, hex_text (printed data len msbfirst)).
Proof.
  intros Hl Hd Hfit Hmax. unfold p9221_hex_str.
  pose proof (hex_str_loop_fits data len max_buf msbfirst
                (Z.to_nat len) 0 "") as H.
  change (3 * Z.of_nat 0) with 0 in H.
  rewrite H by lia.
  cbn [fst snd skipn append]. f_equal.
  unfold size_t, INT_MAX in *. apply Z.mod_small. lia.
Qed.

Lemma hex_str_loop_bounded (data : list Byte.byte) (len max_buf : Z)
    (msbfirst : bool) (n i : nat) (blen : Z) (text : string) :
  0 <= max_buf <= INT_MAX ->
  3 * Z.of_nat (i + n) <= INT_MAX ->
  blen = Z.of_nat (String.length text) ->
  blen <= Z.max 0 (Z.min (3 * Z.of_nat i) (max_buf - 1)) ->
  let r := hex_str_loop data len max_buf msbfirst n i blen text in
  fst r = Z.of_nat (String.length (snd r)) /\
  fst r <= Z.max 0 (max_buf - 1).
Proof.
  intros Hmax. revert i blen text.
  induction n as [|n IH]; intros i blen text Hn Hb Hle; cbn zeta.
  - cbn [hex_str_loop fst snd]. split; [assumption|lia].
  - cbn [hex_str_loop].
    unfold INT_MAX in *.
    rewrite (s32_small (Z.of_nat i * 3)) by lia.
    set (v := byte_val _).
    assert (Hp : Z.of_nat (String.length
                   (scnprintf (size_t (max_buf - Z.of_nat i * 3))
                      (fmt_02x_sp v)))
                 = Z.max 0 (Z.min 3 (max_buf - Z.of_nat i * 3 - 1))).
    { destruct (Z_lt_le_dec (max_buf - Z.of_nat i * 3) 0) as [Hneg|Hpos].
      - rewrite scnprintf_refused.
        + cbn. lia.
        + unfold size_t, INT_MAX.
          replace (max_buf - Z.of_nat i * 3)
            with ((max_buf - Z.of_nat i * 3 + 2 ^ 64) + (-1) * 2 ^ 64)
            by lia.
          rewrite Z.mod_add by lia.
          rewrite Z.mod_small by lia. lia.
      - unfold size_t. rewrite Z.mod_small by lia.
        apply scnprintf_length. unfold INT_MAX. lia. }
    apply IH.
    + unfold INT_MAX. lia.
    + rewrite s32_small by lia.
      rewrite length_append. lia.
    + rewrite s32_small by lia. lia.
Qed.

(** X16.  Whatever the size of the buffer (up to INT_MAX) and however many
    bytes are asked for, [p9221_hex_str] returns the number of characters
    it stored, and stores at most [max_buf - 1] of them: with the NUL the
    text stays within [max_buf]. *)
Theorem hex_str_stays_within_buffer (data : list Byte.byte)
    (len max_buf : Z) (msbfirst : bool) :
  0 <= max_buf <= INT_MAX -> 0 <= 3 * len <= INT_MAX ->
  let r := p9221_hex_str data len max_buf msbfirst in
  fst r = Z.of_nat (String.length (snd r)) /\
  fst r <= Z.max 0 (max_buf - 1).
Proof.
  intros Hmax Hlen. cbn zeta. unfold p9221_hex_str. cbn [fst snd].
  pose proof (hex_str_loop_bounded data len max_buf msbfirst
                (Z.to_nat len) 0 0 "" Hmax) as H.
  cbn zeta in H.
  destruct H as [H1 H2].
  - cbn [Nat.add]. lia.
  - reflexivity.
  - lia.
  - unfold size_t, INT_MAX in *.
    rewrite Z.mod_small; [split; assumption|].
    rewrite H1 in *. lia.
Qed.

End Formatting.

(** ** Symbolic execution of the wider driver *)

(** [full m f Q]: run from [f], the program [m] returns a value, leaves a
    state and makes calls that satisfy [Q]. *)
Definition full {A : Type} (m : MF A) (f : p9221_charger_full)
    (Q : A -> p9221_charger_full -> list call -> Prop) : Prop :=
  Q (rval (m f)) (after (m f)) (calls (m f)).

Lemma full_ret {A : Type} (a : A) f
    (Q : A -> p9221_charger_full -> list call -> Prop) :
  Q a f [] -> full (ret_ a) f Q.
Proof. exact (fun H => H). Qed.

Lemma full_get f
    (Q : p9221_charger_full -> p9221_charger_full -> list call -> Prop) :
  Q f f [] -> full get_ f Q.
Proof. exact (fun H => H). Qed.

Lemma full_call ev f (Q : unit -> p9221_charger_full -> list call -> Prop) :
  Q tt f [ev] -> full (call_ ev) f Q.
Proof. exact (fun H => H). Qed.

Lemma full_modify g f (Q : unit -> p9221_charger_full -> list call -> Prop) :
  Q tt (g f) [] -> full (modify_ g) f Q.
Proof. exact (fun H => H). Qed.

Lemma full_bind {A B : Type} (m : MF A) (k : A -> MF B) f
    (Q : B -> p9221_charger_full -> list call -> Prop) :
  full m f
    (fun a f1 o1 => full (k a) f1 (fun b f2 o2 => Q b f2 (o1 ++ o2))) ->
  full (bind_ m k) f Q.
Proof. exact (fun H => H). Qed.

Lemma full_lift {A : Type} (m : M A) f
    (Q : A -> p9221_charger_full -> list call -> Prop) :
  traced m (core f) (fun a c o => Q a (set_core c f) (map Ev o)) ->
  full (lift m) f Q.
Proof. exact (fun H => H). Qed.

Lemma full_outcome {A : Type} (m : MF A) f (a : A) f' o :
  full m f (fun v f1 o1 => v = a /\ f1 = f' /\ o1 = o) ->
  m f = Outcome a f' o.
Proof.
  unfold full. destruct (m f) as [v f1 o1]. cbn.
  intros (-> & -> & ->). reflexivity.
Qed.

Lemma full_conseq {A : Type} (m : MF A) f
    (Q Q' : A -> p9221_charger_full -> list call -> Prop) :
  full m f Q -> (forall a f1 o, Q a f1 o -> Q' a f1 o) -> full m f Q'.
Proof. intros H HQ. apply HQ, H. Qed.

Ltac simpl_full :=
  cbn [core tx_buf tx_len qien_gpio set_core set_tx_buf set_tx_len
    set_enabled set_resume_complete map app fst snd
    pdata chip_id log resume_complete dc_psy dc_icl_votable
    tx_icl_votable disable_dcin_en_votable online enabled ben_state rtx_err
    rtx_csp check_det check_dc check_np force_bpp fake_force_epp mfg
    is_mfg_google chg_on_rtx dc_icl_bpp dc_icl_epp dc_icl_epp_neg icl_ramp
    icl_ramp_ua tx_busy tx_done rx_done rx_len rx_buf pp_buf pp_buf_valid
    last_capacity cust_id align align_count alignment alignment_last
    alignment_capable current_filtered current_sample_cnt mfg_check_count
    set_dc_psy set_dc_icl_votable set_disable_dcin_en_votable set_online
    set_ben_state set_rtx_err set_rtx_csp set_check_det set_check_dc
    set_check_np set_force_bpp set_mfg set_is_mfg_google set_chg_on_rtx
    set_dc_icl_epp_neg set_icl_ramp set_tx_busy set_tx_done set_rx_done
    set_rx_len set_rx_buf set_pp_buf set_pp_buf_valid set_last_capacity
    set_cust_id set_align set_align_count set_alignment set_alignment_last
    set_alignment_capable set_current_filtered set_current_sample_cnt
    set_mfg_check_count].

Ltac full_step :=
  match goal with
  | |- full (bind_ _ _) _ _ => apply full_bind
  | |- full (ret_ _) _ _ => apply full_ret
  | |- full get_ _ _ => apply full_get
  | |- full (call_ _) _ _ => apply full_call
  | |- full (modify_ _) _ _ => apply full_modify
  | |- full (lift (modify _)) _ _ => apply full_lift, traced_modify
  | |- full (lift (emit _)) _ _ => apply full_lift, traced_emit
  | |- full (lift (dev_err _ _)) _ _ => apply full_lift, traced_emit
  | |- full (lift (dev_warn _ _)) _ _ => apply full_lift, traced_emit
  | |- full (lift (dev_info _ _)) _ _ => apply full_lift, traced_emit
  | |- full (lift (logbuffer_log _ _)) _ _ => apply full_lift, traced_emit
  | |- full (lift (logbuffer_log_rtx _ _)) _ _ =>
      apply full_lift, traced_emit
  | |- full (lift (schedule_work _)) _ _ => apply full_lift, traced_emit
  | |- full (lift (schedule_delayed_work _ _)) _ _ =>
      apply full_lift, traced_emit
  | |- full (lift (cancel_delayed_work _)) _ _ =>
      apply full_lift, traced_emit
  | |- full (lift (cancel_delayed_work_sync _)) _ _ =>
      apply full_lift, traced_emit
  | |- full (lift (gpio_set_value _ _)) _ _ => apply full_lift, traced_emit
  | |- full (lift (del_timer _)) _ _ => apply full_lift, traced_emit
  | |- full (lift (sysfs_notify _)) _ _ => apply full_lift, traced_emit
  | |- full (lift power_supply_changed) _ _ => apply full_lift, traced_emit
  | |- full (lift pm_stay_awake) _ _ => apply full_lift, traced_emit
  | |- full (lift pm_relax) _ _ => apply full_lift, traced_emit
  | |- full (lift (chip_set_vout_max _ _)) _ _ =>
      apply full_lift; unfold chip_set_vout_max; traced_prims
  | |- full pm_runtime_get_sync _ _ => apply full_call
  | |- full pm_runtime_put_sync _ _ => apply full_call
  | |- full (mod_timer _ _) _ _ => apply full_call
  | |- full (chip_set_data_buf _ _ _) _ _ => unfold chip_set_data_buf
  | |- full (chip_set_cc_send_size _ _) _ _ => unfold chip_set_cc_send_size
  | |- full (chip_set_cmd_ccactivate _) _ _ =>
      unfold chip_set_cmd_ccactivate
  | |- full (chip_set_cmd_sendcsp _) _ _ => unfold chip_set_cmd_sendcsp
  | |- full (p9221_reg_write_8_charge_stat _ _) _ _ =>
      unfold p9221_reg_write_8_charge_stat
  | |- full (vote_user _ _ _ _ _) _ _ => unfold vote_user
  end;
  cbv beta iota; simpl_full.

Ltac full_case :=
  match goal with
  | |- full (bind_ (if ?b then _ else _) _) _ _ =>
      apply full_bind; destruct b eqn:?
  | |- full (if ?b then _ else _) _ _ => destruct b eqn:?
  | |- full (bind_ (match ?x with _ => _ end) _) _ _ =>
      apply full_bind; destruct x eqn:?
  | |- full (match ?x with _ => _ end) _ _ => destruct x eqn:?
  end;
  try absurd_case; cbv beta iota.

Ltac full_prims := repeat full_step.

(** Turns the conditions met on the way into equations. *)
Ltac conditions :=
  repeat match goal with
    | H : nonzero _ = true |- _ => apply nonzero_true in H
    | H : nonzero _ = false |- _ => apply nonzero_false in H
    | H : negb _ = true |- _ => apply negb_true_iff in H
    | H : negb _ = false |- _ => apply negb_false_iff in H
    | H : (_ =? _) = true |- _ => apply Z.eqb_eq in H
    | H : (_ =? _) = false |- _ => apply Z.eqb_neq in H
    | H : (_ <? _) = true |- _ => apply Z.ltb_lt in H
    | H : (_ <? _) = false |- _ => apply Z.ltb_ge in H
    | H : (_ >? _) = true |- _ => rewrite Z.gtb_ltb in H
    | H : (_ >? _) = false |- _ => rewrite Z.gtb_ltb in H
    | H : (_ >=? _) = true |- _ => rewrite Z.geb_leb in H
    | H : (_ >=? _) = false |- _ => rewrite Z.geb_leb in H
    | H : (_ <=? _) = true |- _ => apply Z.leb_le in H
    | H : (_ <=? _) = false |- _ => apply Z.leb_gt in H
    | H : _ || _ = false |- _ => apply orb_false_iff in H; destruct H
    | H : _ && _ = true |- _ => apply andb_true_iff in H; destruct H
    end.
Ltac full_run := repeat first [full_step | full_case].

Section Transfers.

Context {hdr : p9221_charger_h} {more : p9221_charger_h_more}.

Lemma send_data_busy (io : Z * Z * Z) (f : p9221_charger_full) :
  tx_busy (core f) = true ->
  p9221_send_data io f = Outcome (- EBUSY) f [].
Proof.
  intros H. unfold p9221_send_data.
  cbv [bind_ get_ rval after calls]. rewrite H. reflexivity.
Qed.

(** X17.  While a packet is in flight [p9221_send_data] returns -EBUSY,
    calls nothing and changes nothing.  Started from idle it returns 0
    exactly when the three chip calls all succeed (the buffer, the length,
    then the command), and the transfer is marked busy afterwards exactly
    then: a failure at any step clears [tx_busy] again.  The buffer and
    the length are not touched. *)
Theorem send_data_busy_iff_started (io : Z * Z * Z)
    (f : p9221_charger_full) :
  let r := p9221_send_data io f in
  if tx_busy (core f) then r = Outcome (- EBUSY) f []
  else
    (rval r = 0 <-> io = (0, 0, 0)) /\
    tx_busy (core (after r)) = (rval r =? 0) /\
    tx_buf (after r) = tx_buf f /\ tx_len (after r) = tx_len f /\
    (rval r = 0 ->
     calls r = [EvSetDataBuf (firstn (Z.to_nat (tx_len f)) (tx_buf f))
                  (tx_len f) 0;
                EvSetCcSendSize (tx_len f) 0;
                EvSetCmdCcActivate 0]).
Proof.
  cbn zeta. destruct (tx_busy (core f)) eqn:H.
  { apply send_data_busy, H. }
  change (full (p9221_send_data io) f (fun v f' o =>
    (v = 0 <-> io = (0, 0, 0)) /\
    tx_busy (core f') = (v =? 0) /\
    tx_buf f' = tx_buf f /\ tx_len f' = tx_len f /\
    (v = 0 ->
     o = [EvSetDataBuf (firstn (Z.to_nat (tx_len f)) (tx_buf f))
            (tx_len f) 0;
          EvSetCcSendSize (tx_len f) 0;
          EvSetCmdCcActivate 0]))).
  unfold p9221_send_data. destruct io as [[a b] d]. cbn [fst snd].
  full_prims. rewrite H. cbv iota.
  full_run; conditions; subst;
    (split; [split; [intros; try congruence; try lia
                    |intros E; inversion E; subst; try congruence; lia]|]);
    (split; [symmetry; first [apply Z.eqb_neq; assumption
                             |apply Z.eqb_eq; reflexivity]|]);
    repeat split; intros; try congruence; try lia.
Qed.

Lemma send_data_full (io : Z * Z * Z) (f : p9221_charger_full) :
  full (p9221_send_data io) f (fun v f' o =>
    if tx_busy (core f) then v = - EBUSY /\ f' = f /\ o = []
    else
      (v = 0 <-> io = (0, 0, 0)) /\
      tx_busy (core f') = (v =? 0) /\
      tx_done (core f') = tx_done (core f) /\
      tx_buf f' = tx_buf f /\ tx_len f' = tx_len f /\
      ~ In (Ev (EvScheduleDelayedWork tx_work P9221_TX_TIMEOUT_MS)) o).
Proof.
  destruct (tx_busy (core f)) eqn:H.
  - unfold full. rewrite send_data_busy by assumption.
    cbn. auto.
  - unfold p9221_send_data. destruct io as [[a b] d]. cbn [fst snd].
    full_prims. rewrite H. cbv iota.
    full_run; conditions; subst;
      (split; [split; [intros; try congruence; try lia
                      |intros E; inversion E; subst; try congruence; lia]|]);
      (split; [symmetry; first [apply Z.eqb_neq; assumption
                               |apply Z.eqb_eq; reflexivity]|]);
      repeat split; cbn [In];
      try (intros Hin; intuition discriminate).
Qed.

(** X18.  A write to [txlen] while a packet is in flight is refused with
    -EBUSY, but not without effect: the timeout of the packet in flight is
    cancelled and not armed again, [tx_len] is overwritten with the new
    length, and [tx_done] reads true although [tx_busy] still does. *)
Theorem store_txlen_while_busy (parse : reply) (io : Z * Z * Z)
    (count : Z) (f : p9221_charger_full) :
  0 <= r_ret parse -> tx_busy (core f) = true ->
  let r := p9221_store_txlen parse io count f in
  rval r = - EBUSY /\
  calls r = [Ev (EvCancelDelayedWorkSync tx_work)] /\
  tx_len (after r) = u16 (r_val parse) /\
  tx_done (core (after r)) = true /\ tx_busy (core (after r)) = true.
Proof.
  intros Hp Hb. cbn zeta.
  change (full (p9221_store_txlen parse io count) f (fun v f' o =>
    v = - EBUSY /\
    o = [Ev (EvCancelDelayedWorkSync tx_work)] /\
    tx_len f' = u16 (r_val parse) /\
    tx_done (core f') = true /\ tx_busy (core f') = true)).
  unfold p9221_store_txlen.
  replace (r_ret parse <? 0) with false by (symmetry; apply Z.ltb_ge; lia).
  full_prims.
  eapply full_conseq; [apply send_data_full|]. cbv beta. simpl_full.
  rewrite Hb. intros v f1 o (-> & -> & ->).
  change (nonzero (- EBUSY)) with true. cbv iota.
  full_prims. auto.
Qed.

(** X19.  A write to [txlen] whose number parses, with no packet in
    flight: when the chip accepts the three steps the write returns
    [count], the transfer is busy and not done, and the timeout work is
    armed; when a step fails the write returns the error, the transfer is
    neither busy nor pending (done reads true), and no timeout is armed. *)
Theorem store_txlen_starts_or_reports (parse : reply) (io : Z * Z * Z)
    (count : Z) (f : p9221_charger_full) :
  0 <= r_ret parse -> tx_busy (core f) = false ->
  let r := p9221_store_txlen parse io count f in
  let armed :=
    In (Ev (EvScheduleDelayedWork tx_work P9221_TX_TIMEOUT_MS)) (calls r) in
  tx_len (after r) = u16 (r_val parse) /\
  ((io = (0, 0, 0) /\ rval r = count /\ armed /\
    tx_busy (core (after r)) = true /\ tx_done (core (after r)) = false)
   \/
   (io <> (0, 0, 0) /\ rval r <> 0 /\ ~ armed /\
    tx_busy (core (after r)) = false /\ tx_done (core (after r)) = true)).
Proof.
  intros Hp Hb. cbn zeta.
  change (full (p9221_store_txlen parse io count) f (fun v f' o =>
    tx_len f' = u16 (r_val parse) /\
    ((io = (0, 0, 0) /\ v = count /\
      In (Ev (EvScheduleDelayedWork tx_work P9221_TX_TIMEOUT_MS)) o /\
      tx_busy (core f') = true /\ tx_done (core f') = false)
     \/
     (io <> (0, 0, 0) /\ v <> 0 /\
      ~ In (Ev (EvScheduleDelayedWork tx_work P9221_TX_TIMEOUT_MS)) o /\
      tx_busy (core f') = false /\ tx_done (core f') = true)))).
  unfold p9221_store_txlen.
  replace (r_ret parse <? 0) with false by (symmetry; apply Z.ltb_ge; lia).
  full_prims.
  eapply full_conseq; [apply send_data_full|]. cbv beta. simpl_full.
  rewrite Hb. intros v f1 o (Hv & Hbusy & Hdone & _ & Hlen & Hno).
  destruct (nonzero v) eqn:Ev; conditions.
  - full_prims. rewrite Hlen. split; [reflexivity|]. right.
    rewrite Hbusy.
    repeat split.
    + intros E. apply Ev, Hv, E.
    + assumption.
    + cbn [In]. intros [E|E]; [discriminate|].
      rewrite app_nil_r in E. exact (Hno E).
    + apply Z.eqb_neq. assumption.
  - subst v. full_prims. rewrite Hlen. split; [reflexivity|]. left.
    rewrite Hbusy, Hdone.
    repeat split.
    + apply Hv. reflexivity.
    + cbn [In]. right. apply in_or_app. right. left. reflexivity.
Qed.

(** The send side of the packet transfer. *)
Definition same_outbox (c c' : p9221_charger_data) : Prop :=
  tx_busy c' = tx_busy c /\ tx_done c' = tx_done c.

Lemma same_outbox_refl c : same_outbox c c.
Proof. now split. Qed.

Lemma same_outbox_trans c1 c2 c3 :
  same_outbox c1 c2 -> same_outbox c2 c3 -> same_outbox c1 c3.
Proof. intros (A1 & A2) (B1 & B2). split; congruence. Qed.

Lemma traced_keeps {A : Type}
    (R : p9221_charger_data -> p9221_charger_data -> Prop)
    (m : M A) c (Q : A -> p9221_charger_data -> trace -> Prop) :
  keeps R m -> (forall a c1 o, R c c1 -> Q a c1 o) -> traced m c Q.
Proof. intros K H. apply H, K. Qed.

Lemma irq_handler_send_complete (e : irq_handler_env) (irq_src : Z)
    (c : p9221_charger_data) :
  nonzero (Z.land irq_src P9221R5_STAT_CCSENDBUSY) = true ->
  traced (p9221_irq_handler e irq_src) c (fun _ c' o =>
    tx_busy c' = false /\ tx_done c' = true /\
    In (EvCancelDelayedWork tx_work) o).
Proof.
  intros Hsnd. unfold p9221_irq_handler.
  apply traced_bind.
  apply (traced_keeps same_outbox);
    [whole_frame same_outbox_refl same_outbox_trans|].
  intros _ c1 o1 _. cbv beta.
  apply traced_bind.
  apply (traced_keeps same_outbox);
    [whole_frame same_outbox_refl same_outbox_trans|].
  intros _ c2 o2 _. cbv beta.
  rewrite Hsnd.
  unfold when, p9221_abort_transfers, chip_get_cc_recv_size,
    chip_get_data_buf, sysfs_notify, cancel_delayed_work, dev_err, dev_info.
  traced_run; simpl_state;
    (split; [reflexivity|]); (split; [reflexivity|]);
    apply in_or_app; right; apply in_or_app; right;
    cbn [app In]; auto 20.
Qed.

(** X20.  A transfer does not stay busy: the interrupt that reports the
    end of the transmission, whatever else it reports, leaves [tx_busy]
    clear and [tx_done] set and cancels the timeout work; the timeout
    work itself leaves the same and notifies [txbusy] and [txdone].  From
    there [p9221_send_data] is not refused: it loads the buffer into the
    chip. *)
Theorem transfer_ends_by_interrupt_or_timeout (e : irq_handler_env)
    (irq_src : Z) (io : Z * Z * Z) (f : p9221_charger_full) :
  nonzero (Z.land irq_src P9221R5_STAT_CCSENDBUSY) = true ->
  let i := lift (p9221_irq_handler e irq_src) f in
  let t := p9221_tx_work f in
  (tx_busy (core (after i)) = false /\ tx_done (core (after i)) = true /\
   In (Ev (EvCancelDelayedWork tx_work)) (calls i)) /\
  (tx_busy (core (after t)) = false /\ tx_done (core (after t)) = true /\
   In (Ev (EvSysfsNotify "txbusy")) (calls t) /\
   In (Ev (EvSysfsNotify "txdone")) (calls t)) /\
  hd_error (calls (p9221_send_data io (after i)))
  = Some (EvSetDataBuf (firstn (Z.to_nat (tx_len f)) (tx_buf f))
            (tx_len f) (fst (fst io))) /\
  hd_error (calls (p9221_send_data io (after t)))
  = Some (EvSetDataBuf (firstn (Z.to_nat (tx_len f)) (tx_buf f))
            (tx_len f) (fst (fst io))).
Proof.
  intros Hsnd. cbn zeta.
  pose proof (irq_handler_send_complete e irq_src (core f) Hsnd) as H.
  unfold traced in H. destruct H as (H1 & H2 & H3).
  assert (Hstart : forall g, tx_busy (core g) = false ->
            tx_buf g = tx_buf f -> tx_len g = tx_len f ->
            hd_error (calls (p9221_send_data io g))
            = Some (EvSetDataBuf (firstn (Z.to_nat (tx_len f)) (tx_buf f))
                      (tx_len f) (fst (fst io)))).
  { intros g Hg Hb Hl.
    change (full (p9221_send_data io) g (fun _ _ o =>
      hd_error o
      = Some (EvSetDataBuf (firstn (Z.to_nat (tx_len f)) (tx_buf f))
                (tx_len f) (fst (fst io))))).
    unfold p9221_send_data. full_prims. rewrite Hg. cbv iota.
    full_prims. rewrite Hb, Hl. full_run; reflexivity. }
  split; [|split; [|split]].
  - split; [exact H1|]. split; [exact H2|].
    apply (in_map Ev), H3.
  - change (full p9221_tx_work f (fun _ f' o =>
      tx_busy (core f') = false /\ tx_done (core f') = true /\
      In (Ev (EvSysfsNotify "txbusy")) o /\
      In (Ev (EvSysfsNotify "txdone")) o)).
    unfold p9221_tx_work. full_prims. cbn [In]. auto 10.
  - apply Hstart; [exact H1|reflexivity|reflexivity].
  - apply Hstart; reflexivity.
Qed.

End Transfers.

Section PowerSupply.

Context {hdr : p9221_charger_h} {more : p9221_charger_h_more}.

(** X21.  Between [p9221_pm_suspend] and [p9221_pm_resume] the chip is not
    read: [p9221_ready_to_read] answers -EAGAIN after a suspend, whatever
    the session; after a resume it answers 0 when a receive session or RTX
    is on and -ENODEV when neither is.  Every path takes the runtime PM
    reference once and drops it once. *)
Theorem suspend_blocks_reads (f : p9221_charger_full) :
  rval (p9221_ready_to_read (after (p9221_pm_suspend f))) = - EAGAIN /\
  rval (p9221_ready_to_read (after (p9221_pm_resume f)))
  = (if online (core f) || nonzero (ben_state (core f))
     then 0 else - ENODEV) /\
  calls (p9221_ready_to_read f) = [EvPmRuntimeGetSync; EvPmRuntimePutSync].
Proof.
  split; [|split].
  - change (full p9221_pm_suspend f (fun _ f1 _ =>
      full p9221_ready_to_read f1 (fun v _ _ => v = - EAGAIN))).
    unfold p9221_pm_suspend, p9221_ready_to_read.
    full_prims. cbn [negb]. full_prims. reflexivity.
  - change (full p9221_pm_resume f (fun _ f1 _ =>
      full p9221_ready_to_read f1 (fun v _ _ =>
        v = if online (core f) || nonzero (ben_state (core f))
            then 0 else - ENODEV))).
    unfold p9221_pm_resume, p9221_ready_to_read, p9221_is_online.
    full_prims. cbn [negb]. full_prims.
    destruct (online (core f) || nonzero (ben_state (core f)));
      cbn [negb]; full_prims; reflexivity.
  - change (full p9221_ready_to_read f (fun _ _ o =>
      o = [EvPmRuntimeGetSync; EvPmRuntimePutSync])).
    unfold p9221_ready_to_read. full_run; reflexivity.
Qed.

(** X22.  [p9221_set_property] and [p9221_prop_is_writeable] agree: a
    property that is not reported writeable is refused with -EINVAL, and
    the refusal calls nothing, changes nothing and notifies nobody. *)
Theorem set_property_refuses_read_only (e : set_property_env)
    (prop : power_supply_property) (intval : Z) (f : p9221_charger_full) :
  p9221_prop_is_writeable prop = 0 ->
  p9221_set_property e prop intval f = Outcome (- EINVAL) f [].
Proof.
  intros H. destruct prop; cbn in H; try discriminate; reflexivity.
Qed.

(** X23.  Writing POWER_SUPPLY_PROP_ONLINE accepts 0 and 1 only: any other
    value is refused with -EINVAL and nothing happens.  Writing the value
    [enabled] already has does nothing either.  A change is stored, drives
    the enable line (when there is one) to the opposite level, low to
    enable, and is always followed by [power_supply_changed]. *)
Theorem set_property_online_drives_enable_line (e : set_property_env)
    (intval : Z) (f : p9221_charger_full) :
  let r := p9221_set_property e POWER_SUPPLY_PROP_ONLINE intval f in
  if (intval <? 0) || (intval >? 1) then r = Outcome (- EINVAL) f []
  else if Z.b2z (enabled (core f)) =? intval then r = Outcome 0 f []
  else
    rval r = 0 /\
    enabled (core (after r)) = (intval =? 1) /\
    calls r
    = [Ev (EvLog KERN_WARNING "Set enable %d\n" [AInt intval])]
      ++ (if qien_gpio f >=? 0
          then [Ev (EvGpioSet (qien_gpio f) (intval =? 0))] else [])
      ++ [Ev EvPowerSupplyChanged].
Proof.
  cbn zeta. unfold p9221_set_property, set_property_out.
  destruct ((intval <? 0) || (intval >? 1)) eqn:Hr; [reflexivity|].
  cbv [bind_ get_ rval after calls]. cbn [app].
  destruct (Z.b2z (enabled (core f)) =? intval) eqn:Hs; [reflexivity|].
  conditions.
  assert (Hi : intval = 0 \/ intval = 1) by lia.
  change (full (
     bind_ (lift (modify (set_enabled (nonzero intval))))
       (fun _ => bind_ get_ (fun f0 =>
          bind_ (lift (dev_warn "Set enable %d\n"
                         [AInt (Z.b2z (enabled (core f0)))]))
            (fun _ => bind_
               (if qien_gpio f0 >=? 0
                then lift (gpio_set_value (qien_gpio f0)
                             (negb (enabled (core f0))))
                else ret_ tt)
               (fun _ => bind_ (lift power_supply_changed)
                           (fun _ => ret_ 0)))))) f
     (fun v f' o =>
        v = 0 /\ enabled (core f') = (intval =? 1) /\
        o = [Ev (EvLog KERN_WARNING "Set enable %d\n" [AInt intval])]
            ++ (if qien_gpio f >=? 0
                then [Ev (EvGpioSet (qien_gpio f) (intval =? 0))] else [])
            ++ [Ev EvPowerSupplyChanged])).
  full_prims. cbn [enabled set_enabled].
  destruct Hi as [-> | ->]; cbn [nonzero Z.eqb negb Z.b2z];
    destruct (qien_gpio f >=? 0); full_prims; auto.
Qed.

(** X24.  Writing POWER_SUPPLY_PROP_CAPACITY stores a new value even when
    the receive session is off, in which case nothing is sent and nobody is
    notified.  With the session on, the new value is sent to the
    transmitter as a charge status packet, cut to 8 bits; the command is
    not issued when the register write fails; the error is returned, and
    [power_supply_changed] runs whether the packet went out or not.  The
    value the property already has is never sent again. *)
Theorem set_property_capacity_sent_when_online (e : set_property_env)
    (intval : Z) (f : p9221_charger_full) :
  let r := p9221_set_property e POWER_SUPPLY_PROP_CAPACITY intval f in
  if last_capacity (core f) =? intval then r = Outcome 0 f []
  else
    last_capacity (core (after r)) = intval /\
    if online (core f) then
      rval r = (if fst (sp_csp e) =? 0 then snd (sp_csp e)
                else fst (sp_csp e)) /\
      (exists rest,
         calls r
         = Ev (EvLog KERN_INFO "Send CSP status=%d\n" [AInt (u8 intval)])
           :: EvRegWrite8ChargeStat (u8 intval) (fst (sp_csp e))
           :: rest ++ [Ev EvPowerSupplyChanged]) /\
      (In (EvSetCmdSendCsp (snd (sp_csp e))) (calls r)
       <-> fst (sp_csp e) = 0)
    else rval r = 0 /\ calls r = [].
Proof.
  cbn zeta.
  destruct (last_capacity (core f) =? intval) eqn:Hs.
  { apply full_outcome. unfold p9221_set_property, set_property_out.
    full_prims. rewrite Hs. full_prims. auto. }
  change (full (p9221_set_property e POWER_SUPPLY_PROP_CAPACITY intval) f
    (fun v f' o =>
    last_capacity (core f') = intval /\
    if online (core f) then
      v = (if fst (sp_csp e) =? 0 then snd (sp_csp e)
           else fst (sp_csp e)) /\
      (exists rest,
         o = Ev (EvLog KERN_INFO "Send CSP status=%d\n" [AInt (u8 intval)])
             :: EvRegWrite8ChargeStat (u8 intval) (fst (sp_csp e))
             :: rest ++ [Ev EvPowerSupplyChanged]) /\
      (In (EvSetCmdSendCsp (snd (sp_csp e))) o <-> fst (sp_csp e) = 0)
    else v = 0 /\ o = [])).
  unfold p9221_set_property.
  full_prims. rewrite Hs. cbv iota.
  unfold set_property_out, p9221_send_csp.
  destruct (sp_csp e) as [a b]. cbn [fst snd].
  full_prims.
  destruct (online (core f)) eqn:Hon; cbn [negb]; cbv iota.
  - full_prims. rewrite u8_idem.
    full_run; conditions; subst; cbn [app];
      (split; [reflexivity|]); (split; [|split]);
      try match goal with
        | |- exists rest, ?l = _ :: _ :: rest ++ [_] =>
            exists (removelast (tl (tl l))); reflexivity
        | H : ?a <> 0 |- _ = (if ?a =? 0 then _ else _) =>
            apply Z.eqb_neq in H; rewrite H; reflexivity
        | |- _ = (if 0 =? 0 then _ else _) => reflexivity
        end;
      cbn [In]; split; intros; try congruence; auto;
      try (exfalso; intuition discriminate).
  - full_prims. auto.
Qed.

End PowerSupply.

Section Detect.

Context {hdr : p9221_charger_h} {more : p9221_charger_h_more}.

(** The state after [n] detect interrupts in a row. *)
Fixpoint detects (n : nat) (f : p9221_charger_full) : p9221_charger_full :=
  match n with
  | O => f
  | S n' => after (p9221_irq_det_thread (detects n' f))
  end.

Lemma irq_det_thread_full (f : p9221_charger_full) :
  full p9221_irq_det_thread f (fun _ f' o =>
    online (core f') = online (core f) /\
    ben_state (core f') = ben_state (core f) /\
    if p9221_is_online (core f) then
      f' = f /\ ~ In (EvModTimer vrect_timer P9221_VRECT_TIMEOUT_MS) o
    else
      In (EvModTimer vrect_timer P9221_VRECT_TIMEOUT_MS) o /\
      In (Ev (EvDelTimer align_timer)) o /\
      match align (core f) with
      | WLC_ALIGN_MOVE =>
          align (core f') = WLC_ALIGN_MOVE /\
          align_count (core f') = align_count (core f)
      | _ =>
          align_count (core f') = s32 (align_count (core f) + 1) /\
          align (core f')
          = (if s32 (align_count (core f) + 1) >? WLC_ALIGN_IRQ_THRESHOLD
             then WLC_ALIGN_MOVE else WLC_ALIGN_CHECKING)
      end).
Proof.
  unfold p9221_irq_det_thread.
  full_prims.
  destruct (p9221_is_online (core f)) eqn:Hon; cbv iota.
  - full_prims. repeat split. cbn [In]. intuition discriminate.
  - destruct (align (core f)) eqn:Ha; cbv iota;
      full_run; simpl_full; cbn [In];
      repeat split; auto 8.
Qed.

(** X25.  The detect interrupt never changes the session: [online] and
    the RTX state are what they were.  While a receive session or RTX is
    on it is ignored altogether: the state is not touched and the VRECT
    timer is not armed.  Otherwise it cancels the alignment timer and arms
    the VRECT timer. *)
Theorem irq_det_ignored_while_online (f : p9221_charger_full) :
  let r := p9221_irq_det_thread f in
  online (core (after r)) = online (core f) /\
  ben_state (core (after r)) = ben_state (core f) /\
  if online (core f) || nonzero (ben_state (core f)) then
    after r = f /\
    ~ In (EvModTimer vrect_timer P9221_VRECT_TIMEOUT_MS) (calls r)
  else
    In (EvModTimer vrect_timer P9221_VRECT_TIMEOUT_MS) (calls r) /\
    In (Ev (EvDelTimer align_timer)) (calls r).
Proof.
  cbn zeta. pose proof (irq_det_thread_full f) as H. unfold full in H.
  destruct H as (H1 & H2 & H3). split; [exact H1|]. split; [exact H2|].
  unfold p9221_is_online in H3.
  destruct (online (core f) || nonzero (ben_state (core f))).
  - exact H3.
  - destruct H3 as (H3 & H4 & _). auto.
Qed.

Lemma detects_count (n : nat) (f : p9221_charger_full) :
  p9221_is_online (core f) = false ->
  align (core f) <> WLC_ALIGN_MOVE -> align_count (core f) = 0 ->
  p9221_is_online (core (detects (S n) f)) = false /\
  align_count (core (detects (S n) f))
  = Z.min (Z.of_nat (S n)) (WLC_ALIGN_IRQ_THRESHOLD + 1) /\
  align (core (detects (S n) f))
  = (if Z.of_nat (S n) >? WLC_ALIGN_IRQ_THRESHOLD
     then WLC_ALIGN_MOVE else WLC_ALIGN_CHECKING).
Proof.
  intros Hon Ha Hc.
  induction n as [|n IH].
  - cbn [detects].
    pose proof (irq_det_thread_full f) as H. unfold full in H.
    destruct H as (H1 & H2 & H3). rewrite Hon in H3.
    destruct H3 as (_ & _ & H3).
    split; [unfold p9221_is_online in *; rewrite H1, H2; exact Hon|].
    rewrite Hc in H3. change (s32 (0 + 1)) with 1 in H3.
    destruct (align (core f)); try congruence; destruct H3 as [-> ->];
      split; reflexivity.
  - destruct IH as (IH1 & IH2 & IH3).
    set (g := detects (S n) f) in *.
    change (detects (S (S n)) f) with (after (p9221_irq_det_thread g)).
    pose proof (irq_det_thread_full g) as H. unfold full in H.
    destruct H as (H1 & H2 & H3). rewrite IH1 in H3.
    destruct H3 as (_ & _ & H3).
    split; [unfold p9221_is_online in *; rewrite H1, H2; exact IH1|].
    rewrite IH3, IH2 in H3. unfold WLC_ALIGN_IRQ_THRESHOLD in *.
    destruct (Z.of_nat (S n) >? 10) eqn:Hn.
    + destruct H3 as [-> ->].
      rewrite Z.gtb_ltb in Hn. apply Z.ltb_lt in Hn.
      replace (Z.of_nat (S (S n)) >? 10) with true
        by (symmetry; rewrite Z.gtb_ltb; apply Z.ltb_lt; lia).
      split; [lia|reflexivity].
    + rewrite Z.gtb_ltb in Hn. apply Z.ltb_ge in Hn.
      rewrite s32_small in H3 by (unfold s32; lia).
      destruct H3 as [-> ->].
      split; [lia|].
      replace (Z.min (Z.of_nat (S n)) (10 + 1) + 1)
        with (Z.of_nat (S (S n))) by lia.
      reflexivity.
Qed.

(** X26.  Detect interrupts that no VRECT interrupt follows are counted:
    starting from a device that is neither receiving nor in RTX, with the
    counter at 0 and the alignment not yet MOVE (the state going offline
    leaves), the alignment reads CHECKING after each of the first
    WLC_ALIGN_IRQ_THRESHOLD interrupts and MOVE from the next one on, and
    the counter stops one above the threshold. *)
Theorem detect_interrupts_ask_to_move_after_threshold
    (n : nat) (f : p9221_charger_full) :
  online (core f) = false -> ben_state (core f) = RTX_BEN_DISABLED ->
  align (core f) <> WLC_ALIGN_MOVE -> align_count (core f) = 0 ->
  (0 < n)%nat ->
  align (core (detects n f))
  = (if Z.of_nat n <=? WLC_ALIGN_IRQ_THRESHOLD
     then WLC_ALIGN_CHECKING else WLC_ALIGN_MOVE) /\
  align_count (core (detects n f))
  = Z.min (Z.of_nat n) (WLC_ALIGN_IRQ_THRESHOLD + 1).
Proof.
  intros Hon Hben Ha Hc Hn.
  destruct n as [|n]; [lia|].
  destruct (detects_count n f) as (_ & H2 & H3); auto.
  { unfold p9221_is_online. rewrite Hon, Hben. reflexivity. }
  split; [|exact H2].
  rewrite H3. rewrite Z.gtb_ltb.
  destruct (Z.of_nat (S n) <=? WLC_ALIGN_IRQ_THRESHOLD) eqn:E.
  - apply Z.leb_le in E.
    replace (_ <? _) with false by (symmetry; apply Z.ltb_ge; lia).
    reflexivity.
  - apply Z.leb_gt in E.
    replace (_ <? _) with true by (symmetry; apply Z.ltb_lt; lia).
    reflexivity.
Qed.

(** X27.  A detect interrupt that no VRECT interrupt follows ends in a
    request to move the device: when the VRECT timer expires after a
    detect interrupt taken outside a session, the alignment reads MOVE,
    the alignment timer is armed and the wakeup source is released; when
    that timer expires too, the alignment reads ERROR. *)
Theorem detect_without_vrect_asks_to_move (f : p9221_charger_full) :
  online (core f) = false -> ben_state (core f) = RTX_BEN_DISABLED ->
  let f1 := after (p9221_irq_det_thread f) in
  let r2 := p9221_vrect_timer_handler f1 in
  let r3 := p9221_align_timer_handler (after r2) in
  align (core (after r2)) = WLC_ALIGN_MOVE /\
  In (EvModTimer align_timer P9221_ALIGN_TIMEOUT_MS) (calls r2) /\
  last (calls r2) EvPmRuntimeGetSync = Ev EvPmRelax /\
  align (core (after r3)) = WLC_ALIGN_ERROR /\
  online (core (after r3)) = false.
Proof.
  intros Hon Hben. cbn zeta.
  assert (Hio : p9221_is_online (core f) = false).
  { unfold p9221_is_online. rewrite Hon, Hben. reflexivity. }
  pose proof (irq_det_thread_full f) as H. unfold full in H.
  set (f1 := after (p9221_irq_det_thread f)) in *. clearbody f1.
  destruct H as (H1 & H2 & H3). rewrite Hio in H3.
  destruct H3 as (_ & _ & H3).
  assert (Ha : align (core f1) = WLC_ALIGN_MOVE
               \/ align (core f1) = WLC_ALIGN_CHECKING).
  { destruct (align (core f)); destruct H3 as [H4 H3];
      try (left; exact H4);
      rewrite H3; destruct (_ >? _); auto. }
  rewrite Hon in H1.
  change (full p9221_vrect_timer_handler f1 (fun _ f2 o2 =>
    align (core f2) = WLC_ALIGN_MOVE /\
    In (EvModTimer align_timer P9221_ALIGN_TIMEOUT_MS) o2 /\
    last o2 EvPmRuntimeGetSync = Ev EvPmRelax /\
    full p9221_align_timer_handler f2 (fun _ f3 _ =>
      align (core f3) = WLC_ALIGN_ERROR /\ online (core f3) = false))).
  unfold p9221_vrect_timer_handler, p9221_align_timer_handler.
  full_prims.
  destruct Ha as [Ha|Ha]; rewrite Ha; cbv iota;
    full_prims; cbn [In last]; rewrite ?H1;
    (split; [assumption || reflexivity|]);
    (split; [auto 10|]); (split; [reflexivity|]);
    full_prims; auto.
Qed.

End Detect.

Section Buffers.

Context {hdr : p9221_charger_h} {more : p9221_charger_h_more}.

(** X28.  What is written to the [txdata] file is what is read back from
    it: a write of [size] bytes at [pos], inside the buffer, returns
    [size], replaces exactly these bytes, and a read of the same range
    returns them.  The buffer keeps its length, and nothing is sent. *)
Theorem txdata_write_then_read (buf : list Byte.byte) (pos size : Z)
    (f : p9221_charger_full) :
  0 <= pos -> 0 <= size ->
  pos + size <= Z.of_nat (List.length (tx_buf f)) ->
  size <= Z.of_nat (List.length buf) ->
  let w := p9221_txdata_write buf pos size f in
  rval w = size /\ calls w = [] /\ core (after w) = core f /\
  rval (p9221_txdata_read pos size (after w))
  = (size, firstn (Z.to_nat size) buf) /\
  List.length (tx_buf (after w)) = List.length (tx_buf f) /\
  (forall i : nat,
     (i < Z.to_nat pos)%nat \/ (Z.to_nat (pos + size) <= i)%nat ->
     nth i (tx_buf (after w)) Byte.x00 = nth i (tx_buf f) Byte.x00).
Proof.
  intros Hp Hs Hin Hb. cbn zeta.
  change (full (p9221_txdata_write buf pos size) f (fun v f1 o =>
    v = size /\ o = [] /\ core f1 = core f /\
    full (p9221_txdata_read pos size) f1 (fun v' _ _ =>
      v' = (size, firstn (Z.to_nat size) buf)) /\
    List.length (tx_buf f1) = List.length (tx_buf f) /\
    (forall i : nat,
       (i < Z.to_nat pos)%nat \/ (Z.to_nat (pos + size) <= i)%nat ->
       nth i (tx_buf f1) Byte.x00 = nth i (tx_buf f) Byte.x00))).
  unfold p9221_txdata_write, p9221_txdata_read.
  full_prims.
  set (t := tx_buf f) in *.
  assert (L1 : List.length (firstn (Z.to_nat pos) t) = Z.to_nat pos)
    by (rewrite length_firstn; lia).
  assert (L2 : List.length (firstn (Z.to_nat size) buf) = Z.to_nat size)
    by (rewrite length_firstn; lia).
  split; [reflexivity|]. split; [reflexivity|]. split; [reflexivity|].
  split; [|split].
  - full_prims. f_equal.
    rewrite skipn_app, L1, Nat.sub_diag.
    rewrite skipn_all2 by lia. cbn [skipn app].
    rewrite firstn_app, L2, Nat.sub_diag. cbn [firstn].
    rewrite app_nil_r. apply firstn_all2. lia.
  - rewrite !length_app, L1, L2, length_skipn. lia.
  - intros i [Hi|Hi].
    + rewrite app_nth1 by lia.
      rewrite nth_firstn.
      replace (_ <? _)%nat with true by (symmetry; apply Nat.ltb_lt; lia).
      reflexivity.
    + rewrite app_nth2 by lia. rewrite app_nth2 by lia.
      rewrite L1, L2. rewrite nth_skipn. f_equal. lia.
Qed.








End Buffers.

Section Limit.

Context {hdr : p9221_charger_h}.

(** What the choice of the input current limit reads. *)
Definition same_limits (c c' : p9221_charger_data) : Prop :=
  dc_icl_bpp c' = dc_icl_bpp c /\ dc_icl_epp c' = dc_icl_epp c /\
  dc_icl_epp_neg c' = dc_icl_epp_neg c /\ icl_ramp c' = icl_ramp c /\
  icl_ramp_ua c' = icl_ramp_ua c /\ dc_icl_votable c' = dc_icl_votable c.

Lemma same_limits_refl c : same_limits c c.
Proof. now repeat split. Qed.

Lemma same_limits_trans c1 c2 c3 :
  same_limits c1 c2 -> same_limits c2 c3 -> same_limits c1 c3.
Proof.
  intros (A1 & A2 & A3 & A4 & A5 & A6) (B1 & B2 & B3 & B4 & B5 & B6).
  repeat split; congruence.
Qed.

Lemma traced_opaque {A : Type} (m : M A) c
    (Q : A -> p9221_charger_data -> trace -> Prop) :
  Q (val (m c)) (st (m c)) (out (m c)) -> traced m c Q.
Proof. exact (fun H => H). Qed.

Lemma is_epp_no_vote (e : epp_env) (c : p9221_charger_data) :
  forall ev, In ev (out (p9221_is_epp e c)) -> is_vote ev = false.
Proof.
  change (traced (p9221_is_epp e) c (fun _ _ o =>
    forall ev, In ev o -> is_vote ev = false)).
  unfold p9221_is_epp. unfold_calls.
  traced_run; cbn [app In]; intros ev Hin;
    repeat (destruct Hin as [<-|Hin]; [reflexivity|]);
    contradiction.
Qed.

Lemma is_epp_limits (e : epp_env) : keeps same_limits (p9221_is_epp e).
Proof. whole_frame same_limits_refl same_limits_trans. Qed.

(** The limit [p9221_set_dc_icl] settles on, given what the two calls of
    [p9221_is_epp] answer. *)
Definition chosen_icl (c : p9221_charger_data) (epp epp_again : bool) : Z :=
  if epp_again && nonzero (dc_icl_epp c) then dc_icl_epp c
  else if epp then dc_icl_epp_neg c
  else if nonzero (dc_icl_bpp c) then dc_icl_bpp c
  else if icl_ramp c then icl_ramp_ua c
  else P9221_DC_ICL_BPP_UA.

(** X30.  The input current limit is chosen by priority: the EPP limit set
    by the user when the profile is EPP, else the negotiated EPP limit,
    else the BPP limit set by the user, else the ramp current while
    ramping, else the BPP default.  The limit is voted for
    P9221_WLC_VOTER, and for DCIN_AICL_VOTER too exactly while ramping; no
    other value is voted.  What is returned is the answer to the
    P9221_WLC_VOTER vote: a failure to raise the chip's own limit is not
    reported. *)
Theorem set_dc_icl_votes_by_priority (e : dc_icl_env)
    (c : p9221_charger_data) :
  dc_icl_votable c = true ->
  let r1 := p9221_is_epp (di_epp e) c in
  let r2 := p9221_is_epp (di_epp_again e) (st r1) in
  let icl := chosen_icl c (val r1) (val r2) in
  let r := p9221_set_dc_icl e c in
  val r = di_vote e /\
  In (EvVote DC_ICL true P9221_WLC_VOTER true icl (di_vote e)) (out r) /\
  (In (EvVote DC_ICL true DCIN_AICL_VOTER true icl (di_vote_aicl e)) (out r)
   <-> icl_ramp c = true) /\
  (forall v p w en x ret, In (EvVote v p w en x ret) (out r) -> x = icl) /\
  In (EvSetRxIlim (P9221_UA_TO_MA P9221R5_ILIM_MAX_UA) (di_rx_ilim e))
    (out r).
Proof.
  intros Hv. cbn zeta.
  set (r1 := p9221_is_epp (di_epp e) c).
  set (r2 := p9221_is_epp (di_epp_again e) (st r1)).
  destruct (is_epp_limits (di_epp e) c) as (A1 & A2 & A3 & A4 & A5 & A6).
  destruct (is_epp_limits (di_epp_again e) (st r1))
    as (B1 & B2 & B3 & B4 & B5 & B6).
  fold r1 in A1, A2, A3, A4, A5, A6, B1, B2, B3, B4, B5, B6.
  fold r2 in B1, B2, B3, B4, B5, B6.
  pose proof (is_epp_no_vote (di_epp e) c) as N1.
  pose proof (is_epp_no_vote (di_epp_again e) (st r1)) as N2.
  fold r1 in N1, N2. fold r2 in N2.
  change (traced (p9221_set_dc_icl e) c (fun a _ o =>
    a = di_vote e /\
    In (EvVote DC_ICL true P9221_WLC_VOTER true
          (chosen_icl c (val r1) (val r2)) (di_vote e)) o /\
    (In (EvVote DC_ICL true DCIN_AICL_VOTER true
           (chosen_icl c (val r1) (val r2)) (di_vote_aicl e)) o
     <-> icl_ramp c = true) /\
    (forall v p w en x ret, In (EvVote v p w en x ret) o ->
       x = chosen_icl c (val r1) (val r2)) /\
    In (EvSetRxIlim (P9221_UA_TO_MA P9221R5_ILIM_MAX_UA) (di_rx_ilim e))
      o)).
  unfold p9221_set_dc_icl.
  traced_prims. rewrite Hv. cbn [negb]. cbv iota. traced_prims.
  cbn [negb]. cbv iota. traced_prims.
  apply traced_opaque. fold r1. cbv beta. traced_prims.
  apply traced_opaque. fold r2. cbv beta. traced_prims.
  rewrite B4, A4, B2, A2, A3.
  fold (chosen_icl c (val r1) (val r2)).
  set (icl := chosen_icl c (val r1) (val r2)).
  unfold dev_info, dev_err, vote, chip_set_rx_ilim, when.
  assert (Hno : forall v p w en x ret l,
            In (EvVote v p w en x ret) (out r1 ++ [] ++ out r2 ++ l) ->
            In (EvVote v p w en x ret) l).
  { intros v p w en x ret l Hin.
    apply in_app_or in Hin. destruct Hin as [Hin|Hin].
    { apply N1 in Hin. discriminate. }
    cbn [app] in Hin.
    apply in_app_or in Hin. destruct Hin as [Hin|Hin].
    { apply N2 in Hin. discriminate. }
    exact Hin. }
  assert (Hyes : forall ev l, In ev l -> In ev (out r1 ++ [] ++ out r2 ++ l)).
  { intros ev l Hin. apply in_or_app. right. cbn [app].
    apply in_or_app. right. exact Hin. }
  destruct (icl_ramp c) eqn:Hr; traced_run; cbn [app];
    (split; [reflexivity|]);
    (split; [apply Hyes; cbn [In]; auto 10|]);
    (split; [split; [intros Hin; try reflexivity;
                     apply Hno in Hin; cbn [In] in Hin;
                     exfalso; intuition discriminate
                    |intros Ht; try discriminate;
                     apply Hyes; cbn [In]; auto 10]|]);
    (split; [|apply Hyes; cbn [In]; auto 10]);
    intros v p w en x ret Hin; apply Hno in Hin; cbn [In] in Hin;
    repeat (destruct Hin as [Hin|Hin]; [inversion Hin; reflexivity|]);
    try contradiction.
Qed.

End Limit.

(** * Worked examples of the properties above *)

Lemma rtx_switched_on_only_by_request_witness :
  let c' := step (hdr := example_header) (NotifierCb true true true)
              example_charger in
  ben_state c' = ben_state example_charger
  \/ ben_state c' = RTX_BEN_DISABLED.
Proof.
  apply (rtx_switched_on_only_by_request (hdr := example_header)).
  reflexivity.
Defined.

Lemma rtx_conflict_ends_rtx_witness :
  let c' := st (rtx_irq_handler (hdr := example_header) rtx_irq_answers
                  0x100 rtx_charger) in
  ben_state c' = RTX_BEN_DISABLED
  /\ rtx_err c' = RTX_TX_CONFLICT
  /\ online c' = online rtx_charger.
Proof.
  apply (rtx_conflict_ends_rtx (hdr := example_header)).
  - left. reflexivity.
  - reflexivity.
  - reflexivity.
Defined.

Lemma vrect_then_notifier_goes_online_witness :
  let c1 := step (hdr := example_header) (IrqThread (irq_raises 64))
              example_charger in
  let c2 := step (hdr := example_header)
              (NotifierWork (notifier_answers 0 0)) c1 in
  (check_det c1 = true /\ online c1 = false)
  /\ (online c2 = true /\ check_det c2 = false /\ check_dc c2 = false).
Proof.
  apply (vrect_then_notifier_goes_online (hdr := example_header));
    reflexivity.
Defined.

Lemma check_dc_online_follows_dc_witness :
  let c' := st (p9221_notifier_check_dc (hdr := example_header)
                  check_dc_answers dc_charger) in
  online c' = true /\ check_dc c' = false
  /\ ben_state c' = ben_state dc_charger.
Proof.
  apply (check_dc_online_follows_dc (hdr := example_header)
           check_dc_answers dc_charger).
  - reflexivity.
  - reflexivity.
  - cbn. lia.
Defined.

Lemma irq_in_rtx_mode_leaves_session_witness :
  let c' := st (p9221_irq_thread (hdr := example_header)
                  (irq_raises 0x400) rtx_charger) in
  online c' = online rtx_charger /\ check_det c' = check_det rtx_charger
  /\ check_dc c' = check_dc rtx_charger
  /\ (ben_state c' = ben_state rtx_charger
      \/ ben_state c' = RTX_BEN_DISABLED).
Proof.
  apply (irq_in_rtx_mode_leaves_session (hdr := example_header)).
  discriminate.
Defined.

Lemma over_current_below_threshold_sends_no_eop_witness :
  existsb is_eop
    (out (p9221_over_handle (hdr := example_header)
            (persistent_ovc (fun _ => 1000)) 2 example_charger))
  = false.
Proof.
  apply (over_current_below_threshold_sends_no_eop (hdr := example_header)).
  - reflexivity.
  - reflexivity.
  - intros i _. vm_compute. discriminate.
Defined.

Lemma over_voltage_or_temperature_ends_transfer_at_once_witness :
  let r := p9221_over_handle (hdr := example_header)
             (persistent_ovc (fun _ => 1000)) 1 example_charger in
  st r = example_charger
  /\ filter is_poll (out r) = []
  /\ filter is_vote (out r) = []
  /\ In (EvRegWrite8 P9221R5_EPT_REG 4 0) (out r)
  /\ (In (EvSetCmd P9221R5_COM_SENDEPT 0) (out r) <-> 0 = 0).
Proof.
  apply (over_voltage_or_temperature_ends_transfer_at_once
           (hdr := example_header) (persistent_ovc (fun _ => 1000)) 1
           example_charger).
  reflexivity.
Defined.

Lemma hex_str_prints_every_byte_witness :
  p9221_hex_str [Byte.x4f; Byte.x12; Byte.xab] 3 10 false
  = (9, "4f 12 ab ") /\
  p9221_hex_str [Byte.x4f; Byte.x12; Byte.xab] 3 10 true
  = (9, "ab 12 4f ").
Proof.
  split.
  - apply (hex_str_prints_every_byte [Byte.x4f; Byte.x12; Byte.xab] 3 10
             false); cbn; unfold INT_MAX; lia.
  - apply (hex_str_prints_every_byte [Byte.x4f; Byte.x12; Byte.xab] 3 10
             true); cbn; unfold INT_MAX; lia.
Defined.

Lemma hex_str_stays_within_buffer_witness :
  let r := p9221_hex_str [Byte.x4f; Byte.x12; Byte.xab] 3 5 false in
  fst r = Z.of_nat (String.length (snd r)) /\ fst r <= Z.max 0 (5 - 1).
Proof.
  apply (hex_str_stays_within_buffer [Byte.x4f; Byte.x12; Byte.xab] 3 5
           false); unfold INT_MAX; lia.
Defined.

Lemma store_txlen_while_busy_witness :
  let r := p9221_store_txlen (more := example_more)
             (Reply 0 4) (0, 0, 0) 2 sending_full in
  rval r = - EBUSY /\
  calls r = [Ev (EvCancelDelayedWorkSync tx_work)] /\
  tx_len (after r) = 4 /\
  tx_done (core (after r)) = true /\ tx_busy (core (after r)) = true.
Proof.
  apply (store_txlen_while_busy (more := example_more) (Reply 0 4)
           (0, 0, 0) 2 sending_full).
  - cbn. lia.
  - reflexivity.
Defined.

Lemma store_txlen_starts_or_reports_witness :
  let r := p9221_store_txlen (more := example_more)
             (Reply 0 4) (0, 0, 0) 2 example_full in
  rval r = 2 /\ tx_busy (core (after r)) = true /\
  tx_done (core (after r)) = false /\
  In (Ev (EvScheduleDelayedWork tx_work 20000)) (calls r).
Proof.
  cbv zeta.
  destruct (store_txlen_starts_or_reports (more := example_more)
              (Reply 0 4) (0, 0, 0) 2 example_full)
    as (_ & [(_ & H1 & H2 & H3 & H4) | (H & _)]).
  - cbn. lia.
  - reflexivity.
  - auto.
  - contradiction H. reflexivity.
Defined.

Lemma transfer_ends_by_interrupt_or_timeout_witness :
  let i := lift (p9221_irq_handler (hdr := example_header)
                   irq_handler_answers 0x100) sending_full in
  tx_busy (core (after i)) = false /\ tx_done (core (after i)) = true /\
  In (Ev (EvCancelDelayedWork tx_work)) (calls i).
Proof.
  apply (transfer_ends_by_interrupt_or_timeout (hdr := example_header)
           irq_handler_answers 0x100 (0, 0, 0)
           sending_full).
  reflexivity.
Defined.

Lemma set_property_refuses_read_only_witness :
  p9221_set_property (more := example_more)
    property_answers POWER_SUPPLY_PROP_TEMP 25 example_full
  = Outcome (- EINVAL) example_full [].
Proof.
  apply (set_property_refuses_read_only (more := example_more)).
  reflexivity.
Defined.

Lemma detect_interrupts_ask_to_move_after_threshold_witness :
  align (core (detects (more := example_more)
                 10 example_full)) = WLC_ALIGN_CHECKING /\
  align (core (detects (more := example_more)
                 11 example_full)) = WLC_ALIGN_MOVE.
Proof.
  split.
  - apply (detect_interrupts_ask_to_move_after_threshold
             (more := example_more) 10
             example_full); try reflexivity; try discriminate; lia.
  - apply (detect_interrupts_ask_to_move_after_threshold
             (more := example_more) 11
             example_full); try reflexivity; try discriminate; lia.
Defined.

Lemma detect_without_vrect_asks_to_move_witness :
  let f1 := after (p9221_irq_det_thread (more := example_more) example_full) in
  let r2 := p9221_vrect_timer_handler (more := example_more) f1 in
  align (core (after r2)) = WLC_ALIGN_MOVE /\
  In (EvModTimer align_timer 2000) (calls r2).
Proof.
  cbv zeta.
  destruct (detect_without_vrect_asks_to_move (more := example_more)
              example_full)
    as (H1 & H2 & _); try reflexivity.
  split; [exact H1|exact H2].
Defined.

Lemma txdata_write_then_read_witness :
  let w := p9221_txdata_write [Byte.x01; Byte.x02] 1 2 example_full in
  rval w = 2 /\
  rval (p9221_txdata_read 1 2 (after w)) = (2, [Byte.x01; Byte.x02]) /\
  List.length (tx_buf (after w)) = 8%nat.
Proof.
  cbv zeta.
  destruct (txdata_write_then_read [Byte.x01; Byte.x02] 1 2 example_full)
    as (H1 & _ & _ & H2 & H3 & _); cbn; try lia.
  split; [exact H1|]. split; [exact H2|exact H3].
Defined.


Lemma set_dc_icl_votes_by_priority_witness :
  let r := p9221_set_dc_icl (hdr := example_header)
             (cd_dc_icl check_dc_answers) example_charger in
  val r = 0 /\
  In (EvVote DC_ICL true P9221_WLC_VOTER true 700000 0) (out r).
Proof.
  cbv zeta.
  destruct (set_dc_icl_votes_by_priority (hdr := example_header)
              (cd_dc_icl check_dc_answers) example_charger)
    as (H1 & H2 & _); [reflexivity|].
  split; [exact H1|exact H2].
Defined.
